(** * NetworkManager keyfile renderer (cloudinit/net/network_manager.py)

    A shallow embedding of [NMConnection] and [Renderer] together with the
    properties of the rendering pipeline.

    Modelling conventions.
    - A [configparser.ConfigParser] is an insertion-ordered map of sections,
      each an insertion-ordered map of options: association lists, updated in
      place when the key exists and extended at the end otherwise.  Option
      values are opaque strings (value interpolation and continuation lines
      are not modelled, so the model covers values without a percent sign or
      a line break), and every section is an ordinary one: the section
      DEFAULT of the parser, whose options show in every other section, is
      not modelled, nor is the empty section name, which the parser takes
      for DEFAULT when an option is assigned.  [plain_value],
      [named_section] and [plain_config] describe this domain.
    - Python dictionaries of the network state become records; a key that the
      code tests with [in] becomes an [option] field.
    - Exceptions are values of [exn] carried by the [result] monad.
    - [LOG.warning] appends to an explicit log.
    - The registry [Renderer.connections] is an insertion-ordered map from
      connection keys to profiles; a profile object is addressed by its key,
      so that a bridge writing into a port's profile is a write to the store.
    - The host, where [conn_filename] consults it, is a record of its
      answers: which paths are files, and whether the ifcfg-rh plugin of
      NetworkManager is there. *)

From Stdlib Require Import List String Ascii Bool Arith ZArith NArith Lia.
From Stdlib Require Import Permutation FinFun.
From Stdlib Require Import DecimalString DecimalNat DecimalZ.
Import ListNotations.

Local Open Scope list_scope.
Local Open Scope string_scope.

(** ** Python exceptions and the error monad *)

Inductive exn : Type :=
| KeyError (key : string).

Inductive result (A : Type) : Type :=
| Ok (a : A)
| Err (e : exn).
Arguments Ok {A} a.
Arguments Err {A} e.

Definition bind {A B : Type} (m : result A) (f : A -> result B) : result B :=
  match m with
  | Ok a => f a
  | Err e => Err e
  end.

Notation "x <- m ;; k" := (bind m (fun x => k))
  (at level 61, m at next level, right associativity).

Fixpoint foldM {A B : Type} (f : A -> B -> result A) (l : list B) (a : A)
  : result A :=
  match l with
  | [] => Ok a
  | x :: l' => a' <- f a x ;; foldM f l' a'
  end.

(** ** Strings *)

(** [f"{index}"] for a non-negative integer. *)
Definition str_nat (n : nat) : string :=
  NilEmpty.string_of_uint (Nat.to_uint n).

(** [str(z)] for an integer. *)
Definition str_Z (z : Z) : string :=
  NilZero.string_of_int (Z.to_int z).

(** [sep.join(l)] *)
Fixpoint join (sep : string) (l : list string) : string :=
  match l with
  | [] => ""
  | [x] => x
  | x :: l' => x ++ sep ++ join sep l'
  end.

Fixpoint string_map (f : ascii -> ascii) (s : string) : string :=
  match s with
  | EmptyString => EmptyString
  | String c s' => String (f c) (string_map f s')
  end.

(** [x in l] on a list of strings. *)
Definition mem (x : string) (l : list string) : bool :=
  existsb (String.eqb x) l.

(** ** Version-5 UUIDs (Python's [uuid.uuid5] over [hashlib.sha1]) *)

Module UUID.
Local Open Scope N_scope.

Definition w32 (x : N) : N := N.land x 0xFFFFFFFF.

Definition rotl (n x : N) : N :=
  w32 (N.lor (N.shiftl x n) (N.shiftr x (32 - n))).

Definition bytes_of_string (s : string) : list N :=
  map N_of_ascii (list_ascii_of_string s).

(** Big-endian bytes of [x], [n] of them. *)
Fixpoint be_bytes (n : nat) (x : N) : list N :=
  match n with
  | O => []
  | S n' => N.land (N.shiftr x (8 * N.of_nat n')) 0xFF :: be_bytes n' x
  end.

Definition be_word (bs : list N) : N :=
  fold_left (fun acc b => N.lor (N.shiftl acc 8) b) bs 0.

(** Message padding: a one bit, zeros up to 56 mod 64, the bit length. *)
Definition pad (msg : list N) : list N :=
  let len := List.length msg in
  let zeros := ((119 - len mod 64) mod 64)%nat in
  (msg ++ [0x80] ++ repeat 0 zeros ++ be_bytes 8 (8 * N.of_nat len))%list.

Fixpoint chunks (fuel : nat) (k : nat) (l : list N) : list (list N) :=
  match fuel with
  | O => []
  | S fuel' =>
      match l with
      | [] => []
      | _ => firstn k l :: chunks fuel' k (skipn k l)
      end
  end.

(** The message schedule, most recent word first. *)
Fixpoint schedule (n : nat) (ws : list N) : list N :=
  match n with
  | O => ws
  | S n' =>
      let w := rotl 1 (N.lxor (N.lxor (nth 2 ws 0) (nth 7 ws 0))
                              (N.lxor (nth 13 ws 0) (nth 15 ws 0))) in
      schedule n' (w :: ws)
  end.

Definition state : Type := N * N * N * N * N.

Definition round (t : nat) (st : state) (w : N) : state :=
  let '(a, b, c, d, e) := st in
  let '(f, k) :=
    if (t <? 20)%nat then
      (N.lor (N.land b c) (N.land (N.lxor b 0xFFFFFFFF) d), 0x5A827999)
    else if (t <? 40)%nat then
      (N.lxor (N.lxor b c) d, 0x6ED9EBA1)
    else if (t <? 60)%nat then
      (N.lor (N.lor (N.land b c) (N.land b d)) (N.land c d), 0x8F1BBCDC)
    else
      (N.lxor (N.lxor b c) d, 0xCA62C1D6) in
  let temp := w32 (rotl 5 a + f + e + k + w) in
  (temp, a, rotl 30 b, c, d).

Fixpoint rounds (t : nat) (ws : list N) (st : state) : state :=
  match ws with
  | [] => st
  | w :: ws' => rounds (S t) ws' (round t st w)
  end.

Definition compress (h : state) (block : list N) : state :=
  let w16 := map be_word (chunks 16 4 block) in
  let ws := rev (schedule 64 (rev w16)) in
  let '(h0, h1, h2, h3, h4) := h in
  let '(a, b, c, d, e) := rounds 0 ws h in
  (w32 (h0 + a), w32 (h1 + b), w32 (h2 + c), w32 (h3 + d), w32 (h4 + e)).

Definition sha1 (msg : list N) : list N :=
  let p := pad msg in
  let blocks := chunks (List.length p) 64 p in
  let '(h0, h1, h2, h3, h4) :=
    fold_left compress blocks
      (0x67452301, 0xEFCDAB89, 0x98BADCFE, 0x10325476, 0xC3D2E1F0) in
  (be_bytes 4 h0 ++ be_bytes 4 h1 ++ be_bytes 4 h2 ++ be_bytes 4 h3
   ++ be_bytes 4 h4)%list.

Definition hex_digit (n : N) : ascii :=
  nth (N.to_nat n)
    (list_ascii_of_string "0123456789abcdef") "0"%char.

Definition hex_byte (b : N) : string :=
  String (hex_digit (N.shiftr b 4)) (String (hex_digit (N.land b 0xF)) "").

Definition hex (bs : list N) : string :=
  fold_right (fun b acc => hex_byte b ++ acc) "" bs.

(** [UUID(bytes=hash[:16], version=5)]: variant bits 10, version nibble 5. *)
Definition set_version (bs : list N) : list N :=
  match bs with
  | [b0; b1; b2; b3; b4; b5; b6; b7; b8; b9; b10; b11; b12; b13; b14; b15] =>
      [b0; b1; b2; b3; b4; b5; N.lor (N.land b6 0x0F) 0x50; b7;
       N.lor (N.land b8 0x3F) 0x80; b9; b10; b11; b12; b13; b14; b15]
  | _ => bs
  end.

(** [str(uuid)]: 8-4-4-4-12 lowercase hexadecimal digits. *)
Definition to_string (bs : list N) : string :=
  hex (firstn 4 bs) ++ "-" ++ hex (firstn 2 (skipn 4 bs)) ++ "-"
  ++ hex (firstn 2 (skipn 6 bs)) ++ "-" ++ hex (firstn 2 (skipn 8 bs))
  ++ "-" ++ hex (skipn 10 bs).

(** [str(uuid.uuid5(namespace, name))], the namespace given by its bytes. *)
Definition uuid5 (namespace : list N) (name : string) : string :=
  to_string (set_version (firstn 16 (sha1 (namespace ++ bytes_of_string name)%list))).

End UUID.

(** Chosen by fair dice roll: a3924cb8-09e0-43e9-890b-77972a800108 *)
Definition CI_NM_UUID : list N :=
  [0xa3; 0x92; 0x4c; 0xb8; 0x09; 0xe0; 0x43; 0xe9;
   0x89; 0x0b; 0x77; 0x97; 0x2a; 0x80; 0x01; 0x08]%N.

Arguments UUID.uuid5 : simpl never.

(** ** Insertion-ordered maps *)

Section Assoc.
Context {V : Type}.

Fixpoint assoc (k : string) (l : list (string * V)) : option V :=
  match l with
  | [] => None
  | (k', v) :: l' => if String.eqb k k' then Some v else assoc k l'
  end.

(** [d[k] = v] on an insertion-ordered dictionary: an existing key keeps
    its position, a new key goes last. *)
Fixpoint assoc_set (k : string) (v : V) (l : list (string * V))
  : list (string * V) :=
  match l with
  | [] => [(k, v)]
  | (k', v') :: l' =>
      if String.eqb k k' then (k', v) :: l' else (k', v') :: assoc_set k v l'
  end.

Definition assoc_mem (k : string) (l : list (string * V)) : bool :=
  match assoc k l with
  | Some _ => true
  | None => false
  end.
End Assoc.

(** ** The configuration container ([configparser.ConfigParser]) *)

(** The operations below are those of the parser on ordinary sections and
    on values without a percent sign.  Outside of these the parser differs:
    it never reports the section [DEFAULT] as existent, never raises
    [KeyError] for it, and shows its options in every section; it stores
    an option assigned under the empty section name in [DEFAULT]; and it
    rejects the assignment of most values with a percent sign by
    [ValueError] and expands the others when they are read. *)

Definition section : Type := list (string * string).
Definition config : Type := list (string * section).

Definition has_section (cfg : config) (s : string) : bool := assoc_mem s cfg.

Definition has_option (cfg : config) (s o : string) : bool :=
  match assoc s cfg with
  | Some sec => assoc_mem o sec
  | None => false
  end.

(** [config[s] = items]: an existing section is emptied and refilled in
    place, a new one is appended. *)
Definition set_section (cfg : config) (s : string) (items : section) : config :=
  assoc_set s items cfg.

(** [config[s][o]] *)
Definition cfg_get (cfg : config) (s o : string) : result string :=
  match assoc s cfg with
  | None => Err (KeyError s)
  | Some sec =>
      match assoc o sec with
      | None => Err (KeyError o)
      | Some v => Ok v
      end
  end.

(** [config[s].get(o)] *)
Definition cfg_get_opt (cfg : config) (s o : string) : result (option string) :=
  match assoc s cfg with
  | None => Err (KeyError s)
  | Some sec => Ok (assoc o sec)
  end.

(** [config[s][o] = v] *)
Definition cfg_set (cfg : config) (s o v : string) : result config :=
  match assoc s cfg with
  | None => Err (KeyError s)
  | Some sec => Ok (assoc_set s (assoc_set o v sec) cfg)
  end.

(** [config.write(buf, space_around_delimiters=False)] *)
Definition nl : string := String (ascii_of_nat 10) "".

Definition write_section (entry : string * section) : string :=
  "[" ++ fst entry ++ "]" ++ nl
  ++ concat "" (map (fun kv => fst kv ++ "=" ++ snd kv ++ nl) (snd entry))
  ++ nl.

Definition write (cfg : config) : string :=
  concat "" (map write_section cfg).

(** ** The network state handed to the renderer *)

Inductive pyval : Type :=
| PNone
| PBool (b : bool)
| PInt (z : Z)
| PStr (s : string).

Record route : Type := {
  rt_network : string;
  rt_prefix : Z;
  rt_gateway : option string;
  rt_mtu : option Z
}.

Record subnet : Type := {
  sn_type : string;
  sn_address : option string;
  sn_prefix : option Z;
  sn_gateway : option string;
  sn_routes : list route;
  sn_dns_nameservers : option (list string);
  sn_dns_search : option (list string);
  sn_mtu : option Z
}.

Record dns_config : Type := {
  dns_nameservers : list string;
  dns_search : list string
}.

(** An interface dictionary.  [if_params] holds the remaining keys, among
    them the native properties of [_prop_map]. *)
Record interface : Type := {
  if_name : string;
  if_config_id : option string;
  if_type : string;
  if_mtu : option Z;
  if_mac_address : option string;
  if_wakeonlan : pyval;
  if_bond_master : option string;
  if_vlan_raw_device : option string;
  if_bridge_ports : list string;
  if_subnets : list subnet;
  if_dns : option dns_config;
  if_params : list (string * pyval)
}.

Record NetworkState : Type := {
  iter_interfaces : list interface;
  ns_dns_nameservers : list string;
  ns_dns_searchdomains : list string
}.

(** The collaborators imported from [cloudinit.net] and [cloudinit.subp]:
    the address-family classifiers and the root-path prefixing utility. *)
Class Collaborators : Type := {
  is_ipv6_address : string -> bool;
  is_ipv6_network : string -> bool;
  subnet_is_ipv6 : subnet -> bool;
  target_path : option string -> string -> string
}.

(** ** NMConnection *)

Definition opt_eqb (a : option string) (b : string) : bool :=
  match a with
  | Some x => String.eqb x b
  | None => false
  end.

(** Truthiness of a string: [if subnet_type:]. *)
Definition truthy (s : option string) : bool :=
  match s with
  | Some "" => false
  | Some _ => true
  | None => false
  end.

Definition NMConnection (con_id : string) : config :=
  let config := [] in
  let config := set_section config "connection"
    [("id", "cloud-init " ++ con_id);
     ("uuid", UUID.uuid5 CI_NM_UUID con_id);
     ("autoconnect-priority", "120")] in
  set_section config "user"
    [("org.freedesktop.NetworkManager.origin", "cloud-init")].

Definition _set_default (s o v : string) (cfg : config) : result config :=
  let cfg := if has_section cfg s then cfg else set_section cfg s [] in
  if has_option cfg s o then Ok cfg else cfg_set cfg s o v.

Definition _config_option_is_set (cfg : config) (s o : string) : bool :=
  has_section cfg s && has_option cfg s o.

Definition _get_config_option (cfg : config) (s o : string)
  : result (option string) :=
  if _config_option_is_set cfg s o then
    v <- cfg_get cfg s o ;; Ok (Some v)
  else Ok None.

Definition _change_set_config_option (s o v : string) (cfg : config)
  : result config :=
  if _config_option_is_set cfg s o then cfg_set cfg s o v else Ok cfg.

Definition is_dynamic (m : option string) : bool :=
  opt_eqb m "dhcp" || opt_eqb m "auto".

(** The first loop of [_set_mayfail_true_if_both_false_dhcp]: [true] when
    the loop runs to its end, [false] when it returns early. *)
Fixpoint both_false_dhcp (families : list string) (cfg : config)
  : result bool :=
  match families with
  | [] => Ok true
  | family :: rest =>
      mayfail <- _get_config_option cfg family "may-fail" ;;
      if negb (opt_eqb mayfail "false") then Ok false
      else
        method <- _get_config_option cfg family "method" ;;
        if negb (is_dynamic method) then Ok false
        else both_false_dhcp rest cfg
  end.

Definition _set_mayfail_true_if_both_false_dhcp (cfg : config)
  : result config :=
  go <- both_false_dhcp ["ipv4"; "ipv6"] cfg ;;
  if go then
    foldM (fun cfg family =>
             _change_set_config_option family "may-fail" "true" cfg)
          ["ipv4"; "ipv6"] cfg
  else Ok cfg.

Definition method_map : list (string * string) :=
  [("static", "manual");
   ("static6", "manual");
   ("dhcp6", "auto");
   ("ipv6_slaac", "auto");
   ("ipv6_dhcpv6-stateless", "auto");
   ("ipv6_dhcpv6-stateful", "dhcp");
   ("dhcp4", "auto");
   ("dhcp", "auto")].

Definition _set_ip_method (family : string) (subnet_type : option string)
  (cfg : config) : result config :=
  let method := "disabled" in
  cfg <- _set_default family "method" method cfg ;;
  mc <- (match subnet_type with
         | Some t =>
             if truthy subnet_type then
               match assoc t method_map with
               | Some m => Ok (m, cfg)
               | None =>
                   cfg <- cfg_set cfg family "may-fail" "true" ;;
                   Ok ("auto", cfg)
               end
             else Ok (method, cfg)
         | None => Ok (method, cfg)
         end) ;;
  let '(method, cfg) := mc in
  cur <- cfg_get cfg family "method" ;;
  if String.eqb cur "dhcp" then Ok cfg
  else
    cur <- cfg_get cfg family "method" ;;
    if String.eqb cur "auto" && String.eqb method "manual" then Ok cfg
    else
      cfg <- (match subnet_type with
              | Some t =>
                  if mem t ["ipv6_dhcpv6-stateful"; "ipv6_dhcpv6-stateless";
                            "ipv6_slaac"]
                  then _set_default "ipv4" "method" "disabled" cfg
                  else Ok cfg
              | None => Ok cfg
              end) ;;
      cfg <- cfg_set cfg family "method" method ;;
      _set_default family "may-fail" "false" cfg.

(** [itertools.count(1)] searched for the first free key.  The search is
    bounded by [fuel]; the fall-through mirrors the unreachable last line of
    the method. *)
Fixpoint next_free (fuel index : nat) (key_prefix : string) (cfg : config)
  (s : string) : string :=
  match fuel with
  | O => "not_possible"
  | S fuel' =>
      let key := key_prefix ++ str_nat index in
      if negb (has_option cfg s key) then key
      else next_free fuel' (S index) key_prefix cfg s
  end.

Definition section_size (cfg : config) (s : string) : nat :=
  match assoc s cfg with
  | Some sec => List.length sec
  | None => 0
  end.

Definition _get_next_numbered_section (s key_prefix : string) (cfg : config)
  : config * string :=
  let cfg := if has_section cfg s then cfg else set_section cfg s [] in
  (cfg, next_free (S (section_size cfg s)) 1 key_prefix cfg s).

Definition _add_numbered (s key_prefix value : string) (cfg : config)
  : result config :=
  let '(cfg, key) := _get_next_numbered_section s key_prefix cfg in
  cfg_set cfg s key value.

Definition _add_route_options (s route key value : string) (cfg : config)
  : result config :=
  let numbered_key := route ++ "_options" in
  route_options <- cfg_get_opt cfg s numbered_key ;;
  cfg_set cfg s numbered_key
    (if truthy route_options
     then match route_options with
          | Some ro => ro ++ "," ++ key ++ "=" ++ value
          | None => key ++ "=" ++ value
          end
     else key ++ "=" ++ value).

Definition _add_address (family : string) (sn : subnet) (cfg : config)
  : result config :=
  match sn_address sn with
  | None => Err (KeyError "address")
  | Some address =>
      match sn_prefix sn with
      | None => Err (KeyError "prefix")
      | Some prefix =>
          _add_numbered family "address" (address ++ "/" ++ str_Z prefix) cfg
      end
  end.

Section Render.
Context {C : Collaborators}.

Definition _add_route (r : route) (cfg : config) : result config :=
  let family := if is_ipv6_network (rt_network r) then "ipv6" else "ipv4" in
  let value := rt_network r ++ "/" ++ str_Z (rt_prefix r) in
  let value := match rt_gateway r with
               | Some gw => value ++ "," ++ gw
               | None => value
               end in
  let '(cfg, route_key) := _get_next_numbered_section family "route" cfg in
  cfg <- cfg_set cfg family route_key value ;;
  match rt_mtu r with
  | Some mtu => _add_route_options family route_key "mtu" (str_Z mtu) cfg
  | None => Ok cfg
  end.

Definition _add_nameserver (dns : string) (cfg : config) : result config :=
  let family := if is_ipv6_address dns then "ipv6" else "ipv4" in
  method <- (if has_section cfg family
             then _get_config_option cfg family "method"
             else Ok None) ;;
  if has_section cfg family && negb (opt_eqb method "disabled") then
    cfg <- _set_default family "dns" "" cfg ;;
    cur <- cfg_get cfg family "dns" ;;
    cfg_set cfg family "dns" (cur ++ dns ++ ";")
  else Ok cfg.

Definition _add_dns_search (search : list string) (cfg : config)
  : result config :=
  foldM (fun cfg family =>
           method <- (if has_section cfg family
                      then _get_config_option cfg family "method"
                      else Ok None) ;;
           if has_section cfg family && negb (opt_eqb method "disabled") then
             cfg <- _set_default family "dns-search" "" cfg ;;
             cur <- cfg_get cfg family "dns-search" ;;
             cfg_set cfg family "dns-search" (cur ++ join ";" search ++ ";")
           else Ok cfg)
        ["ipv4"; "ipv6"] cfg.

Definition con_uuid (cfg : config) : result string :=
  cfg_get cfg "connection" "uuid".

Definition valid (cfg : config) : bool :=
  has_option cfg "connection" "type".

(** [addr.replace("-", ":").upper()], on ASCII text. *)
Definition upper_ascii (c : ascii) : ascii :=
  let n := nat_of_ascii c in
  if (97 <=? n)%nat && (n <=? 122)%nat then ascii_of_nat (n - 32) else c.

Definition mac_addr (addr : string) : string :=
  string_map upper_ascii
    (string_map (fun c => if Ascii.eqb c "-" then ":"%char else c) addr).

Definition _type_map : list (string * option string) :=
  [("physical", Some "ethernet");
   ("vlan", Some "vlan");
   ("bond", Some "bond");
   ("bridge", Some "bridge");
   ("infiniband", Some "infiniband");
   ("loopback", None)].

Definition _prop_map : list (string * list (string * string)) :=
  [("bond",
    [("mode", "bond-mode");
     ("miimon", "bond-miimon");
     ("xmit_hash_policy", "bond-xmit_hash_policy");
     ("num_grat_arp", "bond-num_grat_arp");
     ("downdelay", "bond-downdelay");
     ("updelay", "bond-updelay");
     ("fail_over_mac", "bond-fail_over_mac");
     ("primary_reselect", "bond-primary_reselect");
     ("primary", "bond-primary");
     ("active_slave", "bond-active_slave");
     ("ad_actor_sys_prio", "bond-ad_actor_sys_prio");
     ("ad_actor_system", "bond-ad_actor_system");
     ("ad_select", "bond-ad_select");
     ("ad_user_port_key", "bond-ad_user_port_key");
     ("all_slaves_active", "bond-all_slaves_active");
     ("arp_all_targets", "bond-arp_all_targets");
     ("arp_interval", "bond-arp_interval");
     ("arp_ip_target", "bond-arp_ip_target");
     ("arp_validate", "bond-arp_validate");
     ("lacp_rate", "bond-lacp_rate");
     ("lp_interval", "bond-lp_interval");
     ("min_links", "bond-min_links");
     ("num_unsol_na", "bond-num_unsol_na");
     ("packets_per_slave", "bond-packets_per_slave");
     ("peer_notif_delay", "bond-peer_notif_delay");
     ("resend_igmp", "bond-resend_igmp");
     ("tlb_dynamic_lb", "bond-tlb_dynamic_lb");
     ("use_carrier", "bond-use_carrier")]);
   ("bridge",
    [("stp", "bridge_stp");
     ("priority", "bridge_bridgeprio")]);
   ("vlan",
    [("id", "vlan_id")]);
   ("ethernet", []);
   ("infiniband", [])].

(** The registry of profiles and the warnings logged so far. *)
Record renderer : Type := {
  connections : list (string * config);
  log : list string
}.

Definition get_conn (r : renderer) (con_id : string) : result config :=
  match assoc con_id (connections r) with
  | Some conn => Ok conn
  | None => Err (KeyError con_id)
  end.

(** The profile stored under [con_id] takes the state [cfg]. *)
Definition set_conn (r : renderer) (con_id : string) (cfg : config) : renderer :=
  {| connections := assoc_set con_id cfg (connections r); log := log r |}.

Definition con_ref (r : renderer) (con_id : string) : result string :=
  match assoc con_id (connections r) with
  | Some conn => con_uuid conn
  | None => Ok con_id
  end.

Definition warning (r : renderer) (msg : string) : renderer :=
  {| connections := connections r; log := (log r ++ [msg])%list |}.

(** The values collected while the subnets of an interface are processed. *)
Record l3_state : Type := {
  l3_config : config;
  found_nameservers : list string;
  found_dns_search : list string;
  ipv4_mtu : option Z
}.

(** One iteration of the loop over [iface["subnets"]]. *)
Definition render_subnet (st : l3_state) (sn : subnet) : result l3_state :=
  let family := if subnet_is_ipv6 sn then "ipv6" else "ipv4" in
  cfg <- _set_ip_method family (Some (sn_type sn)) (l3_config st) ;;
  cfg <- (match sn_address sn with
          | Some _ => _add_address family sn cfg
          | None => Ok cfg
          end) ;;
  cfg <- (match sn_gateway sn with
          | Some gw => cfg_set cfg family "gateway" gw
          | None => Ok cfg
          end) ;;
  cfg <- foldM (fun cfg rt => _add_route rt cfg) (sn_routes sn) cfg ;;
  Ok {| l3_config := cfg;
        found_nameservers :=
          match sn_dns_nameservers sn with
          | Some l => (found_nameservers st ++ l)%list
          | None => found_nameservers st
          end;
        found_dns_search :=
          match sn_dns_search sn with
          | Some l => (found_dns_search st ++ l)%list
          | None => found_dns_search st
          end;
        ipv4_mtu :=
          match sn_mtu sn with
          | Some m => if String.eqb family "ipv4" then Some m else ipv4_mtu st
          | None => ipv4_mtu st
          end |}.

(** Entries of [extra] that are not yet in [found], appended to [found]. *)
Definition merge_new (found extra : list string) : list string :=
  (found ++ filter (fun x => negb (mem x found)) extra)%list.

Definition is_empty {A : Type} (l : list A) : bool :=
  match l with
  | [] => true
  | _ => false
  end.

Definition opt_Z_eqb (a b : option Z) : bool :=
  match a, b with
  | Some x, Some y => Z.eqb x y
  | None, None => true
  | _, _ => false
  end.

(** [str] of an integer or [None]. *)
Definition str_opt_Z (a : option Z) : string :=
  match a with
  | Some z => str_Z z
  | None => "None"
  end.

Definition mtu_warning (name : string) (device_mtu ipv4_mtu : option Z)
  : string :=
  "Network config: ignoring " ++ name ++ " device-level mtu:"
  ++ str_opt_Z device_mtu ++ " because ipv4 subnet-level mtu:"
  ++ str_opt_Z ipv4_mtu ++ " provided.".

(** The loop over [_prop_map[if_type].items()]. *)
Definition render_props (if_type : string) (iface : interface) (cfg : config)
  : result config :=
  match assoc if_type _prop_map with
  | None => Err (KeyError if_type)
  | Some props =>
      foldM (fun cfg entry =>
               let '(nm_prop, key) := entry in
               match assoc key (if_params iface) with
               | None => Ok cfg
               | Some PNone => Ok cfg
               | Some (PBool b) =>
                   cfg_set cfg if_type nm_prop (if b then "true" else "false")
               | Some (PInt z) => cfg_set cfg if_type nm_prop (str_Z z)
               | Some (PStr v) => cfg_set cfg if_type nm_prop v
               end)
            props cfg
  end.

(** The loop over [iface["bridge_ports"]]; [self] is the key under which the
    bridge's own profile is stored. *)
Definition render_bridge_port (self : string) (r : renderer) (port : string)
  : result renderer :=
  pcfg <- get_conn r port ;;
  pcfg <- _set_default "connection" "slave-type" "bridge" pcfg ;;
  let r := set_conn r port pcfg in
  me <- get_conn r self ;;
  uuid <- con_uuid me ;;
  pcfg <- get_conn r port ;;
  pcfg <- _set_default "connection" "master" uuid pcfg ;;
  Ok (set_conn r port pcfg).

Definition set_mac (if_type : string) (iface : interface) (cfg : config)
  : result config :=
  match if_mac_address iface with
  | Some mac => cfg_set cfg if_type "mac-address" (mac_addr mac)
  | None => Ok cfg
  end.

(** The sections of [render_interface] follow, each under the comment that
    introduces it in the source.  The receiver is the profile stored under
    [self] in the registry [r]; [cfg] is its current state. *)

(** "Initialize type & connectivity" *)
Definition init_connectivity (self if_type : string) (iface : interface)
  (r : renderer) (cfg : config) : result config :=
  cfg <- cfg_set cfg "connection" "type" if_type ;;
  match if_bond_master iface with
  | Some master =>
      cfg <- cfg_set cfg "connection" "slave-type" "bond" ;;
      ref <- con_ref (set_conn r self cfg) master ;;
      cfg_set cfg "connection" "master" ref
  | None => Ok cfg
  end.

(** "Deal with Layer 3 configuration" *)
Definition render_layer3 (if_type : string) (iface : interface) (cfg : config)
  : result l3_state :=
  cfg <- (if String.eqb if_type "bond" && is_empty (if_subnets iface)
          then foldM (fun cfg family => _set_ip_method family None cfg)
                     ["ipv4"; "ipv6"] cfg
          else Ok cfg) ;;
  foldM render_subnet (if_subnets iface)
    {| l3_config := cfg; found_nameservers := [];
       found_dns_search := []; ipv4_mtu := None |}.

(** "Add interface-level DNS", then "if we do not have any, add the global
    DNS to the connection": [found] are the subnet-level entries, [extra]
    the interface-level ones, [fallback] the global ones. *)
Definition resolve_dns (found : list string) (extra : option (list string))
  (fallback : list string) : list string :=
  let found := match extra with
               | Some l => merge_new found l
               | None => found
               end in
  if is_empty found && negb (is_empty fallback) then fallback else found.

(** "Write out all DNS entries to the connection" *)
Definition write_dns (nameservers search : list string) (cfg : config)
  : result config :=
  cfg <- foldM (fun cfg ns => _add_nameserver ns cfg) nameservers cfg ;;
  if negb (is_empty search) then _add_dns_search search cfg else Ok cfg.

(** [if ipv4_mtu is None: ipv4_mtu = device_mtu] *)
Definition resolve_mtu (subnet_mtu device_mtu : option Z) : option Z :=
  match subnet_mtu with
  | None => device_mtu
  | Some m => Some m
  end.

(** "These ones need special treatment": ethernet, vlan, bond. *)
Definition render_ethernet (iface : interface) (mtu : option Z) (cfg : config)
  : result config :=
  cfg <- (match if_wakeonlan iface with
          | PBool true => cfg_set cfg "ethernet" "wake-on-lan" "64"
          | _ => Ok cfg
          end) ;;
  cfg <- (match mtu with
          | Some m => cfg_set cfg "ethernet" "mtu" (str_Z m)
          | None => Ok cfg
          end) ;;
  set_mac "ethernet" iface cfg.

Definition render_vlan (self : string) (iface : interface) (r : renderer)
  (cfg : config) : result config :=
  match if_vlan_raw_device iface with
  | Some dev =>
      ref <- con_ref (set_conn r self cfg) dev ;;
      cfg_set cfg "vlan" "parent" ref
  | None => Ok cfg
  end.

Definition render_bond (mtu : option Z) (cfg : config) : result config :=
  match mtu with
  | Some m =>
      let cfg := if has_section cfg "ethernet" then cfg
                 else set_section cfg "ethernet" [] in
      cfg_set cfg "ethernet" "mtu" (str_Z m)
  | None => Ok cfg
  end.

(** "Bridge is ass-backwards compared to bond": the ports' profiles are
    written through the registry. *)
Definition render_bridge (self : string) (iface : interface) (r : renderer)
  : result renderer :=
  r <- foldM (render_bridge_port self) (if_bridge_ports iface) r ;;
  cfg <- get_conn r self ;;
  cfg <- set_mac "bridge" iface cfg ;;
  Ok (set_conn r self cfg).

Definition render_infiniband (iface : interface) (mtu : option Z)
  (cfg : config) : result config :=
  match mtu with
  | Some m =>
      cfg <- cfg_set cfg "infiniband" "transport-mode" "datagram" ;;
      cfg <- cfg_set cfg "infiniband" "mtu" (str_Z m) ;;
      set_mac "infiniband" iface cfg
  | None => Ok cfg
  end.

(** "Finish up" *)
Definition finish (if_type : string) (iface : interface) (cfg : config)
  : result config :=
  if String.eqb if_type "bridge" || negb (has_option cfg if_type "mac-address")
  then cfg_set cfg "connection" "interface-name" (if_name iface)
  else Ok cfg.

(** Everything [render_interface] does to its own profile before the bridge
    ports are visited; the result carries the resolved mtu. *)
Definition render_own (self if_type : string) (iface : interface)
  (network_state : NetworkState) (r : renderer) (cfg : config)
  : result (config * option Z) :=
  cfg <- init_connectivity self if_type iface r cfg ;;
  let cfg := set_section cfg if_type [] in
  let device_mtu := if_mtu iface in
  st <- render_layer3 if_type iface cfg ;;
  let nameservers :=
    resolve_dns (found_nameservers st) (option_map dns_nameservers (if_dns iface))
      (ns_dns_nameservers network_state) in
  let search :=
    resolve_dns (found_dns_search st) (option_map dns_search (if_dns iface))
      (ns_dns_searchdomains network_state) in
  cfg <- write_dns nameservers search (l3_config st) ;;
  cfg <- _set_mayfail_true_if_both_false_dhcp cfg ;;
  let mtu := resolve_mtu (ipv4_mtu st) device_mtu in
  cfg <- render_props if_type iface cfg ;;
  cfg <- (if String.eqb if_type "ethernet" then render_ethernet iface mtu cfg
          else Ok cfg) ;;
  cfg <- (if String.eqb if_type "vlan" then render_vlan self iface r cfg
          else Ok cfg) ;;
  cfg <- (if String.eqb if_type "bond" then render_bond mtu cfg else Ok cfg) ;;
  Ok (cfg, mtu).

(** The warning of a subnet-level mtu that differs from the device's. *)
Definition warn_mtu (iface : interface) (mtu : option Z) (r : renderer)
  : renderer :=
  if negb (opt_Z_eqb mtu (if_mtu iface))
  then warning r (mtu_warning (if_name iface) (if_mtu iface) mtu)
  else r.

(** [NMConnection.render_interface] *)
Definition render_interface (self : string) (iface : interface)
  (network_state : NetworkState) (r : renderer) : result renderer :=
  match assoc (if_type iface) _type_map with
  | None => Err (KeyError (if_type iface))
  | Some None => Ok r
  | Some (Some if_type) =>
      cfg <- get_conn r self ;;
      own <- render_own self if_type iface network_state r cfg ;;
      let '(cfg, mtu) := own in
      let r := set_conn (warn_mtu iface mtu r) self cfg in
      r <- (if String.eqb if_type "bridge" then render_bridge self iface r
            else Ok r) ;;
      cfg <- get_conn r self ;;
      cfg <- (if String.eqb if_type "infiniband"
              then render_infiniband iface mtu cfg else Ok cfg) ;;
      cfg <- finish if_type iface cfg ;;
      Ok (set_conn r self cfg)
  end.

Definition dump (cfg : config) : string :=
  let header := "# Generated by cloud-init. Changes will be lost." ++ nl ++ nl in
  header ++ write cfg.

(** ** Renderer *)

Definition NM_RUN_DIR : string := "/etc/NetworkManager".

Definition NM_IPV6_ADDR_GEN_CONF : string :=
  "# This is generated by cloud-init. Do not edit." ++ nl
  ++ "#" ++ nl
  ++ "[.config]" ++ nl
  ++ "  enable=nm-version-min:1.40" ++ nl
  ++ "[connection.30-cloud-init-ip6-addr-gen-mode]" ++ nl
  ++ "  # Select EUI64 to be used if the profile does not specify it." ++ nl
  ++ "  ipv6.addr-gen-mode=0" ++ nl
  ++ nl.

Definition nm_conn_filename (con_id : string) (target : option string)
  : string :=
  let target_con_dir := target_path target NM_RUN_DIR in
  let con_file := "cloud-init-" ++ con_id ++ ".nmconnection" in
  target_con_dir ++ "/system-connections/" ++ con_file.

Definition cloud_init_nm_conf_filename (target : option string) : string :=
  let target_con_dir := target_path target NM_RUN_DIR in
  let conf_file := "30-cloud-init-ip6-addr-gen-mode.conf" in
  target_con_dir ++ "/conf.d/" ++ conf_file.

Definition IFCFG_CFG_FILE : string := "/etc/sysconfig/network-scripts".

Definition sysconfig_conn_filename (devname : string) (target : option string)
  : string :=
  let target_con_dir := target_path target IFCFG_CFG_FILE in
  let con_file := "ifcfg-" ++ devname in
  target_con_dir ++ "/" ++ con_file.

(** What [conn_filename] asks of the host: [os.path.isfile], and
    [available_nm_ifcfg_rh()] of [cloudinit.net.sysconfig]. *)
Record host : Type := {
  isfile : string -> bool;
  available_nm_ifcfg_rh : bool
}.

(** [conn_filename(devname)], [None] when there is no file. *)
Definition conn_filename (h : host) (devname : string) : option string :=
  let conn_file := nm_conn_filename devname None in
  let conn_file :=
    if negb (isfile h conn_file) && available_nm_ifcfg_rh h
    then sysconfig_conn_filename devname None
    else conn_file in
  if isfile h conn_file then Some conn_file else None.

(** [iface.get("config_id") or iface["name"]] *)
Definition conn_key (iface : interface) : string :=
  if truthy (if_config_id iface) then
    match if_config_id iface with
    | Some c => c
    | None => if_name iface
    end
  else if_name iface.

(** A call of [util.write_file(name, content, 0o600)]. *)
Record file_write : Type := {
  fw_name : string;
  fw_content : string
}.

Definition Renderer : renderer := {| connections := []; log := [] |}.

(** First pass: a profile for every known interface. *)
Definition create_connections (ifaces : list interface) (r : renderer)
  : renderer :=
  fold_left (fun r iface =>
               set_conn r (conn_key iface) (NMConnection (if_name iface)))
            ifaces r.

(** Second pass: the actual interface configuration. *)
Definition render_connections (network_state : NetworkState)
  (ifaces : list interface) (r : renderer) : result renderer :=
  foldM (fun r iface =>
           let key := conn_key iface in
           _ <- get_conn r key ;;
           render_interface key iface network_state r)
        ifaces r.

(** Third pass: the files of the valid profiles, then the fixed one. *)
Definition write_files (target : option string) (r : renderer)
  : list file_write :=
  (map (fun entry =>
          {| fw_name := nm_conn_filename (fst entry) target;
             fw_content := dump (snd entry) |})
       (filter (fun entry => valid (snd entry)) (connections r))
   ++ [{| fw_name := cloud_init_nm_conf_filename target;
          fw_content := NM_IPV6_ADDR_GEN_CONF |}])%list.

Definition render_network_state (network_state : NetworkState)
  (target : option string) (r : renderer)
  : result (renderer * list file_write) :=
  let r := create_connections (iter_interfaces network_state) r in
  r <- render_connections network_state (iter_interfaces network_state) r ;;
  Ok (r, write_files target r).

End Render.

(** ** A concrete environment for examples

    Collaborators that classify by the presence of a colon and keep paths
    unprefixed; they agree with the real ones on well-formed addresses. *)

Fixpoint has_colon (s : string) : bool :=
  match s with
  | EmptyString => false
  | String c s' => Ascii.eqb c ":" || has_colon s'
  end.

Fixpoint ends_with_6 (s : string) : bool :=
  match s with
  | EmptyString => false
  | String c EmptyString => Ascii.eqb c "6"
  | String _ s' => ends_with_6 s'
  end.

#[local] Instance example_collaborators : Collaborators := {
  is_ipv6_address := has_colon;
  is_ipv6_network := has_colon;
  subnet_is_ipv6 sn :=
    ends_with_6 (sn_type sn)
    || mem (sn_type sn)
         ["ipv6_dhcpv6-stateful"; "ipv6_dhcpv6-stateless"; "ipv6_slaac"]
    || (String.eqb (sn_type sn) "static"
        && match sn_address sn with
           | Some a => has_colon a
           | None => false
           end);
  target_path target path :=
    match target with
    | Some t => t ++ path
    | None => path
    end
}.

Definition mk_subnet (t : string) : subnet :=
  {| sn_type := t; sn_address := None; sn_prefix := None; sn_gateway := None;
     sn_routes := []; sn_dns_nameservers := None; sn_dns_search := None;
     sn_mtu := None |}.

Definition mk_iface (name t : string) (subnets : list subnet) : interface :=
  {| if_name := name; if_config_id := None; if_type := t; if_mtu := None;
     if_mac_address := None; if_wakeonlan := PNone; if_bond_master := None;
     if_vlan_raw_device := None; if_bridge_ports := []; if_subnets := subnets;
     if_dns := None; if_params := [] |}.

Definition mk_state (ifaces : list interface) : NetworkState :=
  {| iter_interfaces := ifaces; ns_dns_nameservers := [];
     ns_dns_searchdomains := [] |}.

(** ** Example topologies *)

(** The registry a computation returns, the empty one when it fails. *)
Definition get_ok (m : result renderer) : renderer :=
  match m with
  | Ok r => r
  | Err _ => Renderer
  end.

(** The second pass on the registry that the first pass creates. *)
Definition render_all (ifaces : list interface) : result renderer :=
  render_connections (mk_state ifaces) ifaces
    (create_connections ifaces Renderer).


(** An ethernet device with a subnet-level and an interface-level name
    server. *)
Definition dns_iface : interface :=
  {| if_name := "eth0"; if_config_id := None; if_type := "physical";
     if_mtu := None; if_mac_address := None; if_wakeonlan := PNone;
     if_bond_master := None; if_vlan_raw_device := None;
     if_bridge_ports := [];
     if_subnets :=
       [{| sn_type := "static"; sn_address := Some "10.0.0.2";
           sn_prefix := Some 24%Z; sn_gateway := None; sn_routes := [];
           sn_dns_nameservers := Some ["1.1.1.1"]; sn_dns_search := None;
           sn_mtu := None |}];
     if_dns := Some {| dns_nameservers := ["8.8.8.8"]; dns_search := [] |};
     if_params := [] |}.

(** An ethernet device of mtu 1500 whose ipv4 subnets ask for the given
    mtus. *)
Definition mtu_iface (mtus : list Z) : interface :=
  {| if_name := "eth0"; if_config_id := None; if_type := "physical";
     if_mtu := Some 1500%Z; if_mac_address := None; if_wakeonlan := PNone;
     if_bond_master := None; if_vlan_raw_device := None;
     if_bridge_ports := [];
     if_subnets :=
       map (fun m =>
              {| sn_type := "static"; sn_address := Some "10.0.0.2";
                 sn_prefix := Some 24%Z; sn_gateway := None; sn_routes := [];
                 sn_dns_nameservers := None; sn_dns_search := None;
                 sn_mtu := Some m |}) mtus;
     if_dns := None; if_params := [] |}.


Definition ipv6_route : route :=
  {| rt_network := "fd00::"; rt_prefix := 64; rt_gateway := Some "fd00::1";
     rt_mtu := Some 1400%Z |}.

Definition ipv4_route : route :=
  {| rt_network := "10.0.0.0"; rt_prefix := 8; rt_gateway := None;
     rt_mtu := None |}.

(** An ethernet device named eth0 with the explicit connection id id0. *)
Definition named_iface : interface :=
  {| if_name := "eth0"; if_config_id := Some "id0"; if_type := "physical";
     if_mtu := None; if_mac_address := None; if_wakeonlan := PNone;
     if_bond_master := None; if_vlan_raw_device := None;
     if_bridge_ports := []; if_subnets := [mk_subnet "dhcp4"];
     if_dns := None; if_params := [] |}.

Definition loopback_iface : interface := mk_iface "lo" "loopback" [].

Definition dummy_iface : interface := mk_iface "dummy0" "dummy" [].

(** A bridge br0 with the port eth1, and two versions of eth1: a plain
    ethernet device, and one that is also enslaved to a bond. *)
Definition bridge_iface (ports : list string) : interface :=
  {| if_name := "br0"; if_config_id := None; if_type := "bridge";
     if_mtu := None; if_mac_address := None; if_wakeonlan := PNone;
     if_bond_master := None; if_vlan_raw_device := None;
     if_bridge_ports := ports; if_subnets := [mk_subnet "dhcp4"];
     if_dns := None; if_params := [] |}.

Definition port_iface (bond_master : option string) : interface :=
  {| if_name := "eth1"; if_config_id := None; if_type := "physical";
     if_mtu := None; if_mac_address := None; if_wakeonlan := PNone;
     if_bond_master := bond_master; if_vlan_raw_device := None;
     if_bridge_ports := []; if_subnets := [];
     if_dns := None; if_params := [] |}.

(** An ethernet device enslaved to a bond that no interface defines, and a
    vlan whose parent no interface defines. *)
Definition dangling_slave : interface :=
  {| if_name := "eth0"; if_config_id := None; if_type := "physical";
     if_mtu := None; if_mac_address := None; if_wakeonlan := PNone;
     if_bond_master := Some "bond9"; if_vlan_raw_device := None;
     if_bridge_ports := []; if_subnets := [];
     if_dns := None; if_params := [] |}.

Definition dangling_vlan : interface :=
  {| if_name := "eth0.5"; if_config_id := None; if_type := "vlan";
     if_mtu := None; if_mac_address := None; if_wakeonlan := PNone;
     if_bond_master := None; if_vlan_raw_device := Some "eth9";
     if_bridge_ports := []; if_subnets := [];
     if_dns := None; if_params := [("vlan_id", PInt 5)] |}.

(** * Specification-level definitions *)

(** [o.startswith(p)] *)
Fixpoint starts_with (p o : string) : bool :=
  match p, o with
  | EmptyString, _ => true
  | String a p', String b o' => Ascii.eqb a b && starts_with p' o'
  | String _ _, EmptyString => false
  end.

(** The value of an option, if it is set. *)
Definition get_option (cfg : config) (s o : string) : option string :=
  match assoc s cfg with
  | Some sec => assoc o sec
  | None => None
  end.

(** The option [s.o] holds [v], the section created when needed. *)
Definition put (s o v : string) (cfg : config) : config :=
  assoc_set s
    (assoc_set o v (match assoc s cfg with Some sec => sec | None => [] end))
    cfg.

(** The option [s.o] holds [v] unless it was already set. *)
Definition put_default (s o v : string) (cfg : config) : config :=
  if has_option cfg s o then cfg else put s o v cfg.

(** An empty section [s] exists afterwards, whatever it held before. *)
Definition ensure_section (s : string) (cfg : config) : config :=
  if has_section cfg s then cfg else set_section cfg s [].

(** Sets of options that an operation may write, as lists of patterns:
    one option, the options of a section whose name starts with a prefix,
    or all options of a section. *)
Inductive pattern : Type :=
| Opt (s o : string)
| Prefix (s p : string)
| AnyOption (s : string).

Definition matches (pt : pattern) (s o : string) : bool :=
  match pt with
  | Opt s' o' => String.eqb s' s && String.eqb o' o
  | Prefix s' p => String.eqb s' s && starts_with p o
  | AnyOption s' => String.eqb s' s
  end.

Definition covers (W : list pattern) (s o : string) : bool :=
  existsb (fun pt => matches pt s o) W.

(** [cfg'] comes from [cfg] by writing options of [W] only: sections are
    kept, sections without an option in [W] are neither created nor
    changed, and options outside [W] keep their state. *)
Definition extends (W : list pattern) (cfg cfg' : config) : Prop :=
  (forall s, has_section cfg s = true -> has_section cfg' s = true)
  /\ (forall s, (forall o, covers W s o = false) ->
                has_section cfg' s = has_section cfg s)
  /\ (forall s o, covers W s o = false ->
                  get_option cfg' s o = get_option cfg s o).

(** No section is created. *)
Definition same_sections (cfg cfg' : config) : Prop :=
  forall s, has_section cfg' s = has_section cfg s.

(** The method a subnet type asks for, and whether the type is unknown. *)
Definition requested (subnet_type : option string) : string * bool :=
  match subnet_type with
  | Some t =>
      if truthy subnet_type then
        match assoc t method_map with
        | Some m => (m, false)
        | None => ("auto", true)
        end
      else ("disabled", false)
  | None => ("disabled", false)
  end.

Definition forces_ipv4_disabled (subnet_type : option string) : bool :=
  match subnet_type with
  | Some t => mem t ["ipv6_dhcpv6-stateful"; "ipv6_dhcpv6-stateless";
                     "ipv6_slaac"]
  | None => false
  end.

(** [_set_ip_method] as a function on the configuration. *)
Definition set_ip_method_fn (family : string) (subnet_type : option string)
  (cfg : config) : config :=
  let cfg := put_default family "method" "disabled" cfg in
  let '(method, unknown) := requested subnet_type in
  let cfg := if unknown then put family "may-fail" "true" cfg else cfg in
  if opt_eqb (get_option cfg family "method") "dhcp" then cfg
  else if opt_eqb (get_option cfg family "method") "auto"
          && String.eqb method "manual" then cfg
  else
    let cfg := if forces_ipv4_disabled subnet_type
               then put_default "ipv4" "method" "disabled" cfg else cfg in
    put_default family "may-fail" "false" (put family "method" method cfg).

(** A sequence of layer-3 method resolutions, each for a family and a
    subnet type. *)
Definition resolve_methods (calls : list (string * option string))
  (cfg : config) : result config :=
  foldM (fun cfg call => _set_ip_method (fst call) (snd call) cfg) calls cfg.

(** The order in which methods may replace one another. *)
Definition method_rank (m : option string) : nat :=
  if opt_eqb m "dhcp" then 3
  else if opt_eqb m "auto" then 2
  else if opt_eqb m "manual" then 1
  else 0.

(** Both families have a dynamic method and [may-fail=false]. *)
Definition both_false_dynamic (cfg : config) : bool :=
  forallb (fun family =>
             opt_eqb (get_option cfg family "may-fail") "false"
             && is_dynamic (get_option cfg family "method"))
          ["ipv4"; "ipv6"].

(** [_set_mayfail_true_if_both_false_dhcp] as a function. *)
Definition normalize_mayfail_fn (cfg : config) : config :=
  if both_false_dynamic cfg
  then put "ipv6" "may-fail" "true" (put "ipv4" "may-fail" "true" cfg)
  else cfg.

(** While [may-fail] is unset, no method other than [disabled] is set. *)
Definition mayfail_follows_method (cfg : config) : Prop :=
  forall family,
    get_option cfg family "may-fail" = None ->
    get_option cfg family "method" = None
    \/ get_option cfg family "method" = Some "disabled".

(** [n] is the lowest index from 1 whose key [key_prefix<n>] is unused in
    section [s]. *)
Definition lowest_unused (cfg : config) (s key_prefix : string) (n : nat)
  : Prop :=
  1 <= n
  /\ has_option cfg s (key_prefix ++ str_nat n) = false
  /\ (forall i, 1 <= i < n -> has_option cfg s (key_prefix ++ str_nat i) = true).

(** The numbered keys of section [s] are exactly [key_prefix1] to
    [key_prefix<k>]. *)
Definition contiguous (cfg : config) (s key_prefix : string) (k : nat) : Prop :=
  forall i, has_option cfg s (key_prefix ++ str_nat i) = true <-> 1 <= i <= k.


(** The value [_add_address] writes. *)
Definition address_value (sn : subnet) : option string :=
  match sn_address sn, sn_prefix sn with
  | Some a, Some p => Some (a ++ "/" ++ str_Z p)
  | _, _ => None
  end.




(** The numbered keys [key_prefix<n>] of section [s] hold exactly the
    values [vals], the first under index 1. *)
Definition numbered_are (cfg : config) (s key_prefix : string)
  (vals : list string) : Prop :=
  forall i, get_option cfg s (key_prefix ++ str_nat i) =
            match i with
            | O => None
            | S j => nth_error vals j
            end.

(** The value [_add_route] writes for a route. *)
Definition route_value (rt : route) : string :=
  let value := rt_network rt ++ "/" ++ str_Z (rt_prefix rt) in
  match rt_gateway rt with
  | Some gw => value ++ "," ++ gw
  | None => value
  end.

Definition route_family {C : Collaborators} (rt : route) : string :=
  if is_ipv6_network (rt_network rt) then "ipv6" else "ipv4".

(** What [_add_route_options] leaves under [route<n>_options]. *)
Definition route_options_value (old : option string) (key value : string)
  : string :=
  if truthy old
  then match old with
       | Some ro => ro ++ "," ++ key ++ "=" ++ value
       | None => key ++ "=" ++ value
       end
  else key ++ "=" ++ value.

(** [_add_route] as a function, given the index it allocates. *)
Definition add_route_fn {C : Collaborators} (rt : route) (n : nat)
  (cfg : config) : config :=
  let family := route_family rt in
  let key := "route" ++ str_nat n in
  let cfg := put family key (route_value rt) cfg in
  match rt_mtu rt with
  | Some mtu =>
      put family (key ++ "_options")
        (route_options_value (get_option cfg family (key ++ "_options"))
           "mtu" (str_Z mtu))
        cfg
  | None => cfg
  end.

(** The options that the layer-3 part of [render_interface] may write. *)
Definition W_layer3 : list pattern :=
  [Opt "ipv4" "method"; Opt "ipv4" "may-fail"; Opt "ipv4" "gateway";
   Prefix "ipv4" "address"; Prefix "ipv4" "route";
   Opt "ipv6" "method"; Opt "ipv6" "may-fail"; Opt "ipv6" "gateway";
   Prefix "ipv6" "address"; Prefix "ipv6" "route"].

(** The subnet-level name servers and search domains of an interface, in
    subnet order. *)
Definition subnet_nameservers (subnets : list subnet) : list string :=
  flat_map (fun sn => match sn_dns_nameservers sn with
                      | Some l => l
                      | None => []
                      end) subnets.

Definition subnet_dns_search (subnets : list subnet) : list string :=
  flat_map (fun sn => match sn_dns_search sn with
                      | Some l => l
                      | None => []
                      end) subnets.

(** The mtu values of the ipv4 subnets, in subnet order. *)
Definition ipv4_subnet_mtus {C : Collaborators} (subnets : list subnet)
  : list Z :=
  flat_map (fun sn => if subnet_is_ipv6 sn then []
                      else match sn_mtu sn with
                           | Some m => [m]
                           | None => []
                           end) subnets.

Definition last_opt {A : Type} (l : list A) : option A :=
  match rev l with
  | x :: _ => Some x
  | [] => None
  end.

Definition first_opt {A : Type} (l : list A) : option A :=
  match l with
  | x :: _ => Some x
  | [] => None
  end.

(** Name servers are written to a family whose section exists and whose
    method is not [disabled]. *)
Definition active (cfg : config) (family : string) : bool :=
  has_section cfg family
  && negb (opt_eqb (get_option cfg family "method") "disabled").

Definition dns_family {C : Collaborators} (dns : string) : string :=
  if is_ipv6_address dns then "ipv6" else "ipv4".

(** [_add_nameserver] as a function. *)
Definition add_nameserver_fn {C : Collaborators} (dns : string) (cfg : config)
  : config :=
  let family := dns_family dns in
  if active cfg family
  then put family "dns"
         (match get_option cfg family "dns" with
          | Some cur => cur
          | None => ""
          end ++ dns ++ ";")
         cfg
  else cfg.

(** The semicolon-terminated accumulation of name servers. *)
Fixpoint dns_string (l : list string) : string :=
  match l with
  | [] => ""
  | d :: l' => d ++ ";" ++ dns_string l'
  end.

(** The [dns] option that name servers [l] give a family that had none. *)
Definition dns_entry (l : list string) : option string :=
  match l with
  | [] => None
  | _ => Some (dns_string l)
  end.

(** The name servers of [l] that belong to [family]. *)
Definition nameservers_of {C : Collaborators} (family : string)
  (l : list string) : list string :=
  filter (fun d => String.eqb (dns_family d) family) l.

Definition W_dns : list pattern :=
  [Opt "ipv4" "dns"; Opt "ipv6" "dns";
   Opt "ipv4" "dns-search"; Opt "ipv6" "dns-search"].

Definition W_dns_search : list pattern :=
  [Opt "ipv4" "dns-search"; Opt "ipv6" "dns-search"].

Definition W_mayfail : list pattern :=
  [Opt "ipv4" "may-fail"; Opt "ipv6" "may-fail"].

(** The options of the [connection] section that the first part of
    [render_interface] may write. *)
Definition W_connectivity (iface : interface) : list pattern :=
  Opt "connection" "type"
  :: match if_bond_master iface with
     | Some _ => [Opt "connection" "slave-type"; Opt "connection" "master"]
     | None => []
     end.

(** What a bridge may write into the profile of one of its ports. *)
Definition W_port : list pattern :=
  [Opt "connection" "slave-type"; Opt "connection" "master"].

(** Everything [render_interface] may write into its own profile, the
    writes of a bridge to itself as a port apart. *)
Definition W_own (if_type : string) (iface : interface) : list pattern :=
  (W_connectivity iface
   ++ [AnyOption if_type; AnyOption "ethernet";
       Opt "connection" "interface-name"]
   ++ W_layer3 ++ W_dns)%list.

(** The state of an option in the profile stored under [q]. *)
Definition conn_option (r : renderer) (q s o : string) : option string :=
  match assoc q (connections r) with
  | Some cfg => get_option cfg s o
  | None => None
  end.

(** Every profile of [r'] comes from the profile of the same key in [r] by
    writes in [W key]; no profile is added or removed. *)
Definition store_extends (W : string -> list pattern) (r r' : renderer)
  : Prop :=
  forall q,
    match assoc q (connections r), assoc q (connections r') with
    | Some cfg, Some cfg' => extends (W q) cfg cfg'
    | None, None => True
    | _, _ => False
    end.

(** The writes of [render_interface] for [iface], rendered into the profile
    under [self], to the profile under [q]. *)
Definition W_render (self : string) (iface : interface) (q : string)
  : list pattern :=
  match assoc (if_type iface) _type_map with
  | Some (Some if_type) =>
      ((if String.eqb q self then W_own if_type iface else [])
       ++ (if String.eqb if_type "bridge" && mem q (if_bridge_ports iface)
           then W_port else []))%list
  | _ => []
  end.

(** What [render_interface] may write into its own profile before the DNS
    entries are written, and after. *)
Definition W_before_dns (ty : string) (iface : interface) : list pattern :=
  (W_connectivity iface ++ [AnyOption ty] ++ W_layer3)%list.

Definition W_after_dns (ty : string) : list pattern :=
  [AnyOption ty; AnyOption "ethernet"; Opt "connection" "slave-type";
   Opt "connection" "master"; Opt "connection" "interface-name"].

(** The name servers and search domains that [render_interface] writes. *)
Definition rendered_nameservers (iface : interface)
  (network_state : NetworkState) : list string :=
  resolve_dns (subnet_nameservers (if_subnets iface))
    (option_map dns_nameservers (if_dns iface))
    (ns_dns_nameservers network_state).

Definition rendered_dns_search (iface : interface)
  (network_state : NetworkState) : list string :=
  resolve_dns (subnet_dns_search (if_subnets iface))
    (option_map dns_search (if_dns iface))
    (ns_dns_searchdomains network_state).

(** The mtu that [render_interface] resolves. *)
Definition rendered_mtu {C : Collaborators} (iface : interface) : option Z :=
  resolve_mtu (last_opt (ipv4_subnet_mtus (if_subnets iface))) (if_mtu iface).

Definition conn_active (r : renderer) (q family : string) : bool :=
  match assoc q (connections r) with
  | Some cfg => active cfg family
  | None => false
  end.

(** The interface-level name servers, none when the interface has no
    [dns] entry. *)
Definition interface_nameservers (iface : interface) : list string :=
  match if_dns iface with
  | Some d => dns_nameservers d
  | None => []
  end.


Definition subnet_family {C : Collaborators} (sn : subnet) : string :=
  if subnet_is_ipv6 sn then "ipv6" else "ipv4".


Definition conn_has_section (r : renderer) (q s : string) : bool :=
  match assoc q (connections r) with
  | Some cfg => has_section cfg s
  | None => false
  end.

(** A subnet with an address has a prefix ([_add_address] reads both). *)
Definition subnet_well_formed (sn : subnet) : Prop :=
  sn_address sn <> None -> sn_prefix sn <> None.

(** Every profile of the registry carries its identity token. *)
Definition registry_well_formed (r : renderer) : Prop :=
  forall q cfg, assoc q (connections r) = Some cfg ->
                get_option cfg "connection" "uuid" <> None.

(** What a profile needs for the type-specific part of a render of type
    [ty] to go through. *)
Definition renderable (ty : string) (cfg : config) : Prop :=
  has_section cfg "connection" = true
  /\ has_section cfg ty = true
  /\ get_option cfg "connection" "uuid" <> None.

(** What the interfaces of a network state need for the render not to
    raise: a type of [_type_map], subnets with a prefix for every address,
    and, for a bridge, ports that are keys of the registry. *)
Definition interface_renderable (keys : list string) (iface : interface)
  : Prop :=
  assoc (if_type iface) _type_map <> None
  /\ Forall subnet_well_formed (if_subnets iface)
  /\ (if_type iface = "bridge" ->
      forall port, In port (if_bridge_ports iface) -> In port keys).

(** ** The domain of the container model *)

(** The character [c] does not occur in [s]. *)
Fixpoint no_char (c : ascii) (s : string) : bool :=
  match s with
  | EmptyString => true
  | String a s' => negb (Ascii.eqb a c) && no_char c s'
  end.

(** A value that the parser stores and gives back as it is: one without a
    percent sign.  ([ConfigParser] interpolates: the assignment of a value
    with a percent sign raises [ValueError] unless the sign is doubled or
    opens a reference, and reading such a value expands it.) *)
Definition plain_value (v : string) : bool := no_char "%" v.

Definition plain_opt (v : option string) : bool :=
  match v with
  | Some x => plain_value x
  | None => true
  end.

(** The name of an ordinary section: neither [DEFAULT] nor the empty
    name. *)
Definition named_section (s : string) : bool :=
  negb (String.eqb s "DEFAULT") && negb (String.eqb s "").

Definition plain_section (sec : section) : bool :=
  forallb (fun kv => plain_value (snd kv)) sec.

(** A profile of ordinary sections and plain values. *)
Definition plain_config (cfg : config) : bool :=
  forallb (fun entry => named_section (fst entry) && plain_section (snd entry))
          cfg.

(** The state of the loop over the subnets is plain: the profile and the
    DNS entries found so far. *)
Definition plain_l3 (st : l3_state) : Prop :=
  plain_config (l3_config st) = true
  /\ forallb plain_value (found_nameservers st) = true
  /\ forallb plain_value (found_dns_search st) = true.

Definition plain_registry (r : renderer) : bool :=
  forallb (fun entry => plain_config (snd entry)) (connections r).

(** The texts of the network state that a render writes into a profile:
    the name and the MAC address of an interface, the ids it refers to,
    the text values of its properties, and the addresses, gateways,
    routes, name servers and search domains of any level. *)
Definition plain_route (rt : route) : bool :=
  plain_value (rt_network rt) && plain_opt (rt_gateway rt).

Definition plain_list (l : option (list string)) : bool :=
  match l with
  | Some xs => forallb plain_value xs
  | None => true
  end.

Definition plain_subnet (sn : subnet) : bool :=
  plain_opt (sn_address sn) && plain_opt (sn_gateway sn)
  && forallb plain_route (sn_routes sn)
  && plain_list (sn_dns_nameservers sn) && plain_list (sn_dns_search sn).

Definition plain_pyval (p : pyval) : bool :=
  match p with
  | PStr v => plain_value v
  | _ => true
  end.

Definition plain_interface (iface : interface) : bool :=
  plain_value (if_name iface) && plain_opt (if_mac_address iface)
  && plain_opt (if_bond_master iface) && plain_opt (if_vlan_raw_device iface)
  && forallb plain_subnet (if_subnets iface)
  && match if_dns iface with
     | Some d => forallb plain_value (dns_nameservers d)
                 && forallb plain_value (dns_search d)
     | None => true
     end
  && forallb (fun kv => plain_pyval (snd kv)) (if_params iface).

Definition plain_global_dns (network_state : NetworkState) : bool :=
  forallb plain_value (ns_dns_nameservers network_state)
  && forallb plain_value (ns_dns_searchdomains network_state).

Definition plain_network_state (network_state : NetworkState) : bool :=
  forallb plain_interface (iter_interfaces network_state)
  && plain_global_dns network_state.

(** ** Definitions for the further properties *)

(** [key=value], the assignment that [_add_route_options] writes. *)
Definition option_assignment (kv : string * string) : string :=
  fst kv ++ "=" ++ snd kv.

Definition plain_assignment (kv : string * string) : bool :=
  plain_value (fst kv) && plain_value (snd kv).

(** The state of [route<n>_options] after the assignments [kvs] are added
    to the state [old]. *)
Definition accumulated_options (old : option string)
  (kvs : list (string * string)) : option string :=
  match kvs with
  | [] => old
  | _ =>
      Some (join ","
              ((match old with
                | Some x => if truthy old then [x] else []
                | None => []
                end) ++ map option_assignment kvs)%list)
  end.

(** The assignments [kvs], added in order to the options of [route]. *)
Definition add_route_options_all (s route : string)
  (kvs : list (string * string)) (cfg : config) : result config :=
  foldM (fun cfg kv => _add_route_options s route (fst kv) (snd kv) cfg)
        kvs cfg.

(** A lowercase ASCII letter. *)
Definition is_lower (c : ascii) : bool :=
  let n := nat_of_ascii c in (97 <=? n)%nat && (n <=? 122)%nat.

(** Text of ASCII characters only. *)
Definition ascii_text (s : string) : bool :=
  forallb (fun c => (nat_of_ascii c <? 128)%nat) (list_ascii_of_string s).

(** Text without a hyphen and without a lowercase letter. *)
Definition canonical_mac (s : string) : bool :=
  forallb (fun c => negb (Ascii.eqb c "-") && negb (is_lower c))
          (list_ascii_of_string s).


(** The fixed configuration file that every render writes. *)
Definition conf_file {C : Collaborators} (target : option string)
  : file_write :=
  {| fw_name := cloud_init_nm_conf_filename target;
     fw_content := NM_IPV6_ADDR_GEN_CONF |}.

(** A host with the key file of eth0 only, and one with the ifcfg file of
    eth0 only and the ifcfg-rh plugin. *)
Definition keyfile_host : host :=
  {| isfile := fun f =>
       String.eqb f
         "/etc/NetworkManager/system-connections/cloud-init-eth0.nmconnection";
     available_nm_ifcfg_rh := true |}.

Definition ifcfg_host : host :=
  {| isfile := fun f =>
       String.eqb f "/etc/sysconfig/network-scripts/ifcfg-eth0";
     available_nm_ifcfg_rh := true |}.

(** A network state with global name servers and search domains, and an
    ethernet device with one dhcp4 subnet and no name server of its own. *)
Definition global_dns_state (ifaces : list interface) : NetworkState :=
  {| iter_interfaces := ifaces;
     ns_dns_nameservers := ["9.9.9.9"; "2620:fe::fe"];
     ns_dns_searchdomains := ["example.org"] |}.

Definition plain_iface : interface :=
  mk_iface "eth0" "physical" [mk_subnet "dhcp4"].

(** What [_add_dns_search] does for one family. *)
Definition add_dns_search_fn (search : list string) (family : string)
  (cfg : config) : config :=
  if active cfg family
  then put family "dns-search"
         (match get_option cfg family "dns-search" with
          | Some cur => cur
          | None => ""
          end ++ join ";" search ++ ";")
         cfg
  else cfg.

(** The [dns-search] option that search domains give a family that had
    none. *)
Definition dns_search_entry (search : list string) : option string :=
  match search with
  | [] => None
  | _ => Some (join ";" search ++ ";")
  end.

(** A bond without subnets. *)
Definition bond_iface : interface := mk_iface "bond0" "bond" [].

(** The gateways and the addresses of the subnets of [family], in subnet
    order. *)
Definition gateways_of {C : Collaborators} (family : string)
  (subnets : list subnet) : list string :=
  flat_map (fun sn => if String.eqb (subnet_family sn) family
                      then match sn_gateway sn with
                           | Some gw => [gw]
                           | None => []
                           end
                      else []) subnets.

Definition subnet_addresses {C : Collaborators} (family : string)
  (subnets : list subnet) : list string :=
  flat_map (fun sn => if String.eqb (subnet_family sn) family
                      then match address_value sn with
                           | Some v => [v]
                           | None => []
                           end
                      else []) subnets.

(** An ethernet device with two ipv4 subnets and an ipv6 subnet between
    them, each with an address and a gateway. *)
Definition dual_stack_iface : interface :=
  {| if_name := "eth0"; if_config_id := None; if_type := "physical";
     if_mtu := None; if_mac_address := None; if_wakeonlan := PNone;
     if_bond_master := None; if_vlan_raw_device := None;
     if_bridge_ports := [];
     if_subnets :=
       [{| sn_type := "static"; sn_address := Some "10.0.0.2";
           sn_prefix := Some 24%Z; sn_gateway := Some "10.0.0.1";
           sn_routes := []; sn_dns_nameservers := None;
           sn_dns_search := None; sn_mtu := None |};
        {| sn_type := "static"; sn_address := Some "fd00::2";
           sn_prefix := Some 64%Z; sn_gateway := Some "fd00::1";
           sn_routes := []; sn_dns_nameservers := None;
           sn_dns_search := None; sn_mtu := None |};
        {| sn_type := "static"; sn_address := Some "10.0.1.2";
           sn_prefix := Some 24%Z; sn_gateway := Some "10.0.1.1";
           sn_routes := []; sn_dns_nameservers := None;
           sn_dns_search := None; sn_mtu := None |}];
     if_dns := None; if_params := [] |}.

(** The text that the loop over [_prop_map] writes for a value, nothing for
    [None]. *)
Definition format_param (v : pyval) : option string :=
  match v with
  | PNone => None
  | PBool b => Some (if b then "true" else "false")
  | PInt z => Some (str_Z z)
  | PStr s => Some s
  end.

(** The value that the interface gives the native property [nm_prop] of a
    profile of type [ty]. *)
Definition native_property (ty : string) (iface : interface)
  (nm_prop : string) : option string :=
  match assoc ty _prop_map with
  | Some props =>
      match assoc nm_prop props with
      | Some key =>
          match assoc key (if_params iface) with
          | Some v => format_param v
          | None => None
          end
      | None => None
      end
  | None => None
  end.

(** The MAC address of the interface, sanitized. *)
Definition rendered_mac (iface : interface) : option string :=
  option_map mac_addr (if_mac_address iface).

(** The state of option [o] of the type-specific section of a profile of
    type [ty] after a render that resolved [mtu]; the parent of a vlan is
    left out. *)
Definition type_section_option (ty : string) (iface : interface)
  (mtu : option Z) (o : string) : option string :=
  if String.eqb ty "ethernet" then
    if String.eqb o "wake-on-lan" then
      match if_wakeonlan iface with
      | PBool true => Some "64"
      | _ => None
      end
    else if String.eqb o "mtu" then option_map str_Z mtu
    else if String.eqb o "mac-address" then rendered_mac iface
    else None
  else if String.eqb ty "bridge" then
    if String.eqb o "mac-address" then rendered_mac iface
    else native_property ty iface o
  else if String.eqb ty "infiniband" then
    match mtu with
    | Some m =>
        if String.eqb o "transport-mode" then Some "datagram"
        else if String.eqb o "mtu" then Some (str_Z m)
        else if String.eqb o "mac-address" then rendered_mac iface
        else None
    | None => None
    end
  else native_property ty iface o.

(** The profile is tied to its device by the MAC address rather than by
    the interface name. *)
Definition matched_by_mac (ty : string) (iface : interface) (mtu : option Z)
  : bool :=
  match if_mac_address iface with
  | Some _ =>
      String.eqb ty "ethernet"
      || (String.eqb ty "infiniband"
          && match mtu with Some _ => true | None => false end)
  | None => false
  end.

(** A list of pairs without a repeated key. *)
Fixpoint distinct_keys {V : Type} (l : list (string * V)) : bool :=
  match l with
  | [] => true
  | (k, _) :: l' => negb (assoc_mem k l') && distinct_keys l'
  end.

(** An ethernet device with a MAC address, wake-on-lan and an mtu; a
    bridge with a MAC address and native properties; an infiniband device
    with a MAC address and no mtu. *)
Definition wired_iface : interface :=
  {| if_name := "eth0"; if_config_id := None; if_type := "physical";
     if_mtu := Some 9000%Z; if_mac_address := Some "52-54-00-ab-cd-ef";
     if_wakeonlan := PBool true; if_bond_master := None;
     if_vlan_raw_device := None; if_bridge_ports := [];
     if_subnets := [mk_subnet "dhcp4"]; if_dns := None; if_params := [] |}.

Definition stp_bridge_iface : interface :=
  {| if_name := "br0"; if_config_id := None; if_type := "bridge";
     if_mtu := Some 1500%Z; if_mac_address := Some "aa:bb:cc:00:11:22";
     if_wakeonlan := PNone; if_bond_master := None;
     if_vlan_raw_device := None; if_bridge_ports := [];
     if_subnets := [mk_subnet "dhcp4"]; if_dns := None;
     if_params := [("bridge_stp", PBool false);
                   ("bridge_bridgeprio", PInt 32768);
                   ("bridge_fd", PInt 15)] |}.

Definition ib_iface : interface :=
  {| if_name := "ib0"; if_config_id := None; if_type := "infiniband";
     if_mtu := None; if_mac_address := Some "80:00:02:08:fe:80";
     if_wakeonlan := PNone; if_bond_master := None;
     if_vlan_raw_device := None; if_bridge_ports := [];
     if_subnets := [mk_subnet "dhcp4"]; if_dns := None; if_params := [] |}.

(** Everything [render_interface] may write into its own profile, with
    the [ethernet] section of a bond narrowed to its mtu. *)
Definition W_self (ty : string) (iface : interface) : list pattern :=
  (W_connectivity iface
   ++ [AnyOption ty; Opt "connection" "interface-name"]
   ++ (if String.eqb ty "bond" then [Opt "ethernet" "mtu"] else [])
   ++ W_layer3 ++ W_dns ++ W_port)%list.

(** A bond slave listed before its bond, and the bond. *)
Definition slave_iface : interface :=
  {| if_name := "eth1"; if_config_id := None; if_type := "physical";
     if_mtu := None; if_mac_address := None; if_wakeonlan := PNone;
     if_bond_master := Some "bond0"; if_vlan_raw_device := None;
     if_bridge_ports := []; if_subnets := []; if_dns := None;
     if_params := [] |}.

Definition newline : ascii := ascii_of_nat 10.

(** Text that the key file format keeps apart: no line break in the name
    of a section, in the name of an option or in a value, and no equals
    sign in the name of an option. *)
Definition option_safe (kv : string * string) : bool :=
  no_char newline (fst kv) && no_char "=" (fst kv) && no_char newline (snd kv).

Definition keyfile_safe (cfg : config) : bool :=
  forallb (fun entry =>
             no_char newline (fst entry) && forallb option_safe (snd entry))
          cfg.

(** The line of an option in the dump of a profile. *)
Definition option_line (kv : string * string) : string :=
  fst kv ++ "=" ++ snd kv ++ nl.



(** The values of the routes of [family], in the order of the subnets and,
    within a subnet, of its routes. *)
Definition routes_of {C : Collaborators} (family : string)
  (subnets : list subnet) : list string :=
  flat_map (fun sn =>
              map route_value
                  (filter (fun rt => String.eqb (route_family rt) family)
                          (sn_routes sn)))
           subnets.

(** An ethernet device whose ipv4 subnet carries an ipv6 route between two
    ipv4 routes. *)
Definition routed_iface : interface :=
  {| if_name := "eth0"; if_config_id := None; if_type := "physical";
     if_mtu := None; if_mac_address := None; if_wakeonlan := PNone;
     if_bond_master := None; if_vlan_raw_device := None;
     if_bridge_ports := [];
     if_subnets :=
       [{| sn_type := "static"; sn_address := Some "10.0.0.2";
           sn_prefix := Some 24%Z; sn_gateway := None;
           sn_routes :=
             [ipv4_route; ipv6_route;
              {| rt_network := "192.168.0.0"; rt_prefix := 16;
                 rt_gateway := Some "10.0.0.1"; rt_mtu := None |}];
           sn_dns_nameservers := None; sn_dns_search := None;
           sn_mtu := None |}];
     if_dns := None; if_params := [] |}.

(** The method resolutions of a render of [iface] as type [ty]: one per
    subnet, in order, for the family and the type of the subnet; for a
    bond without subnets one per family, without a type. *)
Definition layer3_calls {C : Collaborators} (ty : string) (iface : interface)
  : list (string * option string) :=
  if String.eqb ty "bond" && is_empty (if_subnets iface)
  then [("ipv4", None); ("ipv6", None)]
  else map (fun sn => (subnet_family sn, Some (sn_type sn)))
           (if_subnets iface).

(** Two profiles agree on the methods and the may-fail flags of both
    families. *)
Definition same_layer3 (cfg cfg' : config) : Prop :=
  forall family o,
    family = "ipv4" \/ family = "ipv6" ->
    o = "method" \/ o = "may-fail" ->
    get_option cfg family o = get_option cfg' family o.

(** An ethernet device with a dhcp4 and a dhcp6 subnet. *)
Definition dhcp_dual_iface : interface :=
  mk_iface "eth0" "physical" [mk_subnet "dhcp4"; mk_subnet "dhcp6"].

(** * Properties *)

(** ** Strings and decimal numerals *)

Lemma append_inv_head (p a b : string) : p ++ a = p ++ b -> a = b.
Proof.
  induction p as [|c p IH]; simpl; intros H.
  - exact H.
  - injection H as H. auto.
Qed.

Lemma append_assoc (a b c : string) : (a ++ b) ++ c = a ++ (b ++ c).
Proof.
  induction a as [|x a IH]; simpl; [reflexivity|now rewrite IH].
Qed.

Lemma str_nat_inj (n m : nat) : str_nat n = str_nat m -> n = m.
Proof.
  unfold str_nat. intros H.
  apply Unsigned.to_uint_inj.
  apply (f_equal NilEmpty.uint_of_string) in H.
  rewrite !NilEmpty.usu in H. congruence.
Qed.

Lemma numbered_key_inj (p : string) (n m : nat) :
  p ++ str_nat n = p ++ str_nat m -> n = m.
Proof.
  intros H. apply str_nat_inj. eapply append_inv_head; eauto.
Qed.

Lemma uint_of_string_options (s : string) :
  NilEmpty.uint_of_string (s ++ "_options") = None.
Proof.
  induction s as [|c s IH]; simpl.
  - reflexivity.
  - rewrite IH. unfold uint_of_char.
    destruct c as [[] [] [] [] [] [] [] []]; reflexivity.
Qed.

Lemma numbered_key_not_options (p : string) (n m : nat) :
  p ++ str_nat n <> (p ++ str_nat m) ++ "_options".
Proof.
  intros H.
  rewrite append_assoc in H.
  apply append_inv_head in H.
  apply (f_equal NilEmpty.uint_of_string) in H.
  unfold str_nat in H.
  rewrite NilEmpty.usu, uint_of_string_options in H. discriminate.
Qed.

Lemma starts_with_append (p s : string) : starts_with p (p ++ s) = true.
Proof.
  induction p as [|c p IH]; simpl; [reflexivity|].
  now rewrite Ascii.eqb_refl.
Qed.

(** ** Insertion-ordered maps *)

Section AssocFacts.
Context {V : Type}.
Implicit Types (l : list (string * V)) (k : string) (v : V).

Lemma assoc_set_same k v l : assoc k (assoc_set k v l) = Some v.
Proof.
  induction l as [|[k' v'] l IH]; simpl.
  - now rewrite String.eqb_refl.
  - destruct (String.eqb k k') eqn:E; simpl; rewrite E; auto.
Qed.

Lemma assoc_set_other k k' v l :
  k <> k' -> assoc k' (assoc_set k v l) = assoc k' l.
Proof.
  intros Hne. induction l as [|[k0 v0] l IH]; simpl.
  - destruct (String.eqb_spec k' k); congruence.
  - destruct (String.eqb_spec k k0) as [->|]; simpl.
    + destruct (String.eqb_spec k' k0); congruence.
    + now rewrite IH.
Qed.

Lemma assoc_set_lookup k k' v l :
  assoc k' (assoc_set k v l) = if String.eqb k k' then Some v else assoc k' l.
Proof.
  destruct (String.eqb_spec k k') as [->|Hne].
  - apply assoc_set_same.
  - now apply assoc_set_other.
Qed.

Lemma assoc_set_id k v l : assoc k l = Some v -> assoc_set k v l = l.
Proof.
  induction l as [|[k0 v0] l IH]; simpl; [discriminate|].
  destruct (String.eqb_spec k k0) as [->|]; intros H.
  - congruence.
  - now rewrite IH.
Qed.

Lemma assoc_set_twice k v v' l :
  assoc_set k v (assoc_set k v' l) = assoc_set k v l.
Proof.
  induction l as [|[k0 v0] l IH]; simpl.
  - now rewrite String.eqb_refl.
  - destruct (String.eqb k k0) eqn:E; simpl; rewrite E; congruence.
Qed.

Lemma assoc_set_keys_present k v l :
  assoc k l <> None -> map fst (assoc_set k v l) = map fst l.
Proof.
  induction l as [|[k0 v0] l IH]; simpl; [congruence|].
  destruct (String.eqb k k0) eqn:E; simpl; intros H; [reflexivity|].
  now rewrite IH.
Qed.

Lemma assoc_set_keys_absent k v l :
  assoc k l = None -> map fst (assoc_set k v l) = (map fst l ++ [k])%list.
Proof.
  induction l as [|[k0 v0] l IH]; simpl; [reflexivity|].
  destruct (String.eqb k k0) eqn:E; simpl; intros H; [discriminate|].
  now rewrite IH.
Qed.

Lemma assoc_In k l : assoc k l <> None <-> In k (map fst l).
Proof.
  induction l as [|[k0 v0] l IH]; simpl.
  - split; [congruence|tauto].
  - destruct (String.eqb_spec k k0) as [->|Hne].
    + split; [auto|congruence].
    + rewrite IH. split; [auto|intros [?|?]; congruence || auto].
Qed.

Lemma assoc_In_pair k v l :
  NoDup (map fst l) -> In (k, v) l -> assoc k l = Some v.
Proof.
  induction l as [|[k0 v0] l IH]; simpl; [tauto|].
  intros Hnd [Heq|Hin].
  - injection Heq as -> ->. now rewrite String.eqb_refl.
  - inversion Hnd as [|? ? Hnotin Hnd']; subst.
    destruct (String.eqb_spec k k0) as [->|Hne]; [|auto].
    exfalso. apply Hnotin. now apply (in_map fst) in Hin.
Qed.

Lemma assoc_set_NoDup k v l :
  NoDup (map fst l) -> NoDup (map fst (assoc_set k v l)).
Proof.
  intros Hnd. destruct (assoc k l) eqn:E.
  - rewrite assoc_set_keys_present; congruence.
  - rewrite assoc_set_keys_absent by assumption.
    apply NoDup_app; [assumption|repeat constructor; simpl; tauto|].
    intros x Hx [<-|[]]. apply assoc_In in Hx. congruence.
Qed.

Lemma assoc_set_length_absent k v l :
  assoc k l = None -> List.length (assoc_set k v l) = S (List.length l).
Proof.
  induction l as [|[k0 v0] l IH]; simpl; [reflexivity|].
  destruct (String.eqb k k0); simpl; intros H; [discriminate|].
  now rewrite IH.
Qed.
End AssocFacts.

(** ** The configuration container *)

Lemma has_option_get_option cfg s o :
  has_option cfg s o =
  match get_option cfg s o with Some _ => true | None => false end.
Proof.
  unfold has_option, get_option, assoc_mem. now destruct (assoc s cfg).
Qed.

Lemma get_option_has_section cfg s o v :
  get_option cfg s o = Some v -> has_section cfg s = true.
Proof.
  unfold get_option, has_section, assoc_mem.
  destruct (assoc s cfg); [reflexivity|discriminate].
Qed.

Lemma get_option_no_section cfg s o :
  has_section cfg s = false -> get_option cfg s o = None.
Proof.
  unfold get_option, has_section, assoc_mem.
  destruct (assoc s cfg); [discriminate|reflexivity].
Qed.

Lemma get_option_put s o v cfg s' o' :
  get_option (put s o v cfg) s' o' =
  if String.eqb s s' && String.eqb o o' then Some v else get_option cfg s' o'.
Proof.
  unfold get_option, put. rewrite assoc_set_lookup.
  destruct (String.eqb_spec s s') as [->|Hs]; simpl; [|reflexivity].
  rewrite assoc_set_lookup.
  destruct (String.eqb o o'); [reflexivity|].
  now destruct (assoc s' cfg).
Qed.

Lemma has_section_put s o v cfg s' :
  has_section (put s o v cfg) s' = String.eqb s s' || has_section cfg s'.
Proof.
  unfold has_section, assoc_mem, put. rewrite assoc_set_lookup.
  now destruct (String.eqb s s').
Qed.

Lemma get_option_set_section cfg s items s' o' :
  get_option (set_section cfg s items) s' o' =
  if String.eqb s s' then assoc o' items else get_option cfg s' o'.
Proof.
  unfold get_option, set_section. rewrite assoc_set_lookup.
  now destruct (String.eqb s s').
Qed.

Lemma has_section_set_section cfg s items s' :
  has_section (set_section cfg s items) s' =
  String.eqb s s' || has_section cfg s'.
Proof.
  unfold has_section, assoc_mem, set_section. rewrite assoc_set_lookup.
  now destruct (String.eqb s s').
Qed.

Lemma get_option_put_default s o v cfg s' o' :
  get_option (put_default s o v cfg) s' o' =
  if String.eqb s s' && String.eqb o o'
  then Some (match get_option cfg s o with Some x => x | None => v end)
  else get_option cfg s' o'.
Proof.
  unfold put_default. rewrite has_option_get_option.
  destruct (get_option cfg s o) eqn:E.
  - destruct (String.eqb_spec s s') as [<-|]; simpl; [|reflexivity].
    destruct (String.eqb_spec o o') as [<-|]; simpl; congruence.
  - apply get_option_put.
Qed.

Lemma has_section_put_default s o v cfg s' :
  has_section (put_default s o v cfg) s' =
  String.eqb s s' || has_section cfg s'.
Proof.
  unfold put_default. rewrite has_option_get_option.
  destruct (get_option cfg s o) eqn:E.
  - destruct (String.eqb_spec s s') as [<-|]; simpl; [|reflexivity].
    eapply get_option_has_section; eauto.
  - apply has_section_put.
Qed.

Lemma get_option_ensure_section s cfg s' o' :
  get_option (ensure_section s cfg) s' o' = get_option cfg s' o'.
Proof.
  unfold ensure_section. destruct (has_section cfg s) eqn:E; [reflexivity|].
  rewrite get_option_set_section.
  destruct (String.eqb_spec s s') as [<-|]; [|reflexivity].
  simpl. symmetry. now apply get_option_no_section.
Qed.

Lemma has_section_ensure_section s cfg s' :
  has_section (ensure_section s cfg) s' =
  String.eqb s s' || has_section cfg s'.
Proof.
  unfold ensure_section. destruct (has_section cfg s) eqn:E.
  - destruct (String.eqb_spec s s') as [<-|]; simpl; congruence.
  - apply has_section_set_section.
Qed.

Lemma cfg_set_put cfg s o v :
  has_section cfg s = true -> cfg_set cfg s o v = Ok (put s o v cfg).
Proof.
  unfold has_section, assoc_mem, cfg_set, put.
  destruct (assoc s cfg); [reflexivity|discriminate].
Qed.

Lemma cfg_set_inv cfg s o v cfg' :
  cfg_set cfg s o v = Ok cfg' ->
  cfg' = put s o v cfg /\ has_section cfg s = true.
Proof.
  unfold has_section, assoc_mem, cfg_set, put.
  destruct (assoc s cfg); [|discriminate].
  intros H. injection H as <-. auto.
Qed.

Lemma cfg_get_some cfg s o v :
  get_option cfg s o = Some v -> cfg_get cfg s o = Ok v.
Proof.
  unfold get_option, cfg_get. destruct (assoc s cfg); [|discriminate].
  now intros ->.
Qed.

Lemma cfg_get_inv cfg s o v :
  cfg_get cfg s o = Ok v -> get_option cfg s o = Some v.
Proof.
  unfold get_option, cfg_get. destruct (assoc s cfg); [|discriminate].
  destruct (assoc o s0); [|discriminate]. congruence.
Qed.

Lemma cfg_get_opt_inv cfg s o v :
  cfg_get_opt cfg s o = Ok v ->
  v = get_option cfg s o /\ has_section cfg s = true.
Proof.
  unfold get_option, cfg_get_opt, has_section, assoc_mem.
  destruct (assoc s cfg); [|discriminate]. intros H. injection H as <-. auto.
Qed.

Lemma _set_default_eq s o v cfg :
  _set_default s o v cfg = Ok (put_default s o v cfg).
Proof.
  unfold _set_default, put_default.
  destruct (has_section cfg s) eqn:Hs.
  - destruct (has_option cfg s o); [reflexivity|]. now apply cfg_set_put.
  - assert (Hn : assoc s cfg = None).
    { unfold has_section, assoc_mem in Hs. now destruct (assoc s cfg). }
    assert (Ho : has_option cfg s o = false).
    { unfold has_option. now rewrite Hn. }
    rewrite Ho.
    assert (Ho' : has_option (set_section cfg s []) s o = false).
    { unfold has_option, set_section. now rewrite assoc_set_same. }
    rewrite Ho'. unfold cfg_set, put, set_section.
    rewrite assoc_set_same, Hn, assoc_set_twice. reflexivity.
Qed.

Lemma _get_config_option_eq cfg s o :
  _get_config_option cfg s o = Ok (get_option cfg s o).
Proof.
  unfold _get_config_option, _config_option_is_set.
  rewrite has_option_get_option.
  destruct (get_option cfg s o) eqn:E.
  - rewrite (get_option_has_section _ _ _ _ E). simpl.
    now rewrite (cfg_get_some _ _ _ _ E).
  - now rewrite andb_false_r.
Qed.

Lemma _change_set_config_option_eq s o v cfg :
  _change_set_config_option s o v cfg =
  Ok (if has_option cfg s o then put s o v cfg else cfg).
Proof.
  unfold _change_set_config_option, _config_option_is_set.
  rewrite has_option_get_option.
  destruct (get_option cfg s o) eqn:E.
  - rewrite (get_option_has_section _ _ _ _ E). simpl.
    apply cfg_set_put. eapply get_option_has_section; eauto.
  - now rewrite andb_false_r.
Qed.

Create Rewrite HintDb cfg.
#[local] Hint Rewrite get_option_put has_section_put get_option_put_default
  has_section_put_default get_option_set_section has_section_set_section
  get_option_ensure_section has_section_ensure_section String.eqb_refl
  andb_true_r andb_false_r orb_true_r orb_false_r : cfg.

(** Comparisons of string literals, evaluated. *)
Ltac eqb_eval :=
  repeat match goal with
         | |- context [String.eqb ?a ?b] =>
             let v := eval vm_compute in (String.eqb a b) in
             match v with true => idtac | false => idtac end;
             change (String.eqb a b) with v
         | H : context [String.eqb ?a ?b] |- _ =>
             let v := eval vm_compute in (String.eqb a b) in
             match v with true => idtac | false => idtac end;
             change (String.eqb a b) with v in H
         end.

Ltac cfg_step :=
  first [ progress autorewrite with cfg in *
        | progress eqb_eval
        | progress cbn [andb orb negb fst snd bind opt_eqb] in * ].

Ltac cfg_simpl := repeat cfg_step.

(** ** Layer-3 method resolution *)

Lemma _set_ip_method_eq family subnet_type cfg :
  _set_ip_method family subnet_type cfg =
  Ok (set_ip_method_fn family subnet_type cfg).
Proof.
  unfold _set_ip_method, set_ip_method_fn.
  rewrite _set_default_eq. cbn [bind].
  set (cfg1 := put_default family "method" "disabled" cfg).
  assert (Hm1 : exists x, get_option cfg1 family "method" = Some x).
  { subst cfg1. rewrite get_option_put_default, !String.eqb_refl. simpl. eauto. }
  assert (Hs1 : has_section cfg1 family = true).
  { destruct Hm1 as [x Hx]. eapply get_option_has_section; eauto. }
  assert (Hreq : exists cfg2 : config,
    (match subnet_type with
     | Some t =>
         if truthy subnet_type then
           match assoc t method_map with
           | Some m => Ok (m, cfg1)
           | None => cfg0 <- cfg_set cfg1 family "may-fail" "true" ;;
                     Ok ("auto", cfg0)
           end
         else Ok ("disabled", cfg1)
     | None => Ok ("disabled", cfg1)
     end) = Ok (fst (requested subnet_type), cfg2)
    /\ cfg2 = (if snd (requested subnet_type)
               then put family "may-fail" "true" cfg1 else cfg1)).
  { unfold requested. destruct subnet_type as [t|]; [|eauto].
    destruct (truthy (Some t)); [|eauto].
    destruct (assoc t method_map); [eauto|].
    rewrite (cfg_set_put _ _ _ _ Hs1). cbn. eauto. }
  destruct Hreq as [cfg2 [-> Hcfg2]]. cbn [bind].
  destruct (requested subnet_type) as [method unknown]. cbn [fst snd] in *.
  rewrite <- Hcfg2.
  assert (Hm2 : exists x, get_option cfg2 family "method" = Some x).
  { destruct Hm1 as [x Hx]. exists x. subst cfg2.
    destruct unknown; [|assumption].
    rewrite get_option_put, String.eqb_refl. simpl. assumption. }
  assert (Hs2 : has_section cfg2 family = true).
  { destruct Hm2 as [x Hx]. eapply get_option_has_section; eauto. }
  destruct Hm2 as [cur Hcur]. rewrite (cfg_get_some _ _ _ _ Hcur).
  rewrite Hcur. cbn [bind opt_eqb].
  destruct (String.eqb cur "dhcp"); [reflexivity|].
  destruct (String.eqb cur "auto" && String.eqb method "manual");
    [reflexivity|].
  unfold forces_ipv4_disabled.
  assert (Hpre : exists cfg3 : config,
    (match subnet_type with
     | Some t =>
         if mem t ["ipv6_dhcpv6-stateful"; "ipv6_dhcpv6-stateless";
                   "ipv6_slaac"]
         then _set_default "ipv4" "method" "disabled" cfg2
         else Ok cfg2
     | None => Ok cfg2
     end) = Ok cfg3
    /\ cfg3 = (if match subnet_type with
                  | Some t => mem t ["ipv6_dhcpv6-stateful";
                                     "ipv6_dhcpv6-stateless"; "ipv6_slaac"]
                  | None => false
                  end
               then put_default "ipv4" "method" "disabled" cfg2 else cfg2)
    /\ has_section cfg3 family = true).
  { destruct subnet_type as [t|]; [|eauto].
    destruct (mem t _); [|eauto].
    rewrite _set_default_eq. eexists; repeat split.
    rewrite has_section_put_default, Hs2. apply orb_true_r. }
  destruct Hpre as [cfg3 [-> [Hcfg3 Hs3]]]. cbn [bind].
  rewrite <- Hcfg3, (cfg_set_put _ _ _ _ Hs3). cbn [bind].
  apply _set_default_eq.
Qed.

Lemma set_ip_method_fn_method family subnet_type cfg :
  get_option (set_ip_method_fn family subnet_type cfg) family "method" =
  let cur := match get_option cfg family "method" with
             | Some x => x
             | None => "disabled"
             end in
  if String.eqb cur "dhcp" then Some cur
  else if String.eqb cur "auto"
          && String.eqb (fst (requested subnet_type)) "manual" then Some cur
  else Some (fst (requested subnet_type)).
Proof.
  unfold set_ip_method_fn.
  destruct (requested subnet_type) as [method unknown]. cbn [fst].
  set (cur := match get_option cfg family "method" with
              | Some x => x | None => "disabled" end).
  assert (H2 : get_option
                 (if unknown
                  then put family "may-fail" "true"
                         (put_default family "method" "disabled" cfg)
                  else put_default family "method" "disabled" cfg)
                 family "method" = Some cur).
  { destruct unknown; cfg_simpl; reflexivity. }
  rewrite H2. cbn [opt_eqb]. cbv zeta.
  destruct (String.eqb cur "dhcp"); [assumption|].
  destruct (String.eqb cur "auto" && String.eqb method "manual");
    [assumption|].
  cfg_simpl. reflexivity.
Qed.

Lemma set_ip_method_fn_other_method family subnet_type cfg g :
  g <> family ->
  get_option (set_ip_method_fn family subnet_type cfg) g "method" =
  get_option cfg g "method"
  \/ (get_option cfg g "method" = None
      /\ get_option (set_ip_method_fn family subnet_type cfg) g "method"
         = Some "disabled").
Proof.
  intros Hne. unfold set_ip_method_fn.
  destruct (requested subnet_type) as [method unknown].
  assert (Hf : String.eqb family g = false) by (apply String.eqb_neq; congruence).
  set (cfg2 := if unknown
               then put family "may-fail" "true"
                      (put_default family "method" "disabled" cfg)
               else put_default family "method" "disabled" cfg).
  assert (H2 : get_option cfg2 g "method" = get_option cfg g "method").
  { subst cfg2. destruct unknown; cfg_simpl; rewrite Hf; cfg_simpl; reflexivity. }
  destruct (opt_eqb (get_option cfg2 family "method") "dhcp"); [auto|].
  destruct (opt_eqb (get_option cfg2 family "method") "auto"
            && String.eqb method "manual"); [auto|].
  rewrite get_option_put_default, Hf. cbn [andb].
  rewrite get_option_put, Hf. cbn [andb].
  destruct (forces_ipv4_disabled subnet_type); [|auto].
  rewrite get_option_put_default, H2.
  destruct (String.eqb_spec "ipv4" g) as [<-|]; cbn [andb]; [|auto].
  rewrite String.eqb_refl.
  destruct (get_option cfg2 "ipv4" "method") eqn:E;
    [left|right]; rewrite ?H2 in *; auto; congruence.
Qed.

Lemma resolve_methods_eq calls cfg :
  resolve_methods calls cfg =
  Ok (fold_left (fun cfg call => set_ip_method_fn (fst call) (snd call) cfg)
                calls cfg).
Proof.
  unfold resolve_methods. revert cfg.
  induction calls as [|c calls IH]; intros cfg; cbn [foldM fold_left].
  - reflexivity.
  - rewrite _set_ip_method_eq. cbn [bind]. apply IH.
Qed.

Lemma method_map_values t m :
  assoc t method_map = Some m -> m = "manual" \/ m = "auto" \/ m = "dhcp".
Proof.
  unfold method_map. cbn [assoc].
  repeat match goal with
         | |- context [String.eqb t ?x] => destruct (String.eqb t x)
         end;
    intros H; inversion H; auto.
Qed.

Lemma method_map_truthy t m :
  assoc t method_map = Some m -> truthy (Some t) = true.
Proof.
  destruct t; [discriminate|reflexivity].
Qed.

Lemma requested_known t m :
  assoc t method_map = Some m -> requested (Some t) = (m, false).
Proof.
  intros H. unfold requested.
  rewrite (method_map_truthy _ _ H), H. reflexivity.
Qed.

Lemma requested_truthy t :
  truthy t = true ->
  let m := fst (requested t) in m = "manual" \/ m = "auto" \/ m = "dhcp".
Proof.
  intros H. unfold requested. destruct t as [t|]; [|discriminate].
  rewrite H. destruct (assoc t method_map) eqn:E; cbn [fst]; [|auto].
  eapply method_map_values; eauto.
Qed.

Lemma put_default_set s o v x cfg :
  get_option cfg s o = Some x -> put_default s o v cfg = cfg.
Proof.
  intros H. unfold put_default. now rewrite has_option_get_option, H.
Qed.

Lemma dhcp_is_terminal family cfg g t :
  get_option cfg family "method" = Some "dhcp" ->
  get_option (set_ip_method_fn g t cfg) family "method" = Some "dhcp".
Proof.
  intros H. destruct (String.eqb_spec family g) as [<-|Hne].
  - rewrite set_ip_method_fn_method, H. reflexivity.
  - destruct (set_ip_method_fn_other_method g t cfg family Hne) as [E|[E _]];
      congruence.
Qed.

Lemma manual_after_auto_ignored family cfg t :
  get_option cfg family "method" = Some "auto" ->
  assoc t method_map = Some "manual" ->
  set_ip_method_fn family (Some t) cfg = cfg.
Proof.
  intros Hcur Hreq. unfold set_ip_method_fn.
  rewrite (requested_known _ _ Hreq), (put_default_set _ _ _ _ _ Hcur), Hcur.
  reflexivity.
Qed.

Lemma method_rank_step family cfg g t :
  truthy t = true ->
  method_rank (get_option cfg family "method")
  <= method_rank (get_option (set_ip_method_fn g t cfg) family "method").
Proof.
  intros Ht. destruct (String.eqb_spec family g) as [<-|Hne].
  - rewrite set_ip_method_fn_method. cbv zeta.
    pose proof (requested_truthy t Ht) as Hm. cbv zeta in Hm.
    set (cur := match get_option cfg family "method" with
                | Some x => x | None => "disabled" end).
    assert (Hcur : method_rank (get_option cfg family "method")
                   = method_rank (Some cur)).
    { subst cur. now destruct (get_option cfg family "method"). }
    rewrite Hcur. unfold method_rank. cbn [opt_eqb].
    destruct (String.eqb cur "dhcp") eqn:Ed; cbn [opt_eqb]; rewrite ?Ed;
      [lia|].
    destruct (String.eqb cur "auto") eqn:Ea; cbn [andb opt_eqb].
    + destruct Hm as [-> | [-> | ->] ]; eqb_eval; cbn [opt_eqb];
        rewrite ?Ed, ?Ea; eqb_eval; cbv iota; lia.
    + destruct Hm as [-> | [-> | ->] ]; eqb_eval; cbn [opt_eqb]; eqb_eval;
        destruct (String.eqb cur "manual"); cbv iota; lia.
  - destruct (set_ip_method_fn_other_method g t cfg family Hne) as [E|[E E']].
    + rewrite E. lia.
    + rewrite E. cbn. lia.
Qed.

Lemma fresh_profile_get_option con_id s o :
  mem o ["id"; "uuid"; "autoconnect-priority";
         "org.freedesktop.NetworkManager.origin"] = false ->
  get_option (NMConnection con_id) s o = None.
Proof.
  unfold mem. cbn [existsb]. intros H.
  repeat (apply orb_false_elim in H; destruct H as [? H]).
  unfold NMConnection, set_section, get_option. cbn [assoc_set].
  eqb_eval. cbn [assoc].
  destruct (String.eqb s "connection"); [cbn [assoc]|].
  - repeat match goal with
           | E : String.eqb o _ = false |- _ => rewrite E; clear E
           end. reflexivity.
  - destruct (String.eqb s "user"); [cbn [assoc]|reflexivity].
    repeat match goal with
           | E : String.eqb o _ = false |- _ => rewrite E; clear E
           end. reflexivity.
Qed.

Lemma dhcp_is_terminal_fold family calls cfg :
  get_option cfg family "method" = Some "dhcp" ->
  get_option
    (fold_left (fun cfg call => set_ip_method_fn (fst call) (snd call) cfg)
               calls cfg) family "method" = Some "dhcp".
Proof.
  revert cfg. induction calls as [|c calls IH]; intros cfg H; cbn [fold_left].
  - exact H.
  - apply IH. now apply dhcp_is_terminal.
Qed.

Lemma method_rank_fold family calls cfg :
  Forall (fun call => truthy (snd call) = true) calls ->
  method_rank (get_option cfg family "method")
  <= method_rank
       (get_option
          (fold_left (fun cfg call => set_ip_method_fn (fst call) (snd call) cfg)
                     calls cfg) family "method").
Proof.
  intros Hall. revert cfg.
  induction Hall as [|c calls Hc Hall IH]; intros cfg; cbn [fold_left].
  - lia.
  - etransitivity; [|apply IH]. now apply method_rank_step.
Qed.

(** C6: the layer-3 method of a family never downgrades.  Once the method is
    [dhcp], no later sequence of resolutions, for any family and subnet type,
    changes it; once it is [auto], a resolution that asks for [manual] leaves
    the whole profile as it is; along any sequence of resolutions from subnet
    types the method only moves up the order disabled, manual, auto, dhcp;
    and the subnets [dhcp; static] of one family on a new profile end with
    [auto]. *)
Theorem C6_method_never_downgrades (family : string) (cfg : config) :
  (forall calls,
      get_option cfg family "method" = Some "dhcp" ->
      exists cfg', resolve_methods calls cfg = Ok cfg'
                   /\ get_option cfg' family "method" = Some "dhcp")
  /\ (forall t,
         get_option cfg family "method" = Some "auto" ->
         assoc t method_map = Some "manual" ->
         _set_ip_method family (Some t) cfg = Ok cfg)
  /\ (forall calls,
         Forall (fun call => truthy (snd call) = true) calls ->
         exists cfg', resolve_methods calls cfg = Ok cfg'
                      /\ method_rank (get_option cfg family "method")
                         <= method_rank (get_option cfg' family "method"))
  /\ (forall con_id,
         exists cfg',
           resolve_methods [(family, Some "dhcp"); (family, Some "static")]
                           (NMConnection con_id) = Ok cfg'
           /\ get_option cfg' family "method" = Some "auto").
Proof.
  repeat split.
  - intros calls H. rewrite resolve_methods_eq. eexists. split; [reflexivity|].
    now apply dhcp_is_terminal_fold.
  - intros t Hcur Hreq.
    rewrite _set_ip_method_eq. f_equal.
    now apply manual_after_auto_ignored.
  - intros calls Hall. rewrite resolve_methods_eq. eexists.
    split; [reflexivity|]. now apply method_rank_fold.
  - intros con_id. rewrite resolve_methods_eq. eexists.
    split; [reflexivity|]. cbn [fold_left fst snd].
    rewrite !set_ip_method_fn_method.
    rewrite fresh_profile_get_option by reflexivity.
    reflexivity.
Qed.

Lemma C6_method_never_downgrades_witness :
  (exists cfg',
      resolve_methods [("ipv4", Some "static"); ("ipv6", Some "ipv6_slaac")]
                      [("ipv4", [("method", "dhcp")])] = Ok cfg'
      /\ get_option cfg' "ipv4" "method" = Some "dhcp")
  /\ _set_ip_method "ipv4" (Some "static") [("ipv4", [("method", "auto")])]
     = Ok [("ipv4", [("method", "auto")])]
  /\ (exists cfg',
         resolve_methods [("ipv4", Some "static"); ("ipv4", Some "dhcp4")]
                         [("ipv4", [("method", "manual")])] = Ok cfg'
         /\ method_rank (Some "manual")
            <= method_rank (get_option cfg' "ipv4" "method")).
Proof.
  pose proof (C6_method_never_downgrades "ipv4" [("ipv4", [("method", "dhcp")])])
    as [H1 _].
  pose proof (C6_method_never_downgrades "ipv4" [("ipv4", [("method", "auto")])])
    as [_ [H2 _]].
  pose proof (C6_method_never_downgrades "ipv4" [("ipv4", [("method", "manual")])])
    as [_ [_ [H3 _]]].
  split; [|split].
  - apply H1. reflexivity.
  - apply H2; reflexivity.
  - apply H3. repeat constructor.
Defined.

(** ** may-fail *)

Lemma set_ip_method_fn_mayfail family subnet_type cfg :
  get_option (set_ip_method_fn family subnet_type cfg) family "may-fail" =
  let cur := match get_option cfg family "method" with
             | Some x => x
             | None => "disabled"
             end in
  let forced := if snd (requested subnet_type) then Some "true"
                else get_option cfg family "may-fail" in
  if String.eqb cur "dhcp" then forced
  else if String.eqb cur "auto"
          && String.eqb (fst (requested subnet_type)) "manual" then forced
  else Some (match forced with Some x => x | None => "false" end).
Proof.
  unfold set_ip_method_fn.
  destruct (requested subnet_type) as [method unknown]. cbn [fst snd].
  set (cur := match get_option cfg family "method" with
              | Some x => x | None => "disabled" end).
  set (cfg2 := if unknown
               then put family "may-fail" "true"
                      (put_default family "method" "disabled" cfg)
               else put_default family "method" "disabled" cfg).
  assert (Hm : get_option cfg2 family "method" = Some cur).
  { subst cfg2. destruct unknown; cfg_simpl; reflexivity. }
  assert (Hf : get_option cfg2 family "may-fail"
               = if unknown then Some "true"
                 else get_option cfg family "may-fail").
  { subst cfg2. destruct unknown; cfg_simpl; reflexivity. }
  rewrite Hm. cbn [opt_eqb]. cbv zeta.
  destruct (String.eqb cur "dhcp"); [assumption|].
  destruct (String.eqb cur "auto" && String.eqb method "manual");
    [assumption|].
  rewrite get_option_put_default, !String.eqb_refl. cbn [andb].
  rewrite get_option_put. eqb_eval. rewrite andb_false_r.
  destruct (forces_ipv4_disabled subnet_type).
  - rewrite get_option_put_default. eqb_eval. rewrite andb_false_r.
    now rewrite Hf.
  - now rewrite Hf.
Qed.

Lemma set_ip_method_fn_other_mayfail family subnet_type cfg g :
  g <> family ->
  get_option (set_ip_method_fn family subnet_type cfg) g "may-fail" =
  get_option cfg g "may-fail".
Proof.
  intros Hne. unfold set_ip_method_fn.
  destruct (requested subnet_type) as [method unknown].
  assert (Hf : String.eqb family g = false) by (apply String.eqb_neq; congruence).
  set (cfg2 := if unknown
               then put family "may-fail" "true"
                      (put_default family "method" "disabled" cfg)
               else put_default family "method" "disabled" cfg).
  assert (H2 : get_option cfg2 g "may-fail" = get_option cfg g "may-fail").
  { subst cfg2. destruct unknown; cfg_simpl; rewrite ?Hf; cfg_simpl;
      reflexivity. }
  destruct (opt_eqb (get_option cfg2 family "method") "dhcp"); [auto|].
  destruct (opt_eqb (get_option cfg2 family "method") "auto"
            && String.eqb method "manual"); [auto|].
  rewrite get_option_put_default, Hf. cbn [andb].
  rewrite get_option_put, Hf. cbn [andb].
  destruct (forces_ipv4_disabled subnet_type); [|auto].
  rewrite get_option_put_default. eqb_eval. now rewrite andb_false_r.
Qed.

Lemma _set_mayfail_true_if_both_false_dhcp_eq cfg :
  _set_mayfail_true_if_both_false_dhcp cfg = Ok (normalize_mayfail_fn cfg).
Proof.
  unfold _set_mayfail_true_if_both_false_dhcp, normalize_mayfail_fn,
    both_false_dynamic.
  cbn [both_false_dhcp forallb].
  rewrite !_get_config_option_eq. cbn [bind].
  destruct (get_option cfg "ipv4" "may-fail") as [f4|] eqn:E4;
    cbn [opt_eqb negb andb]; [|reflexivity].
  destruct (String.eqb f4 "false") eqn:F4; cbn [negb andb]; [|reflexivity].
  destruct (is_dynamic (get_option cfg "ipv4" "method"));
    cbn [negb andb]; [|reflexivity].
  rewrite ?_get_config_option_eq. cbn [bind].
  destruct (get_option cfg "ipv6" "may-fail") as [f6|] eqn:E6;
    cbn [opt_eqb negb andb]; [|reflexivity].
  destruct (String.eqb f6 "false") eqn:F6; cbn [negb andb]; [|reflexivity].
  destruct (is_dynamic (get_option cfg "ipv6" "method"));
    cbn [negb andb bind]; [|reflexivity].
  cbn [foldM]. rewrite _change_set_config_option_eq.
  rewrite has_option_get_option, E4. cbn [bind].
  rewrite _change_set_config_option_eq.
  rewrite has_option_get_option, get_option_put. eqb_eval. cbn [andb].
  rewrite E6. reflexivity.
Qed.

Lemma mayfail_follows_method_fresh con_id :
  mayfail_follows_method (NMConnection con_id).
Proof.
  intros family _. left. now apply fresh_profile_get_option.
Qed.

Lemma mayfail_follows_method_step family subnet_type cfg :
  mayfail_follows_method cfg ->
  mayfail_follows_method (set_ip_method_fn family subnet_type cfg).
Proof.
  intros Hinv g Hg.
  destruct (String.eqb_spec g family) as [->|Hne].
  - rewrite set_ip_method_fn_mayfail in Hg. cbv zeta in Hg.
    rewrite set_ip_method_fn_method. cbv zeta.
    destruct (snd (requested subnet_type)).
    + repeat match type of Hg with
             | (if ?b then _ else _) = _ => destruct b
             end; discriminate.
    + destruct (get_option cfg family "may-fail") eqn:Emf.
      * repeat match type of Hg with
               | (if ?b then _ else _) = _ => destruct b
               end; discriminate.
      * destruct (Hinv family Emf) as [E | E]; rewrite E in Hg;
          cbn [andb] in Hg; eqb_eval; cbn [andb] in Hg; discriminate.
  - rewrite set_ip_method_fn_other_mayfail in Hg by assumption.
    destruct (set_ip_method_fn_other_method family subnet_type cfg g Hne)
      as [E|[_ E]]; rewrite E; auto.
Qed.

Lemma mayfail_follows_method_fold calls cfg :
  mayfail_follows_method cfg ->
  mayfail_follows_method
    (fold_left (fun cfg call => set_ip_method_fn (fst call) (snd call) cfg)
               calls cfg).
Proof.
  revert cfg. induction calls as [|c calls IH]; intros cfg H; cbn [fold_left].
  - exact H.
  - apply IH. now apply mayfail_follows_method_step.
Qed.

Lemma both_false_dynamic_one_static cfg :
  is_dynamic (get_option cfg "ipv4" "method") = false
  \/ is_dynamic (get_option cfg "ipv6" "method") = false ->
  both_false_dynamic cfg = false.
Proof.
  unfold both_false_dynamic. cbn [forallb].
  intros [-> | ->]; rewrite ?andb_false_r; reflexivity.
Qed.

(** C7: [may-fail] of a family.  A resolution from a recognised subnet type
    on a profile whose [may-fail] is still unset sets the method and sets
    [may-fail] to [false] (on every profile reached from a new one by
    resolutions, an unset [may-fail] means that no method beyond [disabled]
    is set, which is all the resolution needs).  A resolution makes
    [may-fail] [true] only for an unrecognised subnet type, and does so for
    each of them.  The normalization turns [may-fail] to [true] for both
    families when both have a dynamic method and [may-fail=false], and
    otherwise leaves the profile as it is, in particular when one family
    only is dynamic. *)
Theorem C7_may_fail (family : string) (cfg : config) :
  (forall t m,
      assoc t method_map = Some m ->
      get_option cfg family "may-fail" = None ->
      mayfail_follows_method cfg ->
      exists cfg', _set_ip_method family (Some t) cfg = Ok cfg'
                   /\ get_option cfg' family "method" = Some m
                   /\ get_option cfg' family "may-fail" = Some "false")
  /\ (forall con_id calls,
         exists cfg0, resolve_methods calls (NMConnection con_id) = Ok cfg0
                      /\ mayfail_follows_method cfg0)
  /\ (forall t g cfg',
         _set_ip_method family t cfg = Ok cfg' ->
         get_option cfg' g "may-fail" = Some "true" ->
         get_option cfg g "may-fail" = Some "true"
         \/ (g = family /\ snd (requested t) = true))
  /\ (forall t,
         snd (requested t) = true ->
         exists cfg', _set_ip_method family t cfg = Ok cfg'
                      /\ get_option cfg' family "may-fail" = Some "true")
  /\ (exists cfg',
         _set_mayfail_true_if_both_false_dhcp cfg = Ok cfg'
         /\ (both_false_dynamic cfg = true ->
             get_option cfg' "ipv4" "may-fail" = Some "true"
             /\ get_option cfg' "ipv6" "may-fail" = Some "true")
         /\ (both_false_dynamic cfg = false -> cfg' = cfg)
         /\ (forall g,
                get_option cfg' g "may-fail" = Some "true" ->
                get_option cfg g "may-fail" = Some "true"
                \/ both_false_dynamic cfg = true))
  /\ (is_dynamic (get_option cfg "ipv4" "method") = false
      \/ is_dynamic (get_option cfg "ipv6" "method") = false ->
      _set_mayfail_true_if_both_false_dhcp cfg = Ok cfg).
Proof.
  split; [|split; [|split; [|split; [|split]]]].
  - intros t m Hreq Hunset Hinv.
    rewrite _set_ip_method_eq. eexists. split; [reflexivity|].
    rewrite set_ip_method_fn_method, set_ip_method_fn_mayfail.
    rewrite (requested_known _ _ Hreq), Hunset. cbn [fst snd]. cbv zeta.
    destruct (Hinv family Hunset) as [E | E]; rewrite E; eqb_eval;
      cbn [andb]; auto.
  - intros con_id calls. rewrite resolve_methods_eq. eexists.
    split; [reflexivity|].
    apply mayfail_follows_method_fold, mayfail_follows_method_fresh.
  - intros t g cfg' Hrun Htrue.
    rewrite _set_ip_method_eq in Hrun. injection Hrun as <-.
    destruct (String.eqb_spec g family) as [->|Hne].
    + rewrite set_ip_method_fn_mayfail in Htrue. cbv zeta in Htrue.
      destruct (snd (requested t)); [auto|]. left.
      destruct (get_option cfg family "may-fail") eqn:Eold;
        repeat match type of Htrue with
               | (if ?b then _ else _) = _ => destruct b
               end; congruence.
    + rewrite set_ip_method_fn_other_mayfail in Htrue by assumption. auto.
  - intros t Hunknown. rewrite _set_ip_method_eq. eexists.
    split; [reflexivity|].
    rewrite set_ip_method_fn_mayfail, Hunknown. cbv zeta.
    repeat match goal with
           | |- (if ?b then _ else _) = _ => destruct b
           end; reflexivity.
  - rewrite _set_mayfail_true_if_both_false_dhcp_eq. eexists.
    split; [reflexivity|]. unfold normalize_mayfail_fn.
    destruct (both_false_dynamic cfg); (split; [|split]).
    + intros _. rewrite !get_option_put. eqb_eval. cbn [andb]. auto.
    + discriminate.
    + auto.
    + discriminate.
    + reflexivity.
    + auto.
  - intros Hone. rewrite _set_mayfail_true_if_both_false_dhcp_eq.
    unfold normalize_mayfail_fn.
    now rewrite both_false_dynamic_one_static.
Qed.

Lemma C7_may_fail_witness :
  (exists cfg', _set_ip_method "ipv4" (Some "dhcp4") (NMConnection "eth0") = Ok cfg'
                /\ get_option cfg' "ipv4" "method" = Some "auto"
                /\ get_option cfg' "ipv4" "may-fail" = Some "false")
  /\ (get_option [] "ipv4" "may-fail" = Some "true"
      \/ ("ipv4" = "ipv4" /\ snd (requested (Some "bogus")) = true))
  /\ (exists cfg', _set_ip_method "ipv6" (Some "bogus") [] = Ok cfg'
                   /\ get_option cfg' "ipv6" "may-fail" = Some "true")
  /\ _set_mayfail_true_if_both_false_dhcp
       [("ipv4", [("method", "auto"); ("may-fail", "false")]);
        ("ipv6", [("method", "manual"); ("may-fail", "false")])]
     = Ok [("ipv4", [("method", "auto"); ("may-fail", "false")]);
           ("ipv6", [("method", "manual"); ("may-fail", "false")])].
Proof.
  split; [|split; [|split]].
  - apply (proj1 (C7_may_fail "ipv4" (NMConnection "eth0")) "dhcp4" "auto").
    + reflexivity.
    + reflexivity.
    + apply mayfail_follows_method_fresh.
  - apply (proj1 (proj2 (proj2 (C7_may_fail "ipv4" [])))
             (Some "bogus") "ipv4"
             [("ipv4", [("method", "auto"); ("may-fail", "true")])]).
    + reflexivity.
    + reflexivity.
  - apply (proj1 (proj2 (proj2 (proj2 (C7_may_fail "ipv6" []))))).
    reflexivity.
  - apply (proj2 (proj2 (proj2 (proj2 (proj2 (C7_may_fail "ipv4" _)))))).
    right. reflexivity.
Defined.

(** ** Numbered keys *)

Lemma next_free_lowest key_prefix cfg s fuel index :
  (exists n, index <= n < index + fuel
             /\ has_option cfg s (key_prefix ++ str_nat n) = false) ->
  exists n,
    next_free fuel index key_prefix cfg s = key_prefix ++ str_nat n
    /\ index <= n < index + fuel
    /\ has_option cfg s (key_prefix ++ str_nat n) = false
    /\ (forall i, index <= i < n ->
                  has_option cfg s (key_prefix ++ str_nat i) = true).
Proof.
  revert index. induction fuel as [|fuel IH]; intros index [n [Hn Hfree]].
  - lia.
  - cbn [next_free].
    destruct (has_option cfg s (key_prefix ++ str_nat index)) eqn:Hused;
      cbn [negb].
    + assert (Hne : n <> index) by congruence.
      destruct (IH (S index)) as [m [Hm [Hrange [Hmfree Hbelow]]]].
      { exists n. split; [lia|assumption]. }
      exists m. split; [assumption|]. split; [lia|]. split; [assumption|].
      intros i Hi. destruct (Nat.eq_dec i index) as [->|]; [assumption|].
      apply Hbelow. lia.
    + exists index. split; [reflexivity|]. split; [lia|].
      split; [assumption|]. intros i Hi. lia.
Qed.

Lemma numbered_keys_NoDup key_prefix start len :
  NoDup (map (fun i => key_prefix ++ str_nat i) (seq start len)).
Proof.
  apply Injective_map_NoDup; [|apply seq_NoDup].
  intros i j. apply numbered_key_inj.
Qed.

(** Among one more index than the section has options, one is unused. *)
Lemma unused_index_exists key_prefix cfg s :
  exists n, 1 <= n < 1 + S (section_size cfg s)
            /\ has_option cfg s (key_prefix ++ str_nat n) = false.
Proof.
  set (L := section_size cfg s).
  destruct (forallb (fun i => has_option cfg s (key_prefix ++ str_nat i))
                    (seq 1 (S L))) eqn:Hall.
  - exfalso. rewrite forallb_forall in Hall.
    unfold section_size in L. unfold has_option in Hall.
    destruct (assoc s cfg) as [sec|] eqn:Hsec.
    + assert (Hincl : incl (map (fun i => key_prefix ++ str_nat i)
                                (seq 1 (S L))) (map fst sec)).
      { intros k Hk. apply in_map_iff in Hk. destruct Hk as [i [<- Hi]].
        apply assoc_In. specialize (Hall i Hi). unfold assoc_mem in Hall.
        destruct (assoc (key_prefix ++ str_nat i) sec); congruence. }
      apply NoDup_incl_length in Hincl; [|apply numbered_keys_NoDup].
      rewrite !length_map, length_seq in Hincl. subst L. lia.
    + assert (H1 : In 1 (seq 1 (S L))) by (apply in_seq; lia).
      specialize (Hall 1 H1). discriminate.
  - assert (Hex : existsb (fun i => negb (has_option cfg s
                                            (key_prefix ++ str_nat i)))
                          (seq 1 (S L)) = true).
    { clear -Hall. induction (seq 1 (S L)) as [|i l IH]; cbn in *.
      - discriminate.
      - destruct (has_option cfg s (key_prefix ++ str_nat i)); cbn in *; auto. }
    apply existsb_exists in Hex. destruct Hex as [n [Hin Hn]].
    apply in_seq in Hin. exists n. split; [lia|].
    now destruct (has_option cfg s (key_prefix ++ str_nat n)).
Qed.

Lemma section_size_ensure s cfg :
  section_size (ensure_section s cfg) s = section_size cfg s.
Proof.
  unfold ensure_section, section_size, has_section, assoc_mem, set_section.
  destruct (assoc s cfg) eqn:E; [now rewrite E|].
  now rewrite assoc_set_same.
Qed.

Lemma has_option_ensure_section s cfg s' o :
  has_option (ensure_section s cfg) s' o = has_option cfg s' o.
Proof.
  now rewrite !has_option_get_option, get_option_ensure_section.
Qed.

Lemma next_free_ensure fuel index key_prefix cfg s :
  next_free fuel index key_prefix (ensure_section s cfg) s =
  next_free fuel index key_prefix cfg s.
Proof.
  revert index. induction fuel as [|fuel IH]; intros index; cbn [next_free].
  - reflexivity.
  - now rewrite has_option_ensure_section, IH.
Qed.

Lemma _get_next_numbered_section_lowest s key_prefix cfg :
  exists n,
    _get_next_numbered_section s key_prefix cfg
    = (ensure_section s cfg, key_prefix ++ str_nat n)
    /\ lowest_unused cfg s key_prefix n.
Proof.
  unfold _get_next_numbered_section. fold (ensure_section s cfg).
  rewrite section_size_ensure, next_free_ensure.
  destruct (next_free_lowest key_prefix cfg s (S (section_size cfg s)) 1
              (unused_index_exists key_prefix cfg s))
    as [n [Hkey [Hrange [Hfree Hbelow]]]].
  exists n. rewrite Hkey. split; [reflexivity|].
  repeat split; [lia|assumption|assumption].
Qed.

Lemma put_ensure_section s o v cfg :
  put s o v (ensure_section s cfg) = put s o v cfg.
Proof.
  unfold ensure_section, has_section, assoc_mem, put, set_section.
  destruct (assoc s cfg) eqn:E; [now rewrite E|].
  now rewrite assoc_set_same, assoc_set_twice.
Qed.

Lemma _add_numbered_lowest s key_prefix v cfg :
  exists n,
    lowest_unused cfg s key_prefix n
    /\ _add_numbered s key_prefix v cfg
       = Ok (put s (key_prefix ++ str_nat n) v cfg).
Proof.
  destruct (_get_next_numbered_section_lowest s key_prefix cfg)
    as [n [Hkey Hlow]].
  exists n. split; [assumption|].
  unfold _add_numbered. rewrite Hkey.
  rewrite cfg_set_put, put_ensure_section; [reflexivity|].
  rewrite has_section_ensure_section, String.eqb_refl. reflexivity.
Qed.

Lemma lowest_unused_contiguous cfg s key_prefix n k :
  contiguous cfg s key_prefix k -> lowest_unused cfg s key_prefix n ->
  n = S k.
Proof.
  intros Hc [Hpos [Hfree Hbelow]].
  destruct (Nat.lt_trichotomy n (S k)) as [Hlt|[Heq|Hgt]]; [|assumption|].
  - assert (Hused : has_option cfg s (key_prefix ++ str_nat n) = true)
      by (apply Hc; lia). congruence.
  - assert (Hused : has_option cfg s (key_prefix ++ str_nat (S k)) = true)
      by (apply Hbelow; lia).
    apply Hc in Hused. lia.
Qed.

(** ** Write sets *)

Lemma covers_app W1 W2 s o :
  covers (W1 ++ W2) s o = covers W1 s o || covers W2 s o.
Proof. unfold covers. apply existsb_app. Qed.

Lemma covers_incl W W' s o :
  incl W W' -> covers W s o = true -> covers W' s o = true.
Proof.
  unfold covers. intros Hincl H. apply existsb_exists in H.
  destruct H as [pt [Hin Hm]]. apply existsb_exists. eauto.
Qed.

Lemma covers_incl_false W W' s o :
  incl W W' -> covers W' s o = false -> covers W s o = false.
Proof.
  intros Hincl H. destruct (covers W s o) eqn:E; [|reflexivity].
  apply (covers_incl _ _ _ _ Hincl) in E. congruence.
Qed.

Lemma extends_refl W cfg : extends W cfg cfg.
Proof. repeat split; auto. Qed.

Lemma extends_trans W cfg1 cfg2 cfg3 :
  extends W cfg1 cfg2 -> extends W cfg2 cfg3 -> extends W cfg1 cfg3.
Proof.
  intros [A1 [B1 C1]] [A2 [B2 C2]]. repeat split.
  - auto.
  - intros s H. now rewrite B2, B1.
  - intros s o H. now rewrite C2, C1.
Qed.

Lemma extends_incl W W' cfg cfg' :
  incl W W' -> extends W cfg cfg' -> extends W' cfg cfg'.
Proof.
  intros Hincl [A [B C]]. repeat split.
  - auto.
  - intros s H. apply B. intros o. eapply covers_incl_false; eauto.
  - intros s o H. apply C. eapply covers_incl_false; eauto.
Qed.

Lemma extends_put s o v cfg : extends [Opt s o] cfg (put s o v cfg).
Proof.
  repeat split.
  - intros s' H. rewrite has_section_put, H. apply orb_true_r.
  - intros s' H. specialize (H o). cbn in H.
    rewrite String.eqb_refl, andb_true_r, orb_false_r in H.
    now rewrite has_section_put, H.
  - intros s' o' H. cbn in H. rewrite orb_false_r in H.
    now rewrite get_option_put, H.
Qed.

Lemma extends_put_default s o v cfg :
  extends [Opt s o] cfg (put_default s o v cfg).
Proof.
  unfold put_default. destruct (has_option cfg s o).
  - apply extends_refl.
  - apply extends_put.
Qed.

Lemma extends_set_section s items cfg :
  extends [AnyOption s] cfg (set_section cfg s items).
Proof.
  repeat split.
  - intros s' H. rewrite has_section_set_section, H. apply orb_true_r.
  - intros s' H. specialize (H ""). cbn in H. rewrite orb_false_r in H.
    now rewrite has_section_set_section, H.
  - intros s' o' H. cbn in H. rewrite orb_false_r in H.
    now rewrite get_option_set_section, H.
Qed.

Lemma extends_ensure_section s cfg :
  extends [AnyOption s] cfg (ensure_section s cfg).
Proof.
  unfold ensure_section. destruct (has_section cfg s).
  - apply extends_refl.
  - apply extends_set_section.
Qed.

Lemma extends_cfg_set W s o v cfg cfg' :
  In (Opt s o) W -> cfg_set cfg s o v = Ok cfg' -> extends W cfg cfg'.
Proof.
  intros Hin H. apply cfg_set_inv in H. destruct H as [-> _].
  eapply extends_incl; [|apply extends_put].
  intros pt [<-|[]]. assumption.
Qed.

Lemma extends_cfg_set_any W s o v cfg cfg' :
  In (AnyOption s) W -> cfg_set cfg s o v = Ok cfg' -> extends W cfg cfg'.
Proof.
  intros Hin H. apply cfg_set_inv in H. destruct H as [-> Hs].
  repeat split.
  - intros s' H'. rewrite has_section_put, H'. apply orb_true_r.
  - intros s' H'. rewrite has_section_put.
    destruct (String.eqb_spec s s') as [<-|]; [simpl; congruence|reflexivity].
  - intros s' o' H'. rewrite get_option_put.
    destruct (String.eqb_spec s s') as [<-|]; [|reflexivity].
    exfalso. assert (Hc : covers W s o' = true).
    { unfold covers. apply existsb_exists. exists (AnyOption s).
      split; [assumption|]. cbn. apply String.eqb_refl. }
    congruence.
Qed.

Lemma extends_foldM {B : Type} W (f : config -> B -> result config) l :
  (forall cfg x cfg', In x l -> f cfg x = Ok cfg' -> extends W cfg cfg') ->
  forall cfg cfg', foldM f l cfg = Ok cfg' -> extends W cfg cfg'.
Proof.
  induction l as [|x l IH]; intros Hf cfg cfg' H; cbn [foldM] in H.
  - injection H as <-. apply extends_refl.
  - destruct (f cfg x) as [cfg1|] eqn:E; cbn [bind] in H; [|discriminate].
    eapply extends_trans.
    + eapply Hf; [now left|eassumption].
    + eapply IH; [|eassumption].
      intros c y c' Hy Hfy. eapply Hf; [right; exact Hy|exact Hfy].
Qed.

Lemma same_sections_refl cfg : same_sections cfg cfg.
Proof. intros s. reflexivity. Qed.

Lemma same_sections_trans cfg1 cfg2 cfg3 :
  same_sections cfg1 cfg2 -> same_sections cfg2 cfg3 ->
  same_sections cfg1 cfg3.
Proof. intros H1 H2 s. now rewrite H2, H1. Qed.

Lemma same_sections_put s o v cfg :
  has_section cfg s = true -> same_sections cfg (put s o v cfg).
Proof.
  intros H s'. rewrite has_section_put.
  destruct (String.eqb_spec s s') as [<-|]; [simpl; congruence|reflexivity].
Qed.

Lemma same_sections_put_default s o v cfg :
  has_section cfg s = true -> same_sections cfg (put_default s o v cfg).
Proof.
  intros H s'. rewrite has_section_put_default.
  destruct (String.eqb_spec s s') as [<-|]; [simpl; congruence|reflexivity].
Qed.

(** Membership in an explicit list of patterns, and inclusions between
    explicit lists. *)
Ltac in_list := cbn [In]; tauto.
Ltac incl_list :=
  let pt := fresh "pt" in
  let H := fresh "H" in
  intros pt H; cbn [In] in H |- *;
  repeat (destruct H as [H|H]; [subst pt; tauto|]); tauto.

(** ** Frames of the profile operations *)

Lemma extends_put_prefix s p x v cfg :
  extends [Prefix s p] cfg (put s (p ++ x) v cfg).
Proof.
  repeat split.
  - intros s' H. rewrite has_section_put, H. apply orb_true_r.
  - intros s' H. specialize (H (p ++ x)). cbn in H.
    rewrite starts_with_append, andb_true_r, orb_false_r in H.
    now rewrite has_section_put, H.
  - intros s' o' H. cbn in H. rewrite orb_false_r in H.
    rewrite get_option_put.
    destruct (String.eqb_spec s s') as [<-|]; [|reflexivity].
    destruct (String.eqb_spec (p ++ x) o') as [<-|]; [|reflexivity].
    rewrite starts_with_append in H. discriminate.
Qed.

Lemma _set_ip_method_extends family subnet_type cfg cfg' :
  _set_ip_method family subnet_type cfg = Ok cfg' ->
  extends [Opt family "method"; Opt family "may-fail"; Opt "ipv4" "method"]
          cfg cfg'.
Proof.
  rewrite _set_ip_method_eq. intros H. injection H as <-.
  unfold set_ip_method_fn.
  destruct (requested subnet_type) as [method unknown].
  set (W := [Opt family "method"; Opt family "may-fail"; Opt "ipv4" "method"]).
  assert (Hd : forall s o v c, In (Opt s o) W -> extends W c (put_default s o v c)).
  { intros. eapply extends_incl; [|apply extends_put_default].
    intros pt [<-|[]]. assumption. }
  assert (Hp : forall s o v c, In (Opt s o) W -> extends W c (put s o v c)).
  { intros. eapply extends_incl; [|apply extends_put].
    intros pt [<-|[]]. assumption. }
  assert (H2 : extends W cfg
                 (if unknown
                  then put family "may-fail" "true"
                         (put_default family "method" "disabled" cfg)
                  else put_default family "method" "disabled" cfg)).
  { destruct unknown.
    - eapply extends_trans; [apply Hd|apply Hp]; subst W; in_list.
    - apply Hd. subst W; in_list. }
  repeat match goal with
         | |- context [if opt_eqb ?a ?b then _ else _] => destruct (opt_eqb a b)
         end; cbn [andb]; try assumption;
    repeat match goal with
           | |- extends _ _ (if ?b then _ else _) => destruct b
           end; try assumption.
  all: eapply extends_trans; [exact H2|].
  all: repeat (first [ eapply extends_trans; [|apply Hd; subst W; in_list]
                     | eapply extends_trans; [|apply Hp; subst W; in_list] ]).
  all: try apply extends_refl.
  all: destruct (forces_ipv4_disabled subnet_type);
    [apply Hd; subst W; in_list|apply extends_refl].
Qed.

Lemma _add_numbered_extends s key_prefix v cfg cfg' :
  _add_numbered s key_prefix v cfg = Ok cfg' ->
  extends [Prefix s key_prefix] cfg cfg'.
Proof.
  destruct (_add_numbered_lowest s key_prefix v cfg) as [n [_ ->]].
  intros H. injection H as <-. apply extends_put_prefix.
Qed.

Lemma _add_address_extends family sn cfg cfg' :
  _add_address family sn cfg = Ok cfg' ->
  extends [Prefix family "address"] cfg cfg'.
Proof.
  unfold _add_address.
  destruct (sn_address sn); [|discriminate].
  destruct (sn_prefix sn); [|discriminate].
  apply _add_numbered_extends.
Qed.

Section RenderFacts.
Context {C : Collaborators}.

Lemma _add_route_eq rt cfg :
  exists n,
    lowest_unused cfg (route_family rt) "route" n
    /\ _add_route rt cfg = Ok (add_route_fn rt n cfg).
Proof.
  unfold _add_route. fold (route_family rt). fold (route_value rt).
  destruct (_get_next_numbered_section_lowest (route_family rt) "route" cfg)
    as [n [Hkey Hlow]].
  exists n. split; [assumption|]. rewrite Hkey.
  rewrite cfg_set_put, put_ensure_section
    by (rewrite has_section_ensure_section, String.eqb_refl; reflexivity).
  cbn [bind]. unfold add_route_fn.
  destruct (rt_mtu rt) as [mtu|]; [|reflexivity].
  unfold _add_route_options, cfg_get_opt.
  set (cfg1 := put (route_family rt) ("route" ++ str_nat n) (route_value rt) cfg).
  assert (Hs : has_section cfg1 (route_family rt) = true).
  { subst cfg1. rewrite has_section_put, String.eqb_refl. reflexivity. }
  unfold has_section, assoc_mem in Hs.
  destruct (assoc (route_family rt) cfg1) as [sec|] eqn:Hsec; [|discriminate].
  cbn [bind].
  rewrite cfg_set_put by (unfold has_section, assoc_mem; now rewrite Hsec).
  unfold route_options_value, get_option. rewrite Hsec. reflexivity.
Qed.

Lemma extends_add_route_fn rt n cfg :
  extends [Prefix (route_family rt) "route"] cfg (add_route_fn rt n cfg).
Proof.
  unfold add_route_fn. destruct (rt_mtu rt).
  - eapply extends_trans; [apply extends_put_prefix|].
    rewrite append_assoc. apply extends_put_prefix.
  - apply extends_put_prefix.
Qed.

Lemma _add_route_extends rt cfg cfg' :
  _add_route rt cfg = Ok cfg' ->
  extends [Prefix "ipv4" "route"; Prefix "ipv6" "route"] cfg cfg'.
Proof.
  destruct (_add_route_eq rt cfg) as [n [_ ->]].
  intros H. injection H as <-.
  eapply extends_incl; [|apply extends_add_route_fn].
  unfold route_family. destruct (is_ipv6_network (rt_network rt)); incl_list.
Qed.

End RenderFacts.

(** ** Numbered keys stay contiguous *)

Lemma numbered_are_contiguous cfg s key_prefix vals :
  numbered_are cfg s key_prefix vals ->
  contiguous cfg s key_prefix (List.length vals).
Proof.
  intros H i. rewrite has_option_get_option, H.
  destruct i as [|j].
  - split; [discriminate|lia].
  - destruct (nth_error vals j) eqn:E.
    + split; [|reflexivity]. intros _.
      assert (j < List.length vals) by (apply nth_error_Some; congruence). lia.
    + split; [discriminate|]. intros Hj.
      apply nth_error_None in E. lia.
Qed.

Lemma numbered_are_add cfg s key_prefix vals n v :
  numbered_are cfg s key_prefix vals ->
  lowest_unused cfg s key_prefix n ->
  numbered_are (put s (key_prefix ++ str_nat n) v cfg) s key_prefix
               (vals ++ [v]).
Proof.
  intros Hvals Hlow i.
  pose proof (lowest_unused_contiguous _ _ _ _ _
                (numbered_are_contiguous _ _ _ _ Hvals) Hlow) as ->.
  rewrite get_option_put, String.eqb_refl. cbn [andb].
  destruct (String.eqb_spec (key_prefix ++ str_nat (S (List.length vals)))
                            (key_prefix ++ str_nat i)) as [Heq|Hne].
  - apply numbered_key_inj in Heq. subst i.
    rewrite nth_error_app2 by lia. now rewrite Nat.sub_diag.
  - rewrite Hvals. destruct i as [|j]; [reflexivity|].
    assert (Hj : j <> List.length vals) by congruence.
    destruct (Nat.lt_ge_cases j (List.length vals)) as [Hlt|Hge].
    + now rewrite nth_error_app1.
    + assert (E1 : nth_error vals j = None) by (apply nth_error_None; lia).
      assert (E2 : nth_error (vals ++ [v]) j = None).
      { apply nth_error_None. rewrite length_app. cbn. lia. }
      congruence.
Qed.

Lemma numbered_are_extends W cfg cfg' s key_prefix vals :
  extends W cfg cfg' ->
  (forall i, covers W s (key_prefix ++ str_nat i) = false) ->
  numbered_are cfg s key_prefix vals ->
  numbered_are cfg' s key_prefix vals.
Proof.
  intros [_ [_ Hframe]] Hout Hvals i. now rewrite Hframe, Hvals.
Qed.

Lemma route_not_address x : starts_with "route" ("address" ++ x) = false.
Proof. reflexivity. Qed.

Lemma address_not_route x : starts_with "address" ("route" ++ x) = false.
Proof. reflexivity. Qed.

Section NumberedOps.
Context {C : Collaborators}.


End NumberedOps.



(** ** The layer-3 part of the render *)

Lemma bind_inv {A B : Type} (m : result A) (f : A -> result B) (b : B) :
  bind m f = Ok b -> exists a, m = Ok a /\ f a = Ok b.
Proof. destruct m as [a|e]; cbn; [eauto|discriminate]. Qed.

(** [H : x <- m ;; k = Ok b] becomes [m = Ok x] and [k = Ok b]. *)
Ltac bind_inv H :=
  let x := fresh "x" in
  let E := fresh "E" in
  apply bind_inv in H; destruct H as [x [E H]].

Tactic Notation "bind_inv_as" hyp(H) ident(x) ident(E) :=
  apply bind_inv in H; destruct H as [x [E H]].

Lemma last_opt_app {A : Type} (l : list A) (x : A) :
  last_opt (l ++ [x]) = Some x.
Proof. unfold last_opt. now rewrite rev_app_distr. Qed.

Section Layer3Facts.
Context {C : Collaborators}.

Lemma subnet_family_cases sn :
  (if subnet_is_ipv6 sn then "ipv6" else "ipv4") = "ipv4"
  \/ (if subnet_is_ipv6 sn then "ipv6" else "ipv4") = "ipv6".
Proof. destruct (subnet_is_ipv6 sn); auto. Qed.

Lemma foldM_add_route_extends routes cfg cfg' :
  foldM (fun cfg rt => _add_route rt cfg) routes cfg = Ok cfg' ->
  extends [Prefix "ipv4" "route"; Prefix "ipv6" "route"] cfg cfg'.
Proof.
  apply extends_foldM. intros c rt c' _. apply _add_route_extends.
Qed.

Lemma render_subnet_inv st sn st' :
  render_subnet st sn = Ok st' ->
  extends W_layer3 (l3_config st) (l3_config st')
  /\ found_nameservers st'
     = (found_nameservers st ++ subnet_nameservers [sn])%list
  /\ found_dns_search st'
     = (found_dns_search st ++ subnet_dns_search [sn])%list
  /\ ipv4_mtu st'
     = match last_opt (ipv4_subnet_mtus [sn]) with
       | Some m => Some m
       | None => ipv4_mtu st
       end.
Proof.
  unfold render_subnet. intros H.
  set (family := if subnet_is_ipv6 sn then "ipv6" else "ipv4") in *.
  bind_inv H. bind_inv H. bind_inv H. bind_inv H.
  injection H as <-. cbn [l3_config found_nameservers found_dns_search ipv4_mtu].
  assert (Hfam : family = "ipv4" \/ family = "ipv6")
    by apply subnet_family_cases.
  split; [|split; [|split]].
  - eapply extends_trans;
      [eapply extends_incl; [|eapply _set_ip_method_extends; eassumption]|].
    { destruct Hfam as [-> | ->]; unfold W_layer3; incl_list. }
    eapply extends_trans.
    { destruct (sn_address sn).
      - eapply extends_incl; [|eapply _add_address_extends; eassumption].
        destruct Hfam as [-> | ->]; unfold W_layer3; incl_list.
      - injection E0 as <-. apply extends_refl. }
    eapply extends_trans.
    { destruct (sn_gateway sn).
      - eapply extends_cfg_set; [|eassumption].
        destruct Hfam as [-> | ->]; unfold W_layer3; in_list.
      - injection E1 as <-. apply extends_refl. }
    eapply extends_incl; [|eapply foldM_add_route_extends; eassumption].
    unfold W_layer3; incl_list.
  - unfold subnet_nameservers. cbn [flat_map].
    destruct (sn_dns_nameservers sn); now rewrite ?app_nil_r.
  - unfold subnet_dns_search. cbn [flat_map].
    destruct (sn_dns_search sn); now rewrite ?app_nil_r.
  - unfold ipv4_subnet_mtus. cbn [flat_map]. subst family.
    destruct (subnet_is_ipv6 sn); destruct (sn_mtu sn); reflexivity.
Qed.

Lemma ipv4_subnet_mtus_app l1 l2 :
  ipv4_subnet_mtus (l1 ++ l2)
  = (ipv4_subnet_mtus l1 ++ ipv4_subnet_mtus l2)%list.
Proof. apply flat_map_app. Qed.

Lemma last_opt_app_choice {A : Type} (l1 l2 : list A) :
  last_opt (l1 ++ l2) = match last_opt l2 with
                        | Some m => Some m
                        | None => last_opt l1
                        end.
Proof.
  unfold last_opt. rewrite rev_app_distr.
  destruct (rev l2); reflexivity.
Qed.

Lemma foldM_render_subnet_inv subnets :
  forall st st',
    foldM render_subnet subnets st = Ok st' ->
    extends W_layer3 (l3_config st) (l3_config st')
    /\ found_nameservers st'
       = (found_nameservers st ++ subnet_nameservers subnets)%list
    /\ found_dns_search st'
       = (found_dns_search st ++ subnet_dns_search subnets)%list
    /\ ipv4_mtu st'
       = match last_opt (ipv4_subnet_mtus subnets) with
         | Some m => Some m
         | None => ipv4_mtu st
         end.
Proof.
  induction subnets as [|sn subnets IH]; intros st st' H; cbn [foldM] in H.
  - injection H as <-. cbn. rewrite !app_nil_r.
    repeat split; auto using extends_refl.
  - bind_inv H.
    apply render_subnet_inv in E. destruct E as [E1 [E2 [E3 E4]]].
    apply IH in H. destruct H as [H1 [H2 [H3 H4]]].
    split; [|split; [|split]].
    + eapply extends_trans; eassumption.
    + rewrite H2, E2. unfold subnet_nameservers. cbn [flat_map].
      now rewrite app_nil_r, app_assoc.
    + rewrite H3, E3. unfold subnet_dns_search. cbn [flat_map].
      now rewrite app_nil_r, app_assoc.
    + rewrite H4, E4.
      change (sn :: subnets) with ([sn] ++ subnets)%list.
      rewrite ipv4_subnet_mtus_app, last_opt_app_choice.
      destruct (last_opt (ipv4_subnet_mtus subnets)); reflexivity.
Qed.

Lemma render_layer3_inv if_type iface cfg st :
  render_layer3 if_type iface cfg = Ok st ->
  extends W_layer3 cfg (l3_config st)
  /\ found_nameservers st = subnet_nameservers (if_subnets iface)
  /\ found_dns_search st = subnet_dns_search (if_subnets iface)
  /\ ipv4_mtu st = last_opt (ipv4_subnet_mtus (if_subnets iface)).
Proof.
  unfold render_layer3. intros H. bind_inv H.
  apply foldM_render_subnet_inv in H.
  cbn [l3_config found_nameservers found_dns_search ipv4_mtu] in H.
  destruct H as [H1 [H2 [H3 H4]]].
  split; [|split; [|split]]; try assumption.
  - eapply extends_trans; [|eassumption].
    destruct (String.eqb if_type "bond" && is_empty (if_subnets iface)).
    + revert E. apply extends_foldM. intros c f c' Hf Hc.
      eapply extends_incl; [|eapply _set_ip_method_extends; eassumption].
      cbn [In] in Hf. destruct Hf as [<-|[<-|[]]]; unfold W_layer3; incl_list.
    + injection E as <-. apply extends_refl.
  - rewrite H4. now destruct (last_opt _).
Qed.

End Layer3Facts.

(** ** Writing the DNS entries *)

Lemma append_nil_r (a : string) : a ++ "" = a.
Proof. induction a as [|c a IH]; cbn; congruence. Qed.

Lemma foldM_preorder {A B : Type} (R : A -> A -> Prop)
  (f : A -> B -> result A) (l : list B) :
  (forall a, R a a) ->
  (forall a b c, R a b -> R b c -> R a c) ->
  (forall a x a', In x l -> f a x = Ok a' -> R a a') ->
  forall a a', foldM f l a = Ok a' -> R a a'.
Proof.
  intros Hrefl Htrans. induction l as [|x l IH]; intros Hf a a' H;
    cbn [foldM] in H.
  - injection H as <-. apply Hrefl.
  - bind_inv H. eapply Htrans.
    + eapply Hf; [left; reflexivity|eassumption].
    + eapply IH; [|eassumption].
      intros c y c' Hy Hfy. eapply Hf; [right; exact Hy|exact Hfy].
Qed.

Lemma active_same cfg cfg' family :
  same_sections cfg cfg' ->
  get_option cfg' family "method" = get_option cfg family "method" ->
  active cfg' family = active cfg family.
Proof. intros Hs Hm. unfold active. now rewrite Hs, Hm. Qed.

Lemma active_has_section cfg family :
  active cfg family = true -> has_section cfg family = true.
Proof. unfold active. intros H. now apply andb_prop in H. Qed.

Section DnsFacts.
Context {C : Collaborators}.

Lemma _add_nameserver_eq dns cfg :
  _add_nameserver dns cfg = Ok (add_nameserver_fn dns cfg).
Proof.
  unfold _add_nameserver, add_nameserver_fn, active.
  fold (dns_family dns). set (family := dns_family dns).
  rewrite _get_config_option_eq.
  destruct (has_section cfg family) eqn:Hs; cbn [bind andb]; [|reflexivity].
  destruct (negb (opt_eqb (get_option cfg family "method") "disabled"));
    [|reflexivity].
  rewrite _set_default_eq. cbn [bind].
  assert (Hcur : get_option (put_default family "dns" "" cfg) family "dns"
                 = Some (match get_option cfg family "dns" with
                         | Some cur => cur | None => "" end)).
  { rewrite get_option_put_default, !String.eqb_refl. reflexivity. }
  rewrite (cfg_get_some _ _ _ _ Hcur). cbn [bind].
  rewrite cfg_set_put
    by (rewrite has_section_put_default, Hs; apply orb_true_r).
  f_equal. unfold put_default. rewrite has_option_get_option.
  destruct (get_option cfg family "dns") eqn:E; [reflexivity|].
  unfold put. rewrite assoc_set_same, assoc_set_twice.
  now rewrite assoc_set_twice.
Qed.

Lemma add_nameserver_fn_sections dns cfg :
  same_sections cfg (add_nameserver_fn dns cfg).
Proof.
  unfold add_nameserver_fn. destruct (active cfg (dns_family dns)) eqn:E.
  - apply same_sections_put. now apply active_has_section.
  - apply same_sections_refl.
Qed.

Lemma add_nameserver_fn_extends dns cfg :
  extends W_dns cfg (add_nameserver_fn dns cfg).
Proof.
  unfold add_nameserver_fn. destruct (active cfg (dns_family dns)).
  - eapply extends_incl; [|apply extends_put].
    unfold dns_family. destruct (is_ipv6_address dns); unfold W_dns; incl_list.
  - apply extends_refl.
Qed.

Lemma add_nameserver_fn_active dns cfg family :
  active (add_nameserver_fn dns cfg) family = active cfg family.
Proof.
  apply active_same; [apply add_nameserver_fn_sections|].
  apply (add_nameserver_fn_extends dns cfg).
  unfold W_dns, covers. cbn [existsb matches]. eqb_eval.
  now rewrite !andb_false_r.
Qed.

Lemma add_nameserver_fn_dns dns cfg family :
  get_option (add_nameserver_fn dns cfg) family "dns" =
  if String.eqb (dns_family dns) family && active cfg family
  then Some (match get_option cfg family "dns" with
             | Some cur => cur
             | None => ""
             end ++ dns ++ ";")
  else get_option cfg family "dns".
Proof.
  unfold add_nameserver_fn.
  destruct (String.eqb_spec (dns_family dns) family) as [<-|Hne]; cbn [andb].
  - destruct (active cfg (dns_family dns)); [|reflexivity].
    rewrite get_option_put, !String.eqb_refl. reflexivity.
  - destruct (active cfg (dns_family dns)); [|reflexivity].
    rewrite get_option_put.
    apply String.eqb_neq in Hne. now rewrite Hne.
Qed.

Lemma foldM_add_nameserver_eq l cfg :
  foldM (fun cfg ns => _add_nameserver ns cfg) l cfg =
  Ok (fold_left (fun cfg ns => add_nameserver_fn ns cfg) l cfg).
Proof.
  revert cfg. induction l as [|d l IH]; intros cfg; cbn [foldM fold_left].
  - reflexivity.
  - rewrite _add_nameserver_eq. cbn [bind]. apply IH.
Qed.

Lemma fold_add_nameserver_extends l cfg :
  extends W_dns cfg (fold_left (fun cfg ns => add_nameserver_fn ns cfg) l cfg)
  /\ same_sections cfg
       (fold_left (fun cfg ns => add_nameserver_fn ns cfg) l cfg).
Proof.
  revert cfg. induction l as [|d l IH]; intros cfg; cbn [fold_left].
  - split; [apply extends_refl|apply same_sections_refl].
  - destruct (IH (add_nameserver_fn d cfg)) as [H1 H2]. split.
    + eapply extends_trans; [apply add_nameserver_fn_extends|exact H1].
    + eapply same_sections_trans; [apply add_nameserver_fn_sections|exact H2].
Qed.

(** The [dns] option of a family after the name servers [l] are written. *)
Lemma fold_add_nameserver_dns family l :
  forall cfg,
    get_option (fold_left (fun cfg ns => add_nameserver_fn ns cfg) l cfg)
               family "dns" =
    if active cfg family
    then match nameservers_of family l with
         | [] => get_option cfg family "dns"
         | l' => Some (match get_option cfg family "dns" with
                       | Some cur => cur
                       | None => ""
                       end ++ dns_string l')
         end
    else get_option cfg family "dns".
Proof.
  induction l as [|d l IH]; intros cfg; cbn [fold_left nameservers_of filter].
  - now destruct (active cfg family).
  - rewrite IH, add_nameserver_fn_active, add_nameserver_fn_dns.
    fold (nameservers_of family l).
    destruct (active cfg family); cbn [andb];
      destruct (String.eqb (dns_family d) family); cbn [andb];
      try reflexivity.
    destruct (nameservers_of family l) as [|d' l'].
    + cbn [dns_string]. now rewrite append_nil_r.
    + cbn [dns_string]. now rewrite !append_assoc.
Qed.

Lemma _add_dns_search_inv search cfg cfg' :
  _add_dns_search search cfg = Ok cfg' ->
  extends W_dns_search cfg cfg' /\ same_sections cfg cfg'.
Proof.
  unfold _add_dns_search. intros H. split.
  - revert H. apply extends_foldM. intros c f c' Hf Hc.
    rewrite _get_config_option_eq in Hc.
    destruct (has_section c f) eqn:Hs; cbn [bind andb] in Hc;
      [|injection Hc as <-; apply extends_refl].
    destruct (negb (opt_eqb (get_option c f "method") "disabled"));
      [|injection Hc as <-; apply extends_refl].
    rewrite _set_default_eq in Hc. cbn [bind] in Hc. bind_inv Hc.
    apply cfg_set_inv in Hc. destruct Hc as [-> _].
    assert (HW : In (Opt f "dns-search") W_dns_search).
    { cbn [In] in Hf. destruct Hf as [<-|[<-|[]]]; unfold W_dns_search;
        in_list. }
    eapply extends_trans; (eapply extends_incl;
      [|first [apply extends_put_default|apply extends_put]]);
      intros pt [<-|[]]; exact HW.
  - revert H. apply foldM_preorder;
      [apply same_sections_refl|apply same_sections_trans|].
    intros c f c' Hf Hc.
    rewrite _get_config_option_eq in Hc.
    destruct (has_section c f) eqn:Hs; cbn [bind andb] in Hc;
      [|injection Hc as <-; apply same_sections_refl].
    destruct (negb (opt_eqb (get_option c f "method") "disabled"));
      [|injection Hc as <-; apply same_sections_refl].
    rewrite _set_default_eq in Hc. cbn [bind] in Hc. bind_inv Hc.
    apply cfg_set_inv in Hc. destruct Hc as [-> Hs'].
    eapply same_sections_trans;
      [apply same_sections_put_default|apply same_sections_put]; assumption.
Qed.

Lemma write_dns_inv nameservers search cfg cfg' :
  write_dns nameservers search cfg = Ok cfg' ->
  extends W_dns cfg cfg'
  /\ same_sections cfg cfg'
  /\ forall family,
       get_option cfg' family "dns" =
       get_option (fold_left (fun cfg ns => add_nameserver_fn ns cfg)
                             nameservers cfg) family "dns".
Proof.
  unfold write_dns. rewrite foldM_add_nameserver_eq. cbn [bind].
  destruct (fold_add_nameserver_extends nameservers cfg) as [H1 H2].
  destruct (negb (is_empty search)).
  - intros H. apply _add_dns_search_inv in H. destruct H as [H3 H4].
    split.
    { eapply extends_trans; [eassumption|].
      eapply extends_incl; [|eassumption].
      unfold W_dns_search, W_dns; incl_list. }
    split; [eapply same_sections_trans; eassumption|].
    intros family. apply H3.
    unfold W_dns_search, covers. cbn [existsb matches]. eqb_eval.
    now rewrite !andb_false_r.
  - intros H. injection H as <-. auto.
Qed.

Lemma normalize_mayfail_fn_inv cfg :
  extends W_mayfail cfg (normalize_mayfail_fn cfg)
  /\ same_sections cfg (normalize_mayfail_fn cfg).
Proof.
  unfold normalize_mayfail_fn.
  destruct (both_false_dynamic cfg) eqn:E;
    [|split; [apply extends_refl|apply same_sections_refl]].
  unfold both_false_dynamic in E. cbn [forallb] in E.
  rewrite andb_true_r in E.
  apply andb_prop in E. destruct E as [E4 E6].
  apply andb_prop in E4. destruct E4 as [E4 _].
  apply andb_prop in E6. destruct E6 as [E6 _].
  assert (H4 : has_section cfg "ipv4" = true).
  { destruct (get_option cfg "ipv4" "may-fail") eqn:G; [|discriminate].
    eapply get_option_has_section; eauto. }
  assert (H6 : has_section cfg "ipv6" = true).
  { destruct (get_option cfg "ipv6" "may-fail") eqn:G; [|discriminate].
    eapply get_option_has_section; eauto. }
  split.
  - eapply extends_trans;
      (eapply extends_incl; [|apply extends_put]); unfold W_mayfail;
      incl_list.
  - eapply same_sections_trans; apply same_sections_put; [assumption|].
    rewrite has_section_put, H6. apply orb_true_r.
Qed.

End DnsFacts.

(** ** The type-specific part of the render *)

Lemma type_map_values t ty :
  assoc t _type_map = Some (Some ty) ->
  ty = "ethernet" \/ ty = "vlan" \/ ty = "bond" \/ ty = "bridge"
  \/ ty = "infiniband".
Proof.
  unfold _type_map. cbn [assoc].
  repeat match goal with
         | |- context [String.eqb t ?x] => destruct (String.eqb t x)
         end;
    intros H; inversion H; auto 6.
Qed.

Lemma set_mac_extends ty iface cfg cfg' :
  set_mac ty iface cfg = Ok cfg' -> extends [AnyOption ty] cfg cfg'.
Proof.
  unfold set_mac. destruct (if_mac_address iface).
  - apply extends_cfg_set_any. in_list.
  - intros H. injection H as <-. apply extends_refl.
Qed.

Lemma render_props_extends ty iface cfg cfg' :
  render_props ty iface cfg = Ok cfg' -> extends [AnyOption ty] cfg cfg'.
Proof.
  unfold render_props. destruct (assoc ty _prop_map); [|discriminate].
  apply extends_foldM. intros c [nm_prop key] c' _ H.
  destruct (assoc key (if_params iface)) as [[|b|z|v]|];
    try (injection H as <-; apply extends_refl);
    eapply extends_cfg_set_any; try eassumption; in_list.
Qed.

Lemma render_ethernet_inv iface mtu cfg cfg' :
  render_ethernet iface mtu cfg = Ok cfg' ->
  extends [AnyOption "ethernet"] cfg cfg'
  /\ get_option cfg' "ethernet" "mtu" =
     match mtu with
     | Some m => Some (str_Z m)
     | None => get_option cfg "ethernet" "mtu"
     end.
Proof.
  unfold render_ethernet. intros H. bind_inv H. bind_inv H.
  assert (H1 : extends [AnyOption "ethernet"] cfg x
               /\ get_option x "ethernet" "mtu" = get_option cfg "ethernet" "mtu").
  { destruct (if_wakeonlan iface) as [|[|]|z|v];
      try (injection E as <-; split; [apply extends_refl|reflexivity]).
    split; [eapply extends_cfg_set_any; try eassumption; in_list|].
    apply cfg_set_inv in E. destruct E as [-> _].
    rewrite get_option_put. eqb_eval. now rewrite andb_false_r. }
  assert (H2 : extends [AnyOption "ethernet"] x x0
               /\ get_option x0 "ethernet" "mtu" =
                  match mtu with
                  | Some m => Some (str_Z m)
                  | None => get_option x "ethernet" "mtu"
                  end).
  { destruct mtu as [m|];
      [|injection E0 as <-; split; [apply extends_refl|reflexivity]].
    split; [eapply extends_cfg_set_any; try eassumption; in_list|].
    apply cfg_set_inv in E0. destruct E0 as [-> _].
    now rewrite get_option_put, !String.eqb_refl. }
  assert (H3 : extends [AnyOption "ethernet"] x0 cfg'
               /\ get_option cfg' "ethernet" "mtu" = get_option x0 "ethernet" "mtu").
  { split; [eapply set_mac_extends; eassumption|].
    unfold set_mac in H. destruct (if_mac_address iface);
      [|injection H as <-; reflexivity].
    apply cfg_set_inv in H. destruct H as [-> _].
    rewrite get_option_put. eqb_eval. now rewrite andb_false_r. }
  destruct H1 as [A1 B1], H2 as [A2 B2], H3 as [A3 B3]. split.
  - eapply extends_trans; [exact A1|].
    eapply extends_trans; [exact A2|exact A3].
  - rewrite B3, B2. destruct mtu; [reflexivity|exact B1].
Qed.

Lemma render_bond_inv mtu cfg cfg' :
  render_bond mtu cfg = Ok cfg' ->
  extends [AnyOption "ethernet"] cfg cfg'
  /\ get_option cfg' "ethernet" "mtu" =
     match mtu with
     | Some m => Some (str_Z m)
     | None => get_option cfg "ethernet" "mtu"
     end.
Proof.
  unfold render_bond. destruct mtu as [m|];
    [|intros H; injection H as <-; split; [apply extends_refl|reflexivity]].
  fold (ensure_section "ethernet" cfg). intros H.
  apply cfg_set_inv in H. destruct H as [-> _]. split.
  - eapply extends_trans; [apply extends_ensure_section|].
    apply extends_cfg_set_any with (s := "ethernet") (o := "mtu")
                                   (v := str_Z m); [in_list|].
    apply cfg_set_put.
    rewrite has_section_ensure_section. reflexivity.
  - now rewrite get_option_put, !String.eqb_refl.
Qed.

Lemma render_infiniband_inv iface mtu cfg cfg' :
  render_infiniband iface mtu cfg = Ok cfg' ->
  extends [AnyOption "infiniband"] cfg cfg'
  /\ get_option cfg' "infiniband" "mtu" =
     match mtu with
     | Some m => Some (str_Z m)
     | None => get_option cfg "infiniband" "mtu"
     end.
Proof.
  unfold render_infiniband. destruct mtu as [m|];
    [|intros H; injection H as <-; split; [apply extends_refl|reflexivity]].
  intros H. bind_inv H. bind_inv H. split.
  - eapply extends_trans;
      [eapply extends_cfg_set_any; try eassumption; in_list|].
    eapply extends_trans;
      [eapply extends_cfg_set_any; try eassumption; in_list|].
    eapply set_mac_extends; eassumption.
  - apply cfg_set_inv in E0. destruct E0 as [-> _].
    unfold set_mac in H. destruct (if_mac_address iface).
    + apply cfg_set_inv in H. destruct H as [-> _].
      rewrite !get_option_put. eqb_eval. rewrite andb_false_r.
      reflexivity.
    + injection H as <-. now rewrite get_option_put, !String.eqb_refl.
Qed.

Lemma finish_extends ty iface cfg cfg' :
  finish ty iface cfg = Ok cfg' ->
  extends [Opt "connection" "interface-name"] cfg cfg'.
Proof.
  unfold finish.
  destruct (String.eqb ty "bridge" || negb (has_option cfg ty "mac-address")).
  - apply extends_cfg_set. in_list.
  - intros H. injection H as <-. apply extends_refl.
Qed.

(** ** References between profiles *)

Lemma con_ref_dangling r con_id :
  assoc con_id (connections r) = None -> con_ref r con_id = Ok con_id.
Proof. unfold con_ref. now intros ->. Qed.

Lemma con_ref_set_conn_dangling r self cfg con_id :
  assoc con_id (connections r) = None -> con_id <> self ->
  con_ref (set_conn r self cfg) con_id = Ok con_id.
Proof.
  intros Hnone Hne. apply con_ref_dangling. cbn [set_conn connections].
  rewrite assoc_set_other by congruence. assumption.
Qed.

Lemma init_connectivity_inv self ty iface r cfg cfg' :
  init_connectivity self ty iface r cfg = Ok cfg' ->
  extends (W_connectivity iface) cfg cfg'
  /\ get_option cfg' "connection" "type" = Some ty
  /\ match if_bond_master iface with
     | Some master =>
         exists c ref,
           con_ref (set_conn r self c) master = Ok ref
           /\ get_option cfg' "connection" "slave-type" = Some "bond"
           /\ get_option cfg' "connection" "master" = Some ref
     | None => True
     end.
Proof.
  unfold init_connectivity, W_connectivity. intros H. bind_inv H.
  apply cfg_set_inv in E. destruct E as [-> Hs].
  destruct (if_bond_master iface) as [master|].
  - bind_inv_as H c2 E2. bind_inv_as H ref Eref.
    apply cfg_set_inv in E2. destruct E2 as [-> _].
    apply cfg_set_inv in H. destruct H as [-> _].
    split; [|split].
    + eapply extends_trans; [|eapply extends_trans];
        (eapply extends_incl; [|apply extends_put]); incl_list.
    + rewrite !get_option_put. eqb_eval. cbn [andb]. reflexivity.
    + eexists. exists ref. split; [eassumption|].
      rewrite !get_option_put. eqb_eval. cbn [andb]. auto.
  - injection H as <-. split; [|split; [|exact I]].
    + eapply extends_incl; [|apply extends_put]. incl_list.
    + now rewrite get_option_put, !String.eqb_refl.
Qed.

Lemma render_vlan_inv self iface r cfg cfg' :
  render_vlan self iface r cfg = Ok cfg' ->
  extends [AnyOption "vlan"] cfg cfg'
  /\ match if_vlan_raw_device iface with
     | Some dev =>
         exists ref,
           con_ref (set_conn r self cfg) dev = Ok ref
           /\ get_option cfg' "vlan" "parent" = Some ref
     | None => True
     end.
Proof.
  unfold render_vlan. destruct (if_vlan_raw_device iface) as [dev|].
  - intros H. bind_inv_as H ref Eref. split.
    + eapply extends_cfg_set_any; try eassumption. in_list.
    + exists ref. split; [assumption|].
      apply cfg_set_inv in H. destruct H as [-> _].
      now rewrite get_option_put, !String.eqb_refl.
  - intros H. injection H as <-. split; [apply extends_refl|exact I].
Qed.

(** ** The render of the own profile, section by section *)

Section OwnFacts.
Context {C : Collaborators}.

Lemma render_own_inv self ty iface network_state r cfg cfg' mtu :
  render_own self ty iface network_state r cfg = Ok (cfg', mtu) ->
  exists c1 st c3 c5 c6 c7,
    init_connectivity self ty iface r cfg = Ok c1
    /\ render_layer3 ty iface (set_section c1 ty []) = Ok st
    /\ write_dns
         (resolve_dns (found_nameservers st)
            (option_map dns_nameservers (if_dns iface))
            (ns_dns_nameservers network_state))
         (resolve_dns (found_dns_search st)
            (option_map dns_search (if_dns iface))
            (ns_dns_searchdomains network_state))
         (l3_config st) = Ok c3
    /\ mtu = resolve_mtu (ipv4_mtu st) (if_mtu iface)
    /\ render_props ty iface (normalize_mayfail_fn c3) = Ok c5
    /\ (if String.eqb ty "ethernet" then render_ethernet iface mtu c5
        else Ok c5) = Ok c6
    /\ (if String.eqb ty "vlan" then render_vlan self iface r c6
        else Ok c6) = Ok c7
    /\ (if String.eqb ty "bond" then render_bond mtu c7 else Ok c7) = Ok cfg'.
Proof.
  unfold render_own. intros H.
  bind_inv_as H c1 E1. bind_inv_as H st E2. bind_inv_as H c3 E3.
  rewrite _set_mayfail_true_if_both_false_dhcp_eq in H. cbn [bind] in H.
  bind_inv_as H c5 E5. bind_inv_as H c6 E6. bind_inv_as H c7 E7.
  bind_inv_as H c8 E8.
  injection H as <- <-.
  exists c1, st, c3, c5, c6, c7. repeat split; assumption.
Qed.

(** The frame of the whole render of the own profile. *)
Lemma render_own_extends self ty iface network_state r cfg cfg' mtu :
  render_own self ty iface network_state r cfg = Ok (cfg', mtu) ->
  extends (W_own ty iface) cfg cfg'.
Proof.
  intros H. apply render_own_inv in H.
  destruct H as [c1 [st [c3 [c5 [c6 [c7 [H1 [H2 [H3 [_ [H5 [H6 [H7 H8]]]]]]]]]]]]].
  apply init_connectivity_inv in H1. destruct H1 as [H1 _].
  apply render_layer3_inv in H2. destruct H2 as [H2 _].
  apply write_dns_inv in H3. destruct H3 as [H3 _].
  apply render_props_extends in H5.
  assert (I1 : incl (W_connectivity iface) (W_own ty iface)).
  { unfold W_own. apply incl_appl, incl_refl. }
  assert (I2 : incl [AnyOption ty] (W_own ty iface)).
  { unfold W_own. apply incl_appr, incl_appl. incl_list. }
  assert (I3 : incl [AnyOption "ethernet"] (W_own ty iface)).
  { unfold W_own. apply incl_appr, incl_appl. incl_list. }
  assert (I4 : incl W_layer3 (W_own ty iface)).
  { unfold W_own. apply incl_appr, incl_appr, incl_appl, incl_refl. }
  assert (I5 : incl W_dns (W_own ty iface)).
  { unfold W_own. apply incl_appr, incl_appr, incl_appr, incl_refl. }
  assert (I6 : incl W_mayfail (W_own ty iface)).
  { eapply incl_tran; [|exact I4]. unfold W_mayfail, W_layer3. incl_list. }
  eapply extends_trans; [eapply extends_incl; [exact I1|exact H1]|].
  eapply extends_trans;
    [eapply extends_incl; [exact I2|apply extends_set_section]|].
  eapply extends_trans; [eapply extends_incl; [exact I4|exact H2]|].
  eapply extends_trans; [eapply extends_incl; [exact I5|exact H3]|].
  eapply extends_trans;
    [eapply extends_incl; [exact I6|apply normalize_mayfail_fn_inv]|].
  eapply extends_trans; [eapply extends_incl; [exact I2|exact H5]|].
  eapply extends_trans.
  { destruct (String.eqb ty "ethernet").
    - apply render_ethernet_inv in H6. destruct H6 as [H6 _].
      eapply extends_incl; [exact I3|exact H6].
    - injection H6 as <-. apply extends_refl. }
  eapply extends_trans.
  { destruct (String.eqb_spec ty "vlan") as [->|].
    - apply render_vlan_inv in H7. destruct H7 as [H7 _].
      eapply extends_incl; [exact I2|exact H7].
    - injection H7 as <-. apply extends_refl. }
  destruct (String.eqb ty "bond").
  - apply render_bond_inv in H8. destruct H8 as [H8 _].
    eapply extends_incl; [exact I3|exact H8].
  - injection H8 as <-. apply extends_refl.
Qed.

End OwnFacts.

(** ** The registry *)

Lemma store_extends_refl W r : store_extends W r r.
Proof.
  intros q. destruct (assoc q (connections r)); [apply extends_refl|exact I].
Qed.

Lemma store_extends_trans W r1 r2 r3 :
  store_extends W r1 r2 -> store_extends W r2 r3 -> store_extends W r1 r3.
Proof.
  intros H1 H2 q. specialize (H1 q). specialize (H2 q).
  destruct (assoc q (connections r1)), (assoc q (connections r2)),
    (assoc q (connections r3)); try tauto.
  eapply extends_trans; eassumption.
Qed.

Lemma store_extends_incl W W' r r' :
  (forall q, incl (W q) (W' q)) ->
  store_extends W r r' -> store_extends W' r r'.
Proof.
  intros Hincl H q. specialize (H q).
  destruct (assoc q (connections r)), (assoc q (connections r')); try tauto.
  eapply extends_incl; [apply Hincl|exact H].
Qed.

Lemma store_extends_set_conn W r q cfg cfg' :
  assoc q (connections r) = Some cfg ->
  extends (W q) cfg cfg' ->
  store_extends W r (set_conn r q cfg').
Proof.
  intros Hq Hext k. cbn [set_conn connections]. rewrite assoc_set_lookup.
  destruct (String.eqb_spec q k) as [<-|Hne].
  - now rewrite Hq.
  - destruct (assoc k (connections r)); [apply extends_refl|exact I].
Qed.

Lemma store_extends_conn_option W r r' q s o :
  store_extends W r r' -> covers (W q) s o = false ->
  conn_option r' q s o = conn_option r q s o.
Proof.
  intros H Hc. specialize (H q). unfold conn_option.
  destruct (assoc q (connections r)), (assoc q (connections r'));
    try tauto.
  now apply H.
Qed.

Lemma store_extends_keys W r r' q :
  store_extends W r r' ->
  (assoc q (connections r') = None <-> assoc q (connections r) = None).
Proof.
  intros H. specialize (H q).
  destruct (assoc q (connections r)), (assoc q (connections r'));
    try tauto; split; congruence.
Qed.

Lemma get_conn_inv r q cfg :
  get_conn r q = Ok cfg -> assoc q (connections r) = Some cfg.
Proof.
  unfold get_conn. destruct (assoc q (connections r)); congruence.
Qed.

Lemma set_conn_twice r q cfg cfg' :
  set_conn (set_conn r q cfg) q cfg' = set_conn r q cfg'.
Proof.
  unfold set_conn. cbn [connections log]. now rewrite assoc_set_twice.
Qed.

Lemma warn_mtu_connections iface mtu r :
  connections (warn_mtu iface mtu r) = connections r.
Proof. unfold warn_mtu. now destruct (negb _). Qed.

Lemma render_bridge_port_inv self r port r' :
  render_bridge_port self r port = Ok r' ->
  exists pcfg uuid,
    assoc port (connections r) = Some pcfg
    /\ conn_option r self "connection" "uuid" = Some uuid
    /\ r' = set_conn r port
              (put_default "connection" "master" uuid
                 (put_default "connection" "slave-type" "bridge" pcfg)).
Proof.
  unfold render_bridge_port. intros H.
  bind_inv_as H pcfg Ep. apply get_conn_inv in Ep.
  rewrite _set_default_eq in H. cbn [bind] in H.
  bind_inv_as H me Eme. apply get_conn_inv in Eme.
  bind_inv_as H uuid Eu. apply cfg_get_inv in Eu.
  bind_inv_as H pcfg1 Ep1. apply get_conn_inv in Ep1.
  cbn [set_conn connections] in Ep1, Eme. rewrite assoc_set_same in Ep1.
  injection Ep1 as <-.
  rewrite _set_default_eq in H. cbn [bind] in H. injection H as <-.
  exists pcfg, uuid. split; [assumption|]. split.
  - unfold conn_option. rewrite assoc_set_lookup in Eme.
    destruct (String.eqb_spec port self) as [->|Hne].
    + injection Eme as <-. rewrite Ep.
      rewrite get_option_put_default in Eu. eqb_eval.
      now rewrite andb_false_r in Eu.
    + now rewrite Eme.
  - apply set_conn_twice.
Qed.

Lemma render_bridge_port_extends self r port r' :
  render_bridge_port self r port = Ok r' ->
  store_extends (fun q => if String.eqb q port then W_port else []) r r'
  /\ log r' = log r.
Proof.
  intros H. apply render_bridge_port_inv in H.
  destruct H as [pcfg [uuid [Hp [_ ->]]]]. split; [|reflexivity].
  eapply store_extends_set_conn; [eassumption|].
  rewrite String.eqb_refl.
  eapply extends_trans; (eapply extends_incl; [|apply extends_put_default]);
    unfold W_port; incl_list.
Qed.

Lemma foldM_render_bridge_port_extends self ports :
  forall r r',
    foldM (render_bridge_port self) ports r = Ok r' ->
    store_extends (fun q => if mem q ports then W_port else []) r r'
    /\ log r' = log r.
Proof.
  induction ports as [|port ports IH]; intros r r' H; cbn [foldM] in H.
  - injection H as <-. split; [apply store_extends_refl|reflexivity].
  - bind_inv_as H r1 E1. apply render_bridge_port_extends in E1.
    destruct E1 as [E1 L1]. apply IH in H. destruct H as [H L2].
    split; [|congruence].
    eapply store_extends_trans.
    + eapply store_extends_incl; [|exact E1].
      intros q. unfold mem. cbn [existsb].
      destruct (String.eqb q port); cbn [orb];
        [apply incl_refl|apply incl_nil_l].
    + eapply store_extends_incl; [|exact H].
      intros q. unfold mem. cbn [existsb].
      destruct (String.eqb q port); cbn [orb]; [|apply incl_refl].
      destruct (existsb (String.eqb q) ports);
        [apply incl_refl|apply incl_nil_l].
Qed.

Lemma render_bridge_extends self iface r r' :
  render_bridge self iface r = Ok r' ->
  store_extends
    (fun q => ((if String.eqb q self then [AnyOption "bridge"] else [])
               ++ (if mem q (if_bridge_ports iface) then W_port else []))%list)
    r r'
  /\ log r' = log r.
Proof.
  unfold render_bridge. intros H.
  bind_inv_as H r1 E1. apply foldM_render_bridge_port_extends in E1.
  destruct E1 as [E1 L1].
  bind_inv_as H cfg Ec. apply get_conn_inv in Ec.
  bind_inv_as H cfg' Em. apply set_mac_extends in Em.
  injection H as <-. split; [|exact L1].
  eapply store_extends_trans.
  - eapply store_extends_incl; [|exact E1].
    intros q. apply incl_appr, incl_refl.
  - eapply store_extends_set_conn; [eassumption|].
    rewrite String.eqb_refl. eapply extends_incl; [|exact Em].
    apply incl_appl, incl_refl.
Qed.

Section InterfaceFacts.
Context {C : Collaborators}.

(** [render_interface] on a mappable type, taken apart. *)
Lemma render_interface_inv self iface network_state r r' ty :
  assoc (if_type iface) _type_map = Some (Some ty) ->
  render_interface self iface network_state r = Ok r' ->
  exists cfg0 cfg1 mtu r2 cfg2 cfg3 cfg4,
    assoc self (connections r) = Some cfg0
    /\ render_own self ty iface network_state r cfg0 = Ok (cfg1, mtu)
    /\ (if String.eqb ty "bridge"
        then render_bridge self iface
               (set_conn (warn_mtu iface mtu r) self cfg1)
        else Ok (set_conn (warn_mtu iface mtu r) self cfg1)) = Ok r2
    /\ assoc self (connections r2) = Some cfg2
    /\ (if String.eqb ty "infiniband"
        then render_infiniband iface mtu cfg2 else Ok cfg2) = Ok cfg3
    /\ finish ty iface cfg3 = Ok cfg4
    /\ r' = set_conn r2 self cfg4.
Proof.
  intros Hty. unfold render_interface. rewrite Hty. intros H.
  bind_inv_as H cfg0 E0. apply get_conn_inv in E0.
  bind_inv_as H own Eown. destruct own as [cfg1 mtu].
  bind_inv_as H r2 E2.
  bind_inv_as H cfg2 Ec2. apply get_conn_inv in Ec2.
  bind_inv_as H cfg3 E3.
  bind_inv_as H cfg4 E4.
  injection H as <-.
  exists cfg0, cfg1, mtu, r2, cfg2, cfg3, cfg4. repeat split; assumption.
Qed.

Lemma render_interface_unmapped self iface network_state r r' :
  assoc (if_type iface) _type_map = Some None ->
  render_interface self iface network_state r = Ok r' -> r' = r.
Proof.
  intros Hty. unfold render_interface. rewrite Hty. congruence.
Qed.

(** What a render may write, profile by profile. *)
Lemma render_interface_extends self iface network_state r r' :
  render_interface self iface network_state r = Ok r' ->
  store_extends (W_render self iface) r r'.
Proof.
  intros H. unfold W_render.
  destruct (assoc (if_type iface) _type_map) as [[ty|]|] eqn:Hty.
  - destruct (render_interface_inv _ _ _ _ _ _ Hty H)
      as [cfg0 [cfg1 [mtu [r2 [cfg2 [cfg3 [cfg4
            [H0 [Hown [H2 [Hc2 [H3 [H4 ->]]]]]]]]]]]]].
    apply render_own_extends in Hown.
    set (W := fun q =>
           ((if String.eqb q self then W_own ty iface else [])
            ++ (if String.eqb ty "bridge" && mem q (if_bridge_ports iface)
                then W_port else []))%list).
    assert (Hself : forall c c' W0,
               incl W0 (W_own ty iface) -> extends W0 c c' ->
               extends (W self) c c').
    { intros c c' W0 Hi He. eapply extends_incl; [|exact He].
      subst W. cbn beta. rewrite String.eqb_refl.
      apply incl_appl. exact Hi. }
    assert (H1 : store_extends W r
                   (set_conn (warn_mtu iface mtu r) self cfg1)).
    { intros q. cbn [set_conn connections].
      rewrite warn_mtu_connections, assoc_set_lookup.
      destruct (String.eqb_spec self q) as [<-|Hne].
      - rewrite H0. eapply Hself; [apply incl_refl|exact Hown].
      - destruct (assoc q (connections r)); [apply extends_refl|exact I]. }
    assert (H12 : store_extends W
                    (set_conn (warn_mtu iface mtu r) self cfg1) r2).
    { destruct (String.eqb_spec ty "bridge") as [->|Hnb].
      - apply render_bridge_extends in H2. destruct H2 as [H2 _].
        eapply store_extends_incl; [|exact H2].
        intros q. subst W. cbn beta. cbn [andb].
        apply incl_app; [|apply incl_appr, incl_refl].
        destruct (String.eqb q self); [|apply incl_nil_l].
        apply incl_appl. unfold W_own. apply incl_appr, incl_appl.
        incl_list.
      - injection H2 as <-. apply store_extends_refl. }
    eapply store_extends_trans; [exact H1|].
    eapply store_extends_trans; [exact H12|].
    eapply store_extends_set_conn; [exact Hc2|].
    eapply extends_trans.
    + destruct (String.eqb_spec ty "infiniband") as [->|].
      * apply render_infiniband_inv in H3. destruct H3 as [H3 _].
        eapply Hself; [|exact H3].
        unfold W_own. apply incl_appr, incl_appl. incl_list.
      * injection H3 as <-. apply extends_refl.
    + apply finish_extends in H4. eapply Hself; [|exact H4].
      unfold W_own. apply incl_appr, incl_appl. incl_list.
  - apply (render_interface_unmapped _ _ _ _ _ Hty) in H. subst r'.
    apply store_extends_refl.
  - unfold render_interface in H. rewrite Hty in H. discriminate.
Qed.

(** The warnings of a render. *)
Lemma render_interface_log self iface network_state r r' ty :
  assoc (if_type iface) _type_map = Some (Some ty) ->
  render_interface self iface network_state r = Ok r' ->
  log r' = log (warn_mtu iface
                  (resolve_mtu (last_opt (ipv4_subnet_mtus (if_subnets iface)))
                               (if_mtu iface)) r).
Proof.
  intros Hty H.
  destruct (render_interface_inv _ _ _ _ _ _ Hty H)
    as [cfg0 [cfg1 [mtu [r2 [cfg2 [cfg3 [cfg4
          [H0 [Hown [H2 [Hc2 [H3 [H4 ->]]]]]]]]]]]]].
  apply render_own_inv in Hown.
  destruct Hown as [c1 [st [c3 [c5 [c6 [c7 [_ [Hl3 [_ [Hmtu _]]]]]]]]]].
  apply render_layer3_inv in Hl3. destruct Hl3 as [_ [_ [_ Hl3]]].
  rewrite Hl3 in Hmtu. subst mtu. cbn [set_conn log].
  destruct (String.eqb ty "bridge").
  - apply render_bridge_extends in H2. destruct H2 as [_ H2]. exact H2.
  - injection H2 as <-. reflexivity.
Qed.

End InterfaceFacts.

(** ** The phases of a render, seen from the own profile *)

Section PhaseFacts.
Context {C : Collaborators}.

Lemma render_interface_phases self iface network_state r r' ty :
  assoc (if_type iface) _type_map = Some (Some ty) ->
  render_interface self iface network_state r = Ok r' ->
  exists cfg0 c2 c3 c4 cfg',
    assoc self (connections r) = Some cfg0
    /\ assoc self (connections r') = Some cfg'
    /\ render_layer3 ty iface c2 = Ok c3
    /\ extends (W_connectivity iface ++ [AnyOption ty]) cfg0 c2
    /\ has_section c2 ty = true
    /\ write_dns (rendered_nameservers iface network_state)
                 (rendered_dns_search iface network_state)
                 (l3_config c3) = Ok c4
    /\ extends (W_after_dns ty) (normalize_mayfail_fn c4) cfg'.
Proof.
  intros Hty H.
  destruct (render_interface_inv _ _ _ _ _ _ Hty H)
    as [cfg0 [cfg1 [mtu [r2 [cfg2 [cfg3 [cfg4
          [H0 [Hown [H2 [Hc2 [H3 [H4 ->]]]]]]]]]]]]].
  apply render_own_inv in Hown.
  destruct Hown as [c1 [st [c3 [c5 [c6 [c7
                     [H1 [Hl3 [Hdns [_ [H5 [H6 [H7 H8]]]]]]]]]]]]].
  exists cfg0, (set_section c1 ty []), st, c3, cfg4.
  split; [assumption|].
  split; [cbn [set_conn connections]; apply assoc_set_same|].
  split; [assumption|].
  apply init_connectivity_inv in H1. destruct H1 as [H1 _].
  split.
  { eapply extends_trans.
    - eapply extends_incl; [|exact H1]. apply incl_appl, incl_refl.
    - eapply extends_incl; [|apply extends_set_section].
      apply incl_appr, incl_refl. }
  split; [rewrite has_section_set_section, String.eqb_refl; reflexivity|].
  split.
  { unfold rendered_nameservers, rendered_dns_search.
    destruct (render_layer3_inv _ _ _ _ Hl3) as [_ [<- [<- _]]]. exact Hdns. }
  assert (Ia : incl [AnyOption ty] (W_after_dns ty))
    by (unfold W_after_dns; incl_list).
  assert (Ie : incl [AnyOption "ethernet"] (W_after_dns ty))
    by (unfold W_after_dns; incl_list).
  apply render_props_extends in H5.
  eapply extends_trans; [eapply extends_incl; [exact Ia|exact H5]|].
  eapply extends_trans.
  { destruct (String.eqb ty "ethernet").
    - apply render_ethernet_inv in H6. destruct H6 as [H6 _].
      eapply extends_incl; [exact Ie|exact H6].
    - injection H6 as <-. apply extends_refl. }
  eapply extends_trans.
  { destruct (String.eqb_spec ty "vlan") as [->|].
    - apply render_vlan_inv in H7. destruct H7 as [H7 _].
      eapply extends_incl; [exact Ia|exact H7].
    - injection H7 as <-. apply extends_refl. }
  eapply extends_trans.
  { destruct (String.eqb ty "bond").
    - apply render_bond_inv in H8. destruct H8 as [H8 _].
      eapply extends_incl; [exact Ie|exact H8].
    - injection H8 as <-. apply extends_refl. }
  eapply extends_trans.
  { destruct (String.eqb_spec ty "bridge") as [->|].
    - apply render_bridge_extends in H2. destruct H2 as [H2 _].
      specialize (H2 self). cbn [set_conn connections] in H2.
      rewrite assoc_set_same, Hc2, String.eqb_refl in H2.
      eapply extends_incl; [|exact H2].
      destruct (mem self (if_bridge_ports iface));
        unfold W_after_dns, W_port; incl_list.
    - injection H2 as <-. cbn [set_conn connections] in Hc2.
      rewrite assoc_set_same in Hc2. injection Hc2 as <-.
      apply extends_refl. }
  eapply extends_trans.
  { destruct (String.eqb_spec ty "infiniband") as [->|].
    - apply render_infiniband_inv in H3. destruct H3 as [H3 _].
      eapply extends_incl; [exact Ia|exact H3].
    - injection H3 as <-. apply extends_refl. }
  apply finish_extends in H4.
  eapply extends_incl; [|exact H4]. unfold W_after_dns; incl_list.
Qed.

End PhaseFacts.

(** ** C1: the name servers of a profile *)

(** Whether a write set reaches an option, decided on literal names. *)
Ltac covers_eval :=
  unfold W_before_dns, W_after_dns, W_connectivity, W_layer3, W_dns,
    W_dns_search, W_mayfail, W_port, covers;
  try match goal with
      | |- context [if_bond_master ?i] => destruct (if_bond_master i)
      end;
  cbn [existsb matches app];
  eqb_eval; cbn [andb orb]; rewrite ?andb_false_r; cbn [andb orb];
  try reflexivity.

Lemma active_extends_outside W cfg cfg' family :
  extends W cfg cfg' ->
  (forall o, covers W family o = false) ->
  active cfg' family = active cfg family.
Proof.
  intros [_ [Hs Hf]] Hout. unfold active.
  now rewrite (Hs _ Hout), (Hf _ _ (Hout "method")).
Qed.

Lemma merge_new_nil found : merge_new found [] = found.
Proof. unfold merge_new. cbn. apply app_nil_r. Qed.

Lemma rendered_nameservers_subnet_level iface network_state :
  subnet_nameservers (if_subnets iface) <> [] ->
  rendered_nameservers iface network_state
  = merge_new (subnet_nameservers (if_subnets iface))
              (interface_nameservers iface).
Proof.
  intros Hne. unfold rendered_nameservers, resolve_dns, interface_nameservers.
  destruct (if_dns iface) as [d|]; cbn [option_map].
  - unfold merge_new.
    destruct (subnet_nameservers (if_subnets iface)); [congruence|].
    reflexivity.
  - rewrite merge_new_nil.
    destruct (subnet_nameservers (if_subnets iface)); [congruence|].
    reflexivity.
Qed.

Section NameserverFacts.
Context {C : Collaborators}.

(** The [dns] option of a family after a render, whatever the name servers
    come from. *)
Lemma render_interface_dns self iface network_state r r' ty family :
  family = "ipv4" \/ family = "ipv6" ->
  assoc (if_type iface) _type_map = Some (Some ty) ->
  render_interface self iface network_state r = Ok r' ->
  conn_option r self family "dns" = None ->
  conn_option r' self family "dns" =
  if conn_active r' self family
  then dns_entry (nameservers_of family
                    (rendered_nameservers iface network_state))
  else None.
Proof.
  intros Hfam Hty H Hnone.
  destruct (render_interface_phases _ _ _ _ _ _ Hty H)
    as [cfg0 [c2 [c3 [c4 [cfg' [H0 [H' [Hl3 [Hc2 [_ [Hdns Hlate]]]]]]]]]]].
  unfold conn_option, conn_active in *. rewrite H0 in Hnone. rewrite H'.
  pose proof (type_map_values _ _ Hty) as Htys.
  apply render_layer3_inv in Hl3. destruct Hl3 as [Hl3 _].
  apply write_dns_inv in Hdns. destruct Hdns as [Hd1 [Hd2 Hd3]].
  destruct (normalize_mayfail_fn_inv c4) as [Hn1 Hn2].
  assert (E2 : get_option (l3_config c3) family "dns" = None).
  { destruct Hl3 as [_ [_ Hl3]]. destruct Hc2 as [_ [_ Hc2]].
    rewrite Hl3, Hc2; [assumption| |].
    - destruct Hfam as [-> | ->];
        destruct Htys as [-> | [-> | [-> | [-> | ->]]]]; covers_eval.
    - destruct Hfam as [-> | ->]; covers_eval. }
  assert (Ea : active cfg' family = active (l3_config c3) family).
  { transitivity (active (normalize_mayfail_fn c4) family).
    - eapply active_extends_outside; [exact Hlate|].
      intros o. destruct Hfam as [-> | ->];
        destruct Htys as [-> | [-> | [-> | [-> | ->]]]]; covers_eval.
    - transitivity (active c4 family).
      + apply active_same; [assumption|]. apply Hn1.
        destruct Hfam as [-> | ->]; covers_eval.
      + apply active_same; [assumption|]. apply Hd1.
        destruct Hfam as [-> | ->]; covers_eval. }
  assert (Ed : get_option cfg' family "dns" = get_option c4 family "dns").
  { destruct Hlate as [_ [_ Hlate]]. destruct Hn1 as [_ [_ Hn1]].
    rewrite Hlate, Hn1; [reflexivity| |].
    - destruct Hfam as [-> | ->]; covers_eval.
    - destruct Hfam as [-> | ->];
        destruct Htys as [-> | [-> | [-> | [-> | ->]]]]; covers_eval. }
  rewrite Ed, Ea, Hd3, fold_add_nameserver_dns, E2.
  destruct (active (l3_config c3) family); [|reflexivity].
  now destruct (nameservers_of family _).
Qed.

End NameserverFacts.

(** C1, as amended: when an interface has subnet-level name servers, the
    [dns] option of each family of the rendered profile is built from the
    subnet-level name servers followed by the interface-level ones that are
    not among them; the global name servers of the network state take no
    part.  (The option is written for a family whose section exists and
    whose method is not [disabled].) *)
Theorem C1_subnet_dns_then_interface_dns {C : Collaborators}
  (self : string) (iface : interface) (network_state : NetworkState)
  (r r' : renderer) (ty family : string) :
  family = "ipv4" \/ family = "ipv6" ->
  assoc (if_type iface) _type_map = Some (Some ty) ->
  render_interface self iface network_state r = Ok r' ->
  conn_option r self family "dns" = None ->
  subnet_nameservers (if_subnets iface) <> [] ->
  conn_option r' self family "dns" =
  if conn_active r' self family
  then dns_entry
         (nameservers_of family
            (merge_new (subnet_nameservers (if_subnets iface))
                       (interface_nameservers iface)))
  else None.
Proof.
  intros Hfam Hty H Hnone Hsub.
  rewrite (render_interface_dns _ _ _ _ _ _ _ Hfam Hty H Hnone).
  now rewrite rendered_nameservers_subnet_level.
Qed.

Lemma C1_subnet_dns_then_interface_dns_witness :
  conn_option (get_ok (render_all [dns_iface])) "eth0" "ipv4" "dns" =
  if conn_active (get_ok (render_all [dns_iface])) "eth0" "ipv4"
  then dns_entry
         (nameservers_of "ipv4"
            (merge_new (subnet_nameservers (if_subnets dns_iface))
                       (interface_nameservers dns_iface)))
  else None.
Proof.
  apply (C1_subnet_dns_then_interface_dns "eth0" dns_iface
           (mk_state [dns_iface]) (create_connections [dns_iface] Renderer)
           (get_ok (render_all [dns_iface])) "ethernet" "ipv4").
  - left. reflexivity.
  - reflexivity.
  - vm_compute. reflexivity.
  - vm_compute. reflexivity.
  - discriminate.
Defined.

(** C1 as stated fails: the interface-level name server 8.8.8.8 is merged
    after the subnet-level 1.1.1.1. *)
Lemma C1_counterexample :
  subnet_nameservers (if_subnets dns_iface) = ["1.1.1.1"]
  /\ exists r',
       render_all [dns_iface] = Ok r'
       /\ conn_option r' "eth0" "ipv4" "dns" = Some "1.1.1.1;8.8.8.8;"
       /\ conn_option r' "eth0" "ipv4" "dns"
          <> dns_entry (subnet_nameservers (if_subnets dns_iface)).
Proof.
  split; [reflexivity|].
  eexists. split; [vm_compute; reflexivity|].
  split; [vm_compute; reflexivity|].
  vm_compute. discriminate.
Qed.

(** ** C2: the mtu of a profile *)

Section MtuFacts.
Context {C : Collaborators}.

Lemma render_interface_mtu self iface network_state r r' ty m :
  assoc (if_type iface) _type_map = Some (Some ty) ->
  render_interface self iface network_state r = Ok r' ->
  rendered_mtu iface = Some m ->
  (ty = "ethernet" \/ ty = "bond" ->
   conn_option r' self "ethernet" "mtu" = Some (str_Z m))
  /\ (ty = "infiniband" ->
      conn_option r' self "infiniband" "mtu" = Some (str_Z m)).
Proof.
  intros Hty H Hm.
  destruct (render_interface_inv _ _ _ _ _ _ Hty H)
    as [cfg0 [cfg1 [mtu [r2 [cfg2 [cfg3 [cfg4
          [H0 [Hown [H2 [Hc2 [H3 [H4 ->]]]]]]]]]]]]].
  apply render_own_inv in Hown.
  destruct Hown as [c1 [st [c3 [c5 [c6 [c7
                     [_ [Hl3 [_ [Hmtu [_ [H6 [H7 H8]]]]]]]]]]]]].
  apply render_layer3_inv in Hl3. destruct Hl3 as [_ [_ [_ Hl3]]].
  rewrite Hl3 in Hmtu. fold (rendered_mtu iface) in Hmtu.
  rewrite Hm in Hmtu. subst mtu.
  apply finish_extends in H4. destruct H4 as [_ [_ H4]].
  unfold conn_option. cbn [set_conn connections]. rewrite assoc_set_same.
  split.
  - intros [-> | ->]; eqb_eval.
    + apply render_ethernet_inv in H6. destruct H6 as [_ H6].
      injection H7 as <-. injection H8 as <-. injection H2 as <-.
      cbn [set_conn connections] in Hc2. rewrite assoc_set_same in Hc2.
      injection Hc2 as <-. injection H3 as <-.
      rewrite H4 by covers_eval. exact H6.
    + apply render_bond_inv in H8. destruct H8 as [_ H8].
      injection H2 as <-.
      cbn [set_conn connections] in Hc2. rewrite assoc_set_same in Hc2.
      injection Hc2 as <-. injection H3 as <-.
      rewrite H4 by covers_eval. exact H8.
  - intros ->. eqb_eval.
    apply render_infiniband_inv in H3. destruct H3 as [_ H3].
    rewrite H4 by covers_eval. exact H3.
Qed.

End MtuFacts.

(** C2, as amended: the mtu that the render resolves is the last ipv4
    subnet-level mtu in subnet input order, the device-level mtu when no
    ipv4 subnet has one.  A subnet-level value overrides the device-level
    one; the resolved value is written as [ethernet.mtu] for an ethernet or
    bond profile and as [infiniband.mtu] for an infiniband profile; a
    warning is logged exactly when it differs from the device-level mtu,
    and the render succeeds all the same. *)
Theorem C2_last_ipv4_subnet_mtu_wins {C : Collaborators}
  (self : string) (iface : interface) (network_state : NetworkState)
  (r r' : renderer) (ty : string) :
  assoc (if_type iface) _type_map = Some (Some ty) ->
  render_interface self iface network_state r = Ok r' ->
  (forall m, last_opt (ipv4_subnet_mtus (if_subnets iface)) = Some m ->
             rendered_mtu iface = Some m)
  /\ (last_opt (ipv4_subnet_mtus (if_subnets iface)) = None ->
      rendered_mtu iface = if_mtu iface)
  /\ (forall m, rendered_mtu iface = Some m ->
                (ty = "ethernet" \/ ty = "bond" ->
                 conn_option r' self "ethernet" "mtu" = Some (str_Z m))
                /\ (ty = "infiniband" ->
                    conn_option r' self "infiniband" "mtu" = Some (str_Z m)))
  /\ log r' =
     if opt_Z_eqb (rendered_mtu iface) (if_mtu iface) then log r
     else (log r ++ [mtu_warning (if_name iface) (if_mtu iface)
                                 (rendered_mtu iface)])%list.
Proof.
  intros Hty H. split; [|split; [|split]].
  - intros m Hm. unfold rendered_mtu. now rewrite Hm.
  - intros Hm. unfold rendered_mtu. now rewrite Hm.
  - intros m Hm. eapply render_interface_mtu; eassumption.
  - rewrite (render_interface_log _ _ _ _ _ _ Hty H).
    fold (rendered_mtu iface). unfold warn_mtu.
    now destruct (opt_Z_eqb (rendered_mtu iface) (if_mtu iface)).
Qed.

Lemma C2_last_ipv4_subnet_mtu_wins_witness :
  rendered_mtu (mtu_iface [9000%Z]) = Some 9000%Z
  /\ conn_option (get_ok (render_all [mtu_iface [9000%Z]]))
                 "eth0" "ethernet" "mtu" = Some (str_Z 9000)
  /\ log (get_ok (render_all [mtu_iface [9000%Z]])) =
     if opt_Z_eqb (rendered_mtu (mtu_iface [9000%Z]))
                  (if_mtu (mtu_iface [9000%Z]))
     then log (create_connections [mtu_iface [9000%Z]] Renderer)
     else (log (create_connections [mtu_iface [9000%Z]] Renderer)
           ++ [mtu_warning (if_name (mtu_iface [9000%Z]))
                           (if_mtu (mtu_iface [9000%Z]))
                           (rendered_mtu (mtu_iface [9000%Z]))])%list.
Proof.
  pose proof (C2_last_ipv4_subnet_mtu_wins "eth0" (mtu_iface [9000%Z])
                (mk_state [mtu_iface [9000%Z]])
                (create_connections [mtu_iface [9000%Z]] Renderer)
                (get_ok (render_all [mtu_iface [9000%Z]])) "ethernet")
    as H.
  destruct H as [H1 [_ [H3 H4]]].
  - reflexivity.
  - vm_compute. reflexivity.
  - split; [|split].
    + apply H1. reflexivity.
    + apply (H3 9000%Z); [reflexivity|]. left. reflexivity.
    + exact H4.
Defined.

(** C2 as stated fails: with ipv4 subnet mtus 9000 then 1400 the first one
    seen is 9000, and the profile gets 1400. *)
Lemma C2_counterexample :
  first_opt (ipv4_subnet_mtus (if_subnets (mtu_iface [9000%Z; 1400%Z])))
  = Some 9000%Z
  /\ exists r',
       render_all [mtu_iface [9000%Z; 1400%Z]] = Ok r'
       /\ conn_option r' "eth0" "ethernet" "mtu" = Some "1400"
       /\ conn_option r' "eth0" "ethernet" "mtu" <> Some (str_Z 9000).
Proof.
  split; [reflexivity|].
  eexists. split; [vm_compute; reflexivity|].
  split; [vm_compute; reflexivity|].
  vm_compute. discriminate.
Qed.

(** ** C10: routes of a family without subnets *)

Lemma set_ip_method_fn_other_method_exact family subnet_type cfg g :
  g <> family ->
  (g = "ipv4" -> forces_ipv4_disabled subnet_type = false) ->
  get_option (set_ip_method_fn family subnet_type cfg) g "method" =
  get_option cfg g "method".
Proof.
  intros Hne Hforce. unfold set_ip_method_fn.
  destruct (requested subnet_type) as [method unknown].
  assert (Hf : String.eqb family g = false) by (apply String.eqb_neq; congruence).
  set (cfg2 := if unknown
               then put family "may-fail" "true"
                      (put_default family "method" "disabled" cfg)
               else put_default family "method" "disabled" cfg).
  assert (H2 : get_option cfg2 g "method" = get_option cfg g "method").
  { subst cfg2. destruct unknown; cfg_simpl; rewrite Hf; cfg_simpl; reflexivity. }
  destruct (opt_eqb (get_option cfg2 family "method") "dhcp"); [auto|].
  destruct (opt_eqb (get_option cfg2 family "method") "auto"
            && String.eqb method "manual"); [auto|].
  rewrite get_option_put_default, Hf. cbn [andb].
  rewrite get_option_put, Hf. cbn [andb].
  destruct (forces_ipv4_disabled subnet_type) eqn:Ef; [|auto].
  rewrite get_option_put_default.
  destruct (String.eqb_spec "ipv4" g) as [<-|]; cbn [andb]; [|auto].
  specialize (Hforce eq_refl). discriminate.
Qed.

Section RouteFacts.
Context {C : Collaborators}.



Lemma add_route_fn_adds rt n cfg :
  get_option (add_route_fn rt n cfg) (route_family rt)
             ("route" ++ str_nat n) = Some (route_value rt).
Proof.
  unfold add_route_fn.
  assert (H1 : get_option (put (route_family rt) ("route" ++ str_nat n)
                               (route_value rt) cfg)
                          (route_family rt) ("route" ++ str_nat n)
               = Some (route_value rt)).
  { now rewrite get_option_put, !String.eqb_refl. }
  destruct (rt_mtu rt); [|assumption].
  rewrite get_option_put.
  destruct (String.eqb_spec (("route" ++ str_nat n) ++ "_options")
                            ("route" ++ str_nat n)) as [Heq|].
  - symmetry in Heq. now apply numbered_key_not_options in Heq.
  - now rewrite andb_false_r.
Qed.






End RouteFacts.

Section RouteRender.
Context {C : Collaborators}.


End RouteRender.




(** ** The two passes of the renderer *)

Lemma mem_In x l : mem x l = true <-> In x l.
Proof.
  unfold mem. rewrite existsb_exists. split.
  - intros [y [Hin Heq]]. apply String.eqb_eq in Heq. now subst.
  - intros Hin. exists x. split; [assumption|apply String.eqb_refl].
Qed.


Lemma create_connections_other ifaces r k :
  ~ In k (map conn_key ifaces) ->
  assoc k (connections (create_connections ifaces r))
  = assoc k (connections r).
Proof.
  revert r. induction ifaces as [|a ifaces IH]; intros r Hnotin.
  - reflexivity.
  - cbn [create_connections fold_left]. fold (create_connections ifaces).
    cbn [map In] in Hnotin.
    rewrite IH by tauto. cbn [set_conn connections].
    apply assoc_set_other. tauto.
Qed.

(** After the first pass, with distinct keys, every interface finds the new
    profile of its own name under its key. *)
Lemma create_connections_assoc ifaces r iface :
  NoDup (map conn_key ifaces) -> In iface ifaces ->
  assoc (conn_key iface) (connections (create_connections ifaces r))
  = Some (NMConnection (if_name iface)).
Proof.
  revert r. induction ifaces as [|a ifaces IH]; intros r Hnd Hin.
  - destruct Hin.
  - cbn [map] in Hnd. inversion Hnd as [|? ? Hnotin Hnd']; subst.
    cbn [create_connections fold_left]. fold (create_connections ifaces).
    destruct Hin as [->|Hin].
    + rewrite create_connections_other by assumption.
      cbn [set_conn connections]. apply assoc_set_same.
    + now apply IH.
Qed.

Lemma create_connections_fresh ifaces k cfg :
  assoc k (connections (create_connections ifaces Renderer)) = Some cfg ->
  exists name, cfg = NMConnection name.
Proof.
  assert (Hgen : forall l r,
             (forall k cfg, assoc k (connections r) = Some cfg ->
                            exists name, cfg = NMConnection name) ->
             forall k cfg,
               assoc k (connections (create_connections l r)) = Some cfg ->
               exists name, cfg = NMConnection name).
  { induction l as [|a l IH]; intros r Hr k0 cfg0 H.
    - eapply Hr; eassumption.
    - cbn [create_connections fold_left] in H.
      fold (create_connections l) in H.
      eapply IH; [|eassumption].
      intros k1 cfg1. cbn [set_conn connections]. rewrite assoc_set_lookup.
      destruct (String.eqb (conn_key a) k1).
      + intros E. injection E as <-. eauto.
      + apply Hr. }
  apply Hgen. intros k0 cfg0 H. discriminate.
Qed.

Lemma create_connections_log ifaces r :
  log (create_connections ifaces r) = log r.
Proof.
  revert r. induction ifaces as [|a ifaces IH]; intros r.
  - reflexivity.
  - cbn [create_connections fold_left]. fold (create_connections ifaces).
    now rewrite IH.
Qed.

Lemma create_connections_NoDup ifaces r :
  NoDup (map fst (connections r)) ->
  NoDup (map fst (connections (create_connections ifaces r))).
Proof.
  revert r. induction ifaces as [|a ifaces IH]; intros r H.
  - exact H.
  - cbn [create_connections fold_left]. fold (create_connections ifaces).
    apply IH. cbn [set_conn connections]. now apply assoc_set_NoDup.
Qed.

Section PassFacts.
Context {C : Collaborators}.

(** A property of the registry that every render keeps holds after the
    second pass. *)
Lemma render_connections_ind (P : renderer -> Prop) network_state ifaces :
  (forall r1 r2 iface,
      In iface ifaces -> P r1 ->
      render_interface (conn_key iface) iface network_state r1 = Ok r2 ->
      P r2) ->
  forall r r',
    P r -> render_connections network_state ifaces r = Ok r' -> P r'.
Proof.
  unfold render_connections.
  induction ifaces as [|a ifaces IH]; intros Hstep r r' HP H;
    cbn [foldM] in H.
  - now injection H as <-.
  - bind_inv_as H r1 E1. bind_inv_as E1 c Ec.
    eapply IH; [| |exact H].
    + intros r2 r3 iface Hin. apply Hstep. now right.
    + eapply Hstep; [left; reflexivity|exact HP|exact E1].
Qed.

Lemma render_network_state_inv network_state target r r' files :
  render_network_state network_state target r = Ok (r', files) ->
  render_connections network_state (iter_interfaces network_state)
    (create_connections (iter_interfaces network_state) r) = Ok r'
  /\ files = write_files target r'.
Proof.
  unfold render_network_state. intros H. bind_inv_as H r1 E1.
  injection H as <- <-. auto.
Qed.

(** No render writes the identity token of any profile. *)
Lemma W_render_uuid self iface q :
  covers (W_render self iface q) "connection" "uuid" = false.
Proof.
  unfold W_render.
  destruct (assoc (if_type iface) _type_map) as [[ty|]|] eqn:Hty;
    try reflexivity.
  rewrite covers_app. apply orb_false_intro.
  - destruct (String.eqb q self); [|reflexivity].
    unfold W_own. rewrite !covers_app.
    destruct (type_map_values _ _ Hty) as [-> | [-> | [-> | [-> | ->]]]];
      repeat (apply orb_false_intro); covers_eval.
  - destruct (String.eqb ty "bridge" && mem q (if_bridge_ports iface));
      covers_eval.
Qed.

Lemma render_connections_uuid network_state ifaces r r' q :
  render_connections network_state ifaces r = Ok r' ->
  conn_option r' q "connection" "uuid" = conn_option r q "connection" "uuid".
Proof.
  apply (render_connections_ind
           (fun r1 => conn_option r1 q "connection" "uuid"
                      = conn_option r q "connection" "uuid")).
  - intros r1 r2 iface _ HP H. rewrite <- HP.
    eapply store_extends_conn_option;
      [eapply render_interface_extends; eassumption|apply W_render_uuid].
  - reflexivity.
Qed.

End PassFacts.

(** ** C5: the identity token *)

Lemma NMConnection_uuid con_id :
  get_option (NMConnection con_id) "connection" "uuid"
  = Some (UUID.uuid5 CI_NM_UUID con_id).
Proof. reflexivity. Qed.




(** ** C4: unmappable interface types *)

Lemma append_length (a b : string) :
  String.length (a ++ b) = String.length a + String.length b.
Proof. induction a as [|c a IH]; cbn; [reflexivity|now rewrite IH]. Qed.

Lemma append_inv_tail (a b c : string) : a ++ c = b ++ c -> a = b.
Proof.
  revert b. induction a as [|x a IH]; intros [|y b] H; cbn in H.
  - reflexivity.
  - apply (f_equal String.length) in H. cbn in H.
    rewrite append_length in H. lia.
  - apply (f_equal String.length) in H. cbn in H.
    rewrite append_length in H. lia.
  - injection H as -> H. f_equal. now apply IH.
Qed.

Lemma set_conn_NoDup r q cfg :
  NoDup (map fst (connections r)) ->
  NoDup (map fst (connections (set_conn r q cfg))).
Proof. cbn [set_conn connections]. apply assoc_set_NoDup. Qed.

Lemma foldM_render_bridge_port_NoDup self ports :
  forall r r',
    foldM (render_bridge_port self) ports r = Ok r' ->
    NoDup (map fst (connections r)) -> NoDup (map fst (connections r')).
Proof.
  induction ports as [|port ports IH]; intros r r' H Hnd; cbn [foldM] in H.
  - now injection H as <-.
  - bind_inv_as H r1 E1. apply render_bridge_port_inv in E1.
    destruct E1 as [pcfg [uuid [_ [_ ->]]]].
    eapply IH; [exact H|]. now apply set_conn_NoDup.
Qed.

Section UnmappedFacts.
Context {C : Collaborators}.

Lemma render_interface_NoDup self iface network_state r r' :
  render_interface self iface network_state r = Ok r' ->
  NoDup (map fst (connections r)) -> NoDup (map fst (connections r')).
Proof.
  intros H Hnd.
  destruct (assoc (if_type iface) _type_map) as [[ty|]|] eqn:Hty.
  - destruct (render_interface_inv _ _ _ _ _ _ Hty H)
      as [cfg0 [cfg1 [mtu [r2 [cfg2 [cfg3 [cfg4
            [H0 [Hown [H2 [Hc2 [H3 [H4 ->]]]]]]]]]]]]].
    apply set_conn_NoDup.
    assert (H1 : NoDup (map fst (connections
                                   (set_conn (warn_mtu iface mtu r) self cfg1)))).
    { apply set_conn_NoDup. now rewrite warn_mtu_connections. }
    destruct (String.eqb ty "bridge").
    + unfold render_bridge in H2. bind_inv_as H2 r3 E3.
      bind_inv_as H2 c Ec. bind_inv_as H2 c' Ec'. injection H2 as <-.
      apply set_conn_NoDup.
      eapply foldM_render_bridge_port_NoDup; eassumption.
    + now injection H2 as <-.
  - apply (render_interface_unmapped _ _ _ _ _ Hty) in H. now subst.
  - unfold render_interface in H. rewrite Hty in H. discriminate.
Qed.

Lemma render_connections_NoDup network_state ifaces r r' :
  render_connections network_state ifaces r = Ok r' ->
  NoDup (map fst (connections r)) -> NoDup (map fst (connections r')).
Proof.
  intros H Hnd. revert H.
  apply (render_connections_ind
           (fun r1 => NoDup (map fst (connections r1)))); [|assumption].
  intros r1 r2 iface _ HP H. eapply render_interface_NoDup; eassumption.
Qed.

(** A render leaves [connection.type] of the profile under [q] alone,
    unless it renders into that profile an interface of a mappable type. *)
Lemma W_render_type self iface q :
  q <> self \/ assoc (if_type iface) _type_map = Some None ->
  covers (W_render self iface q) "connection" "type" = false.
Proof.
  intros Hq. unfold W_render.
  destruct (assoc (if_type iface) _type_map) as [[ty|]|] eqn:Hty;
    try reflexivity.
  destruct Hq as [Hq|Hq]; [|discriminate].
  apply String.eqb_neq in Hq. rewrite Hq. cbn [app].
  destruct (String.eqb ty "bridge" && mem q (if_bridge_ports iface));
    covers_eval.
Qed.

Lemma nm_conn_filename_inj k k' target :
  nm_conn_filename k target = nm_conn_filename k' target -> k = k'.
Proof.
  unfold nm_conn_filename. intros H.
  do 3 apply append_inv_head in H.
  now apply append_inv_tail in H.
Qed.

Lemma nm_conn_filename_not_conf k target :
  nm_conn_filename k target <> cloud_init_nm_conf_filename target.
Proof.
  unfold nm_conn_filename, cloud_init_nm_conf_filename. intros H.
  apply append_inv_head in H. discriminate.
Qed.

Lemma write_files_names target r name :
  In name (map fw_name (write_files target r)) ->
  name = cloud_init_nm_conf_filename target
  \/ exists k cfg, In (k, cfg) (connections r) /\ valid cfg = true
                   /\ name = nm_conn_filename k target.
Proof.
  unfold write_files. rewrite map_app, in_app_iff. intros [H|H].
  - right. apply in_map_iff in H. destruct H as [fw [<- Hin]].
    apply in_map_iff in Hin. destruct Hin as [[k cfg] [<- Hin]].
    apply filter_In in Hin. destruct Hin as [Hin Hv].
    exists k, cfg. auto.
  - left. cbn in H. destruct H as [<-|[]]. reflexivity.
Qed.

End UnmappedFacts.

(** C4, as amended: the render of a loopback interface returns at once: the
    registry and the log are as before and no error is raised.  When every
    interface stored under a key is a loopback, the profile under that key
    has no [connection.type] after the whole render and no file is written
    for it. *)
Theorem C4_loopback_silently_omitted {C : Collaborators}
  (network_state : NetworkState) (target : option string)
  (r' : renderer) (files : list file_write) (iface : interface) :
  (forall self r,
      if_type iface = "loopback" ->
      render_interface self iface network_state r = Ok r)
  /\ (render_network_state network_state target Renderer = Ok (r', files) ->
      In iface (iter_interfaces network_state) ->
      (forall other, In other (iter_interfaces network_state) ->
                     conn_key other = conn_key iface ->
                     if_type other = "loopback") ->
      conn_option r' (conn_key iface) "connection" "type" = None
      /\ ~ In (nm_conn_filename (conn_key iface) target)
              (map fw_name files)).
Proof.
  split.
  - intros self r Hty. unfold render_interface. rewrite Hty. reflexivity.
  - intros H Hin Hall.
    apply render_network_state_inv in H. destruct H as [H ->].
    assert (Hnd : NoDup (map fst (connections r'))).
    { eapply render_connections_NoDup; [exact H|].
      apply create_connections_NoDup. constructor. }
    assert (Htype : conn_option r' (conn_key iface) "connection" "type" = None).
    { revert H.
      apply (render_connections_ind
               (fun r1 => conn_option r1 (conn_key iface) "connection" "type"
                          = None)).
      - intros r1 r2 other Hother HP Hrun. rewrite <- HP.
        eapply store_extends_conn_option;
          [eapply render_interface_extends; eassumption|].
        apply W_render_type.
        destruct (String.eqb_spec (conn_key iface) (conn_key other))
          as [Heq|Hne]; [right|left; assumption].
        rewrite (Hall other Hother (eq_sym Heq)). reflexivity.
      - unfold conn_option.
        destruct (assoc (conn_key iface)
                    (connections (create_connections
                                    (iter_interfaces network_state) Renderer)))
          as [cfg|] eqn:E; [|reflexivity].
        apply create_connections_fresh in E. destruct E as [name ->].
        now apply fresh_profile_get_option. }
    split; [assumption|].
    intros Hname. apply write_files_names in Hname.
    destruct Hname as [Hname|[k [cfg [Hk [Hv Hname]]]]].
    + now apply nm_conn_filename_not_conf in Hname.
    + apply nm_conn_filename_inj in Hname. subst k.
      apply (assoc_In_pair _ _ _ Hnd) in Hk.
      unfold conn_option in Htype. rewrite Hk in Htype.
      unfold valid in Hv. rewrite has_option_get_option, Htype in Hv.
      discriminate.
Qed.

Lemma C4_loopback_silently_omitted_witness :
  render_interface "lo" loopback_iface (mk_state [loopback_iface])
    (create_connections [loopback_iface] Renderer)
  = Ok (create_connections [loopback_iface] Renderer)
  /\ conn_option (get_ok (render_all [loopback_iface]))
                 (conn_key loopback_iface) "connection" "type" = None
  /\ ~ In (nm_conn_filename (conn_key loopback_iface) None)
          (map fw_name
               (write_files None (get_ok (render_all [loopback_iface])))).
Proof.
  assert (Hrun : render_network_state (mk_state [loopback_iface]) None Renderer
                 = Ok (get_ok (render_all [loopback_iface]),
                       write_files None (get_ok (render_all [loopback_iface]))))
    by (vm_compute; reflexivity).
  pose proof (C4_loopback_silently_omitted (mk_state [loopback_iface]) None
                (get_ok (render_all [loopback_iface]))
                (write_files None (get_ok (render_all [loopback_iface])))
                loopback_iface) as [H1 H2].
  split.
  - apply H1. reflexivity.
  - apply H2.
    + exact Hrun.
    + left. reflexivity.
    + intros other [<-|[]] _. reflexivity.
Defined.

(** C4 as stated fails for an unknown type string: the lookup in
    [_type_map] raises [KeyError] and the whole render fails. *)
Lemma C4_counterexample :
  assoc (if_type dummy_iface) _type_map = None
  /\ render_network_state (mk_state [dummy_iface]) None Renderer
     = Err (KeyError "dummy").
Proof. split; reflexivity. Qed.

(** ** C8: bridge ports *)

Lemma put_default_keeps s o v cfg s' o' v' :
  get_option cfg s' o' = Some v' ->
  get_option (put_default s o v cfg) s' o' = Some v'.
Proof.
  intros H. rewrite get_option_put_default.
  destruct (String.eqb_spec s s') as [->|]; cbn [andb]; [|assumption].
  destruct (String.eqb_spec o o') as [->|]; cbn [andb]; [|assumption].
  now rewrite H.
Qed.

Lemma conn_option_set_conn r q cfg k s o :
  conn_option (set_conn r q cfg) k s o =
  if String.eqb q k then get_option cfg s o else conn_option r k s o.
Proof.
  unfold conn_option. cbn [set_conn connections]. rewrite assoc_set_lookup.
  now destruct (String.eqb q k).
Qed.

Lemma conn_option_set_conn_frame W r q c c' k s o :
  assoc q (connections r) = Some c -> extends W c c' ->
  covers W s o = false ->
  conn_option (set_conn r q c') k s o = conn_option r k s o.
Proof.
  intros Hq [_ [_ Hf]] Hc. rewrite conn_option_set_conn.
  destruct (String.eqb_spec q k) as [<-|]; [|reflexivity].
  unfold conn_option. rewrite Hq. now apply Hf.
Qed.

(** The loop over the ports only sets options that are unset. *)
Lemma render_bridge_port_keeps self r port r' q s o v :
  render_bridge_port self r port = Ok r' ->
  conn_option r q s o = Some v -> conn_option r' q s o = Some v.
Proof.
  intros H Hv. apply render_bridge_port_inv in H.
  destruct H as [pcfg [uuid [Hp [_ ->]]]].
  rewrite conn_option_set_conn.
  destruct (String.eqb_spec port q) as [<-|]; [|assumption].
  unfold conn_option in Hv. rewrite Hp in Hv.
  now do 2 apply put_default_keeps.
Qed.

Lemma foldM_render_bridge_port_keeps self ports q s o v :
  forall r r',
    foldM (render_bridge_port self) ports r = Ok r' ->
    conn_option r q s o = Some v -> conn_option r' q s o = Some v.
Proof.
  induction ports as [|port ports IH]; intros r r' H Hv; cbn [foldM] in H.
  - now injection H as <-.
  - bind_inv_as H r1 E1. eapply IH; [exact H|].
    eapply render_bridge_port_keeps; eassumption.
Qed.

Lemma foldM_render_bridge_port_sets self ports P uuid :
  forall r r',
    foldM (render_bridge_port self) ports r = Ok r' ->
    In P ports ->
    conn_option r self "connection" "uuid" = Some uuid ->
    conn_option r P "connection" "slave-type" = None ->
    conn_option r P "connection" "master" = None ->
    conn_option r' P "connection" "slave-type" = Some "bridge"
    /\ conn_option r' P "connection" "master" = Some uuid.
Proof.
  induction ports as [|port ports IH]; intros r r' H Hin Hu Hs Hm;
    cbn [foldM] in H; [destruct Hin|].
  bind_inv_as H r1 E1.
  pose proof (render_bridge_port_keeps _ _ _ _ _ _ _ _ E1 Hu) as Hu1.
  apply render_bridge_port_inv in E1.
  destruct E1 as [pcfg [uuid' [Hp [Hu' Er1]]]].
  assert (uuid' = uuid) by congruence. subst uuid'.
  destruct (String.eqb_spec port P) as [->|Hne].
  - assert (S1 : conn_option r1 P "connection" "slave-type" = Some "bridge").
    { rewrite Er1, conn_option_set_conn, String.eqb_refl.
      unfold conn_option in Hs. rewrite Hp in Hs.
      rewrite !get_option_put_default. eqb_eval. cbn [andb].
      now rewrite Hs. }
    assert (M1 : conn_option r1 P "connection" "master" = Some uuid).
    { rewrite Er1, conn_option_set_conn, String.eqb_refl.
      unfold conn_option in Hm. rewrite Hp in Hm.
      rewrite !get_option_put_default. eqb_eval. cbn [andb].
      now rewrite Hm. }
    split; eapply foldM_render_bridge_port_keeps; eassumption.
  - destruct Hin as [Heq|Hin]; [congruence|].
    apply (IH r1 r' H Hin Hu1).
    + rewrite Er1, conn_option_set_conn.
      apply String.eqb_neq in Hne. now rewrite Hne.
    + rewrite Er1, conn_option_set_conn.
      apply String.eqb_neq in Hne. now rewrite Hne.
Qed.

Lemma type_map_bridge t :
  assoc t _type_map = Some (Some "bridge") -> t = "bridge".
Proof.
  unfold _type_map. cbn [assoc].
  repeat match goal with
         | |- context [String.eqb t ?x] =>
             destruct (String.eqb_spec t x); [subst|]
         end;
    intros H; try discriminate; reflexivity.
Qed.

Section BridgeFacts.
Context {C : Collaborators}.

(** The writes of an own render leave the membership options alone when the
    interface has no bond master. *)
Lemma W_own_membership ty iface o :
  ty = "ethernet" \/ ty = "vlan" \/ ty = "bond" \/ ty = "bridge"
  \/ ty = "infiniband" ->
  if_bond_master iface = None ->
  o = "slave-type" \/ o = "master" ->
  covers (W_own ty iface) "connection" o = false.
Proof.
  intros Htys Hbm Ho. unfold W_own, W_connectivity. rewrite Hbm.
  rewrite !covers_app.
  destruct Htys as [-> | [-> | [-> | [-> | ->]]]];
    destruct Ho as [-> | ->];
    repeat (apply orb_false_intro); covers_eval.
Qed.

(** A render that is neither the render of a bridge that names [P] nor the
    render of an interface with a bond master into [P] leaves the
    membership options of [P] alone. *)
Lemma W_render_membership self iface P o :
  ~ (if_type iface = "bridge" /\ In P (if_bridge_ports iface)) ->
  (self = P -> if_bond_master iface = None) ->
  o = "slave-type" \/ o = "master" ->
  covers (W_render self iface P) "connection" o = false.
Proof.
  intros Hnb Hbm Ho. unfold W_render.
  destruct (assoc (if_type iface) _type_map) as [[ty|]|] eqn:Hty;
    try reflexivity.
  rewrite covers_app. apply orb_false_intro.
  - destruct (String.eqb_spec P self) as [->|]; [|reflexivity].
    apply W_own_membership; auto.
    eapply type_map_values; eassumption.
  - destruct (String.eqb_spec ty "bridge") as [->|]; [|reflexivity].
    destruct (mem P (if_bridge_ports iface)) eqn:Hmem; [|reflexivity].
    exfalso. apply Hnb. split; [now apply type_map_bridge|].
    now apply mem_In.
Qed.

(** The render of a bridge that names [P], on a registry in which [P] has
    no membership yet. *)
Lemma render_interface_bridge_sets self iface network_state r r' P uuid :
  if_type iface = "bridge" ->
  render_interface self iface network_state r = Ok r' ->
  In P (if_bridge_ports iface) ->
  (self = P -> if_bond_master iface = None) ->
  conn_option r self "connection" "uuid" = Some uuid ->
  conn_option r P "connection" "slave-type" = None ->
  conn_option r P "connection" "master" = None ->
  conn_option r' P "connection" "slave-type" = Some "bridge"
  /\ conn_option r' P "connection" "master" = Some uuid.
Proof.
  intros Hbridge H Hin Hbm Hu Hs Hm.
  assert (Hty : assoc (if_type iface) _type_map = Some (Some "bridge"))
    by (rewrite Hbridge; reflexivity).
  destruct (render_interface_inv _ _ _ _ _ _ Hty H)
    as [cfg0 [cfg1 [mtu [r2 [cfg2 [cfg3 [cfg4
          [H0 [Hown [H2 [Hc2 [H3 [H4 ->]]]]]]]]]]]]].
  apply render_own_extends in Hown.
  cbn [String.eqb] in H2, H3. eqb_eval. injection H3 as <-.
  set (r1 := set_conn (warn_mtu iface mtu r) self cfg1) in *.
  assert (Hframe1 : forall k o,
             (k = self -> covers (W_own "bridge" iface) "connection" o = false) ->
             conn_option r1 k "connection" o = conn_option r k "connection" o).
  { intros k o Hc. subst r1. rewrite conn_option_set_conn.
    destruct (String.eqb_spec self k) as [<-|].
    - unfold conn_option. rewrite H0. apply Hown. now apply Hc.
    - unfold conn_option. now rewrite warn_mtu_connections. }
  assert (Hu1 : conn_option r1 self "connection" "uuid" = Some uuid).
  { rewrite Hframe1; [assumption|]. intros _.
    pose proof (W_render_uuid self iface self) as Hw.
    unfold W_render in Hw. rewrite Hty, String.eqb_refl, covers_app in Hw.
    now apply orb_false_elim in Hw. }
  assert (Hs1 : conn_option r1 P "connection" "slave-type" = None).
  { rewrite Hframe1; [assumption|]. intros ->.
    apply W_own_membership; auto 6. }
  assert (Hm1 : conn_option r1 P "connection" "master" = None).
  { rewrite Hframe1; [assumption|]. intros ->.
    apply W_own_membership; auto 6. }
  unfold render_bridge in H2. bind_inv_as H2 r3 E3.
  bind_inv_as H2 c Ec. apply get_conn_inv in Ec.
  bind_inv_as H2 c' Ec'. apply set_mac_extends in Ec'. injection H2 as <-.
  destruct (foldM_render_bridge_port_sets _ _ _ _ _ _ E3 Hin Hu1 Hs1 Hm1)
    as [S3 M3].
  cbn [set_conn connections] in Hc2. rewrite assoc_set_same in Hc2.
  injection Hc2 as <-. rewrite set_conn_twice.
  apply finish_extends in H4.
  assert (Hlate : extends [AnyOption "bridge"; Opt "connection" "interface-name"]
                    c cfg4).
  { eapply extends_trans; (eapply extends_incl; [|eassumption]); incl_list. }
  split.
  - rewrite (conn_option_set_conn_frame _ _ _ _ _ _ _ _ Ec Hlate);
      [assumption|covers_eval].
  - rewrite (conn_option_set_conn_frame _ _ _ _ _ _ _ _ Ec Hlate);
      [assumption|covers_eval].
Qed.

Lemma render_connections_app network_state l1 l2 r r' :
  render_connections network_state (l1 ++ l2) r = Ok r' ->
  exists r1, render_connections network_state l1 r = Ok r1
             /\ render_connections network_state l2 r1 = Ok r'.
Proof.
  unfold render_connections. revert r.
  induction l1 as [|a l1 IH]; intros r H; cbn [app foldM] in *.
  - eauto.
  - bind_inv_as H r1 E1. rewrite E1. cbn [bind]. now apply IH.
Qed.

(** Renders that do not concern the membership of [P] keep it. *)
Lemma render_connections_membership network_state ifaces r r' P o :
  (forall j, In j ifaces ->
             ~ (if_type j = "bridge" /\ In P (if_bridge_ports j))
             /\ (conn_key j = P -> if_bond_master j = None)) ->
  o = "slave-type" \/ o = "master" ->
  render_connections network_state ifaces r = Ok r' ->
  conn_option r' P "connection" o = conn_option r P "connection" o.
Proof.
  intros Hall Ho.
  apply (render_connections_ind
           (fun r1 => conn_option r1 P "connection" o
                      = conn_option r P "connection" o)); [|reflexivity].
  intros r1 r2 j Hj HP H. rewrite <- HP.
  eapply store_extends_conn_option;
    [eapply render_interface_extends; eassumption|].
  destruct (Hall j Hj) as [Hnb Hbm]. now apply W_render_membership.
Qed.

(** The second pass, in any order of the interfaces, links [P] to the one
    bridge that names it. *)
Lemma render_connections_links_port network_state ifaces r r' B P uuid :
  render_connections network_state ifaces r = Ok r' ->
  NoDup (map conn_key ifaces) ->
  In B ifaces -> if_type B = "bridge" -> In P (if_bridge_ports B) ->
  (forall j, In j ifaces -> conn_key j = P -> if_bond_master j = None) ->
  (forall j, In j ifaces -> if_type j = "bridge" ->
             In P (if_bridge_ports j) -> j = B) ->
  conn_option r (conn_key B) "connection" "uuid" = Some uuid ->
  conn_option r P "connection" "slave-type" = None ->
  conn_option r P "connection" "master" = None ->
  conn_option r' P "connection" "slave-type" = Some "bridge"
  /\ conn_option r' P "connection" "master" = Some uuid.
Proof.
  intros H Hnd HB Hbridge HP Hbm Honly Hu Hs Hm.
  destruct (in_split _ _ HB) as [l1 [l2 ->]].
  assert (HnotB : forall j, In j (l1 ++ l2)%list -> j <> B).
  { intros j Hj ->. rewrite map_app in Hnd. cbn [map] in Hnd.
    apply NoDup_remove_2 in Hnd. apply Hnd.
    rewrite <- map_app. now apply in_map. }
  assert (Hother : forall l, incl l (l1 ++ l2)%list ->
             forall j, In j l ->
                       ~ (if_type j = "bridge" /\ In P (if_bridge_ports j))
                       /\ (conn_key j = P -> if_bond_master j = None)).
  { intros l Hl j Hj. assert (Hj' : In j (l1 ++ l2)%list) by auto.
    assert (Hj'' : In j (l1 ++ B :: l2)%list).
    { apply in_app_iff in Hj'. apply in_app_iff. cbn [In]. tauto. }
    split.
    - intros [Hjb HjP]. apply (HnotB j Hj'). now apply Honly.
    - now apply Hbm. }
  apply render_connections_app in H. destruct H as [r1 [H1 H2]].
  unfold render_connections in H2. cbn [foldM] in H2.
  bind_inv_as H2 r2 E2. bind_inv_as E2 c Ec.
  fold (render_connections network_state l2 r2) in H2.
  assert (I1 : incl l1 (l1 ++ l2)%list) by (apply incl_appl, incl_refl).
  assert (I2 : incl l2 (l1 ++ l2)%list) by (apply incl_appr, incl_refl).
  pose proof (render_connections_membership _ _ _ _ P "slave-type"
                (Hother l1 I1) (or_introl eq_refl) H1) as S1.
  pose proof (render_connections_membership _ _ _ _ P "master"
                (Hother l1 I1) (or_intror eq_refl) H1) as M1.
  pose proof (render_connections_uuid _ _ _ _ (conn_key B) H1) as U1.
  assert (HBin : In B (l1 ++ B :: l2)%list)
    by (apply in_app_iff; cbn [In]; tauto).
  destruct (render_interface_bridge_sets _ _ _ _ _ P uuid Hbridge E2 HP)
    as [S2 M2]; try congruence.
  { intros HeqP. now apply Hbm. }
  pose proof (render_connections_membership _ _ _ _ P "slave-type"
                (Hother l2 I2) (or_introl eq_refl) H2) as S3.
  pose proof (render_connections_membership _ _ _ _ P "master"
                (Hother l2 I2) (or_intror eq_refl) H2) as M3.
  split; congruence.
Qed.

End BridgeFacts.

Section BridgeOrder.
Context {C : Collaborators}.

Lemma fresh_registry_option ifaces q o :
  mem o ["id"; "uuid"; "autoconnect-priority";
         "org.freedesktop.NetworkManager.origin"] = false ->
  conn_option (create_connections ifaces Renderer) q "connection" o = None.
Proof.
  intros Ho. unfold conn_option.
  destruct (assoc q (connections (create_connections ifaces Renderer)))
    as [cfg|] eqn:E; [|reflexivity].
  apply create_connections_fresh in E. destruct E as [name ->].
  now apply fresh_profile_get_option.
Qed.

Lemma render_network_state_links_port network_state target r' files B P :
  render_network_state network_state target Renderer = Ok (r', files) ->
  NoDup (map conn_key (iter_interfaces network_state)) ->
  In B (iter_interfaces network_state) ->
  if_type B = "bridge" -> In P (if_bridge_ports B) ->
  (forall j, In j (iter_interfaces network_state) ->
             conn_key j = P -> if_bond_master j = None) ->
  (forall j, In j (iter_interfaces network_state) ->
             if_type j = "bridge" -> In P (if_bridge_ports j) -> j = B) ->
  conn_option r' P "connection" "slave-type" = Some "bridge"
  /\ conn_option r' P "connection" "master"
     = Some (UUID.uuid5 CI_NM_UUID (if_name B)).
Proof.
  intros H Hnd HB Hbridge HP Hbm Honly.
  apply render_network_state_inv in H. destruct H as [H _].
  eapply render_connections_links_port; try eassumption.
  - unfold conn_option. rewrite (create_connections_assoc _ _ _ Hnd HB).
    apply NMConnection_uuid.
  - now apply fresh_registry_option.
  - now apply fresh_registry_option.
Qed.

End BridgeOrder.

(** C8, as amended: let a bridge name the port [P], let no interface stored
    under [P] have a bond master, let no other bridge name [P], and let the
    keys of the interfaces be pairwise distinct.  Then after the two-pass
    render the profile of [P] has [slave-type=bridge] and [master] equal to
    the identity token of the bridge, and this holds for every order of the
    interfaces: two renders of the same interfaces in different orders give
    [P] the same membership. *)
Theorem C8_bridge_port_linked_in_any_order {C : Collaborators}
  (ns1 ns2 : NetworkState) (target : option string)
  (r1 r2 : renderer) (files1 files2 : list file_write)
  (B : interface) (P : string) :
  Permutation (iter_interfaces ns1) (iter_interfaces ns2) ->
  render_network_state ns1 target Renderer = Ok (r1, files1) ->
  render_network_state ns2 target Renderer = Ok (r2, files2) ->
  NoDup (map conn_key (iter_interfaces ns1)) ->
  In B (iter_interfaces ns1) ->
  if_type B = "bridge" -> In P (if_bridge_ports B) ->
  (forall j, In j (iter_interfaces ns1) ->
             conn_key j = P -> if_bond_master j = None) ->
  (forall j, In j (iter_interfaces ns1) ->
             if_type j = "bridge" -> In P (if_bridge_ports j) -> j = B) ->
  (conn_option r1 P "connection" "slave-type" = Some "bridge"
   /\ conn_option r1 P "connection" "master"
      = Some (UUID.uuid5 CI_NM_UUID (if_name B)))
  /\ (conn_option r2 P "connection" "slave-type" = Some "bridge"
      /\ conn_option r2 P "connection" "master"
         = Some (UUID.uuid5 CI_NM_UUID (if_name B))).
Proof.
  intros Hperm H1 H2 Hnd HB Hbridge HP Hbm Honly. split.
  - eapply render_network_state_links_port; eassumption.
  - eapply render_network_state_links_port; try eassumption.
    + eapply Permutation_NoDup; [|exact Hnd]. now apply Permutation_map.
    + eapply Permutation_in; eassumption.
    + intros j Hj. apply Hbm.
      eapply Permutation_in; [apply Permutation_sym|]; eassumption.
    + intros j Hj. apply Honly.
      eapply Permutation_in; [apply Permutation_sym|]; eassumption.
Qed.

Lemma C8_bridge_port_linked_in_any_order_witness :
  (conn_option (get_ok (render_all [port_iface None; bridge_iface ["eth1"]]))
               "eth1" "connection" "slave-type" = Some "bridge"
   /\ conn_option (get_ok (render_all [port_iface None; bridge_iface ["eth1"]]))
                  "eth1" "connection" "master"
      = Some (UUID.uuid5 CI_NM_UUID (if_name (bridge_iface ["eth1"]))))
  /\ (conn_option (get_ok (render_all [bridge_iface ["eth1"]; port_iface None]))
                  "eth1" "connection" "slave-type" = Some "bridge"
      /\ conn_option
           (get_ok (render_all [bridge_iface ["eth1"]; port_iface None]))
           "eth1" "connection" "master"
         = Some (UUID.uuid5 CI_NM_UUID (if_name (bridge_iface ["eth1"])))).
Proof.
  assert (Hrun1 : render_network_state
                    (mk_state [port_iface None; bridge_iface ["eth1"]])
                    None Renderer
                  = Ok (get_ok (render_all [port_iface None;
                                            bridge_iface ["eth1"]]),
                        write_files None
                          (get_ok (render_all [port_iface None;
                                               bridge_iface ["eth1"]]))))
    by (vm_compute; reflexivity).
  assert (Hrun2 : render_network_state
                    (mk_state [bridge_iface ["eth1"]; port_iface None])
                    None Renderer
                  = Ok (get_ok (render_all [bridge_iface ["eth1"];
                                            port_iface None]),
                        write_files None
                          (get_ok (render_all [bridge_iface ["eth1"];
                                               port_iface None]))))
    by (vm_compute; reflexivity).
  apply (C8_bridge_port_linked_in_any_order
           (mk_state [port_iface None; bridge_iface ["eth1"]])
           (mk_state [bridge_iface ["eth1"]; port_iface None])
           None _ _ _ _ (bridge_iface ["eth1"]) "eth1"
           (perm_swap (bridge_iface ["eth1"]) (port_iface None) [])
           Hrun1 Hrun2).
  - repeat constructor; simpl; intuition discriminate.
  - right. left. reflexivity.
  - reflexivity.
  - left. reflexivity.
  - intros j [<-|[<-|[]]]; [reflexivity|discriminate].
  - intros j [<-|[<-|[]]]; [discriminate|reflexivity].
Defined.

(** C8 as stated fails: a port that is also enslaved to a bond keeps
    [slave-type=bond] and the bond as master, before or after the bridge. *)
Lemma C8_counterexample :
  In "eth1" (if_bridge_ports (bridge_iface ["eth1"]))
  /\ (exists r',
         render_all [port_iface (Some "bond0"); bridge_iface ["eth1"]] = Ok r'
         /\ conn_option r' "eth1" "connection" "slave-type" = Some "bond"
         /\ conn_option r' "eth1" "connection" "slave-type" <> Some "bridge")
  /\ (exists r',
         render_all [bridge_iface ["eth1"]; port_iface (Some "bond0")] = Ok r'
         /\ conn_option r' "eth1" "connection" "slave-type" = Some "bond"
         /\ conn_option r' "eth1" "connection" "master" = Some "bond0").
Proof.
  split; [left; reflexivity|]. split.
  - eexists. split; [vm_compute; reflexivity|].
    split; [vm_compute; reflexivity|]. vm_compute. discriminate.
  - eexists. split; [vm_compute; reflexivity|].
    split; vm_compute; reflexivity.
Qed.

(** ** C3: references that dangle, and when a render succeeds *)

Lemma extends_has_section W cfg cfg' s :
  extends W cfg cfg' -> has_section cfg s = true -> has_section cfg' s = true.
Proof. intros [H _]. apply H. Qed.

Lemma con_ref_total r self cfg con_id :
  registry_well_formed r ->
  get_option cfg "connection" "uuid" <> None ->
  exists ref, con_ref (set_conn r self cfg) con_id = Ok ref.
Proof.
  intros Hwf Hu. unfold con_ref. cbn [set_conn connections].
  rewrite assoc_set_lookup.
  destruct (String.eqb self con_id).
  - unfold con_uuid. destruct (get_option cfg "connection" "uuid") eqn:E;
      [|congruence].
    rewrite (cfg_get_some _ _ _ _ E). eauto.
  - destruct (assoc con_id (connections r)) as [c|] eqn:Ec; [|eauto].
    unfold con_uuid. specialize (Hwf _ _ Ec).
    destruct (get_option c "connection" "uuid") eqn:E; [|congruence].
    rewrite (cfg_get_some _ _ _ _ E). eauto.
Qed.

Lemma init_connectivity_total self ty iface r cfg :
  registry_well_formed r ->
  has_section cfg "connection" = true ->
  get_option cfg "connection" "uuid" <> None ->
  exists cfg', init_connectivity self ty iface r cfg = Ok cfg'.
Proof.
  intros Hwf Hs Hu. unfold init_connectivity.
  rewrite (cfg_set_put _ _ _ _ Hs). cbn [bind].
  destruct (if_bond_master iface) as [master|]; [|eauto].
  rewrite cfg_set_put by (rewrite has_section_put, Hs; apply orb_true_r).
  cbn [bind].
  destruct (con_ref_total r self
              (put "connection" "slave-type" "bond"
                 (put "connection" "type" ty cfg)) master Hwf)
    as [ref ->].
  { rewrite !get_option_put. eqb_eval. now rewrite !andb_false_r. }
  cbn [bind]. rewrite cfg_set_put; [eauto|].
  rewrite !has_section_put, Hs. now rewrite !orb_true_r.
Qed.

Lemma set_ip_method_fn_has_section family subnet_type cfg :
  has_section (set_ip_method_fn family subnet_type cfg) family = true.
Proof.
  pose proof (set_ip_method_fn_method family subnet_type cfg) as H.
  cbv zeta in H.
  repeat match type of H with
         | _ = (if ?b then _ else _) => destruct b
         end; eapply get_option_has_section; exact H.
Qed.

Section TotalFacts.
Context {C : Collaborators}.

Lemma foldM_add_route_total routes cfg :
  exists cfg', foldM (fun cfg rt => _add_route rt cfg) routes cfg = Ok cfg'.
Proof.
  revert cfg. induction routes as [|rt routes IH]; intros cfg; cbn [foldM].
  - eauto.
  - destruct (_add_route_eq rt cfg) as [n [_ ->]]. cbn [bind]. apply IH.
Qed.

Lemma render_subnet_total st sn :
  subnet_well_formed sn -> exists st', render_subnet st sn = Ok st'.
Proof.
  intros Hwf. unfold render_subnet.
  set (family := if subnet_is_ipv6 sn then "ipv6" else "ipv4").
  rewrite _set_ip_method_eq. cbn [bind].
  set (c1 := set_ip_method_fn family (Some (sn_type sn)) (l3_config st)).
  assert (S1 : has_section c1 family = true)
    by apply set_ip_method_fn_has_section.
  assert (H2 : exists c2,
             (match sn_address sn with
              | Some _ => _add_address family sn c1
              | None => Ok c1
              end) = Ok c2 /\ has_section c2 family = true).
  { unfold subnet_well_formed in Hwf. unfold _add_address.
    destruct (sn_address sn) as [a|]; [|eauto].
    destruct (sn_prefix sn) as [px|]; [|exfalso; apply Hwf; congruence].
    destruct (_add_numbered_lowest family "address"
                (a ++ "/" ++ str_Z px) c1) as [n [_ E]].
    rewrite E. eexists. split; [reflexivity|].
    rewrite has_section_put, String.eqb_refl. reflexivity. }
  destruct H2 as [c2 [-> S2]]. cbn [bind].
  assert (H3 : exists c3,
             (match sn_gateway sn with
              | Some gw => cfg_set c2 family "gateway" gw
              | None => Ok c2
              end) = Ok c3).
  { destruct (sn_gateway sn); [|eauto].
    rewrite (cfg_set_put _ _ _ _ S2). eauto. }
  destruct H3 as [c3 ->]. cbn [bind].
  destruct (foldM_add_route_total (sn_routes sn) c3) as [c4 ->].
  cbn [bind]. eauto.
Qed.

Lemma foldM_render_subnet_total subnets :
  Forall subnet_well_formed subnets ->
  forall st, exists st', foldM render_subnet subnets st = Ok st'.
Proof.
  induction 1 as [|sn subnets Hsn Hall IH]; intros st; cbn [foldM].
  - eauto.
  - destruct (render_subnet_total st sn Hsn) as [st1 ->]. cbn [bind].
    apply IH.
Qed.

Lemma render_layer3_total ty iface cfg :
  Forall subnet_well_formed (if_subnets iface) ->
  exists st, render_layer3 ty iface cfg = Ok st.
Proof.
  intros Hwf. unfold render_layer3.
  destruct (String.eqb ty "bond" && is_empty (if_subnets iface)).
  - cbn [foldM]. rewrite !_set_ip_method_eq. cbn [bind].
    rewrite !_set_ip_method_eq. cbn [bind].
    now apply foldM_render_subnet_total.
  - cbn [bind]. now apply foldM_render_subnet_total.
Qed.

Lemma _add_dns_search_total search cfg :
  exists cfg', _add_dns_search search cfg = Ok cfg'.
Proof.
  unfold _add_dns_search.
  assert (Hstep : forall f c,
             exists c',
               (method <- (if has_section c f
                           then _get_config_option c f "method"
                           else Ok None) ;;
                if has_section c f && negb (opt_eqb method "disabled")
                then
                  cfg0 <- _set_default f "dns-search" "" c ;;
                  cur <- cfg_get cfg0 f "dns-search" ;;
                  cfg_set cfg0 f "dns-search" (cur ++ join ";" search ++ ";")
                else Ok c) = Ok c').
  { intros f c. rewrite _get_config_option_eq.
    destruct (has_section c f) eqn:Hs; cbn [bind andb]; [|eauto].
    destruct (negb (opt_eqb (get_option c f "method") "disabled")); [|eauto].
    rewrite _set_default_eq. cbn [bind].
    assert (Hcur : exists cur,
               get_option (put_default f "dns-search" "" c) f "dns-search"
               = Some cur).
    { rewrite get_option_put_default, !String.eqb_refl. cbn [andb]. eauto. }
    destruct Hcur as [cur Hcur]. rewrite (cfg_get_some _ _ _ _ Hcur).
    cbn [bind]. rewrite cfg_set_put; [eauto|].
    eapply get_option_has_section; eassumption. }
  cbn [foldM].
  destruct (Hstep "ipv4" cfg) as [c1 ->]. cbn [bind].
  destruct (Hstep "ipv6" c1) as [c2 ->]. cbn [bind]. eauto.
Qed.

Lemma write_dns_total nameservers search cfg :
  exists cfg', write_dns nameservers search cfg = Ok cfg'.
Proof.
  unfold write_dns. rewrite foldM_add_nameserver_eq. cbn [bind].
  destruct (negb (is_empty search)); [|eauto].
  apply _add_dns_search_total.
Qed.

Lemma render_props_total ty iface cfg :
  ty = "ethernet" \/ ty = "vlan" \/ ty = "bond" \/ ty = "bridge"
  \/ ty = "infiniband" ->
  has_section cfg ty = true ->
  exists cfg', render_props ty iface cfg = Ok cfg'.
Proof.
  intros Htys Hs. unfold render_props.
  assert (Hprops : exists props, assoc ty _prop_map = Some props).
  { destruct Htys as [-> | [-> | [-> | [-> | ->]]]]; cbn; eauto. }
  destruct Hprops as [props ->].
  revert cfg Hs. induction props as [|[nm_prop key] props IH]; intros cfg Hs;
    cbn [foldM]; [eauto|].
  destruct (assoc key (if_params iface)) as [[|b|z|v]|]; cbn [bind];
    try (now apply IH);
    rewrite (cfg_set_put _ _ _ _ Hs); cbn [bind]; apply IH;
    rewrite has_section_put, Hs; apply orb_true_r.
Qed.

Lemma set_mac_total ty iface cfg :
  has_section cfg ty = true -> exists cfg', set_mac ty iface cfg = Ok cfg'.
Proof.
  intros Hs. unfold set_mac. destruct (if_mac_address iface); [|eauto].
  rewrite (cfg_set_put _ _ _ _ Hs). eauto.
Qed.

Lemma render_ethernet_total iface mtu cfg :
  has_section cfg "ethernet" = true ->
  exists cfg', render_ethernet iface mtu cfg = Ok cfg'.
Proof.
  intros Hs. unfold render_ethernet.
  assert (H1 : exists c1,
             (match if_wakeonlan iface with
              | PBool true => cfg_set cfg "ethernet" "wake-on-lan" "64"
              | _ => Ok cfg
              end) = Ok c1 /\ has_section c1 "ethernet" = true).
  { destruct (if_wakeonlan iface) as [|[|]|z|v]; eauto.
    rewrite (cfg_set_put _ _ _ _ Hs). eexists. split; [reflexivity|].
    rewrite has_section_put. reflexivity. }
  destruct H1 as [c1 [-> S1]]. cbn [bind].
  assert (H2 : exists c2,
             (match mtu with
              | Some m => cfg_set c1 "ethernet" "mtu" (str_Z m)
              | None => Ok c1
              end) = Ok c2 /\ has_section c2 "ethernet" = true).
  { destruct mtu as [m|]; eauto.
    rewrite (cfg_set_put _ _ _ _ S1). eexists. split; [reflexivity|].
    rewrite has_section_put. reflexivity. }
  destruct H2 as [c2 [-> S2]]. cbn [bind].
  now apply set_mac_total.
Qed.

Lemma render_vlan_total self iface r cfg :
  registry_well_formed r ->
  get_option cfg "connection" "uuid" <> None ->
  has_section cfg "vlan" = true ->
  exists cfg', render_vlan self iface r cfg = Ok cfg'.
Proof.
  intros Hwf Hu Hs. unfold render_vlan.
  destruct (if_vlan_raw_device iface) as [dev|]; [|eauto].
  destruct (con_ref_total r self cfg dev Hwf Hu) as [ref ->]. cbn [bind].
  rewrite (cfg_set_put _ _ _ _ Hs). eauto.
Qed.

Lemma render_bond_total mtu cfg :
  exists cfg', render_bond mtu cfg = Ok cfg'.
Proof.
  unfold render_bond. destruct mtu as [m|]; [|eauto].
  fold (ensure_section "ethernet" cfg).
  rewrite cfg_set_put; [eauto|].
  rewrite has_section_ensure_section. reflexivity.
Qed.

Lemma render_infiniband_total iface mtu cfg :
  has_section cfg "infiniband" = true ->
  exists cfg', render_infiniband iface mtu cfg = Ok cfg'.
Proof.
  intros Hs. unfold render_infiniband. destruct mtu as [m|]; [|eauto].
  rewrite (cfg_set_put _ _ _ _ Hs). cbn [bind].
  rewrite cfg_set_put by (rewrite has_section_put; reflexivity).
  cbn [bind]. apply set_mac_total.
  rewrite !has_section_put. reflexivity.
Qed.

Lemma finish_total ty iface cfg :
  has_section cfg "connection" = true ->
  exists cfg', finish ty iface cfg = Ok cfg'.
Proof.
  intros Hs. unfold finish.
  destruct (String.eqb ty "bridge" || negb (has_option cfg ty "mac-address"));
    [|eauto].
  rewrite (cfg_set_put _ _ _ _ Hs). eauto.
Qed.

End TotalFacts.

Lemma renderable_extends W ty cfg cfg' :
  extends W cfg cfg' -> covers W "connection" "uuid" = false ->
  renderable ty cfg -> renderable ty cfg'.
Proof.
  intros [H1 [_ H3]] Hc [A [B D]]. repeat split; auto.
  now rewrite H3.
Qed.

Lemma registry_well_formed_extends W r r' :
  store_extends W r r' ->
  (forall q, covers (W q) "connection" "uuid" = false) ->
  registry_well_formed r -> registry_well_formed r'.
Proof.
  intros Hext Hc Hwf q cfg' Hq. specialize (Hext q). rewrite Hq in Hext.
  destruct (assoc q (connections r)) as [cfg|] eqn:E; [|destruct Hext].
  destruct Hext as [_ [_ Hf]]. rewrite Hf by apply Hc. eapply Hwf; eassumption.
Qed.

Lemma render_bridge_port_total self r port :
  registry_well_formed r ->
  assoc self (connections r) <> None ->
  assoc port (connections r) <> None ->
  exists r', render_bridge_port self r port = Ok r'.
Proof.
  intros Hwf Hself Hport. unfold render_bridge_port, get_conn.
  destruct (assoc port (connections r)) as [pcfg|] eqn:Ep; [|congruence].
  cbn [bind]. rewrite _set_default_eq. cbn [bind set_conn connections].
  rewrite assoc_set_lookup.
  set (pcfg1 := put_default "connection" "slave-type" "bridge" pcfg).
  assert (Hu1 : get_option pcfg1 "connection" "uuid" <> None).
  { subst pcfg1. rewrite get_option_put_default. eqb_eval.
    rewrite andb_false_r. eapply Hwf; eassumption. }
  assert (Hme : exists me uuid,
             (if String.eqb port self then Some pcfg1
              else assoc self (connections r)) = Some me
             /\ con_uuid me = Ok uuid).
  { destruct (String.eqb port self).
    - destruct (get_option pcfg1 "connection" "uuid") eqn:E; [|congruence].
      exists pcfg1, s. split; [reflexivity|]. now apply cfg_get_some.
    - destruct (assoc self (connections r)) as [me|] eqn:E; [|congruence].
      pose proof (Hwf _ _ E) as Hu.
      destruct (get_option me "connection" "uuid") eqn:E'; [|congruence].
      exists me, s. split; [reflexivity|]. now apply cfg_get_some. }
  destruct Hme as [me [uuid [Eme Eu]]]. rewrite Eme. cbn [bind].
  rewrite Eu. cbn [bind].
  rewrite assoc_set_same. cbn [bind]. rewrite _set_default_eq. cbn [bind].
  eauto.
Qed.

Lemma foldM_render_bridge_port_total self ports :
  forall r,
    registry_well_formed r ->
    assoc self (connections r) <> None ->
    (forall port, In port ports -> assoc port (connections r) <> None) ->
    exists r', foldM (render_bridge_port self) ports r = Ok r'.
Proof.
  induction ports as [|port ports IH]; intros r Hwf Hself Hports;
    cbn [foldM]; [eauto|].
  destruct (render_bridge_port_total self r port Hwf Hself) as [r1 E1].
  { apply Hports. now left. }
  rewrite E1. cbn [bind].
  apply render_bridge_port_extends in E1. destruct E1 as [E1 _].
  apply IH.
  - eapply registry_well_formed_extends; [exact E1| |exact Hwf].
    intros q. cbn beta. destruct (String.eqb q port); covers_eval.
  - intros Hn. apply (store_extends_keys _ _ _ self E1) in Hn. congruence.
  - intros p Hp Hn. apply (store_extends_keys _ _ _ p E1) in Hn.
    revert Hn. apply Hports. now right.
Qed.

Lemma render_bridge_total self iface r cfg :
  registry_well_formed r ->
  assoc self (connections r) = Some cfg ->
  has_section cfg "bridge" = true ->
  (forall port, In port (if_bridge_ports iface) ->
                assoc port (connections r) <> None) ->
  exists r', render_bridge self iface r = Ok r'.
Proof.
  intros Hwf Hself Hs Hports. unfold render_bridge.
  destruct (foldM_render_bridge_port_total self (if_bridge_ports iface) r Hwf)
    as [r1 E1]; [congruence|assumption|].
  rewrite E1. cbn [bind].
  apply foldM_render_bridge_port_extends in E1. destruct E1 as [E1 _].
  specialize (E1 self). rewrite Hself in E1. unfold get_conn.
  destruct (assoc self (connections r1)) as [c|]; [|destruct E1].
  cbn [bind].
  destruct (set_mac_total "bridge" iface c) as [c' ->]; [|cbn [bind]; eauto].
  eapply extends_has_section; eassumption.
Qed.

Section RenderTotal.
Context {C : Collaborators}.

Lemma render_own_total self ty iface network_state r cfg :
  ty = "ethernet" \/ ty = "vlan" \/ ty = "bond" \/ ty = "bridge"
  \/ ty = "infiniband" ->
  registry_well_formed r ->
  has_section cfg "connection" = true ->
  get_option cfg "connection" "uuid" <> None ->
  Forall subnet_well_formed (if_subnets iface) ->
  exists cfg' mtu,
    render_own self ty iface network_state r cfg = Ok (cfg', mtu)
    /\ renderable ty cfg'.
Proof.
  intros Htys Hwf Hs Hu Hsub. unfold render_own.
  destruct (init_connectivity_total self ty iface r cfg Hwf Hs Hu) as [c1 E1].
  rewrite E1. cbn [bind].
  apply init_connectivity_inv in E1. destruct E1 as [X1 _].
  assert (G2 : renderable ty (set_section c1 ty [])).
  { split; [|split].
    - rewrite has_section_set_section.
      rewrite (extends_has_section _ _ _ _ X1 Hs). apply orb_true_r.
    - rewrite has_section_set_section, String.eqb_refl. reflexivity.
    - rewrite get_option_set_section.
      destruct X1 as [_ [_ X1]].
      assert (Hc : covers (W_connectivity iface) "connection" "uuid" = false)
        by covers_eval.
      destruct Htys as [-> | [-> | [-> | [-> | ->]]]]; eqb_eval;
        now rewrite X1. }
  destruct (render_layer3_total ty iface (set_section c1 ty []) Hsub)
    as [st E3].
  rewrite E3. cbn [bind].
  apply render_layer3_inv in E3. destruct E3 as [X3 _].
  assert (G3 : renderable ty (l3_config st)).
  { eapply renderable_extends; [exact X3| |exact G2]. covers_eval. }
  match goal with
  | |- context [write_dns ?a ?b ?c] =>
      destruct (write_dns_total a b c) as [c3 E4]
  end.
  rewrite E4. cbn [bind].
  apply write_dns_inv in E4. destruct E4 as [X4 _].
  assert (G4 : renderable ty c3).
  { eapply renderable_extends; [exact X4| |exact G3]. covers_eval. }
  rewrite _set_mayfail_true_if_both_false_dhcp_eq. cbn [bind].
  assert (G5 : renderable ty (normalize_mayfail_fn c3)).
  { eapply renderable_extends;
      [apply normalize_mayfail_fn_inv| |exact G4]. covers_eval. }
  destruct (render_props_total ty iface (normalize_mayfail_fn c3) Htys)
    as [c5 E5]; [apply G5|].
  rewrite E5. cbn [bind].
  apply render_props_extends in E5.
  assert (G6 : renderable ty c5).
  { eapply renderable_extends; [exact E5| |exact G5].
    destruct Htys as [-> | [-> | [-> | [-> | ->]]]]; covers_eval. }
  assert (H7 : exists c6,
             (if String.eqb ty "ethernet"
              then render_ethernet iface
                     (resolve_mtu (ipv4_mtu st) (if_mtu iface)) c5
              else Ok c5) = Ok c6 /\ renderable ty c6).
  { destruct (String.eqb_spec ty "ethernet") as [->|]; [|eauto].
    destruct (render_ethernet_total iface
                (resolve_mtu (ipv4_mtu st) (if_mtu iface)) c5) as [c6 E6];
      [apply G6|].
    exists c6. split; [assumption|].
    apply render_ethernet_inv in E6. destruct E6 as [E6 _].
    eapply renderable_extends; [exact E6| |exact G6]. covers_eval. }
  destruct H7 as [c6 [-> G7]]. cbn [bind].
  assert (H8 : exists c7,
             (if String.eqb ty "vlan" then render_vlan self iface r c6
              else Ok c6) = Ok c7 /\ renderable ty c7).
  { destruct (String.eqb_spec ty "vlan") as [->|]; [|eauto].
    destruct (render_vlan_total self iface r c6 Hwf) as [c7 E7];
      [apply G7|apply G7|].
    exists c7. split; [assumption|].
    apply render_vlan_inv in E7. destruct E7 as [E7 _].
    eapply renderable_extends; [exact E7| |exact G7]. covers_eval. }
  destruct H8 as [c7 [-> G8]]. cbn [bind].
  assert (H9 : exists c8,
             (if String.eqb ty "bond"
              then render_bond (resolve_mtu (ipv4_mtu st) (if_mtu iface)) c7
              else Ok c7) = Ok c8 /\ renderable ty c8).
  { destruct (String.eqb ty "bond"); [|eauto].
    destruct (render_bond_total (resolve_mtu (ipv4_mtu st) (if_mtu iface)) c7)
      as [c8 E8].
    exists c8. split; [assumption|].
    apply render_bond_inv in E8. destruct E8 as [E8 _].
    eapply renderable_extends; [exact E8| |exact G8]. covers_eval. }
  destruct H9 as [c8 [-> G9]]. cbn [bind]. eauto.
Qed.

(** The render of an interface succeeds when its type is mappable, its
    subnets are well formed and, for a bridge, its ports are in the
    registry; whether a bond master or a vlan parent dangles plays no
    part. *)
Lemma render_interface_total self iface network_state r cfg ty :
  assoc (if_type iface) _type_map = Some (Some ty) ->
  registry_well_formed r ->
  assoc self (connections r) = Some cfg ->
  has_section cfg "connection" = true ->
  Forall subnet_well_formed (if_subnets iface) ->
  (ty = "bridge" ->
   forall port, In port (if_bridge_ports iface) ->
                assoc port (connections r) <> None) ->
  exists r', render_interface self iface network_state r = Ok r'.
Proof.
  intros Hty Hwf Hself Hs Hsub Hports.
  pose proof (type_map_values _ _ Hty) as Htys.
  unfold render_interface. rewrite Hty. unfold get_conn at 1.
  rewrite Hself. cbn [bind].
  destruct (render_own_total self ty iface network_state r cfg Htys Hwf Hs
              (Hwf _ _ Hself) Hsub) as [cfg1 [mtu [-> [G1 [G2 G3]]]]].
  cbn [bind].
  set (r1 := set_conn (warn_mtu iface mtu r) self cfg1).
  assert (Hwf1 : registry_well_formed r1).
  { intros q c. subst r1. cbn [set_conn connections].
    rewrite assoc_set_lookup, warn_mtu_connections.
    destruct (String.eqb self q).
    - intros E. injection E as <-. assumption.
    - apply Hwf. }
  assert (Hself1 : assoc self (connections r1) = Some cfg1).
  { subst r1. cbn [set_conn connections]. apply assoc_set_same. }
  assert (H2 : exists r2 cfg2,
             (if String.eqb ty "bridge" then render_bridge self iface r1
              else Ok r1) = Ok r2
             /\ assoc self (connections r2) = Some cfg2
             /\ has_section cfg2 "connection" = true
             /\ has_section cfg2 ty = true).
  { destruct (String.eqb_spec ty "bridge") as [->|]; [|eauto 6].
    destruct (render_bridge_total self iface r1 cfg1 Hwf1 Hself1 G2)
      as [r2 E2].
    { intros port Hp. subst r1. cbn [set_conn connections].
      rewrite assoc_set_lookup, warn_mtu_connections.
      destruct (String.eqb self port); [discriminate|].
      now apply Hports. }
    pose proof (render_bridge_extends _ _ _ _ E2) as [X2 _].
    specialize (X2 self). rewrite Hself1 in X2.
    destruct (assoc self (connections r2)) as [cfg2|] eqn:Ec2;
      [|destruct X2].
    exists r2, cfg2. split; [assumption|]. split; [assumption|].
    split; eapply extends_has_section; eassumption. }
  destruct H2 as [r2 [cfg2 [-> [Hself2 [S2 T2]]]]]. cbn [bind].
  unfold get_conn. rewrite Hself2. cbn [bind].
  assert (H3 : exists cfg3,
             (if String.eqb ty "infiniband"
              then render_infiniband iface mtu cfg2 else Ok cfg2) = Ok cfg3
             /\ has_section cfg3 "connection" = true).
  { destruct (String.eqb_spec ty "infiniband") as [->|]; [|eauto].
    destruct (render_infiniband_total iface mtu cfg2 T2) as [cfg3 E3].
    exists cfg3. split; [assumption|].
    apply render_infiniband_inv in E3. destruct E3 as [E3 _].
    eapply extends_has_section; eassumption. }
  destruct H3 as [cfg3 [-> S3]]. cbn [bind].
  destruct (finish_total ty iface cfg3 S3) as [cfg4 ->]. cbn [bind].
  eauto.
Qed.

End RenderTotal.

Section DanglingFacts.
Context {C : Collaborators}.

Lemma render_own_after_connectivity self ty iface network_state r cfg cfg'
  mtu :
  render_own self ty iface network_state r cfg = Ok (cfg', mtu) ->
  exists c1,
    init_connectivity self ty iface r cfg = Ok c1
    /\ extends ([AnyOption ty; AnyOption "ethernet"] ++ W_layer3 ++ W_dns)
               c1 cfg'.
Proof.
  intros H. apply render_own_inv in H.
  destruct H as [c1 [st [c3 [c5 [c6 [c7 [H1 [H2 [H3 [_ [H5 [H6 [H7 H8]]]]]]]]]]]]].
  exists c1. split; [assumption|].
  apply render_layer3_inv in H2. destruct H2 as [H2 _].
  apply write_dns_inv in H3. destruct H3 as [H3 _].
  apply render_props_extends in H5.
  set (W := ([AnyOption ty; AnyOption "ethernet"] ++ W_layer3 ++ W_dns)%list).
  assert (I2 : incl [AnyOption ty] W) by (subst W; apply incl_appl; incl_list).
  assert (I3 : incl [AnyOption "ethernet"] W)
    by (subst W; apply incl_appl; incl_list).
  assert (I4 : incl W_layer3 W)
    by (subst W; apply incl_appr, incl_appl, incl_refl).
  assert (I5 : incl W_dns W)
    by (subst W; apply incl_appr, incl_appr, incl_refl).
  assert (I6 : incl W_mayfail W).
  { eapply incl_tran; [|exact I4]. unfold W_mayfail, W_layer3. incl_list. }
  eapply extends_trans;
    [eapply extends_incl; [exact I2|apply extends_set_section]|].
  eapply extends_trans; [eapply extends_incl; [exact I4|exact H2]|].
  eapply extends_trans; [eapply extends_incl; [exact I5|exact H3]|].
  eapply extends_trans;
    [eapply extends_incl; [exact I6|apply normalize_mayfail_fn_inv]|].
  eapply extends_trans; [eapply extends_incl; [exact I2|exact H5]|].
  eapply extends_trans.
  { destruct (String.eqb ty "ethernet").
    - apply render_ethernet_inv in H6. destruct H6 as [H6 _].
      eapply extends_incl; [exact I3|exact H6].
    - injection H6 as <-. apply extends_refl. }
  eapply extends_trans.
  { destruct (String.eqb_spec ty "vlan") as [->|].
    - apply render_vlan_inv in H7. destruct H7 as [H7 _].
      eapply extends_incl; [exact I2|exact H7].
    - injection H7 as <-. apply extends_refl. }
  destruct (String.eqb ty "bond").
  - apply render_bond_inv in H8. destruct H8 as [H8 _].
    eapply extends_incl; [exact I3|exact H8].
  - injection H8 as <-. apply extends_refl.
Qed.

(** An option that the own render has set, outside the type-specific
    section, is still there at the end of [render_interface]. *)
Lemma render_interface_after_own self iface ty mtu r1 cfg1 r2 cfg2 cfg3 cfg4
  s o v :
  assoc self (connections r1) = Some cfg1 ->
  (if String.eqb ty "bridge" then render_bridge self iface r1 else Ok r1)
  = Ok r2 ->
  assoc self (connections r2) = Some cfg2 ->
  (if String.eqb ty "infiniband" then render_infiniband iface mtu cfg2
   else Ok cfg2) = Ok cfg3 ->
  finish ty iface cfg3 = Ok cfg4 ->
  covers [AnyOption ty; Opt "connection" "interface-name"] s o = false ->
  get_option cfg1 s o = Some v ->
  get_option cfg4 s o = Some v.
Proof.
  intros H1 H2 Hc2 H3 H4 Hc Hv.
  assert (Hc' : covers [AnyOption ty] s o = false
                /\ covers [Opt "connection" "interface-name"] s o = false).
  { unfold covers in *. cbn [existsb] in *.
    apply orb_false_elim in Hc. destruct Hc as [Ha Hb].
    rewrite orb_false_r in Hb. rewrite !orb_false_r. auto. }
  destruct Hc' as [Hcty Hcname].
  assert (V2 : get_option cfg2 s o = Some v).
  { destruct (String.eqb_spec ty "bridge") as [->|].
    - unfold render_bridge in H2. bind_inv_as H2 r3 E3.
      bind_inv_as H2 c Ec. apply get_conn_inv in Ec.
      bind_inv_as H2 c' Ec'. apply set_mac_extends in Ec'.
      injection H2 as <-. cbn [set_conn connections] in Hc2.
      rewrite assoc_set_same in Hc2. injection Hc2 as <-.
      destruct Ec' as [_ [_ Ec']]. rewrite Ec' by assumption.
      assert (V1 : conn_option r1 self s o = Some v)
        by (unfold conn_option; now rewrite H1).
      pose proof (foldM_render_bridge_port_keeps _ _ _ _ _ _ _ _ E3 V1) as V3.
      unfold conn_option in V3. now rewrite Ec in V3.
    - injection H2 as <-. congruence. }
  apply finish_extends in H4. destruct H4 as [_ [_ H4]].
  rewrite H4 by assumption.
  destruct (String.eqb_spec ty "infiniband") as [->|].
  - apply render_infiniband_inv in H3. destruct H3 as [[_ [_ H3]] _].
    now rewrite H3.
  - now injection H3 as <-.
Qed.

Lemma render_interface_dangling_master self iface network_state r r' ty
  master :
  assoc (if_type iface) _type_map = Some (Some ty) ->
  render_interface self iface network_state r = Ok r' ->
  if_bond_master iface = Some master ->
  assoc master (connections r) = None ->
  conn_option r' self "connection" "slave-type" = Some "bond"
  /\ conn_option r' self "connection" "master" = Some master.
Proof.
  intros Hty H Hbm Hdangling.
  pose proof (type_map_values _ _ Hty) as Htys.
  destruct (render_interface_inv _ _ _ _ _ _ Hty H)
    as [cfg0 [cfg1 [mtu [r2 [cfg2 [cfg3 [cfg4
          [H0 [Hown [H2 [Hc2 [H3 [H4 ->]]]]]]]]]]]]].
  apply render_own_after_connectivity in Hown.
  destruct Hown as [c1 [H1 [_ [_ Hframe]]]].
  apply init_connectivity_inv in H1. destruct H1 as [_ [_ H1]].
  rewrite Hbm in H1. destruct H1 as [c [ref [Href [Hst Hm]]]].
  rewrite con_ref_set_conn_dangling in Href by congruence.
  injection Href as <-.
  assert (S1 : get_option cfg1 "connection" "slave-type" = Some "bond").
  { rewrite Hframe; [assumption|].
    destruct Htys as [-> | [-> | [-> | [-> | ->]]]]; covers_eval. }
  assert (M1 : get_option cfg1 "connection" "master" = Some master).
  { rewrite Hframe; [assumption|].
    destruct Htys as [-> | [-> | [-> | [-> | ->]]]]; covers_eval. }
  assert (Hr1 : assoc self (connections
                              (set_conn (warn_mtu iface mtu r) self cfg1))
                = Some cfg1)
    by (cbn [set_conn connections]; apply assoc_set_same).
  unfold conn_option. cbn [set_conn connections]. rewrite assoc_set_same.
  split; eapply render_interface_after_own; try eassumption;
    destruct Htys as [-> | [-> | [-> | [-> | ->]]]]; covers_eval.
Qed.

Lemma render_interface_dangling_parent self iface network_state r r' dev :
  if_type iface = "vlan" ->
  render_interface self iface network_state r = Ok r' ->
  if_vlan_raw_device iface = Some dev ->
  assoc dev (connections r) = None ->
  conn_option r' self "vlan" "parent" = Some dev.
Proof.
  intros Hvlan H Hdev Hdangling.
  assert (Hty : assoc (if_type iface) _type_map = Some (Some "vlan"))
    by (rewrite Hvlan; reflexivity).
  destruct (render_interface_inv _ _ _ _ _ _ Hty H)
    as [cfg0 [cfg1 [mtu [r2 [cfg2 [cfg3 [cfg4
          [H0 [Hown [H2 [Hc2 [H3 [H4 ->]]]]]]]]]]]]].
  apply render_own_inv in Hown.
  destruct Hown as [c1 [st [c3 [c5 [c6 [c7 [_ [_ [_ [_ [_ [_ [H7 H8]]]]]]]]]]]]].
  eqb_eval. injection H8 as <-. injection H2 as <-. injection H3 as <-.
  cbn [set_conn connections] in Hc2. rewrite assoc_set_same in Hc2.
  injection Hc2 as <-.
  apply render_vlan_inv in H7. destruct H7 as [_ H7]. rewrite Hdev in H7.
  destruct H7 as [ref [Href Hparent]].
  rewrite con_ref_set_conn_dangling in Href by congruence.
  injection Href as <-.
  apply finish_extends in H4. destruct H4 as [_ [_ H4]].
  unfold conn_option. cbn [set_conn connections]. rewrite assoc_set_same.
  rewrite H4 by covers_eval. assumption.
Qed.

(** The registry stays well formed through a render. *)
Lemma render_interface_well_formed self iface network_state r r' :
  render_interface self iface network_state r = Ok r' ->
  (registry_well_formed r -> registry_well_formed r')
  /\ ((forall q cfg, assoc q (connections r) = Some cfg ->
                     has_section cfg "connection" = true) ->
      forall q cfg, assoc q (connections r') = Some cfg ->
                    has_section cfg "connection" = true)
  /\ (forall q, assoc q (connections r') = None
                <-> assoc q (connections r) = None).
Proof.
  intros H. apply render_interface_extends in H. split; [|split].
  - apply (registry_well_formed_extends _ _ _ H). intros q.
    apply W_render_uuid.
  - intros Hs q cfg' Hq. specialize (H q). rewrite Hq in H.
    destruct (assoc q (connections r)) as [cfg|] eqn:E; [|destruct H].
    eapply extends_has_section; [exact H|]. eapply Hs; eassumption.
  - intros q. eapply store_extends_keys; eassumption.
Qed.

(** The second pass succeeds on renderable interfaces. *)
Lemma render_connections_total network_state ifaces :
  forall r,
    registry_well_formed r ->
    (forall q cfg, assoc q (connections r) = Some cfg ->
                   has_section cfg "connection" = true) ->
    (forall iface, In iface ifaces ->
                   assoc (conn_key iface) (connections r) <> None
                   /\ interface_renderable (map fst (connections r)) iface) ->
    exists r', render_connections network_state ifaces r = Ok r'.
Proof.
  unfold render_connections.
  induction ifaces as [|a ifaces IH]; intros r Hwf Hs Hall; cbn [foldM].
  - eauto.
  - destruct (Hall a (or_introl eq_refl)) as [Hkey [Hty [Hsub Hports]]].
    unfold get_conn at 1.
    destruct (assoc (conn_key a) (connections r)) as [cfg|] eqn:Ecfg;
      [|congruence].
    cbn [bind].
    assert (Hrun : exists r1,
               render_interface (conn_key a) a network_state r = Ok r1).
    { destruct (assoc (if_type a) _type_map) as [[ty|]|] eqn:Ety;
        [| |congruence].
      - eapply render_interface_total; try eassumption.
        + eapply Hs; eassumption.
        + intros -> port Hp. apply assoc_In. apply Hports; [|assumption].
          now apply type_map_bridge.
      - exists r. unfold render_interface. now rewrite Ety. }
    destruct Hrun as [r1 E1]. rewrite E1. cbn [bind].
    destruct (render_interface_well_formed _ _ _ _ _ E1) as [W1 [W2 W3]].
    apply IH; [apply W1, Hwf|apply W2, Hs|].
    intros iface Hin. destruct (Hall iface (or_intror Hin))
      as [Hk [Ht [Hsb Hp]]].
    split; [intros Hn; apply W3 in Hn; congruence|].
    split; [assumption|]. split; [assumption|].
    intros Hb port Hport. apply assoc_In.
    intros Hn. apply W3 in Hn. revert Hn. apply assoc_In.
    now apply Hp.
Qed.

Lemma create_connections_keys ifaces k :
  In k (map conn_key ifaces) ->
  assoc k (connections (create_connections ifaces Renderer)) <> None.
Proof.
  assert (Hgen : forall l r,
             In k (map conn_key l) \/ assoc k (connections r) <> None ->
             assoc k (connections (create_connections l r)) <> None).
  { induction l as [|a l IH]; intros r H.
    - destruct H as [[]|H]; exact H.
    - cbn [create_connections fold_left]. fold (create_connections l).
      apply IH. cbn [map In] in H. cbn [set_conn connections].
      rewrite assoc_set_lookup.
      destruct (String.eqb_spec (conn_key a) k) as [Heq|Hne].
      + right. discriminate.
      + destruct H as [[H|H]|H]; [congruence|now left|now right]. }
  intros H. apply Hgen. now left.
Qed.

Lemma create_connections_keys_inv ifaces k :
  assoc k (connections (create_connections ifaces Renderer)) <> None ->
  In k (map conn_key ifaces).
Proof.
  intros H. destruct (in_dec string_dec k (map conn_key ifaces)) as [|Hn];
    [assumption|].
  rewrite create_connections_other in H by assumption.
  exfalso. now apply H.
Qed.

(** The whole render succeeds when every interface has a type of
    [_type_map] and well-formed subnets and every bridge port is the key of
    an interface: it does not raise on a dangling bond master or vlan
    parent. *)
Lemma render_network_state_total network_state target :
  (forall iface,
      In iface (iter_interfaces network_state) ->
      interface_renderable (map conn_key (iter_interfaces network_state))
                           iface) ->
  exists r' files,
    render_network_state network_state target Renderer = Ok (r', files).
Proof.
  intros Hall. unfold render_network_state.
  set (r0 := create_connections (iter_interfaces network_state) Renderer).
  destruct (render_connections_total network_state
              (iter_interfaces network_state) r0) as [r' E].
  - intros q cfg Hq. apply create_connections_fresh in Hq.
    destruct Hq as [name ->]. rewrite NMConnection_uuid. discriminate.
  - intros q cfg Hq. apply create_connections_fresh in Hq.
    destruct Hq as [name ->]. reflexivity.
  - intros iface Hin. split.
    + apply create_connections_keys. now apply in_map.
    + destruct (Hall iface Hin) as [Ht [Hs Hp]].
      split; [assumption|]. split; [assumption|].
      intros Hb port Hport. apply assoc_In.
      apply create_connections_keys. now apply Hp.
  - rewrite E. cbn [bind]. eauto.
Qed.

End DanglingFacts.

(** ** Plain profiles *)

(** Plain profiles are closed under the assignments of plain values in
    ordinary sections. *)

Lemma plain_value_append a b :
  plain_value (a ++ b) = plain_value a && plain_value b.
Proof.
  unfold plain_value.
  induction a as [|c a IH]; cbn [append no_char]; [reflexivity|].
  now rewrite IH, andb_assoc.
Qed.

Lemma plain_value_uint d : plain_value (NilEmpty.string_of_uint d) = true.
Proof. induction d; cbn; auto. Qed.

Lemma plain_value_str_nat n : plain_value (str_nat n) = true.
Proof. apply plain_value_uint. Qed.

Lemma plain_value_str_Z z : plain_value (str_Z z) = true.
Proof.
  unfold str_Z, NilZero.string_of_int, NilZero.string_of_uint.
  destruct (Z.to_int z) as [d|d]; [destruct d|destruct d];
    cbn; try reflexivity; apply plain_value_uint.
Qed.

Lemma plain_config_assoc cfg s sec :
  plain_config cfg = true -> assoc s cfg = Some sec ->
  named_section s = true /\ plain_section sec = true.
Proof.
  unfold plain_config.
  induction cfg as [|[k x] cfg IH]; cbn [assoc forallb fst snd];
    [discriminate|].
  intros H E. apply andb_true_iff in H. destruct H as [H1 H2].
  destruct (String.eqb_spec s k) as [->|].
  - injection E as <-. now apply andb_true_iff in H1.
  - now apply IH.
Qed.

Lemma plain_config_has_section cfg s :
  plain_config cfg = true -> has_section cfg s = true ->
  named_section s = true.
Proof.
  intros H Hs. unfold has_section, assoc_mem in Hs.
  destruct (assoc s cfg) as [sec|] eqn:E; [|discriminate].
  now destruct (plain_config_assoc _ _ _ H E).
Qed.

Lemma plain_config_get_option cfg s o v :
  plain_config cfg = true -> get_option cfg s o = Some v ->
  plain_value v = true.
Proof.
  intros H. unfold get_option.
  destruct (assoc s cfg) as [sec|] eqn:E; [|discriminate].
  destruct (plain_config_assoc _ _ _ H E) as [_ Hsec]. clear E H.
  unfold plain_section in Hsec.
  induction sec as [|[k x] sec IH]; cbn [assoc forallb snd] in *;
    [discriminate|].
  apply andb_true_iff in Hsec. destruct Hsec as [H1 H2].
  destruct (String.eqb o k); [|now apply IH].
  intros E. now injection E as <-.
Qed.

Lemma plain_section_assoc_set o v sec :
  plain_section sec = true -> plain_value v = true ->
  plain_section (assoc_set o v sec) = true.
Proof.
  unfold plain_section. intros H Hv.
  induction sec as [|[k x] sec IH]; cbn [assoc_set forallb snd] in *.
  - now rewrite Hv.
  - apply andb_true_iff in H. destruct H as [H1 H2].
    destruct (String.eqb o k); cbn [forallb snd].
    + now rewrite Hv, H2.
    + now rewrite H1, IH.
Qed.

Lemma plain_config_assoc_set s sec cfg :
  plain_config cfg = true -> named_section s = true ->
  plain_section sec = true ->
  plain_config (assoc_set s sec cfg) = true.
Proof.
  unfold plain_config. intros H Hs Hsec.
  induction cfg as [|[k x] cfg IH]; cbn [assoc_set forallb fst snd] in *.
  - now rewrite Hs, Hsec.
  - apply andb_true_iff in H. destruct H as [H1 H2].
    destruct (String.eqb_spec s k) as [->|]; cbn [forallb fst snd].
    + now rewrite Hs, Hsec, H2.
    + now rewrite H1, IH.
Qed.

(** An assignment of a plain value in an ordinary section keeps a profile
    plain, and so does a default. *)
Lemma plain_config_put s o v cfg :
  plain_config cfg = true -> named_section s = true ->
  plain_value v = true -> plain_config (put s o v cfg) = true.
Proof.
  intros H Hs Hv. unfold put.
  apply plain_config_assoc_set; [assumption|assumption|].
  apply plain_section_assoc_set; [|assumption].
  destruct (assoc s cfg) as [sec|] eqn:E; [|reflexivity].
  now destruct (plain_config_assoc _ _ _ H E).
Qed.

Lemma plain_config_put_default s o v cfg :
  plain_config cfg = true -> named_section s = true ->
  plain_value v = true -> plain_config (put_default s o v cfg) = true.
Proof.
  intros H Hs Hv. unfold put_default.
  destruct (has_option cfg s o); [assumption|].
  now apply plain_config_put.
Qed.

Lemma plain_config_set_ip_method_fn family subnet_type cfg :
  plain_config cfg = true -> named_section family = true ->
  plain_config (set_ip_method_fn family subnet_type cfg) = true.
Proof.
  intros H Hf. unfold set_ip_method_fn.
  assert (Hm : plain_value (fst (requested subnet_type)) = true).
  { unfold requested. destruct subnet_type as [t|]; [|reflexivity].
    destruct (truthy (Some t)); [|reflexivity].
    destruct (assoc t method_map) as [m|] eqn:E; [|reflexivity].
    cbn [fst]. unfold method_map in E. cbn [assoc] in E.
    repeat match type of E with
           | (if ?b then _ else _) = _ => destruct b
           end; try discriminate; now injection E as <-. }
  destruct (requested subnet_type) as [method unknown]. cbn [fst] in Hm.
  set (c1 := put_default family "method" "disabled" cfg).
  assert (H1 : plain_config c1 = true)
    by (now apply plain_config_put_default).
  set (c2 := if unknown then put family "may-fail" "true" c1 else c1).
  assert (H2 : plain_config c2 = true).
  { subst c2. destruct unknown; [|assumption]. now apply plain_config_put. }
  destruct (opt_eqb _ "dhcp"); [assumption|].
  destruct (opt_eqb _ "auto" && _); [assumption|].
  apply plain_config_put_default; [|assumption|reflexivity].
  apply plain_config_put; [|assumption|assumption].
  destruct (forces_ipv4_disabled subnet_type); [|assumption].
  now apply plain_config_put_default.
Qed.

Lemma plain_value_route_options_value old key value :
  plain_opt old = true -> plain_value key = true -> plain_value value = true ->
  plain_value (route_options_value old key value) = true.
Proof.
  intros Ho Hk Hv. unfold route_options_value.
  assert (Hkv : plain_value (key ++ "=" ++ value) = true)
    by (rewrite !plain_value_append, Hk, Hv; reflexivity).
  destruct (truthy old); [|assumption].
  destruct old as [ro|]; [|assumption].
  cbn [plain_opt] in Ho.
  rewrite plain_value_append, Ho. cbn [andb].
  now rewrite plain_value_append.
Qed.

Lemma plain_opt_get_option cfg s o :
  plain_config cfg = true -> plain_opt (get_option cfg s o) = true.
Proof.
  intros H. destruct (get_option cfg s o) as [v|] eqn:E; [|reflexivity].
  cbn [plain_opt]. eapply plain_config_get_option; eassumption.
Qed.

Lemma plain_value_route_value rt :
  plain_route rt = true -> plain_value (route_value rt) = true.
Proof.
  unfold plain_route, route_value. intros H.
  apply andb_true_iff in H. destruct H as [Hn Hg].
  assert (Hv : plain_value (rt_network rt ++ "/" ++ str_Z (rt_prefix rt))
               = true)
    by (rewrite !plain_value_append, Hn, plain_value_str_Z; reflexivity).
  destruct (rt_gateway rt) as [gw|]; [|assumption].
  cbn [plain_opt] in Hg.
  rewrite plain_value_append, Hv. cbn [andb].
  now rewrite plain_value_append, Hg.
Qed.

Lemma foldM_invariant {A B : Type} (P : A -> Prop) (f : A -> B -> result A)
  (l : list B) :
  (forall a x a', In x l -> P a -> f a x = Ok a' -> P a') ->
  forall a a', P a -> foldM f l a = Ok a' -> P a'.
Proof.
  induction l as [|x l IH]; intros Hf a a' Pa H; cbn [foldM] in H.
  - now injection H as <-.
  - bind_inv_as H a1 E.
    apply (IH (fun a0 y a2 Hy => Hf a0 y a2 (or_intror Hy)) a1 a');
      [|exact H].
    now apply (Hf a x a1 (or_introl eq_refl)).
Qed.

Lemma assoc_Some_In {V : Type} k (v : V) l :
  assoc k l = Some v -> In (k, v) l.
Proof.
  induction l as [|[k0 v0] l IH]; cbn [assoc In]; [discriminate|].
  destruct (String.eqb_spec k k0) as [->|].
  - intros E. injection E as <-. now left.
  - intros E. right. now apply IH.
Qed.

Lemma plain_value_join sep l :
  plain_value sep = true -> forallb plain_value l = true ->
  plain_value (join sep l) = true.
Proof.
  intros Hsep. induction l as [|x l IH]; [reflexivity|].
  cbn [forallb]. intros H. apply andb_true_iff in H. destruct H as [Hx Hl].
  destruct l as [|y l]; [exact Hx|].
  change (join sep (x :: y :: l)) with (x ++ sep ++ join sep (y :: l)).
  now rewrite !plain_value_append, Hx, Hsep, IH.
Qed.

Lemma forallb_filter {A : Type} (P Q : A -> bool) l :
  forallb P l = true -> forallb P (filter Q l) = true.
Proof.
  induction l as [|x l IH]; [reflexivity|]. cbn [forallb filter].
  intros H. apply andb_true_iff in H. destruct H as [Hx Hl].
  destruct (Q x); cbn [forallb]; [rewrite Hx|]; now apply IH.
Qed.

Lemma plain_values_resolve_dns found extra fallback :
  forallb plain_value found = true -> plain_list extra = true ->
  forallb plain_value fallback = true ->
  forallb plain_value (resolve_dns found extra fallback) = true.
Proof.
  intros Hf He Hb. unfold resolve_dns.
  assert (H : forallb plain_value
                (match extra with
                 | Some l => merge_new found l
                 | None => found
                 end) = true).
  { destruct extra as [l|]; [|assumption]. unfold merge_new.
    rewrite forallb_app, Hf. now apply forallb_filter. }
  now destruct (is_empty _ && negb (is_empty fallback)).
Qed.

Lemma mac_char_plain c :
  Ascii.eqb c "%" = false ->
  Ascii.eqb (upper_ascii (if Ascii.eqb c "-" then ":"%char else c)) "%"
  = false.
Proof.
  destruct c as [[] [] [] [] [] [] [] []]; vm_compute; congruence.
Qed.

Lemma plain_value_mac_addr addr :
  plain_value addr = true -> plain_value (mac_addr addr) = true.
Proof.
  unfold plain_value, mac_addr.
  induction addr as [|c addr IH]; [reflexivity|].
  cbn [no_char string_map]. intros H. apply andb_true_iff in H.
  destruct H as [Hc Ha]. apply negb_true_iff in Hc.
  now rewrite (mac_char_plain c Hc), IH.
Qed.

Lemma hex_digit_plain n : Ascii.eqb (UUID.hex_digit n) "%" = false.
Proof.
  unfold UUID.hex_digit. generalize (N.to_nat n) as k. intros k.
  do 17 (destruct k as [|k]; [reflexivity|]). reflexivity.
Qed.

Lemma plain_value_hex bs : plain_value (UUID.hex bs) = true.
Proof.
  unfold UUID.hex. induction bs as [|b bs IH]; [reflexivity|].
  cbn [fold_right]. rewrite plain_value_append, IH, andb_true_r.
  unfold UUID.hex_byte, plain_value. cbn [no_char].
  now rewrite !hex_digit_plain.
Qed.

Lemma plain_value_uuid5 namespace name :
  plain_value (UUID.uuid5 namespace name) = true.
Proof.
  unfold UUID.uuid5, UUID.to_string.
  now rewrite !plain_value_append, !plain_value_hex.
Qed.

(** A new profile is plain when its name is. *)
Lemma plain_config_NMConnection con_id :
  plain_value con_id = true -> plain_config (NMConnection con_id) = true.
Proof.
  intros H. unfold NMConnection, set_section.
  cbn [assoc_set String.eqb Ascii.eqb Bool.eqb plain_config forallb fst snd
       plain_section named_section negb andb].
  rewrite plain_value_append, H, plain_value_uuid5. reflexivity.
Qed.

Lemma cfg_set_plain cfg s o v cfg' :
  cfg_set cfg s o v = Ok cfg' -> plain_config cfg = true ->
  plain_value v = true -> plain_config cfg' = true.
Proof.
  intros H Hc Hv. apply cfg_set_inv in H. destruct H as [-> Hs].
  apply plain_config_put; [assumption| |assumption].
  eapply plain_config_has_section; eassumption.
Qed.

Lemma _set_default_plain s o v cfg cfg' :
  _set_default s o v cfg = Ok cfg' -> plain_config cfg = true ->
  named_section s = true -> plain_value v = true ->
  plain_config cfg' = true.
Proof.
  intros H Hc Hs Hv. rewrite _set_default_eq in H. injection H as <-.
  now apply plain_config_put_default.
Qed.

Lemma plain_config_set_section cfg s :
  plain_config cfg = true -> named_section s = true ->
  plain_config (set_section cfg s []) = true.
Proof. intros Hc Hs. now apply plain_config_assoc_set. Qed.

Lemma plain_config_normalize_mayfail_fn cfg :
  plain_config cfg = true -> plain_config (normalize_mayfail_fn cfg) = true.
Proof.
  intros H. unfold normalize_mayfail_fn.
  destruct (both_false_dynamic cfg); [|assumption].
  repeat apply plain_config_put; auto.
Qed.

Lemma plain_registry_assoc r q cfg :
  plain_registry r = true -> assoc q (connections r) = Some cfg ->
  plain_config cfg = true.
Proof.
  unfold plain_registry. generalize (connections r) as l.
  induction l as [|[k x] l IH]; cbn [assoc forallb snd]; [discriminate|].
  intros H E. apply andb_true_iff in H. destruct H as [H1 H2].
  destruct (String.eqb q k); [now injection E as <-|now apply IH].
Qed.

Lemma plain_registry_set_conn r q cfg :
  plain_registry r = true -> plain_config cfg = true ->
  plain_registry (set_conn r q cfg) = true.
Proof.
  unfold plain_registry, set_conn. cbn [connections].
  generalize (connections r) as l. intros l H Hc.
  induction l as [|[k x] l IH]; cbn [assoc_set forallb snd] in *.
  - now rewrite Hc.
  - apply andb_true_iff in H. destruct H as [H1 H2].
    destruct (String.eqb q k); cbn [forallb snd].
    + now rewrite Hc, H2.
    + now rewrite H1, IH.
Qed.

Lemma plain_registry_warn_mtu iface mtu r :
  plain_registry (warn_mtu iface mtu r) = plain_registry r.
Proof. unfold warn_mtu. now destruct (negb _). Qed.

Lemma con_ref_plain r con_id ref :
  con_ref r con_id = Ok ref -> plain_registry r = true ->
  plain_value con_id = true -> plain_value ref = true.
Proof.
  unfold con_ref, con_uuid. intros H Hr Hid.
  destruct (assoc con_id (connections r)) as [conn|] eqn:E.
  - apply cfg_get_inv in H.
    eapply plain_config_get_option; [|exact H].
    eapply plain_registry_assoc; eassumption.
  - now injection H as <-.
Qed.

Section PlainFacts.
Context {C : Collaborators}.

Lemma plain_config_add_route_fn rt n cfg :
  plain_config cfg = true -> plain_route rt = true ->
  plain_config (add_route_fn rt n cfg) = true.
Proof.
  intros Hcfg Hrt. unfold add_route_fn.
  assert (Hf : named_section (route_family rt) = true)
    by (unfold route_family; now destruct (is_ipv6_network _)).
  assert (H1 : plain_config
                 (put (route_family rt) ("route" ++ str_nat n)
                      (route_value rt) cfg) = true).
  { apply plain_config_put; try assumption.
    now apply plain_value_route_value. }
  destruct (rt_mtu rt) as [mtu|]; [|assumption].
  apply plain_config_put; try assumption.
  apply plain_value_route_options_value;
    [now apply plain_opt_get_option|reflexivity|apply plain_value_str_Z].
Qed.

Lemma _add_route_plain rt cfg cfg' :
  _add_route rt cfg = Ok cfg' -> plain_config cfg = true ->
  plain_route rt = true -> plain_config cfg' = true.
Proof.
  intros H Hc Hrt. destruct (_add_route_eq rt cfg) as [n [_ E]].
  rewrite E in H. injection H as <-. now apply plain_config_add_route_fn.
Qed.

Lemma plain_config_add_nameserver_fn dns cfg :
  plain_config cfg = true -> plain_value dns = true ->
  plain_config (add_nameserver_fn dns cfg) = true.
Proof.
  intros Hc Hd. unfold add_nameserver_fn.
  destruct (active cfg (dns_family dns)); [|assumption].
  apply plain_config_put; [assumption| |].
  - unfold dns_family. now destruct (is_ipv6_address dns).
  - rewrite !plain_value_append, Hd.
    pose proof (plain_opt_get_option cfg (dns_family dns) "dns" Hc) as Ho.
    destruct (get_option cfg (dns_family dns) "dns"); cbn [plain_opt] in Ho;
      [now rewrite Ho|reflexivity].
Qed.

Lemma _add_dns_search_plain search cfg cfg' :
  _add_dns_search search cfg = Ok cfg' -> plain_config cfg = true ->
  forallb plain_value search = true -> plain_config cfg' = true.
Proof.
  intros H Hc Hs. unfold _add_dns_search in H.
  revert H.
  apply (foldM_invariant (fun c => plain_config c = true)); [|assumption].
  intros a family a' Hin Ha H.
  assert (Hf : named_section family = true)
    by (destruct Hin as [<-|[<-|[]]]; reflexivity).
  bind_inv_as H method E.
  destruct (has_section a family && negb (opt_eqb method "disabled"));
    [|now injection H as <-].
  bind_inv_as H c1 E1. bind_inv_as H cur E2.
  pose proof (_set_default_plain _ _ _ _ _ E1 Ha Hf eq_refl) as H1.
  apply cfg_get_inv in E2.
  eapply cfg_set_plain; [exact H|exact H1|].
  rewrite !plain_value_append.
  rewrite (plain_config_get_option _ _ _ _ H1 E2).
  now rewrite plain_value_join.
Qed.

Lemma write_dns_plain nameservers search cfg cfg' :
  write_dns nameservers search cfg = Ok cfg' -> plain_config cfg = true ->
  forallb plain_value nameservers = true ->
  forallb plain_value search = true -> plain_config cfg' = true.
Proof.
  intros H Hc Hn Hs. unfold write_dns in H.
  rewrite foldM_add_nameserver_eq in H. cbn [bind] in H.
  assert (H1 : plain_config
                 (fold_left (fun cfg ns => add_nameserver_fn ns cfg)
                            nameservers cfg) = true).
  { clear H. revert cfg Hc.
    induction nameservers as [|ns l IH]; intros cfg Hc; [assumption|].
    cbn [fold_left forallb] in *. apply andb_true_iff in Hn.
    destruct Hn as [Hns Hl]. apply IH; [assumption|].
    now apply plain_config_add_nameserver_fn. }
  destruct (negb (is_empty search)); [|now injection H as <-].
  eapply _add_dns_search_plain; eassumption.
Qed.

Lemma render_subnet_plain st sn st' :
  render_subnet st sn = Ok st' -> plain_l3 st -> plain_subnet sn = true ->
  plain_l3 st'.
Proof.
  intros H [Hc [Hn Hs]] Hsn. unfold plain_subnet in Hsn.
  rewrite !andb_true_iff in Hsn.
  destruct Hsn as [[[[Hsa Hsg] Hsr] Hsn] Hss].
  unfold render_subnet in H.
  set (family := if subnet_is_ipv6 sn then "ipv6" else "ipv4") in H.
  assert (Hf : named_section family = true)
    by (subst family; now destruct (subnet_is_ipv6 sn)).
  rewrite _set_ip_method_eq in H. cbn [bind] in H.
  pose proof (plain_config_set_ip_method_fn family (Some (sn_type sn)) _
                Hc Hf) as H1.
  bind_inv_as H c2 E2.
  assert (H2 : plain_config c2 = true).
  { destruct (sn_address sn) as [a|] eqn:Ea; [|now injection E2 as <-].
    unfold _add_address in E2. rewrite Ea in E2.
    destruct (sn_prefix sn) as [px|]; [|discriminate].
    destruct (_add_numbered_lowest family "address" (a ++ "/" ++ str_Z px)
                (set_ip_method_fn family (Some (sn_type sn)) (l3_config st)))
      as [n [_ E]].
    rewrite E in E2. injection E2 as <-.
    apply plain_config_put; [assumption|assumption|].
    cbn [plain_opt] in Hsa.
    rewrite plain_value_append, Hsa. exact (plain_value_str_Z px). }
  bind_inv_as H c3 E3.
  assert (H3 : plain_config c3 = true).
  { destruct (sn_gateway sn) as [gw|]; [|now injection E3 as <-].
    eapply cfg_set_plain; [exact E3|exact H2|exact Hsg]. }
  bind_inv_as H c4 E4.
  assert (H4 : plain_config c4 = true).
  { revert E4.
    apply (foldM_invariant (fun c => plain_config c = true)); [|assumption].
    intros a rt a' Hin Ha Hr. eapply _add_route_plain; [exact Hr|exact Ha|].
    rewrite forallb_forall in Hsr. now apply Hsr. }
  injection H as <-. unfold plain_l3. cbn [l3_config found_nameservers
                                             found_dns_search].
  split; [assumption|]. split.
  - destruct (sn_dns_nameservers sn) as [l|]; [|assumption].
    rewrite forallb_app, Hn. exact Hsn.
  - destruct (sn_dns_search sn) as [l|]; [|assumption].
    rewrite forallb_app, Hs. exact Hss.
Qed.

Lemma render_layer3_plain ty iface cfg st :
  render_layer3 ty iface cfg = Ok st -> plain_config cfg = true ->
  forallb plain_subnet (if_subnets iface) = true -> plain_l3 st.
Proof.
  intros H Hc Hsub. unfold render_layer3 in H. bind_inv_as H c1 E1.
  assert (H1 : plain_config c1 = true).
  { destruct (String.eqb ty "bond" && is_empty (if_subnets iface));
      [|now injection E1 as <-].
    revert E1.
    apply (foldM_invariant (fun c => plain_config c = true)); [|assumption].
    intros a family a' Hin Ha Hr. rewrite _set_ip_method_eq in Hr.
    injection Hr as <-. apply plain_config_set_ip_method_fn; [assumption|].
    destruct Hin as [<-|[<-|[]]]; reflexivity. }
  revert H. apply (foldM_invariant plain_l3).
  - intros a sn a' Hin Ha Hr. eapply render_subnet_plain; [exact Hr|exact Ha|].
    rewrite forallb_forall in Hsub. now apply Hsub.
  - repeat split; assumption.
Qed.

Lemma render_props_plain ty iface cfg cfg' :
  render_props ty iface cfg = Ok cfg' -> plain_config cfg = true ->
  forallb (fun kv => plain_pyval (snd kv)) (if_params iface) = true ->
  plain_config cfg' = true.
Proof.
  intros H Hc Hp. unfold render_props in H.
  destruct (assoc ty _prop_map) as [props|]; [|discriminate].
  revert H.
  apply (foldM_invariant (fun c => plain_config c = true)); [|assumption].
  intros a [nm_prop key] a' _ Ha Hr.
  destruct (assoc key (if_params iface)) as [[|b|z|v]|] eqn:E;
    try (now injection Hr as <-);
    (eapply cfg_set_plain; [exact Hr|exact Ha|]).
  - now destruct b.
  - apply plain_value_str_Z.
  - apply assoc_Some_In in E. rewrite forallb_forall in Hp.
    exact (Hp _ E).
Qed.

Lemma set_mac_plain ty iface cfg cfg' :
  set_mac ty iface cfg = Ok cfg' -> plain_config cfg = true ->
  plain_opt (if_mac_address iface) = true -> plain_config cfg' = true.
Proof.
  intros H Hc Hm. unfold set_mac in H.
  destruct (if_mac_address iface) as [mac|]; [|now injection H as <-].
  eapply cfg_set_plain; [exact H|exact Hc|].
  now apply plain_value_mac_addr.
Qed.

Lemma plain_type ty :
  ty = "ethernet" \/ ty = "vlan" \/ ty = "bond" \/ ty = "bridge"
  \/ ty = "infiniband" ->
  named_section ty = true /\ plain_value ty = true.
Proof. intros [-> | [-> | [-> | [-> | ->]]]]; split; reflexivity. Qed.

Lemma init_connectivity_plain self ty iface r cfg cfg' :
  init_connectivity self ty iface r cfg = Ok cfg' ->
  plain_value ty = true -> plain_registry r = true ->
  plain_config cfg = true -> plain_opt (if_bond_master iface) = true ->
  plain_config cfg' = true.
Proof.
  intros H Hty Hr Hc Hm. unfold init_connectivity in H.
  bind_inv_as H c1 E1.
  pose proof (cfg_set_plain _ _ _ _ _ E1 Hc Hty) as P1.
  destruct (if_bond_master iface) as [master|]; [|now injection H as <-].
  bind_inv_as H c2 E2.
  pose proof (cfg_set_plain _ _ _ _ _ E2 P1 eq_refl) as P2.
  bind_inv_as H ref E3.
  eapply cfg_set_plain; [exact H|exact P2|].
  eapply con_ref_plain; [exact E3| |exact Hm].
  now apply plain_registry_set_conn.
Qed.

Lemma render_own_plain self ty iface network_state r cfg cfg' mtu :
  render_own self ty iface network_state r cfg = Ok (cfg', mtu) ->
  ty = "ethernet" \/ ty = "vlan" \/ ty = "bond" \/ ty = "bridge"
  \/ ty = "infiniband" ->
  plain_registry r = true -> plain_config cfg = true ->
  plain_interface iface = true -> plain_global_dns network_state = true ->
  plain_config cfg' = true.
Proof.
  intros H Htys Hr Hc Hi Hg.
  destruct (plain_type ty Htys) as [Hty Htyv].
  unfold plain_interface in Hi. rewrite !andb_true_iff in Hi.
  destruct Hi as [[[[[[Hname Hmac] Hmaster] Hdev] Hsub] Hdns] Hpar].
  unfold plain_global_dns in Hg. apply andb_true_iff in Hg.
  destruct Hg as [Hgn Hgs].
  apply render_own_inv in H.
  destruct H as [c1 [st [c3 [c5 [c6 [c7 [H1 [H2 [H3 [_ [H5 [H6 [H7 H8]]]]]]]]]]]]].
  pose proof (init_connectivity_plain _ _ _ _ _ _ H1 Htyv Hr Hc) as P1.
  assert (P1' : plain_config c1 = true) by (apply P1; assumption).
  clear P1.
  destruct (render_layer3_plain _ _ _ _ H2) as [P2 [N2 S2]];
    [now apply plain_config_set_section|assumption|].
  assert (Hdns' : plain_list (option_map dns_nameservers (if_dns iface)) = true
                  /\ plain_list (option_map dns_search (if_dns iface)) = true).
  { destruct (if_dns iface) as [d|]; cbn [option_map plain_list];
      [|split; reflexivity].
    now apply andb_true_iff in Hdns. }
  destruct Hdns' as [Hdn Hds].
  assert (P3 : plain_config c3 = true).
  { eapply write_dns_plain; [exact H3|exact P2| |];
      now apply plain_values_resolve_dns. }
  pose proof (plain_config_normalize_mayfail_fn _ P3) as P4.
  assert (P5 : plain_config c5 = true)
    by (eapply render_props_plain; eassumption).
  assert (P6 : plain_config c6 = true).
  { destruct (String.eqb ty "ethernet"); [|now injection H6 as <-].
    unfold render_ethernet in H6. bind_inv_as H6 a Ea. bind_inv_as H6 b Eb.
    assert (Pa : plain_config a = true).
    { destruct (if_wakeonlan iface) as [|[|]|z|v];
        try (now injection Ea as <-).
      eapply cfg_set_plain; [exact Ea|exact P5|reflexivity]. }
    assert (Pb : plain_config b = true).
    { destruct mtu as [m|]; [|now injection Eb as <-].
      eapply cfg_set_plain; [exact Eb|exact Pa|apply plain_value_str_Z]. }
    eapply set_mac_plain; eassumption. }
  assert (P7 : plain_config c7 = true).
  { destruct (String.eqb ty "vlan"); [|now injection H7 as <-].
    unfold render_vlan in H7.
    destruct (if_vlan_raw_device iface) as [dev|];
      [|now injection H7 as <-].
    bind_inv_as H7 ref Er.
    eapply cfg_set_plain; [exact H7|exact P6|].
    eapply con_ref_plain; [exact Er| |assumption].
    now apply plain_registry_set_conn. }
  destruct (String.eqb ty "bond"); [|now injection H8 as <-].
  unfold render_bond in H8.
  destruct mtu as [m|]; [|now injection H8 as <-].
  eapply cfg_set_plain; [exact H8| |apply plain_value_str_Z].
  destruct (has_section c7 "ethernet"); [assumption|].
  now apply plain_config_set_section.
Qed.

Lemma render_bridge_port_plain self r port r' :
  render_bridge_port self r port = Ok r' -> plain_registry r = true ->
  plain_registry r' = true.
Proof.
  intros H Hr. apply render_bridge_port_inv in H.
  destruct H as [pcfg [uuid [Hp [Hu ->]]]].
  apply plain_registry_set_conn; [assumption|].
  pose proof (plain_registry_assoc _ _ _ Hr Hp) as Pp.
  apply plain_config_put_default; [|reflexivity|].
  - now apply plain_config_put_default.
  - unfold conn_option in Hu.
    destruct (assoc self (connections r)) as [me|] eqn:E; [|discriminate].
    eapply plain_config_get_option; [|exact Hu].
    eapply plain_registry_assoc; eassumption.
Qed.

(** A render keeps the registry plain when the interface and the global
    DNS entries are. *)
Lemma render_interface_plain self iface network_state r r' :
  render_interface self iface network_state r = Ok r' ->
  plain_registry r = true -> plain_interface iface = true ->
  plain_global_dns network_state = true -> plain_registry r' = true.
Proof.
  intros H Hr Hi Hg.
  destruct (assoc (if_type iface) _type_map) as [[ty|]|] eqn:Hty.
  - pose proof (type_map_values _ _ Hty) as Htys.
    destruct (render_interface_inv _ _ _ _ _ _ Hty H)
      as [cfg0 [cfg1 [mtu [r2 [cfg2 [cfg3 [cfg4
            [H0 [Hown [H2 [Hc2 [H3 [H4 ->]]]]]]]]]]]]].
    pose proof (plain_registry_assoc _ _ _ Hr H0) as P0.
    pose proof (render_own_plain _ _ _ _ _ _ _ _ Hown Htys Hr P0 Hi Hg) as P1.
    assert (Pr1 : plain_registry (set_conn (warn_mtu iface mtu r) self cfg1)
                  = true).
    { apply plain_registry_set_conn; [|assumption].
      now rewrite plain_registry_warn_mtu. }
    assert (Hmac : plain_opt (if_mac_address iface) = true
                   /\ plain_value (if_name iface) = true).
    { unfold plain_interface in Hi. rewrite !andb_true_iff in Hi.
      tauto. }
    destruct Hmac as [Hmac Hname].
    assert (Pr2 : plain_registry r2 = true).
    { destruct (String.eqb ty "bridge"); [|now injection H2 as <-].
      unfold render_bridge in H2. bind_inv_as H2 r3 E3.
      bind_inv_as H2 c Ec. bind_inv_as H2 c' Ec'. injection H2 as <-.
      assert (Pr3 : plain_registry r3 = true).
      { revert E3.
        apply (foldM_invariant (fun x => plain_registry x = true));
          [|assumption].
        intros a port a' _ Ha Hp. eapply render_bridge_port_plain;
          eassumption. }
      apply plain_registry_set_conn; [assumption|].
      eapply set_mac_plain; [exact Ec'| |assumption].
      apply get_conn_inv in Ec. eapply plain_registry_assoc; eassumption. }
    pose proof (plain_registry_assoc _ _ _ Pr2 Hc2) as P2.
    assert (P3 : plain_config cfg3 = true).
    { destruct (String.eqb ty "infiniband"); [|now injection H3 as <-].
      unfold render_infiniband in H3.
      destruct mtu as [m|]; [|now injection H3 as <-].
      bind_inv_as H3 a Ea. bind_inv_as H3 b Eb.
      pose proof (cfg_set_plain _ _ _ _ _ Ea P2 eq_refl) as Pa.
      pose proof (cfg_set_plain _ _ _ _ _ Eb Pa (plain_value_str_Z m)) as Pb.
      eapply set_mac_plain; eassumption. }
    apply plain_registry_set_conn; [assumption|].
    unfold finish in H4.
    destruct (String.eqb ty "bridge" || negb (has_option cfg3 ty "mac-address"));
      [|now injection H4 as <-].
    eapply cfg_set_plain; eassumption.
  - unfold render_interface in H. rewrite Hty in H. now injection H as <-.
  - unfold render_interface in H. rewrite Hty in H. discriminate.
Qed.

Lemma plain_registry_create_connections ifaces :
  forallb plain_interface ifaces = true ->
  forall r, plain_registry r = true ->
            plain_registry (create_connections ifaces r) = true.
Proof.
  intros Hall. unfold create_connections.
  induction ifaces as [|a l IH]; intros r Hr; [assumption|].
  cbn [fold_left forallb] in *. apply andb_true_iff in Hall.
  destruct Hall as [Ha Hl]. apply IH; [assumption|].
  apply plain_registry_set_conn; [assumption|].
  apply plain_config_NMConnection. unfold plain_interface in Ha.
  rewrite !andb_true_iff in Ha. tauto.
Qed.

(** The whole render leaves plain profiles when the network state is
    plain. *)
Lemma render_network_state_plain network_state target r' files :
  render_network_state network_state target Renderer = Ok (r', files) ->
  plain_network_state network_state = true -> plain_registry r' = true.
Proof.
  intros H Hp. unfold plain_network_state in Hp.
  apply andb_true_iff in Hp. destruct Hp as [Hall Hg].
  unfold render_network_state in H. bind_inv_as H r1 E. injection H as <- _.
  revert E.
  apply (render_connections_ind (fun x => plain_registry x = true)).
  - intros ra rb iface Hin Ha Hr.
    eapply render_interface_plain; [exact Hr|exact Ha| |exact Hg].
    rewrite forallb_forall in Hall. now apply Hall.
  - now apply plain_registry_create_connections.
Qed.

End PlainFacts.

(** C3, as amended: a reference resolved through [con_ref], that is a bond
    master or a vlan parent, never raises when its target is missing from
    the registry: [con_ref] returns the raw id, the render of the interface
    goes through, and the raw id is what the profile carries as
    [connection.master] (with [slave-type=bond]) or as [vlan.parent].  The
    render of an interface succeeds whenever its type is mappable, each of
    its subnets with an address has a prefix, for a bridge its ports are in
    the registry, and no text that the render writes or reads (the texts
    of the interface, the global DNS entries, the values of the profiles
    of the registry) has a percent sign, which the parser would reject or
    expand; so does the whole render, up to the files it hands to
    [util.write_file], when this holds for every interface.  The profiles
    are then plain again. *)
Theorem C3_dangling_master_and_parent_pass_through {C : Collaborators}
  (self : string) (iface : interface) (network_state : NetworkState)
  (r : renderer) :
  (forall con_id,
      assoc con_id (connections r) = None -> con_ref r con_id = Ok con_id)
  /\ (forall r' ty master,
         assoc (if_type iface) _type_map = Some (Some ty) ->
         render_interface self iface network_state r = Ok r' ->
         if_bond_master iface = Some master ->
         assoc master (connections r) = None ->
         conn_option r' self "connection" "slave-type" = Some "bond"
         /\ conn_option r' self "connection" "master" = Some master)
  /\ (forall r' dev,
         if_type iface = "vlan" ->
         render_interface self iface network_state r = Ok r' ->
         if_vlan_raw_device iface = Some dev ->
         assoc dev (connections r) = None ->
         conn_option r' self "vlan" "parent" = Some dev)
  /\ (forall cfg ty,
         assoc (if_type iface) _type_map = Some (Some ty) ->
         registry_well_formed r ->
         assoc self (connections r) = Some cfg ->
         has_section cfg "connection" = true ->
         Forall subnet_well_formed (if_subnets iface) ->
         (ty = "bridge" ->
          forall port, In port (if_bridge_ports iface) ->
                       assoc port (connections r) <> None) ->
         plain_registry r = true ->
         plain_interface iface = true ->
         plain_global_dns network_state = true ->
         exists r',
           render_interface self iface network_state r = Ok r'
           /\ plain_registry r' = true)
  /\ (forall target,
         (forall i, In i (iter_interfaces network_state) ->
                    interface_renderable
                      (map conn_key (iter_interfaces network_state)) i) ->
         plain_network_state network_state = true ->
         exists r' files,
           render_network_state network_state target Renderer
           = Ok (r', files)
           /\ plain_registry r' = true).
Proof.
  split; [|split; [|split; [|split]]].
  - intros con_id. apply con_ref_dangling.
  - intros r' ty master. apply render_interface_dangling_master.
  - intros r' dev. apply render_interface_dangling_parent.
  - intros cfg ty Hty Hwf Hself Hs Hsub Hports Hr Hi Hg.
    destruct (render_interface_total self iface network_state r cfg ty
                Hty Hwf Hself Hs Hsub Hports) as [r' E].
    exists r'. split; [exact E|].
    eapply render_interface_plain; eassumption.
  - intros target Hall Hp.
    destruct (render_network_state_total network_state target Hall)
      as [r' [files E]].
    exists r', files. split; [exact E|].
    eapply render_network_state_plain; eassumption.
Qed.

Lemma C3_dangling_master_and_parent_pass_through_witness :
  con_ref (create_connections [dangling_slave] Renderer) "bond9" = Ok "bond9"
  /\ (conn_option (get_ok (render_all [dangling_slave])) "eth0"
                  "connection" "slave-type" = Some "bond"
      /\ conn_option (get_ok (render_all [dangling_slave])) "eth0"
                     "connection" "master" = Some "bond9")
  /\ conn_option (get_ok (render_all [dangling_vlan])) "eth0.5"
                 "vlan" "parent" = Some "eth9"
  /\ (exists r',
         render_interface "eth0" dangling_slave (mk_state [dangling_slave])
           (create_connections [dangling_slave] Renderer) = Ok r'
         /\ plain_registry r' = true)
  /\ (exists r' files,
         render_network_state (mk_state [dangling_slave; dangling_vlan])
                              None Renderer = Ok (r', files)
         /\ plain_registry r' = true).
Proof.
  split; [|split; [|split; [|split]]].
  - apply (proj1 (C3_dangling_master_and_parent_pass_through
                    "eth0" dangling_slave (mk_state [dangling_slave])
                    (create_connections [dangling_slave] Renderer))).
    reflexivity.
  - apply (proj1 (proj2 (C3_dangling_master_and_parent_pass_through
                           "eth0" dangling_slave (mk_state [dangling_slave])
                           (create_connections [dangling_slave] Renderer)))
             (get_ok (render_all [dangling_slave])) "ethernet" "bond9").
    + reflexivity.
    + vm_compute. reflexivity.
    + reflexivity.
    + reflexivity.
  - apply (proj1 (proj2 (proj2 (C3_dangling_master_and_parent_pass_through
                                  "eth0.5" dangling_vlan
                                  (mk_state [dangling_vlan])
                                  (create_connections [dangling_vlan]
                                                      Renderer))))
             (get_ok (render_all [dangling_vlan])) "eth9").
    + reflexivity.
    + vm_compute. reflexivity.
    + reflexivity.
    + reflexivity.
  - apply (proj1 (proj2 (proj2 (proj2
             (C3_dangling_master_and_parent_pass_through
                "eth0" dangling_slave (mk_state [dangling_slave])
                (create_connections [dangling_slave] Renderer)))))
             (NMConnection "eth0") "ethernet").
    + reflexivity.
    + intros q cfg Hq. unfold create_connections in Hq.
      cbn [fold_left set_conn connections Renderer assoc_set assoc] in Hq.
      destruct (String.eqb q (conn_key dangling_slave)); [|discriminate].
      injection Hq as <-. vm_compute. discriminate.
    + vm_compute. reflexivity.
    + reflexivity.
    + constructor.
    + discriminate.
    + vm_compute. reflexivity.
    + reflexivity.
    + reflexivity.
  - apply (proj2 (proj2 (proj2 (proj2
             (C3_dangling_master_and_parent_pass_through
                "eth0" dangling_slave
                (mk_state [dangling_slave; dangling_vlan]) Renderer))))
             None).
    + intros i [<-|[<-|[]]]; (split; [discriminate|]);
        (split; [constructor|discriminate]).
    + reflexivity.
Defined.

(** C3 as stated fails for a bridge port: the port eth9 of the bridge is not
    in the registry, the lookup raises [KeyError] and the render fails. *)
Lemma C3_counterexample :
  assoc "eth9"
        (connections (create_connections [bridge_iface ["eth9"]] Renderer))
  = None
  /\ render_network_state (mk_state [bridge_iface ["eth9"]]) None Renderer
     = Err (KeyError "eth9").
Proof. split; vm_compute; reflexivity. Qed.

(** * Further properties of the renderer *)

(** ** Defaults and conditional updates of options *)

Lemma pair_neq_eqb (s o s' o' : string) :
  (s', o') <> (s, o) -> String.eqb s s' && String.eqb o o' = false.
Proof.
  intros H. destruct (String.eqb_spec s s') as [->|]; [|reflexivity].
  destruct (String.eqb_spec o o') as [->|]; [|reflexivity].
  now elim H.
Qed.

(** X1: [_set_default] on a plain profile, for an ordinary section and a
    plain value, never raises and never overwrites: the option reads back
    as the value it had, or as the default when it was unset; a second
    default for the same option, whatever its value, changes nothing;
    every other option is as before, the only section that may appear is
    the one named, and the profile is plain again. *)
Theorem X1_set_default_keeps_first_value (s o v w : string) (cfg : config) :
  plain_config cfg = true -> named_section s = true ->
  plain_value v = true ->
  exists cfg',
    _set_default s o v cfg = Ok cfg'
    /\ _get_config_option cfg' s o
       = Ok (Some (match get_option cfg s o with
                   | Some x => x
                   | None => v
                   end))
    /\ _set_default s o w cfg' = Ok cfg'
    /\ (forall s' o', (s', o') <> (s, o) ->
                      get_option cfg' s' o' = get_option cfg s' o')
    /\ (forall s', has_section cfg' s' = String.eqb s s' || has_section cfg s')
    /\ plain_config cfg' = true.
Proof.
  intros Hcfg Hs Hv.
  exists (put_default s o v cfg).
  split; [apply _set_default_eq|].
  split.
  { rewrite _get_config_option_eq, get_option_put_default.
    now rewrite !String.eqb_refl. }
  split.
  { rewrite _set_default_eq. f_equal.
    eapply put_default_set. rewrite get_option_put_default.
    rewrite !String.eqb_refl. reflexivity. }
  split.
  { intros s' o' H. rewrite get_option_put_default.
    now rewrite (pair_neq_eqb _ _ _ _ H). }
  split.
  - intros s'. apply has_section_put_default.
  - now apply plain_config_put_default.
Qed.

Lemma X1_set_default_keeps_first_value_witness :
  (plain_config [("ipv4", [("method", "auto")])] = true
   /\ named_section "ipv4" = true /\ plain_value "disabled" = true)
  /\ exists cfg',
       _set_default "ipv4" "method" "disabled" [("ipv4", [("method", "auto")])]
       = Ok cfg'
       /\ _get_config_option cfg' "ipv4" "method" = Ok (Some "auto")
       /\ get_option cfg' "ipv4" "dns"
          = get_option [("ipv4", [("method", "auto")])] "ipv4" "dns"
       /\ plain_config cfg' = true.
Proof.
  assert (Hcfg : plain_config [("ipv4", [("method", "auto")])] = true)
    by reflexivity.
  assert (Hs : named_section "ipv4" = true) by reflexivity.
  assert (Hv : plain_value "disabled" = true) by reflexivity.
  split; [repeat split; assumption|].
  destruct (X1_set_default_keeps_first_value "ipv4" "method" "disabled" "manual"
              [("ipv4", [("method", "auto")])] Hcfg Hs Hv)
    as [cfg' [H1 [H2 [_ [H4 [_ H6]]]]]].
  exists cfg'. split; [exact H1|]. split; [exact H2|].
  split; [|exact H6].
  apply H4. discriminate.
Defined.

Lemma has_option_put s o v cfg s' o' :
  has_option (put s o v cfg) s' o' =
  (String.eqb s s' && String.eqb o o') || has_option cfg s' o'.
Proof.
  rewrite !has_option_get_option, get_option_put.
  now destruct (String.eqb s s' && String.eqb o o').
Qed.

Lemma has_option_has_section cfg s o :
  has_option cfg s o = true -> has_section cfg s = true.
Proof.
  rewrite has_option_get_option.
  destruct (get_option cfg s o) eqn:E; [|discriminate].
  intros _. eapply get_option_has_section; eauto.
Qed.

Lemma is_set_has_option cfg s o :
  _config_option_is_set cfg s o = has_option cfg s o.
Proof.
  unfold _config_option_is_set.
  destruct (has_option cfg s o) eqn:E.
  - now rewrite (has_option_has_section _ _ _ E).
  - apply andb_false_r.
Qed.

(** X2: [_change_set_config_option] on a plain profile, for a plain value,
    never raises and never creates anything: the same options are set
    before and after, in the same sections; the option reads back as the
    new value exactly when it was set, every other option is as before, on
    an unset option the profile is returned as it is, and the profile is
    plain again. *)
Theorem X2_change_set_config_option_never_creates (s o v : string) (cfg : config) :
  plain_config cfg = true -> plain_value v = true ->
  exists cfg',
    _change_set_config_option s o v cfg = Ok cfg'
    /\ (forall s' o', _config_option_is_set cfg' s' o'
                      = _config_option_is_set cfg s' o')
    /\ (forall s', has_section cfg' s' = has_section cfg s')
    /\ _get_config_option cfg' s o
       = Ok (if _config_option_is_set cfg s o then Some v else None)
    /\ (forall s' o', (s', o') <> (s, o) ->
                      get_option cfg' s' o' = get_option cfg s' o')
    /\ (_config_option_is_set cfg s o = false -> cfg' = cfg)
    /\ plain_config cfg' = true.
Proof.
  intros Hcfg Hv.
  rewrite _change_set_config_option_eq, is_set_has_option.
  destruct (has_option cfg s o) eqn:E.
  - exists (put s o v cfg). split; [reflexivity|].
    split.
    { intros s' o'. rewrite !is_set_has_option, has_option_put.
      destruct (String.eqb_spec s s') as [<-|]; [|reflexivity].
      destruct (String.eqb_spec o o') as [<-|]; [|reflexivity].
      now rewrite E. }
    split.
    { intros s'. rewrite has_section_put.
      destruct (String.eqb_spec s s') as [<-|]; [|reflexivity].
      now rewrite (has_option_has_section _ _ _ E). }
    split.
    { rewrite _get_config_option_eq, get_option_put.
      now rewrite !String.eqb_refl. }
    split.
    { intros s' o' H. rewrite get_option_put.
      now rewrite (pair_neq_eqb _ _ _ _ H). }
    split; [discriminate|].
    apply plain_config_put; [assumption| |assumption].
    eapply plain_config_has_section; [eassumption|].
    eapply has_option_has_section; eassumption.
  - exists cfg. split; [reflexivity|].
    split; [reflexivity|]. split; [reflexivity|].
    split.
    { rewrite _get_config_option_eq.
      rewrite has_option_get_option in E.
      now destruct (get_option cfg s o). }
    split; [reflexivity|]. split; [reflexivity|assumption].
Qed.

Lemma X2_change_set_config_option_never_creates_witness :
  (plain_config [("ipv4", [("method", "auto")])] = true
   /\ plain_value "true" = true)
  /\ exists cfg',
       _change_set_config_option "ipv4" "may-fail" "true"
         [("ipv4", [("method", "auto")])] = Ok cfg'
       /\ get_option cfg' "ipv4" "method" = Some "auto"
       /\ cfg' = [("ipv4", [("method", "auto")])].
Proof.
  assert (Hcfg : plain_config [("ipv4", [("method", "auto")])] = true)
    by reflexivity.
  assert (Hv : plain_value "true" = true) by reflexivity.
  split; [split; assumption|].
  destruct (X2_change_set_config_option_never_creates "ipv4" "may-fail" "true"
              [("ipv4", [("method", "auto")])] Hcfg Hv)
    as [cfg' [H1 [_ [_ [_ [H5 [H6 _]]]]]]].
  exists cfg'. split; [exact H1|]. split.
  - rewrite H5 by discriminate. reflexivity.
  - apply H6. reflexivity.
Defined.

(** ** The layer-3 method, further *)

Lemma covers_three_pairs a b c d e f s o :
  (s, o) <> (a, b) -> (s, o) <> (c, d) -> (s, o) <> (e, f) ->
  covers [Opt a b; Opt c d; Opt e f] s o = false.
Proof.
  intros H1 H2 H3. unfold covers. cbn [existsb matches].
  now rewrite (pair_neq_eqb _ _ _ _ H1), (pair_neq_eqb _ _ _ _ H2),
    (pair_neq_eqb _ _ _ _ H3).
Qed.

(** X3: [_set_ip_method] never raises on a plain profile, whatever options
    it holds, for a family that is an ordinary section (the reads of
    [config[family]["method"]] come after the default is in place).
    Afterwards the family has a method; the only options it may have
    written are the family's [method] and [may-fail] and [ipv4.method]; no
    section disappears, none but the family's and [ipv4] appears, and the
    profile is plain again. *)
Theorem X3_set_ip_method_never_raises (family : string)
  (subnet_type : option string) (cfg : config) :
  plain_config cfg = true -> named_section family = true ->
  exists cfg',
    _set_ip_method family subnet_type cfg = Ok cfg'
    /\ get_option cfg' family "method" <> None
    /\ (forall s o,
           (s, o) <> (family, "method") -> (s, o) <> (family, "may-fail") ->
           (s, o) <> ("ipv4", "method") ->
           get_option cfg' s o = get_option cfg s o)
    /\ (forall s, has_section cfg s = true -> has_section cfg' s = true)
    /\ (forall s, s <> family -> s <> "ipv4" ->
                  has_section cfg' s = has_section cfg s)
    /\ plain_config cfg' = true.
Proof.
  intros Hcfg Hf.
  exists (set_ip_method_fn family subnet_type cfg).
  pose proof (_set_ip_method_eq family subnet_type cfg) as E.
  split; [exact E|].
  split.
  { rewrite set_ip_method_fn_method. cbv zeta.
    destruct (String.eqb _ "dhcp"); [discriminate|].
    destruct (String.eqb _ "auto" && _); discriminate. }
  apply _set_ip_method_extends in E. destruct E as [E1 [E2 E3]].
  split.
  { intros s o H1 H2 H3. apply E3. now apply covers_three_pairs. }
  split; [exact E1|].
  split.
  - intros s Hs Hi. apply E2. intros o.
    apply covers_three_pairs; intros H; injection H; intros; subst; tauto.
  - now apply plain_config_set_ip_method_fn.
Qed.

Lemma X3_set_ip_method_never_raises_witness :
  (plain_config [] = true /\ named_section "ipv6" = true)
  /\ exists cfg',
       _set_ip_method "ipv6" (Some "dhcp6") [] = Ok cfg'
       /\ get_option cfg' "ipv6" "method" <> None
       /\ get_option cfg' "ipv4" "may-fail" = get_option [] "ipv4" "may-fail"
       /\ has_section cfg' "connection" = has_section [] "connection"
       /\ plain_config cfg' = true.
Proof.
  assert (Hcfg : plain_config [] = true) by reflexivity.
  assert (Hf : named_section "ipv6" = true) by reflexivity.
  split; [split; assumption|].
  destruct (X3_set_ip_method_never_raises "ipv6" (Some "dhcp6") [] Hcfg Hf)
    as [cfg' [H1 [H2 [H3 [_ [H5 H6]]]]]].
  exists cfg'. split; [exact H1|]. split; [exact H2|]. split; [|split].
  - apply H3; discriminate.
  - apply H5; discriminate.
  - exact H6.
Defined.

(** X4: A subnet of one of the dynamic ipv6 types (ipv6_slaac,
    ipv6_dhcpv6-stateless, ipv6_dhcpv6-stateful), resolved for ipv6 on a
    profile whose ipv6 method is not yet [dhcp], gives ipv4 a method:
    [disabled] when ipv4 had none, the one it had otherwise, with the ipv4
    [may-fail] as it was; and ipv6 gets [dhcp] for the stateful type and
    [auto] for the other two.  When the ipv6 method is already [dhcp] the
    whole profile stays as it is. *)
Theorem X4_dynamic_ipv6_disables_unset_ipv4 (t : string) (cfg : config) :
  forces_ipv4_disabled (Some t) = true ->
  (get_option cfg "ipv6" "method" <> Some "dhcp" ->
   exists cfg',
     _set_ip_method "ipv6" (Some t) cfg = Ok cfg'
     /\ get_option cfg' "ipv4" "method"
        = Some (match get_option cfg "ipv4" "method" with
                | Some m => m
                | None => "disabled"
                end)
     /\ get_option cfg' "ipv4" "may-fail" = get_option cfg "ipv4" "may-fail"
     /\ get_option cfg' "ipv6" "method"
        = Some (if String.eqb t "ipv6_dhcpv6-stateful" then "dhcp"
                else "auto"))
  /\ (get_option cfg "ipv6" "method" = Some "dhcp" ->
      _set_ip_method "ipv6" (Some t) cfg = Ok cfg).
Proof.
  intros Ht.
  assert (Hreq : requested (Some t)
                 = (if String.eqb t "ipv6_dhcpv6-stateful" then "dhcp"
                    else "auto", false)
                 /\ t <> "").
  { unfold forces_ipv4_disabled, mem in Ht. cbn [existsb] in Ht.
    rewrite orb_false_r in Ht.
    apply orb_true_iff in Ht. destruct Ht as [Ht|Ht];
      [|apply orb_true_iff in Ht; destruct Ht as [Ht|Ht]];
      apply String.eqb_eq in Ht; subst t; split;
      solve [reflexivity | discriminate]. }
  destruct Hreq as [Hreq Hne].
  rewrite _set_ip_method_eq.
  split.
  - intros Hd. eexists. split; [reflexivity|].
    assert (Hcur : String.eqb (match get_option cfg "ipv6" "method" with
                               | Some x => x
                               | None => "disabled"
                               end) "dhcp" = false).
    { destruct (get_option cfg "ipv6" "method") as [x|] eqn:Ex;
        [|reflexivity].
      apply String.eqb_neq. intros ->. now elim Hd. }
    assert (Hman : String.eqb (fst (requested (Some t))) "manual" = false).
    { rewrite Hreq. cbn [fst].
      now destruct (String.eqb t "ipv6_dhcpv6-stateful"). }
    split; [|split].
    + unfold set_ip_method_fn. rewrite Hreq.
      rewrite get_option_put_default, !String.eqb_refl. cbn [andb opt_eqb].
      rewrite Hcur.
      replace (String.eqb _ "manual") with false
        by (now destruct (String.eqb t "ipv6_dhcpv6-stateful")).
      rewrite andb_false_r, Ht.
      rewrite !get_option_put_default, get_option_put.
      cfg_simpl. reflexivity.
    + rewrite set_ip_method_fn_other_mayfail by discriminate. reflexivity.
    + rewrite set_ip_method_fn_method. cbv zeta.
      rewrite Hcur, Hman, andb_false_r, Hreq. reflexivity.
  - intros Hd. f_equal. unfold set_ip_method_fn. rewrite Hreq.
    rewrite (put_default_set _ _ _ _ _ Hd), Hd. reflexivity.
Qed.

Lemma X4_dynamic_ipv6_disables_unset_ipv4_witness :
  (exists cfg',
      _set_ip_method "ipv6" (Some "ipv6_slaac") (NMConnection "eth0")
      = Ok cfg'
      /\ get_option cfg' "ipv4" "method"
         = Some (match get_option (NMConnection "eth0") "ipv4" "method" with
                 | Some m => m
                 | None => "disabled"
                 end)
      /\ get_option cfg' "ipv4" "may-fail"
         = get_option (NMConnection "eth0") "ipv4" "may-fail"
      /\ get_option cfg' "ipv6" "method"
         = Some (if String.eqb "ipv6_slaac" "ipv6_dhcpv6-stateful"
                 then "dhcp" else "auto"))
  /\ _set_ip_method "ipv6" (Some "ipv6_slaac") [("ipv6", [("method", "dhcp")])]
     = Ok [("ipv6", [("method", "dhcp")])].
Proof.
  split.
  - apply (X4_dynamic_ipv6_disables_unset_ipv4 "ipv6_slaac" (NMConnection "eth0"));
      [reflexivity|].
    vm_compute. discriminate.
  - apply (X4_dynamic_ipv6_disables_unset_ipv4 "ipv6_slaac"
             [("ipv6", [("method", "dhcp")])]); reflexivity.
Defined.

(** ** Route options *)

Lemma _add_route_options_eq s route key value cfg :
  has_section cfg s = true ->
  _add_route_options s route key value cfg
  = Ok (put s (route ++ "_options")
          (route_options_value (get_option cfg s (route ++ "_options"))
             key value) cfg).
Proof.
  intros Hs. unfold _add_route_options, cfg_get_opt.
  pose proof Hs as Hs'. unfold has_section, assoc_mem in Hs'.
  destruct (assoc s cfg) as [sec|] eqn:Hsec; [|discriminate].
  cbn [bind]. rewrite cfg_set_put by assumption.
  unfold route_options_value, get_option. rewrite Hsec. reflexivity.
Qed.

Lemma _add_route_options_no_section s route key value cfg :
  has_section cfg s = false ->
  _add_route_options s route key value cfg = Err (KeyError s).
Proof.
  intros Hs. unfold _add_route_options, cfg_get_opt.
  unfold has_section, assoc_mem in Hs.
  destruct (assoc s cfg); [discriminate|reflexivity].
Qed.

Lemma truthy_append_assignment x key value :
  truthy (Some (x ++ key ++ "=" ++ value)) = true.
Proof.
  destruct x as [|c x]; [|reflexivity].
  destruct key as [|c key]; reflexivity.
Qed.

Lemma route_options_value_truthy old key value :
  truthy (Some (route_options_value old key value)) = true.
Proof.
  unfold route_options_value.
  destruct (truthy old) eqn:E.
  - destruct old as [ro|]; [|discriminate].
    destruct ro as [|c ro]; [discriminate|reflexivity].
  - apply (truthy_append_assignment "").
Qed.

Lemma join_cons sep x y l :
  join sep (x :: y :: l) = x ++ sep ++ join sep (y :: l).
Proof. reflexivity. Qed.

Lemma accumulated_options_cons old kv kvs :
  accumulated_options old (kv :: kvs)
  = accumulated_options
      (Some (route_options_value old (fst kv) (snd kv))) kvs.
Proof.
  destruct kvs as [|kv' kvs].
  - unfold accumulated_options, route_options_value, option_assignment.
    cbn [map]. destruct old as [x|]; [|reflexivity].
    destruct (truthy (Some x)); reflexivity.
  - unfold accumulated_options at 2.
    rewrite route_options_value_truthy.
    unfold accumulated_options. f_equal.
    unfold route_options_value, option_assignment.
    destruct old as [x|]; [destruct (truthy (Some x))|];
      cbn [map app truthy]; rewrite ?join_cons;
      repeat rewrite append_assoc; reflexivity.
Qed.

(** X5: [_add_route_options] raises [KeyError] for a section other than
    [DEFAULT] that does not exist.  On an existing section of a plain
    profile a sequence of assignments of plain keys and values for one
    route accumulates under [<route>_options] as a comma-separated list in
    the order of the calls, after what the option held (an unset or empty
    option counts as nothing); no other option changes, and the profile is
    plain again. *)
Theorem X5_add_route_options_accumulate (s route : string)
  (kvs : list (string * string)) (cfg : config) :
  (s <> "DEFAULT" -> has_section cfg s = false ->
   forall key value,
     _add_route_options s route key value cfg = Err (KeyError s))
  /\ (plain_config cfg = true -> forallb plain_assignment kvs = true ->
      has_section cfg s = true ->
      exists cfg',
        add_route_options_all s route kvs cfg = Ok cfg'
        /\ get_option cfg' s (route ++ "_options")
           = accumulated_options (get_option cfg s (route ++ "_options")) kvs
        /\ (forall s' o', (s', o') <> (s, route ++ "_options") ->
                          get_option cfg' s' o' = get_option cfg s' o')
        /\ plain_config cfg' = true).
Proof.
  split.
  - intros _ Hs key value. now apply _add_route_options_no_section.
  - revert cfg. unfold add_route_options_all.
    induction kvs as [|kv kvs IH]; intros cfg Hcfg Hkvs Hs.
    + exists cfg. repeat split; try reflexivity. assumption.
    + cbn [foldM]. rewrite _add_route_options_eq by assumption. cbn [bind].
      cbn [forallb] in Hkvs. apply andb_true_iff in Hkvs.
      destruct Hkvs as [Hkv Hkvs]. unfold plain_assignment in Hkv.
      apply andb_true_iff in Hkv. destruct Hkv as [Hk Hv].
      set (cfg1 := put s (route ++ "_options") _ cfg).
      assert (Hs1 : has_section cfg1 s = true)
        by (subst cfg1; rewrite has_section_put, String.eqb_refl; reflexivity).
      assert (Hcfg1 : plain_config cfg1 = true).
      { subst cfg1. apply plain_config_put; [assumption| |].
        - eapply plain_config_has_section; eassumption.
        - apply plain_value_route_options_value; try assumption.
          now apply plain_opt_get_option. }
      destruct (IH cfg1 Hcfg1 Hkvs Hs1) as [cfg' [H1 [H2 [H3 H4]]]].
      exists cfg'. split; [exact H1|]. split; [|split; [|exact H4]].
      * rewrite H2, accumulated_options_cons. subst cfg1.
        rewrite get_option_put, !String.eqb_refl. reflexivity.
      * intros s' o' Hne. rewrite H3 by assumption. subst cfg1.
        rewrite get_option_put. now rewrite (pair_neq_eqb _ _ _ _ Hne).
Qed.

Lemma X5_add_route_options_accumulate_witness :
  _add_route_options "ipv4" "route1" "mtu" "1400" [] = Err (KeyError "ipv4")
  /\ (plain_config [("ipv4", [("route1", "10.0.0.0/8")])] = true
      /\ forallb plain_assignment [("mtu", "1400"); ("table", "7")] = true)
  /\ exists cfg',
       add_route_options_all "ipv4" "route1"
         [("mtu", "1400"); ("table", "7")]
         [("ipv4", [("route1", "10.0.0.0/8")])] = Ok cfg'
       /\ get_option cfg' "ipv4" "route1_options"
          = Some "mtu=1400,table=7"
       /\ get_option cfg' "ipv4" "route1" = Some "10.0.0.0/8"
       /\ plain_config cfg' = true.
Proof.
  assert (Hcfg : plain_config [("ipv4", [("route1", "10.0.0.0/8")])] = true)
    by reflexivity.
  assert (Hkvs : forallb plain_assignment [("mtu", "1400"); ("table", "7")]
                 = true) by reflexivity.
  split; [|split; [split; assumption|]].
  - apply (X5_add_route_options_accumulate "ipv4" "route1" [] []);
      [discriminate|reflexivity].
  - destruct (X5_add_route_options_accumulate "ipv4" "route1"
                [("mtu", "1400"); ("table", "7")]
                [("ipv4", [("route1", "10.0.0.0/8")])])
      as [_ H]. destruct (H Hcfg Hkvs eq_refl) as [cfg' [H1 [H2 [H3 H4]]]].
    exists cfg'. split; [exact H1|]. split; [|split; [|exact H4]].
    + exact H2.
    + transitivity
        (get_option [("ipv4", [("route1", "10.0.0.0/8")])] "ipv4" "route1");
        [|reflexivity].
      apply H3. cbn. discriminate.
Defined.

Section RouteOptionFacts.
Context {C : Collaborators}.

(** X6: [_add_route] never raises on a plain profile, for a route whose
    network and gateway have no percent sign.  It writes the route under
    the lowest free [route<n>] of the route's own family; a route with an
    mtu gets [mtu=<mtu>] under [route<n>_options], the key of the same
    index (after what that option held, if anything), a route without an
    mtu leaves that option alone; nothing else changes, and the profile is
    plain again. *)
Theorem X6_add_route_options_share_index (rt : route) (cfg : config) :
  plain_config cfg = true -> plain_route rt = true ->
  exists n cfg',
    _add_route rt cfg = Ok cfg'
    /\ lowest_unused cfg (route_family rt) "route" n
    /\ get_option cfg' (route_family rt) ("route" ++ str_nat n)
       = Some (route_value rt)
    /\ get_option cfg' (route_family rt) (("route" ++ str_nat n) ++ "_options")
       = match rt_mtu rt with
         | Some mtu =>
             accumulated_options
               (get_option cfg (route_family rt)
                           (("route" ++ str_nat n) ++ "_options"))
               [("mtu", str_Z mtu)]
         | None =>
             get_option cfg (route_family rt)
                        (("route" ++ str_nat n) ++ "_options")
         end
    /\ (forall s o,
           (s, o) <> (route_family rt, "route" ++ str_nat n) ->
           (s, o) <> (route_family rt, ("route" ++ str_nat n) ++ "_options") ->
           get_option cfg' s o = get_option cfg s o)
    /\ plain_config cfg' = true.
Proof.
  intros Hcfg Hrt.
  destruct (_add_route_eq rt cfg) as [n [Hlow H]].
  exists n, (add_route_fn rt n cfg).
  split; [exact H|]. split; [exact Hlow|].
  split; [apply add_route_fn_adds|].
  assert (Hk : forall m, "route" ++ str_nat m
                         <> ("route" ++ str_nat n) ++ "_options")
    by (intros m; apply numbered_key_not_options).
  split; [|split]; [unfold add_route_fn|unfold add_route_fn|].
  - destruct (rt_mtu rt) as [mtu|].
    + rewrite get_option_put, !String.eqb_refl. cbn [andb].
      rewrite get_option_put.
      replace (String.eqb ("route" ++ str_nat n)
                          (("route" ++ str_nat n) ++ "_options")) with false
        by (symmetry; apply String.eqb_neq, Hk).
      rewrite andb_false_r.
      rewrite accumulated_options_cons. reflexivity.
    + rewrite get_option_put.
      replace (String.eqb ("route" ++ str_nat n)
                          (("route" ++ str_nat n) ++ "_options")) with false
        by (symmetry; apply String.eqb_neq, Hk).
      now rewrite andb_false_r.
  - intros s o H1 H2.
    destruct (rt_mtu rt) as [mtu|]; rewrite !get_option_put;
      rewrite ?(pair_neq_eqb _ _ _ _ H1), ?(pair_neq_eqb _ _ _ _ H2);
      reflexivity.
  - now apply plain_config_add_route_fn.
Qed.

End RouteOptionFacts.

Lemma X6_add_route_options_share_index_witness :
  (plain_config [] = true /\ plain_route ipv6_route = true)
  /\ exists n cfg',
       _add_route ipv6_route [] = Ok cfg'
       /\ get_option cfg' "ipv6" ("route" ++ str_nat n)
          = Some "fd00::/64,fd00::1"
       /\ get_option cfg' "ipv6" (("route" ++ str_nat n) ++ "_options")
          = Some "mtu=1400"
       /\ n = 1
       /\ plain_config cfg' = true.
Proof.
  assert (Hcfg : plain_config [] = true) by reflexivity.
  assert (Hrt : plain_route ipv6_route = true) by reflexivity.
  split; [split; assumption|].
  destruct (X6_add_route_options_share_index ipv6_route [] Hcfg Hrt)
    as [n [cfg' [H1 [H2 [H3 [H4 [_ H6]]]]]]].
  exists n, cfg'. split; [exact H1|]. split; [exact H3|]. split; [exact H4|].
  split; [|exact H6].
  destruct H2 as [Hn [_ Hlt]].
  destruct n as [|[|n]]; [lia|reflexivity|].
  specialize (Hlt 1). discriminate Hlt. lia.
Defined.

(** ** The may-fail normalization, further *)

(** X7: [_set_mayfail_true_if_both_false_dhcp] never raises, writes nothing but
    the two [may-fail] options, creates no section, and is idempotent: a
    second normalization returns the profile as the first one left it. *)
Theorem X7_mayfail_normalization_idempotent (cfg : config) :
  exists cfg',
    _set_mayfail_true_if_both_false_dhcp cfg = Ok cfg'
    /\ _set_mayfail_true_if_both_false_dhcp cfg' = Ok cfg'
    /\ (forall s o, o <> "may-fail" ->
                    get_option cfg' s o = get_option cfg s o)
    /\ (forall s, has_section cfg' s = has_section cfg s).
Proof.
  exists (normalize_mayfail_fn cfg).
  rewrite !_set_mayfail_true_if_both_false_dhcp_eq.
  split; [reflexivity|].
  destruct (normalize_mayfail_fn_inv cfg) as [[_ [_ E]] S].
  split; [|split; [|exact S]].
  - f_equal. unfold normalize_mayfail_fn at 1.
    destruct (both_false_dynamic (normalize_mayfail_fn cfg)) eqn:B;
      [|reflexivity].
    exfalso. unfold normalize_mayfail_fn in B.
    destruct (both_false_dynamic cfg) eqn:B0; [|congruence].
    unfold both_false_dynamic in B. cbn [forallb] in B.
    rewrite !get_option_put in B. cfg_simpl. discriminate.
  - intros s o Ho. apply E. unfold W_mayfail, covers. cbn [existsb matches].
    replace (String.eqb "may-fail" o) with false
      by (symmetry; apply String.eqb_neq; congruence).
    now rewrite !andb_false_r.
Qed.

Lemma X7_mayfail_normalization_idempotent_witness :
  exists cfg',
    _set_mayfail_true_if_both_false_dhcp
      [("ipv4", [("method", "auto"); ("may-fail", "false")]);
       ("ipv6", [("method", "dhcp"); ("may-fail", "false")])] = Ok cfg'
    /\ _set_mayfail_true_if_both_false_dhcp cfg' = Ok cfg'
    /\ get_option cfg' "ipv6" "method" = Some "dhcp".
Proof.
  destruct (X7_mayfail_normalization_idempotent
              [("ipv4", [("method", "auto"); ("may-fail", "false")]);
               ("ipv6", [("method", "dhcp"); ("may-fail", "false")])])
    as [cfg' [H1 [H2 [H3 _]]]].
  exists cfg'. split; [exact H1|]. split; [exact H2|].
  rewrite H3 by discriminate. reflexivity.
Defined.

(** ** MAC addresses *)

Lemma mac_char_canonical (c : ascii) :
  let c' := upper_ascii (if Ascii.eqb c "-" then ":"%char else c) in
  negb (Ascii.eqb c' "-") && negb (is_lower c') = true
  /\ upper_ascii (if Ascii.eqb c' "-" then ":"%char else c') = c'.
Proof.
  destruct c as [[] [] [] [] [] [] [] []]; vm_compute; split; reflexivity.
Qed.

Lemma mac_char_fixed (c : ascii) :
  negb (Ascii.eqb c "-") && negb (is_lower c) = true ->
  upper_ascii (if Ascii.eqb c "-" then ":"%char else c) = c.
Proof.
  destruct c as [[] [] [] [] [] [] [] []]; vm_compute;
    intros H; solve [reflexivity | discriminate H].
Qed.

Lemma mac_addr_cons c s :
  mac_addr (String c s)
  = String (upper_ascii (if Ascii.eqb c "-" then ":"%char else c))
           (mac_addr s).
Proof. reflexivity. Qed.

(** X8: [mac_addr] brings a MAC address, as ASCII text, to one canonical
    form: the result has no hyphen and no lowercase letter and the length
    of the input; sanitizing is idempotent, and text that is already in
    that form is returned as it is. *)
Theorem X8_mac_addr_canonical_form (addr : string) :
  ascii_text addr = true ->
  canonical_mac (mac_addr addr) = true
  /\ String.length (mac_addr addr) = String.length addr
  /\ mac_addr (mac_addr addr) = mac_addr addr
  /\ (canonical_mac addr = true -> mac_addr addr = addr).
Proof.
  intros _.
  induction addr as [|c s [IH1 [IH2 [IH3 IH4]]]].
  - repeat split; reflexivity.
  - rewrite !mac_addr_cons.
    destruct (mac_char_canonical c) as [Hc Hf]. cbv zeta in Hc, Hf.
    split; [|split; [|split]].
    + unfold canonical_mac in *. cbn [list_ascii_of_string forallb].
      now rewrite Hc, IH1.
    + cbn [String.length]. now rewrite IH2.
    + now rewrite Hf, IH3.
    + unfold canonical_mac in *. cbn [list_ascii_of_string forallb].
      intros H. apply andb_true_iff in H. destruct H as [H1 H2].
      now rewrite (mac_char_fixed c H1), (IH4 H2).
Qed.

Lemma X8_mac_addr_canonical_form_witness :
  canonical_mac (mac_addr "52-54-00-ab-cd-ef") = true
  /\ mac_addr (mac_addr "52-54-00-ab-cd-ef") = mac_addr "52-54-00-ab-cd-ef"
  /\ mac_addr "52:54:00:AB:CD:EF" = "52:54:00:AB:CD:EF".
Proof.
  destruct (X8_mac_addr_canonical_form "52-54-00-ab-cd-ef" eq_refl)
    as [H1 [_ [H3 _]]].
  destruct (X8_mac_addr_canonical_form "52:54:00:AB:CD:EF" eq_refl)
    as [_ [_ [_ H4]]].
  split; [exact H1|]. split; [exact H3|]. apply H4. reflexivity.
Defined.

(** ** The file of an interface *)

Section FileFacts.
Context {C : Collaborators}.

(** X9: [conn_filename] returns a path only if it is a file: the key file of
    the interface when there is one (also when an ifcfg file exists beside
    it); else, and only with the ifcfg-rh plugin, the ifcfg file when there
    is one; else nothing. *)
Theorem X9_conn_filename_existing_file (h : host) (devname : string) :
  (forall f, conn_filename h devname = Some f ->
             isfile h f = true
             /\ (f = nm_conn_filename devname None
                 \/ (f = sysconfig_conn_filename devname None
                     /\ available_nm_ifcfg_rh h = true
                     /\ isfile h (nm_conn_filename devname None) = false)))
  /\ (isfile h (nm_conn_filename devname None) = true ->
      conn_filename h devname = Some (nm_conn_filename devname None))
  /\ (isfile h (nm_conn_filename devname None) = false ->
      conn_filename h devname
      = if available_nm_ifcfg_rh h
           && isfile h (sysconfig_conn_filename devname None)
        then Some (sysconfig_conn_filename devname None)
        else None).
Proof.
  unfold conn_filename.
  destruct (isfile h (nm_conn_filename devname None)) eqn:E1.
  - cbn [negb andb]. rewrite E1.
    split; [|split; [reflexivity|discriminate]].
    intros f Hf. injection Hf as <-. split; [assumption|now left].
  - cbn [negb andb].
    split; [|split; [discriminate|]].
    + intros f Hf. destruct (available_nm_ifcfg_rh h) eqn:E2.
      * destruct (isfile h (sysconfig_conn_filename devname None)) eqn:E3;
          [|discriminate].
        injection Hf as <-. split; [assumption|]. right. now repeat split.
      * rewrite E1 in Hf. discriminate.
    + intros _. destruct (available_nm_ifcfg_rh h); cbn [andb].
      * reflexivity.
      * now rewrite E1.
Qed.

End FileFacts.

Lemma X9_conn_filename_existing_file_witness :
  conn_filename keyfile_host "eth0"
  = Some (nm_conn_filename "eth0" None)
  /\ conn_filename ifcfg_host "eth0"
     = (if available_nm_ifcfg_rh ifcfg_host
           && isfile ifcfg_host (sysconfig_conn_filename "eth0" None)
        then Some (sysconfig_conn_filename "eth0" None)
        else None)
  /\ isfile ifcfg_host "/etc/sysconfig/network-scripts/ifcfg-eth0" = true.
Proof.
  split; [|split].
  - apply (X9_conn_filename_existing_file keyfile_host "eth0"). reflexivity.
  - apply (X9_conn_filename_existing_file ifcfg_host "eth0"). reflexivity.
  - destruct (X9_conn_filename_existing_file ifcfg_host "eth0") as [H _].
    apply (H "/etc/sysconfig/network-scripts/ifcfg-eth0"). reflexivity.
Defined.

(** ** The registry after the first pass *)





(** ** The files of a render *)

Section WriteFacts.
Context {C : Collaborators}.

Lemma profile_file_names_NoDup target (l : list (string * config)) :
  NoDup (map fst l) ->
  NoDup (map fw_name
           (map (fun entry =>
                   {| fw_name := nm_conn_filename (fst entry) target;
                      fw_content := dump (snd entry) |})
                (filter (fun entry => valid (snd entry)) l)
            ++ [conf_file target])).
Proof.
  induction l as [|[k cfg] l IH]; intros Hnd.
  - cbn. constructor; [intros []|constructor].
  - cbn [map fst] in Hnd. inversion Hnd as [|? ? Hnotin Hnd']; subst.
    specialize (IH Hnd'). cbn [filter snd].
    destruct (valid cfg); [|exact IH].
    cbn [map app fw_name fst]. constructor; [|exact IH].
    rewrite map_app, in_app_iff. intros [H|H].
    + apply in_map_iff in H. destruct H as [fw [Hname Hin]].
      apply in_map_iff in Hin. destruct Hin as [[k' cfg'] [<- Hin]].
      cbn [fw_name fst] in Hname. apply nm_conn_filename_inj in Hname.
      subst k'. apply filter_In in Hin. destruct Hin as [Hin _].
      apply Hnotin. change k with (fst (k, cfg')). now apply in_map.
    + cbn in H. destruct H as [H|[]].
      symmetry in H. now apply nm_conn_filename_not_conf in H.
Qed.

(** X11: A render that succeeds writes no path twice: every file is the
    dump of a valid profile, named after the key of the profile, except
    the last of all, the fixed configuration file; with no interfaces at
    all that file is the only one. *)
Theorem X11_no_path_written_twice (network_state : NetworkState)
  (target : option string) (r' : renderer) (files : list file_write) :
  render_network_state network_state target Renderer = Ok (r', files) ->
  NoDup (map fw_name files)
  /\ last_opt files = Some (conf_file target)
  /\ (forall fw,
         In fw files ->
         fw = conf_file target
         \/ exists k cfg,
              assoc k (connections r') = Some cfg /\ valid cfg = true
              /\ fw = {| fw_name := nm_conn_filename k target;
                         fw_content := dump cfg |})
  /\ (iter_interfaces network_state = [] -> files = [conf_file target]).
Proof.
  intros H. pose proof H as H0.
  apply render_network_state_inv in H. destruct H as [Hr ->].
  assert (Hnd : NoDup (map fst (connections r'))).
  { eapply render_connections_NoDup; [exact Hr|].
    apply create_connections_NoDup. constructor. }
  split; [now apply profile_file_names_NoDup|].
  split; [apply last_opt_app|].
  split.
  - unfold write_files. intros fw Hin. apply in_app_iff in Hin.
    destruct Hin as [Hin|Hin].
    + right. apply in_map_iff in Hin. destruct Hin as [[k cfg] [<- Hin]].
      apply filter_In in Hin. destruct Hin as [Hin Hv].
      exists k, cfg. split; [|split; [exact Hv|reflexivity]].
      now apply assoc_In_pair.
    + left. cbn in Hin. destruct Hin as [<-|[]]. reflexivity.
  - intros E. rewrite E in Hr. cbn in Hr. injection Hr as <-. reflexivity.
Qed.

End WriteFacts.

Lemma X11_no_path_written_twice_witness :
  NoDup (map fw_name
           (write_files None
              (get_ok (render_all [named_iface; loopback_iface]))))
  /\ last_opt (write_files None
                 (get_ok (render_all [named_iface; loopback_iface])))
     = Some (conf_file None).
Proof.
  assert (Hrun : render_network_state (mk_state [named_iface; loopback_iface])
                   None Renderer
                 = Ok (get_ok (render_all [named_iface; loopback_iface]),
                       write_files None
                         (get_ok (render_all [named_iface; loopback_iface]))))
    by (vm_compute; reflexivity).
  destruct (X11_no_path_written_twice _ _ _ _ Hrun) as [H1 [H2 _]].
  split; assumption.
Defined.

(** ** What a render needs in order to succeed *)

Lemma foldM_each_ok {A B : Type} (f : A -> B -> result A) (l : list B) :
  forall a a', foldM f l a = Ok a' ->
               forall x, In x l -> exists b b', f b x = Ok b'.
Proof.
  induction l as [|y l IH]; intros a a' H x Hin; [destruct Hin|].
  cbn [foldM] in H. bind_inv_as H a1 E1.
  destruct Hin as [<-|Hin]; [eauto|eapply IH; eassumption].
Qed.

Section NeededFacts.
Context {C : Collaborators}.

Lemma render_subnet_no_prefix st sn :
  sn_address sn <> None -> sn_prefix sn = None ->
  render_subnet st sn = Err (KeyError "prefix").
Proof.
  intros Ha Hp. unfold render_subnet.
  rewrite _set_ip_method_eq. cbn [bind].
  destruct (sn_address sn) as [a|] eqn:Ea; [|now elim Ha].
  unfold _add_address. rewrite Ea, Hp. reflexivity.
Qed.

(** X12: A subnet that has an address and no prefix makes [render_interface]
    raise [KeyError] for the key [prefix]: the step for such a subnet
    fails whatever was rendered before, so a render of an interface of a
    mapped type that succeeds had a prefix with every address. *)
Theorem X12_address_without_prefix_raises (self : string) (iface : interface)
  (network_state : NetworkState) (r r' : renderer) (ty : string) :
  (forall st sn,
      sn_address sn <> None -> sn_prefix sn = None ->
      render_subnet st sn = Err (KeyError "prefix"))
  /\ (assoc (if_type iface) _type_map = Some (Some ty) ->
      render_interface self iface network_state r = Ok r' ->
      Forall subnet_well_formed (if_subnets iface)).
Proof.
  split; [apply render_subnet_no_prefix|].
  intros Hty H.
  destruct (render_interface_inv _ _ _ _ _ _ Hty H)
    as [cfg0 [cfg1 [mtu [r2 [cfg2 [cfg3 [cfg4 [_ [Hown _]]]]]]]]].
  apply render_own_inv in Hown.
  destruct Hown as [c1 [st [c3 [c5 [c6 [c7 [_ [Hl3 _]]]]]]]].
  unfold render_layer3 in Hl3. bind_inv_as Hl3 c E.
  apply Forall_forall. intros sn Hin.
  destruct (foldM_each_ok _ _ _ _ Hl3 sn Hin) as [b [b' Hb]].
  intros Ha. destruct (sn_prefix sn) eqn:Ep; [discriminate|].
  rewrite (render_subnet_no_prefix b sn Ha Ep) in Hb. discriminate.
Qed.

End NeededFacts.

Lemma X12_address_without_prefix_raises_witness :
  render_subnet
    {| l3_config := NMConnection "eth0"; found_nameservers := [];
       found_dns_search := []; ipv4_mtu := None |}
    {| sn_type := "static"; sn_address := Some "10.0.0.2";
       sn_prefix := None; sn_gateway := None; sn_routes := [];
       sn_dns_nameservers := None; sn_dns_search := None; sn_mtu := None |}
  = Err (KeyError "prefix")
  /\ Forall subnet_well_formed (if_subnets dns_iface).
Proof.
  split.
  - apply (X12_address_without_prefix_raises "eth0" dns_iface (mk_state [])
             Renderer Renderer "ethernet"); [discriminate|reflexivity].
  - assert (Hrun : render_interface "eth0" dns_iface (mk_state [dns_iface])
                     (create_connections [dns_iface] Renderer)
                   = Ok (get_ok (render_all [dns_iface])))
      by (vm_compute; reflexivity).
    eapply (X12_address_without_prefix_raises "eth0" dns_iface
              (mk_state [dns_iface])); [reflexivity|exact Hrun].
Defined.

Section PortFacts.
Context {C : Collaborators}.

Lemma foldM_render_bridge_port_registered self ports :
  forall r r',
    foldM (render_bridge_port self) ports r = Ok r' ->
    forall port, In port ports -> assoc port (connections r) <> None.
Proof.
  induction ports as [|p ports IH]; intros r r' H port Hin; [destruct Hin|].
  cbn [foldM] in H. bind_inv_as H r1 E1.
  destruct Hin as [<-|Hin].
  - apply render_bridge_port_inv in E1.
    destruct E1 as [pcfg [uuid [Hp _]]]. congruence.
  - apply render_bridge_port_extends in E1. destruct E1 as [E1 _].
    intros Hn. apply (IH _ _ H port Hin).
    now apply (store_extends_keys _ _ _ port E1).
Qed.

(** X13: [get_conn] raises [KeyError] for an id that has no profile, and a
    bridge looks every port up with it: the render of a bridge succeeds
    only if each of its ports is the key of a profile of the registry. *)
Theorem X13_bridge_ports_must_be_registered (self : string) (iface : interface)
  (network_state : NetworkState) (r r' : renderer) :
  (forall con_id,
      assoc con_id (connections r) = None ->
      get_conn r con_id = Err (KeyError con_id))
  /\ (if_type iface = "bridge" ->
      render_interface self iface network_state r = Ok r' ->
      forall port, In port (if_bridge_ports iface) ->
                   exists pcfg, get_conn r port = Ok pcfg).
Proof.
  split.
  { intros con_id H. unfold get_conn. now rewrite H. }
  intros Hb H port Hin.
  assert (Hty : assoc (if_type iface) _type_map = Some (Some "bridge"))
    by (rewrite Hb; reflexivity).
  destruct (render_interface_inv _ _ _ _ _ _ Hty H)
    as [cfg0 [cfg1 [mtu [r2 [cfg2 [cfg3 [cfg4 [H0 [_ [H2 _]]]]]]]]]].
  eqb_eval. unfold render_bridge in H2. bind_inv_as H2 r1 E1.
  pose proof (foldM_render_bridge_port_registered _ _ _ _ E1 port Hin) as Hp.
  cbn [set_conn connections] in Hp. rewrite warn_mtu_connections in Hp.
  rewrite assoc_set_lookup in Hp. unfold get_conn.
  destruct (String.eqb_spec self port) as [->|Hne].
  - rewrite H0. eauto.
  - destruct (assoc port (connections r)); [eauto|now elim Hp].
Qed.

End PortFacts.

Lemma X13_bridge_ports_must_be_registered_witness :
  get_conn Renderer "eth1" = Err (KeyError "eth1")
  /\ exists pcfg,
       get_conn (create_connections [bridge_iface ["eth1"]; port_iface None]
                                    Renderer) "eth1" = Ok pcfg.
Proof.
  split.
  - apply (X13_bridge_ports_must_be_registered "br0" (bridge_iface ["eth1"])
             (mk_state []) Renderer Renderer). reflexivity.
  - assert (Hrun : exists r',
               render_interface "br0" (bridge_iface ["eth1"])
                 (mk_state [bridge_iface ["eth1"]; port_iface None])
                 (create_connections [bridge_iface ["eth1"]; port_iface None]
                                     Renderer) = Ok r')
      by (eexists; vm_compute; reflexivity).
    destruct Hrun as [r' Hrun].
    eapply (X13_bridge_ports_must_be_registered "br0" (bridge_iface ["eth1"]));
      [reflexivity|exact Hrun|now left].
Defined.

(** ** Global name servers *)

Section FallbackFacts.
Context {C : Collaborators}.

Lemma rendered_nameservers_global iface network_state :
  subnet_nameservers (if_subnets iface) = [] ->
  interface_nameservers iface = [] ->
  rendered_nameservers iface network_state
  = ns_dns_nameservers network_state.
Proof.
  unfold rendered_nameservers, interface_nameservers, resolve_dns.
  intros -> Hi.
  destruct (if_dns iface) as [d|]; cbn [option_map].
  - rewrite Hi. cbn. now destruct (ns_dns_nameservers network_state).
  - cbn. now destruct (ns_dns_nameservers network_state).
Qed.

(** X14: The global name servers of the network state are a fallback: an
    interface that has no name server of its own, at subnet level or at
    interface level, gets the global ones, each in the [dns] option of the
    family of its address.  Whatever the name servers come from, a family
    gets a [dns] option only if its section exists and its method is not
    [disabled]: name servers of a disabled or absent family are dropped
    without an error. *)
Theorem X14_global_dns_is_a_fallback (self : string) (iface : interface)
  (network_state : NetworkState) (r r' : renderer) (ty family : string) :
  family = "ipv4" \/ family = "ipv6" ->
  assoc (if_type iface) _type_map = Some (Some ty) ->
  render_interface self iface network_state r = Ok r' ->
  conn_option r self family "dns" = None ->
  (subnet_nameservers (if_subnets iface) = [] ->
   interface_nameservers iface = [] ->
   conn_option r' self family "dns" =
   if conn_active r' self family
   then dns_entry (nameservers_of family (ns_dns_nameservers network_state))
   else None)
  /\ (conn_option r' self family "dns" <> None ->
      conn_has_section r' self family = true
      /\ conn_option r' self family "method" <> Some "disabled").
Proof.
  intros Hfam Hty H Hnone.
  pose proof (render_interface_dns _ _ _ _ _ _ _ Hfam Hty H Hnone) as Hd.
  split.
  - intros Hs Hi. rewrite Hd.
    now rewrite (rendered_nameservers_global _ _ Hs Hi).
  - rewrite Hd. unfold conn_active, conn_has_section, conn_option, active.
    destruct (assoc self (connections r')) as [cfg'|]; [|now intros []].
    destruct (has_section cfg' family); cbn [andb]; [|now intros []].
    destruct (get_option cfg' family "method") as [m|]; cbn [opt_eqb negb];
      [|intros _; split; [reflexivity|discriminate]].
    destruct (String.eqb_spec m "disabled") as [->|Hne]; cbn [negb];
      [now intros []|].
    intros _. split; [reflexivity|congruence].
Qed.

End FallbackFacts.

Lemma X14_global_dns_is_a_fallback_witness :
  conn_option
    (get_ok (render_interface "eth0" plain_iface
               (global_dns_state [plain_iface])
               (create_connections [plain_iface] Renderer)))
    "eth0" "ipv4" "dns"
  = Some "9.9.9.9;".
Proof.
  assert (Hrun : render_interface "eth0" plain_iface
                   (global_dns_state [plain_iface])
                   (create_connections [plain_iface] Renderer)
                 = Ok (get_ok (render_interface "eth0" plain_iface
                                 (global_dns_state [plain_iface])
                                 (create_connections [plain_iface] Renderer))))
    by (vm_compute; reflexivity).
  destruct (X14_global_dns_is_a_fallback "eth0" plain_iface
              (global_dns_state [plain_iface]) _ _ "ethernet" "ipv4"
              (or_introl eq_refl) eq_refl Hrun eq_refl) as [H _].
  rewrite (H eq_refl eq_refl). vm_compute. reflexivity.
Defined.

(** ** Search domains *)

Section SearchFacts.
Context {C : Collaborators}.

Lemma add_dns_search_step search cfg family :
  (method <- (if has_section cfg family
              then _get_config_option cfg family "method"
              else Ok None) ;;
   if has_section cfg family && negb (opt_eqb method "disabled") then
     cfg <- _set_default family "dns-search" "" cfg ;;
     cur <- cfg_get cfg family "dns-search" ;;
     cfg_set cfg family "dns-search" (cur ++ join ";" search ++ ";")
   else Ok cfg)
  = Ok (add_dns_search_fn search family cfg).
Proof.
  unfold add_dns_search_fn, active.
  rewrite _get_config_option_eq.
  destruct (has_section cfg family) eqn:Hs; cbn [bind andb]; [|reflexivity].
  destruct (negb (opt_eqb (get_option cfg family "method") "disabled"));
    [|reflexivity].
  rewrite _set_default_eq. cbn [bind].
  assert (Hcur : get_option (put_default family "dns-search" "" cfg)
                            family "dns-search"
                 = Some (match get_option cfg family "dns-search" with
                         | Some cur => cur | None => "" end)).
  { rewrite get_option_put_default, !String.eqb_refl. reflexivity. }
  rewrite (cfg_get_some _ _ _ _ Hcur). cbn [bind].
  rewrite cfg_set_put
    by (rewrite has_section_put_default, Hs; apply orb_true_r).
  f_equal. unfold put_default. rewrite has_option_get_option.
  destruct (get_option cfg family "dns-search") eqn:E; [reflexivity|].
  unfold put. rewrite assoc_set_same, assoc_set_twice.
  now rewrite assoc_set_twice.
Qed.

Lemma _add_dns_search_eq search cfg :
  _add_dns_search search cfg
  = Ok (add_dns_search_fn search "ipv6" (add_dns_search_fn search "ipv4" cfg)).
Proof.
  unfold _add_dns_search. cbn [foldM].
  rewrite add_dns_search_step. cbn [bind].
  rewrite add_dns_search_step. reflexivity.
Qed.

Lemma add_dns_search_fn_active search family cfg g :
  active (add_dns_search_fn search family cfg) g = active cfg g.
Proof.
  unfold add_dns_search_fn. destruct (active cfg family) eqn:A; [|reflexivity].
  unfold active. rewrite has_section_put, get_option_put.
  replace (String.eqb "dns-search" "method") with false by reflexivity.
  rewrite andb_false_r.
  destruct (String.eqb_spec family g) as [<-|]; [|reflexivity].
  now rewrite (active_has_section _ _ A).
Qed.

Lemma add_dns_search_fn_value search family cfg g :
  get_option (add_dns_search_fn search family cfg) g "dns-search"
  = if String.eqb family g && active cfg family
    then Some (match get_option cfg family "dns-search" with
               | Some cur => cur
               | None => ""
               end ++ join ";" search ++ ";")
    else get_option cfg g "dns-search".
Proof.
  unfold add_dns_search_fn. destruct (active cfg family).
  - rewrite get_option_put, String.eqb_refl, andb_true_r. reflexivity.
  - now rewrite andb_false_r.
Qed.

Lemma fold_add_nameserver_search l :
  forall cfg g,
    get_option (fold_left (fun cfg ns => add_nameserver_fn ns cfg) l cfg)
               g "dns-search"
    = get_option cfg g "dns-search"
    /\ active (fold_left (fun cfg ns => add_nameserver_fn ns cfg) l cfg) g
       = active cfg g.
Proof.
  induction l as [|d l IH]; intros cfg g; [split; reflexivity|].
  cbn [fold_left]. destruct (IH (add_nameserver_fn d cfg) g) as [-> ->].
  split; [|apply add_nameserver_fn_active].
  unfold add_nameserver_fn.
  destruct (active cfg (dns_family d)); [|reflexivity].
  rewrite get_option_put.
  replace (String.eqb "dns" "dns-search") with false by reflexivity.
  now rewrite andb_false_r.
Qed.

Lemma write_dns_search nameservers search cfg cfg' family :
  family = "ipv4" \/ family = "ipv6" ->
  write_dns nameservers search cfg = Ok cfg' ->
  get_option cfg family "dns-search" = None ->
  get_option cfg' family "dns-search"
  = if active cfg family then dns_search_entry search else None.
Proof.
  intros Hfam. unfold write_dns. rewrite foldM_add_nameserver_eq.
  cbn [bind]. intros H Hnone.
  set (c := fold_left (fun cfg ns => add_nameserver_fn ns cfg) nameservers cfg)
    in *.
  assert (Hc : forall g, get_option c g "dns-search"
                         = get_option cfg g "dns-search"
                         /\ active c g = active cfg g)
    by (intros g; apply fold_add_nameserver_search).
  destruct search as [|d search].
  - cbn in H. injection H as <-. destruct (Hc family) as [-> _].
    rewrite Hnone. now destruct (active cfg family).
  - cbn [is_empty negb] in H. rewrite _add_dns_search_eq in H.
    injection H as <-. unfold dns_search_entry.
    rewrite !add_dns_search_fn_value, add_dns_search_fn_active.
    destruct (Hc family) as [Hv Ha]. destruct (Hc "ipv4") as [Hv4 Ha4].
    destruct Hfam as [-> | ->]; eqb_eval; cbn [andb].
    + rewrite Ha, Hv, Hnone. now destruct (active cfg "ipv4").
    + rewrite Ha, Hv, Hnone. now destruct (active cfg "ipv6").
Qed.

(** X15: Search domains are not split by family.  The domains that the render
    resolves (the subnet-level ones, then the interface-level ones that
    are new, the global ones when there are neither) go as one list,
    joined by semicolons and closed by one, into the [dns-search] option
    of each family whose section exists and whose method is not
    [disabled]; no other family gets the option, and with no domain no
    option is written. *)
Theorem X15_search_domains_in_every_active_family (self : string)
  (iface : interface) (network_state : NetworkState) (r r' : renderer)
  (ty family : string) :
  family = "ipv4" \/ family = "ipv6" ->
  assoc (if_type iface) _type_map = Some (Some ty) ->
  render_interface self iface network_state r = Ok r' ->
  conn_option r self family "dns-search" = None ->
  conn_option r' self family "dns-search" =
  if conn_active r' self family
  then dns_search_entry (rendered_dns_search iface network_state)
  else None.
Proof.
  intros Hfam Hty H Hnone.
  destruct (render_interface_phases _ _ _ _ _ _ Hty H)
    as [cfg0 [c2 [c3 [c4 [cfg' [H0 [H' [Hl3 [Hc2 [_ [Hdns Hlate]]]]]]]]]]].
  unfold conn_option, conn_active in *. rewrite H0 in Hnone. rewrite H'.
  pose proof (type_map_values _ _ Hty) as Htys.
  apply render_layer3_inv in Hl3. destruct Hl3 as [Hl3 _].
  pose proof (write_dns_inv _ _ _ _ Hdns) as [Hd1 [Hd2 _]].
  destruct (normalize_mayfail_fn_inv c4) as [Hn1 Hn2].
  assert (E2 : get_option (l3_config c3) family "dns-search" = None).
  { destruct Hl3 as [_ [_ Hl3]]. destruct Hc2 as [_ [_ Hc2]].
    rewrite Hl3, Hc2; [assumption| |].
    - destruct Hfam as [-> | ->];
        destruct Htys as [-> | [-> | [-> | [-> | ->]]]]; covers_eval.
    - destruct Hfam as [-> | ->]; covers_eval. }
  assert (Ea : active cfg' family = active (l3_config c3) family).
  { transitivity (active (normalize_mayfail_fn c4) family).
    - eapply active_extends_outside; [exact Hlate|].
      intros o. destruct Hfam as [-> | ->];
        destruct Htys as [-> | [-> | [-> | [-> | ->]]]]; covers_eval.
    - transitivity (active c4 family).
      + apply active_same; [assumption|]. apply Hn1.
        destruct Hfam as [-> | ->]; covers_eval.
      + apply active_same; [assumption|]. apply Hd1.
        destruct Hfam as [-> | ->]; covers_eval. }
  assert (Ed : get_option cfg' family "dns-search"
               = get_option c4 family "dns-search").
  { destruct Hlate as [_ [_ Hlate]]. destruct Hn1 as [_ [_ Hn1]].
    rewrite Hlate, Hn1; [reflexivity| |].
    - destruct Hfam as [-> | ->]; covers_eval.
    - destruct Hfam as [-> | ->];
        destruct Htys as [-> | [-> | [-> | [-> | ->]]]]; covers_eval. }
  rewrite Ed, Ea. now apply (write_dns_search _ _ _ _ _ Hfam Hdns).
Qed.

End SearchFacts.

Lemma X15_search_domains_in_every_active_family_witness :
  conn_option
    (get_ok (render_interface "eth0" plain_iface
               (global_dns_state [plain_iface])
               (create_connections [plain_iface] Renderer)))
    "eth0" "ipv4" "dns-search"
  = Some "example.org;".
Proof.
  assert (Hrun : render_interface "eth0" plain_iface
                   (global_dns_state [plain_iface])
                   (create_connections [plain_iface] Renderer)
                 = Ok (get_ok (render_interface "eth0" plain_iface
                                 (global_dns_state [plain_iface])
                                 (create_connections [plain_iface] Renderer))))
    by (vm_compute; reflexivity).
  rewrite (X15_search_domains_in_every_active_family "eth0" plain_iface
             (global_dns_state [plain_iface]) _ _ "ethernet" "ipv4"
             (or_introl eq_refl) eq_refl Hrun eq_refl).
  vm_compute. reflexivity.
Defined.

(** ** Interfaces without subnets *)

Lemma set_ip_method_fn_frame family subnet_type cfg s o :
  covers [Opt family "method"; Opt family "may-fail"; Opt "ipv4" "method"]
         s o = false ->
  get_option (set_ip_method_fn family subnet_type cfg) s o
  = get_option cfg s o.
Proof.
  intros H.
  destruct (_set_ip_method_extends family subnet_type cfg _
              (_set_ip_method_eq family subnet_type cfg)) as [_ [_ E]].
  now apply E.
Qed.

Section NoSubnetFacts.
Context {C : Collaborators}.

Lemma family_not_type ty family :
  ty = "ethernet" \/ ty = "vlan" \/ ty = "bond" \/ ty = "bridge"
  \/ ty = "infiniband" ->
  family = "ipv4" \/ family = "ipv6" ->
  forall iface o,
    covers (W_connectivity iface ++ [AnyOption ty]) family o = false
    /\ covers (W_after_dns ty) family o = false.
Proof.
  intros Htys Hfam iface o.
  split; destruct Hfam as [-> | ->];
    destruct Htys as [-> | [-> | [-> | [-> | ->]]]]; covers_eval.
Qed.

(** X16: An interface without subnets.  A bond gets [method=disabled] and
    [may-fail=false] in both families, and no name server, whatever name
    servers the network state has.  An interface of any other type gets no
    ipv4 or ipv6 section at all, so that the defaults of NetworkManager
    apply to it. *)
Theorem X16_no_subnets_disables_only_bonds (self : string) (iface : interface)
  (network_state : NetworkState) (r r' : renderer) (ty family : string) :
  family = "ipv4" \/ family = "ipv6" ->
  assoc (if_type iface) _type_map = Some (Some ty) ->
  render_interface self iface network_state r = Ok r' ->
  if_subnets iface = [] ->
  (ty = "bond" ->
   conn_option r self family "method" = None ->
   conn_option r self family "may-fail" = None ->
   conn_option r self family "dns" = None ->
   conn_option r' self family "method" = Some "disabled"
   /\ conn_option r' self family "may-fail" = Some "false"
   /\ conn_option r' self family "dns" = None)
  /\ (ty <> "bond" ->
      conn_has_section r self family = false ->
      conn_has_section r' self family = false).
Proof.
  intros Hfam Hty H Hsub.
  destruct (render_interface_phases _ _ _ _ _ _ Hty H)
    as [cfg0 [c2 [c3 [c4 [cfg' [H0 [H' [Hl3 [Hc2 [_ [Hdns Hlate]]]]]]]]]]].
  pose proof (type_map_values _ _ Hty) as Htys.
  pose proof (family_not_type ty family Htys Hfam iface) as Hcov.
  unfold conn_option, conn_has_section. rewrite H0, H'.
  pose proof (write_dns_inv _ _ _ _ Hdns) as [Hd1 [Hd2 Hd3]].
  destruct (normalize_mayfail_fn_inv c4) as [Hn1 Hn2].
  unfold render_layer3 in Hl3. rewrite Hsub in Hl3.
  cbn [is_empty foldM] in Hl3. rewrite andb_true_r in Hl3.
  split.
  - intros -> Hm Hf Hd. eqb_eval. cbn [foldM] in Hl3.
    rewrite _set_ip_method_eq in Hl3. cbn [bind] in Hl3.
    rewrite _set_ip_method_eq in Hl3. cbn [bind] in Hl3.
    injection Hl3 as <-. cbn [l3_config] in *.
    set (c3 := set_ip_method_fn "ipv6" None (set_ip_method_fn "ipv4" None c2))
      in *.
    destruct Hc2 as [_ [_ Hc2]].
    assert (Em : get_option c2 family "method" = None)
      by (rewrite Hc2; [assumption|apply Hcov]).
    assert (Ef : get_option c2 family "may-fail" = None)
      by (rewrite Hc2; [assumption|apply Hcov]).
    assert (Ed : get_option c2 family "dns" = None)
      by (rewrite Hc2; [assumption|apply Hcov]).
    assert (E3 : get_option c3 family "method" = Some "disabled"
                 /\ get_option c3 family "may-fail" = Some "false"
                 /\ get_option c3 family "dns" = None).
    { subst c3. destruct Hfam as [-> | ->].
      - rewrite set_ip_method_fn_other_method_exact
          by (discriminate || reflexivity).
        rewrite set_ip_method_fn_other_mayfail by discriminate.
        rewrite set_ip_method_fn_method, set_ip_method_fn_mayfail, Em, Ef.
        split; [reflexivity|]. split; [reflexivity|].
        rewrite !set_ip_method_fn_frame by covers_eval. assumption.
      - rewrite set_ip_method_fn_method, set_ip_method_fn_mayfail.
        rewrite set_ip_method_fn_other_method_exact
          by (discriminate || reflexivity).
        rewrite set_ip_method_fn_other_mayfail by discriminate.
        rewrite Em, Ef.
        split; [reflexivity|]. split; [reflexivity|].
        rewrite !set_ip_method_fn_frame by covers_eval. assumption. }
    destruct E3 as [E3m [E3f E3d]].
    assert (E4m : get_option c4 family "method" = Some "disabled").
    { destruct Hd1 as [_ [_ Hd1]]. rewrite Hd1; [assumption|].
      destruct Hfam as [-> | ->]; covers_eval. }
    assert (E4f : get_option c4 family "may-fail" = Some "false").
    { destruct Hd1 as [_ [_ Hd1]]. rewrite Hd1; [assumption|].
      destruct Hfam as [-> | ->]; covers_eval. }
    assert (E4d : get_option c4 family "dns" = None).
    { rewrite Hd3, fold_add_nameserver_dns. unfold active.
      rewrite E3m. cbn [opt_eqb]. eqb_eval. cbn [negb].
      now rewrite andb_false_r. }
    assert (En : normalize_mayfail_fn c4 = c4).
    { unfold normalize_mayfail_fn.
      rewrite both_false_dynamic_one_static; [reflexivity|].
      destruct Hfam as [-> | ->]; [left|right]; now rewrite E4m. }
    rewrite En in Hlate. destruct Hlate as [_ [_ Hlate]].
    rewrite !Hlate by apply Hcov. auto.
  - intros Hnb Hs.
    replace (String.eqb ty "bond") with false in Hl3
      by (symmetry; now apply String.eqb_neq).
    injection Hl3 as <-. cbn [l3_config] in *.
    destruct Hlate as [_ [Hlate _]]. rewrite Hlate by (intros o; apply Hcov).
    rewrite Hn2, Hd2.
    destruct Hc2 as [_ [Hc2 _]]. rewrite Hc2 by (intros o; apply Hcov).
    exact Hs.
Qed.

End NoSubnetFacts.

Lemma X16_no_subnets_disables_only_bonds_witness :
  (conn_option
     (get_ok (render_interface "bond0" bond_iface
                (global_dns_state [bond_iface])
                (create_connections [bond_iface] Renderer)))
     "bond0" "ipv4" "method" = Some "disabled"
   /\ conn_option
        (get_ok (render_interface "bond0" bond_iface
                   (global_dns_state [bond_iface])
                   (create_connections [bond_iface] Renderer)))
        "bond0" "ipv4" "may-fail" = Some "false"
   /\ conn_option
        (get_ok (render_interface "bond0" bond_iface
                   (global_dns_state [bond_iface])
                   (create_connections [bond_iface] Renderer)))
        "bond0" "ipv4" "dns" = None)
  /\ conn_has_section
       (get_ok (render_interface "eth1" (port_iface None)
                  (global_dns_state [port_iface None])
                  (create_connections [port_iface None] Renderer)))
       "eth1" "ipv4" = false.
Proof.
  split.
  - assert (Hrun : render_interface "bond0" bond_iface
                     (global_dns_state [bond_iface])
                     (create_connections [bond_iface] Renderer)
                   = Ok (get_ok (render_interface "bond0" bond_iface
                                   (global_dns_state [bond_iface])
                                   (create_connections [bond_iface]
                                      Renderer))))
      by (vm_compute; reflexivity).
    destruct (X16_no_subnets_disables_only_bonds "bond0" bond_iface
                (global_dns_state [bond_iface]) _ _ "bond" "ipv4"
                (or_introl eq_refl) eq_refl Hrun eq_refl) as [Hb _].
    apply Hb; reflexivity.
  - assert (Hrun : render_interface "eth1" (port_iface None)
                     (global_dns_state [port_iface None])
                     (create_connections [port_iface None] Renderer)
                   = Ok (get_ok (render_interface "eth1" (port_iface None)
                                   (global_dns_state [port_iface None])
                                   (create_connections [port_iface None]
                                      Renderer))))
      by (vm_compute; reflexivity).
    destruct (X16_no_subnets_disables_only_bonds "eth1" (port_iface None)
                (global_dns_state [port_iface None]) _ _ "ethernet" "ipv4"
                (or_introl eq_refl) eq_refl Hrun eq_refl) as [_ He].
    apply He; [discriminate|reflexivity].
Defined.

(** ** Gateways and addresses of a profile *)

Section Layer3Options.
Context {C : Collaborators}.

(** The layer-3 part in two steps: the methods of a bond without subnets,
    then the subnets. *)
Lemma render_layer3_steps ty iface cfg st :
  render_layer3 ty iface cfg = Ok st ->
  exists cfg1,
    extends [Opt "ipv4" "method"; Opt "ipv4" "may-fail";
             Opt "ipv6" "method"; Opt "ipv6" "may-fail"] cfg cfg1
    /\ foldM render_subnet (if_subnets iface)
         {| l3_config := cfg1; found_nameservers := [];
            found_dns_search := []; ipv4_mtu := None |} = Ok st.
Proof.
  unfold render_layer3. intros H. bind_inv_as H cfg1 E.
  exists cfg1. split; [|exact H].
  destruct (String.eqb ty "bond" && is_empty (if_subnets iface)).
  - revert E. apply extends_foldM. intros c f c' Hf Hc.
    eapply extends_incl; [|eapply _set_ip_method_extends; eassumption].
    cbn [In] in Hf. destruct Hf as [<-|[<-|[]]]; incl_list.
  - injection E as <-. apply extends_refl.
Qed.

(** An option of a family section that the DNS part and the may-fail
    normalization do not write is, at the end of the render, as the
    layer-3 part left it, and at the start of the layer-3 part as it was
    before the render. *)
Lemma render_interface_l3_option self iface network_state r r' ty family :
  family = "ipv4" \/ family = "ipv6" ->
  assoc (if_type iface) _type_map = Some (Some ty) ->
  render_interface self iface network_state r = Ok r' ->
  exists cfg0 c2 st,
    assoc self (connections r) = Some cfg0
    /\ render_layer3 ty iface c2 = Ok st
    /\ forall o,
         covers (W_dns ++ W_mayfail) family o = false ->
         get_option c2 family o = get_option cfg0 family o
         /\ conn_option r' self family o = get_option (l3_config st) family o.
Proof.
  intros Hfam Hty H.
  destruct (render_interface_phases _ _ _ _ _ _ Hty H)
    as [cfg0 [c2 [c3 [c4 [cfg' [H0 [H' [Hl3 [Hc2 [_ [Hdns Hlate]]]]]]]]]]].
  pose proof (type_map_values _ _ Hty) as Htys.
  exists cfg0, c2, c3. split; [assumption|]. split; [assumption|].
  intros o Hcov.
  pose proof (family_not_type ty family Htys Hfam iface o) as [Hc1 Hc3].
  rewrite covers_app in Hcov. apply orb_false_iff in Hcov.
  destruct Hcov as [Hcd Hcm].
  split; [now apply Hc2|].
  unfold conn_option. rewrite H'.
  apply write_dns_inv in Hdns. destruct Hdns as [[_ [_ Hd]] _].
  destruct (normalize_mayfail_fn_inv c4) as [[_ [_ Hn]] _].
  destruct Hlate as [_ [_ Hlate]].
  now rewrite Hlate, Hn, Hd.
Qed.

Lemma render_subnet_gateway family st sn st' :
  render_subnet st sn = Ok st' ->
  get_option (l3_config st') family "gateway"
  = match last_opt (gateways_of family [sn]) with
    | Some gw => Some gw
    | None => get_option (l3_config st) family "gateway"
    end.
Proof.
  unfold render_subnet, gateways_of, subnet_family. cbn [flat_map].
  rewrite app_nil_r. intros H.
  set (f := if subnet_is_ipv6 sn then "ipv6" else "ipv4") in *.
  bind_inv_as H c1 E1. bind_inv_as H c2 E2. bind_inv_as H c3 E3.
  bind_inv_as H c4 E4. injection H as <-. cbn [l3_config].
  apply _set_ip_method_extends in E1. destruct E1 as [_ [_ E1]].
  assert (F2 : get_option c2 family "gateway"
               = get_option (l3_config st) family "gateway").
  { transitivity (get_option c1 family "gateway").
    - destruct (sn_address sn); [|now injection E2 as <-].
      apply _add_address_extends in E2. destruct E2 as [_ [_ E2]].
      apply E2. cbn. now rewrite andb_false_r.
    - apply E1. unfold covers. cbn [existsb matches]. eqb_eval.
      now rewrite !andb_false_r. }
  apply foldM_add_route_extends in E4. destruct E4 as [_ [_ E4]].
  rewrite E4
    by (unfold covers; cbn [existsb matches starts_with]; eqb_eval;
        cbn; now rewrite !andb_false_r).
  destruct (sn_gateway sn) as [gw|].
  - apply cfg_set_inv in E3. destruct E3 as [-> _].
    rewrite get_option_put, String.eqb_refl, andb_true_r.
    destruct (String.eqb f family); [reflexivity|exact F2].
  - injection E3 as <-. now destruct (String.eqb f family).
Qed.

Lemma gateways_of_app family l1 l2 :
  gateways_of family (l1 ++ l2)
  = (gateways_of family l1 ++ gateways_of family l2)%list.
Proof. apply flat_map_app. Qed.

Lemma foldM_render_subnet_gateway family subnets :
  forall st st',
    foldM render_subnet subnets st = Ok st' ->
    get_option (l3_config st') family "gateway"
    = match last_opt (gateways_of family subnets) with
      | Some gw => Some gw
      | None => get_option (l3_config st) family "gateway"
      end.
Proof.
  induction subnets as [|sn subnets IH]; intros st st' H; cbn [foldM] in H.
  - now injection H as <-.
  - bind_inv_as H st1 E1. rewrite (IH _ _ H).
    rewrite (render_subnet_gateway family _ _ _ E1).
    change (sn :: subnets) with ([sn] ++ subnets)%list.
    rewrite gateways_of_app, last_opt_app_choice.
    now destruct (last_opt (gateways_of family subnets)).
Qed.

(** X17: The gateway of a family.  Every subnet with a gateway assigns
    [gateway] in the section of its family, so the profile ends with the
    gateway of the last such subnet of the family in input order; a family
    without one keeps what it had. *)
Theorem X17_last_gateway_of_a_family_wins (self : string) (iface : interface)
  (network_state : NetworkState) (r r' : renderer) (ty family : string) :
  family = "ipv4" \/ family = "ipv6" ->
  assoc (if_type iface) _type_map = Some (Some ty) ->
  render_interface self iface network_state r = Ok r' ->
  conn_option r' self family "gateway"
  = match last_opt (gateways_of family (if_subnets iface)) with
    | Some gw => Some gw
    | None => conn_option r self family "gateway"
    end.
Proof.
  intros Hfam Hty H.
  destruct (render_interface_l3_option _ _ _ _ _ _ family Hfam Hty H)
    as [cfg0 [c2 [st [H0 [Hl3 Ho]]]]].
  destruct (Ho "gateway") as [E2 ->].
  { destruct Hfam as [-> | ->]; covers_eval. }
  apply render_layer3_steps in Hl3. destruct Hl3 as [cfg1 [[_ [_ E1]] Hf]].
  rewrite (foldM_render_subnet_gateway family _ _ _ Hf). cbn [l3_config].
  unfold conn_option. rewrite H0, <- E2.
  rewrite E1; [reflexivity|].
  unfold covers. cbn [existsb matches]. eqb_eval. now rewrite !andb_false_r.
Qed.

Lemma subnet_addresses_app family l1 l2 :
  subnet_addresses family (l1 ++ l2)
  = (subnet_addresses family l1 ++ subnet_addresses family l2)%list.
Proof. apply flat_map_app. Qed.

Lemma render_subnet_addresses family st sn st' vals :
  render_subnet st sn = Ok st' ->
  numbered_are (l3_config st) family "address" vals ->
  numbered_are (l3_config st') family "address"
               (vals ++ subnet_addresses family [sn]).
Proof.
  unfold render_subnet, subnet_addresses, subnet_family. cbn [flat_map].
  rewrite app_nil_r. intros H Hv.
  set (f := if subnet_is_ipv6 sn then "ipv6" else "ipv4") in *.
  bind_inv_as H c1 E1. bind_inv_as H c2 E2. bind_inv_as H c3 E3.
  bind_inv_as H c4 E4. injection H as <-. cbn [l3_config].
  apply _set_ip_method_extends in E1.
  assert (V1 : numbered_are c1 family "address" vals).
  { eapply numbered_are_extends; [exact E1| |exact Hv].
    intros i. unfold covers. cbn [existsb matches].
    replace (String.eqb "method" ("address" ++ str_nat i)) with false
      by reflexivity.
    replace (String.eqb "may-fail" ("address" ++ str_nat i)) with false
      by reflexivity.
    now rewrite !andb_false_r. }
  assert (V2 : numbered_are c2 family "address"
                 (vals ++ (if String.eqb f family
                           then match address_value sn with
                                | Some v => [v]
                                | None => []
                                end
                           else []))).
  { unfold address_value. destruct (sn_address sn) as [a|] eqn:Ea.
    - unfold _add_address in E2. rewrite Ea in E2.
      destruct (sn_prefix sn) as [px|]; [|discriminate].
      destruct (_add_numbered_lowest f "address" (a ++ "/" ++ str_Z px) c1)
        as [n [Hlow Hadd]].
      rewrite Hadd in E2. injection E2 as <-.
      destruct (String.eqb_spec f family) as [->|Hne].
      + exact (numbered_are_add c1 family "address" vals n _ V1 Hlow).
      + rewrite app_nil_r.
        eapply numbered_are_extends;
          [exact (extends_put_prefix f "address" (str_nat n) _ c1)|
          |exact V1].
        intros i. cbn. apply String.eqb_neq in Hne. now rewrite Hne.
    - injection E2 as <-.
      destruct (String.eqb f family); now rewrite app_nil_r. }
  assert (V3 : numbered_are c3 family "address"
                 (vals ++ (if String.eqb f family
                           then match address_value sn with
                                | Some v => [v]
                                | None => []
                                end
                           else []))).
  { destruct (sn_gateway sn) as [gw|]; [|now injection E3 as <-].
    apply cfg_set_inv in E3. destruct E3 as [-> _].
    eapply numbered_are_extends; [apply extends_put| |exact V2].
    intros i. cbn.
    replace (String.eqb "gateway" ("address" ++ str_nat i)) with false
      by reflexivity.
    now rewrite !andb_false_r. }
  apply foldM_add_route_extends in E4.
  eapply numbered_are_extends; [exact E4| |exact V3].
  intros i. unfold covers. cbn [existsb matches].
  now rewrite route_not_address, !andb_false_r.
Qed.

Lemma foldM_render_subnet_addresses family subnets :
  forall st st' vals,
    foldM render_subnet subnets st = Ok st' ->
    numbered_are (l3_config st) family "address" vals ->
    numbered_are (l3_config st') family "address"
                 (vals ++ subnet_addresses family subnets).
Proof.
  induction subnets as [|sn subnets IH]; intros st st' vals H Hv;
    cbn [foldM] in H.
  - injection H as <-. cbn. now rewrite app_nil_r.
  - bind_inv_as H st1 E1.
    change (sn :: subnets) with ([sn] ++ subnets)%list.
    rewrite subnet_addresses_app, app_assoc.
    eapply IH; [exact H|].
    eapply render_subnet_addresses; eassumption.
Qed.

(** X18: The addresses of a profile.  After the render of an interface into a
    profile that had no numbered address in a family, the keys
    [address1..addressN] of that family hold exactly the addresses of the
    subnets of the family, each as address/prefix, in the order of the
    subnets; no other numbered address key is set. *)
Theorem X18_addresses_follow_subnet_order (self : string) (iface : interface)
  (network_state : NetworkState) (r r' : renderer) (ty family : string) :
  family = "ipv4" \/ family = "ipv6" ->
  assoc (if_type iface) _type_map = Some (Some ty) ->
  render_interface self iface network_state r = Ok r' ->
  (forall i, conn_option r self family ("address" ++ str_nat i) = None) ->
  forall i,
    conn_option r' self family ("address" ++ str_nat i)
    = match i with
      | O => None
      | S j => nth_error (subnet_addresses family (if_subnets iface)) j
      end.
Proof.
  intros Hfam Hty H Hnone i.
  assert (Hcov : forall i, covers (W_dns ++ W_mayfail) family
                                  ("address" ++ str_nat i) = false).
  { intros k. unfold W_dns, W_mayfail, covers. cbn [existsb matches app].
    replace (String.eqb "dns" ("address" ++ str_nat k)) with false
      by reflexivity.
    replace (String.eqb "dns-search" ("address" ++ str_nat k)) with false
      by reflexivity.
    replace (String.eqb "may-fail" ("address" ++ str_nat k)) with false
      by reflexivity.
    now rewrite !andb_false_r. }
  destruct (render_interface_l3_option _ _ _ _ _ _ family Hfam Hty H)
    as [cfg0 [c2 [st [H0 [Hl3 Ho]]]]].
  destruct (Ho _ (Hcov i)) as [_ ->].
  apply render_layer3_steps in Hl3. destruct Hl3 as [cfg1 [E1 Hf]].
  assert (V1 : numbered_are cfg1 family "address" []).
  { eapply numbered_are_extends; [exact E1| |].
    - intros k. unfold covers. cbn [existsb matches].
      replace (String.eqb "method" ("address" ++ str_nat k)) with false
        by reflexivity.
      replace (String.eqb "may-fail" ("address" ++ str_nat k)) with false
        by reflexivity.
      now rewrite !andb_false_r.
    - intros k. destruct (Ho _ (Hcov k)) as [-> _].
      specialize (Hnone k). unfold conn_option in Hnone.
      rewrite H0 in Hnone. rewrite Hnone. now destruct k as [|[|k]]. }
  exact (foldM_render_subnet_addresses family _ _ _ _ Hf V1 i).
Qed.

End Layer3Options.

Lemma X17_last_gateway_of_a_family_wins_witness :
  conn_option (get_ok (render_all [dual_stack_iface])) "eth0" "ipv4" "gateway"
  = Some "10.0.1.1".
Proof.
  assert (Hrun : render_interface "eth0" dual_stack_iface
                   (mk_state [dual_stack_iface])
                   (create_connections [dual_stack_iface] Renderer)
                 = Ok (get_ok (render_all [dual_stack_iface])))
    by (vm_compute; reflexivity).
  rewrite (X17_last_gateway_of_a_family_wins "eth0" dual_stack_iface _ _ _
             "ethernet" "ipv4" (or_introl eq_refl) eq_refl Hrun).
  reflexivity.
Defined.

Lemma X18_addresses_follow_subnet_order_witness :
  conn_option (get_ok (render_all [dual_stack_iface])) "eth0" "ipv4"
              ("address" ++ str_nat 2)
  = Some "10.0.1.2/24"
  /\ conn_option (get_ok (render_all [dual_stack_iface])) "eth0" "ipv4"
                 ("address" ++ str_nat 3)
     = None.
Proof.
  assert (Hrun : render_interface "eth0" dual_stack_iface
                   (mk_state [dual_stack_iface])
                   (create_connections [dual_stack_iface] Renderer)
                 = Ok (get_ok (render_all [dual_stack_iface])))
    by (vm_compute; reflexivity).
  assert (Hnone : forall i,
             conn_option (create_connections [dual_stack_iface] Renderer)
                         "eth0" "ipv4" ("address" ++ str_nat i) = None)
    by (intros i; reflexivity).
  split.
  - rewrite (X18_addresses_follow_subnet_order "eth0" dual_stack_iface _ _ _
               "ethernet" "ipv4" (or_introl eq_refl) eq_refl Hrun Hnone 2).
    reflexivity.
  - rewrite (X18_addresses_follow_subnet_order "eth0" dual_stack_iface _ _ _
               "ethernet" "ipv4" (or_introl eq_refl) eq_refl Hrun Hnone 3).
    reflexivity.
Defined.

(** ** The type-specific section of a profile *)

Lemma distinct_keys_assoc {V : Type} (k : string) (v : V) l :
  distinct_keys ((k, v) :: l) = true -> assoc k l = None.
Proof.
  cbn [distinct_keys]. unfold assoc_mem. intros H.
  apply andb_true_iff in H. destruct H as [H _].
  now destruct (assoc k l).
Qed.

Lemma foldM_props_value ty iface props :
  distinct_keys props = true ->
  forall cfg cfg',
    foldM (fun cfg entry =>
             let '(nm_prop, key) := entry in
             match assoc key (if_params iface) with
             | None => Ok cfg
             | Some PNone => Ok cfg
             | Some (PBool b) =>
                 cfg_set cfg ty nm_prop (if b then "true" else "false")
             | Some (PInt z) => cfg_set cfg ty nm_prop (str_Z z)
             | Some (PStr v) => cfg_set cfg ty nm_prop v
             end) props cfg = Ok cfg' ->
    forall s o,
      get_option cfg' s o
      = match (if String.eqb ty s
               then match assoc o props with
                    | Some key =>
                        match assoc key (if_params iface) with
                        | Some v => format_param v
                        | None => None
                        end
                    | None => None
                    end
               else None) with
        | Some x => Some x
        | None => get_option cfg s o
        end.
Proof.
  induction props as [|[nm key] props IH]; intros Hd cfg cfg' H s o.
  - cbn in H. injection H as <-. now destruct (String.eqb ty s).
  - pose proof (distinct_keys_assoc _ _ _ Hd) as Hnm.
    cbn [distinct_keys] in Hd. apply andb_true_iff in Hd.
    destruct Hd as [_ Hd]. cbn [foldM] in H. bind_inv_as H c1 E1.
    rewrite (IH Hd _ _ H s o). cbn [assoc].
    assert (Hc1 : get_option c1 s o
                  = match (if String.eqb ty s && String.eqb nm o
                           then match assoc key (if_params iface) with
                                | Some v => format_param v
                                | None => None
                                end
                           else None) with
                    | Some x => Some x
                    | None => get_option cfg s o
                    end).
    { destruct (assoc key (if_params iface)) as [[|b|z|v]|];
        try (injection E1 as <-;
             now destruct (String.eqb ty s && String.eqb nm o));
        apply cfg_set_inv in E1; destruct E1 as [-> _];
        rewrite get_option_put;
        now destruct (String.eqb ty s && String.eqb nm o). }
    destruct (String.eqb ty s); cbn [andb] in Hc1; [|exact Hc1].
    rewrite (String.eqb_sym o nm).
    destruct (String.eqb_spec nm o) as [<-|Hne].
    + rewrite Hnm. exact Hc1.
    + rewrite Hc1. reflexivity.
Qed.

Lemma prop_map_distinct ty props :
  assoc ty _prop_map = Some props -> distinct_keys props = true.
Proof.
  unfold _prop_map. cbn [assoc].
  repeat match goal with
         | |- (if ?b then _ else _) = _ -> _ =>
             destruct b; [intros H; injection H as <-; vm_compute; reflexivity|]
         end.
  discriminate.
Qed.

Lemma render_props_value ty iface cfg cfg' :
  render_props ty iface cfg = Ok cfg' ->
  forall s o,
    get_option cfg' s o
    = match (if String.eqb ty s then native_property ty iface o else None) with
      | Some x => Some x
      | None => get_option cfg s o
      end.
Proof.
  unfold render_props, native_property. intros H s o.
  destruct (assoc ty _prop_map) as [props|] eqn:E; [|discriminate].
  exact (foldM_props_value ty iface props (prop_map_distinct _ _ E) _ _ H s o).
Qed.

Lemma set_mac_value ty iface cfg cfg' :
  set_mac ty iface cfg = Ok cfg' ->
  forall s o,
    get_option cfg' s o
    = match (if String.eqb ty s && String.eqb "mac-address" o
             then rendered_mac iface else None) with
      | Some x => Some x
      | None => get_option cfg s o
      end.
Proof.
  unfold set_mac, rendered_mac. intros H s o.
  destruct (if_mac_address iface) as [mac|]; cbn [option_map].
  - apply cfg_set_inv in H. destruct H as [-> _]. rewrite get_option_put.
    now destruct (String.eqb ty s && String.eqb "mac-address" o).
  - injection H as <-.
    now destruct (String.eqb ty s && String.eqb "mac-address" o).
Qed.

Lemma render_ethernet_value iface mtu cfg cfg' :
  render_ethernet iface mtu cfg = Ok cfg' ->
  (forall o, get_option cfg "ethernet" o = None) ->
  forall o,
    get_option cfg' "ethernet" o = type_section_option "ethernet" iface mtu o.
Proof.
  unfold render_ethernet, type_section_option. intros H Hnone o.
  bind_inv_as H c1 E1. bind_inv_as H c2 E2.
  rewrite (set_mac_value _ _ _ _ H). eqb_eval. cbn [andb].
  assert (V1 : get_option c1 "ethernet" o
               = if String.eqb o "wake-on-lan"
                 then match if_wakeonlan iface with
                      | PBool true => Some "64"
                      | _ => None
                      end
                 else None).
  { destruct (if_wakeonlan iface) as [|[|]|z|v];
      try (injection E1 as <-; rewrite Hnone;
           now destruct (String.eqb o "wake-on-lan")).
    apply cfg_set_inv in E1. destruct E1 as [-> _].
    rewrite get_option_put, Hnone. eqb_eval. cbn [andb].
    now rewrite (String.eqb_sym o). }
  assert (V2 : get_option c2 "ethernet" o
               = if String.eqb o "wake-on-lan"
                 then match if_wakeonlan iface with
                      | PBool true => Some "64"
                      | _ => None
                      end
                 else if String.eqb o "mtu" then option_map str_Z mtu
                 else None).
  { destruct mtu as [m|]; cbn [option_map].
    - apply cfg_set_inv in E2. destruct E2 as [-> _].
      rewrite get_option_put, V1. eqb_eval. cbn [andb].
      rewrite (String.eqb_sym o "mtu").
      destruct (String.eqb_spec "mtu" o) as [<-|]; [reflexivity|].
      reflexivity.
    - injection E2 as <-. rewrite V1.
      now destruct (String.eqb o "wake-on-lan"), (String.eqb o "mtu"). }
  rewrite V2, (String.eqb_sym o "mac-address").
  destruct (String.eqb_spec "mac-address" o) as [<-|]; [|
    now destruct (String.eqb o "wake-on-lan"), (String.eqb o "mtu")].
  eqb_eval. now destruct (rendered_mac iface).
Qed.

Lemma render_infiniband_value iface mtu cfg cfg' :
  render_infiniband iface mtu cfg = Ok cfg' ->
  (forall o, get_option cfg "infiniband" o = None) ->
  (forall o, get_option cfg' "infiniband" o
             = type_section_option "infiniband" iface mtu o)
  /\ (forall s o, s <> "infiniband" ->
                  get_option cfg' s o = get_option cfg s o).
Proof.
  unfold render_infiniband, type_section_option. intros H Hnone.
  destruct mtu as [m|].
  - bind_inv_as H c1 E1. bind_inv_as H c2 E2.
    apply cfg_set_inv in E1. destruct E1 as [-> _].
    apply cfg_set_inv in E2. destruct E2 as [-> _].
    split.
    + intros o. rewrite (set_mac_value _ _ _ _ H). eqb_eval. cbn [andb].
      rewrite !get_option_put, Hnone. eqb_eval. cbn [andb].
      rewrite (String.eqb_sym o "mac-address"), (String.eqb_sym o "mtu"),
        (String.eqb_sym o "transport-mode").
      destruct (String.eqb_spec "mac-address" o) as [<-|].
      * eqb_eval. now destruct (rendered_mac iface).
      * destruct (String.eqb_spec "mtu" o) as [<-|]; [reflexivity|].
        reflexivity.
    + intros s o Hs. rewrite (set_mac_value _ _ _ _ H).
      apply not_eq_sym, String.eqb_neq in Hs. rewrite Hs. cbn [andb].
      rewrite !get_option_put, Hs. reflexivity.
  - injection H as <-. split; [|reflexivity].
    intros o. eqb_eval. apply Hnone.
Qed.

Section TypeSectionFacts.
Context {C : Collaborators}.

Lemma type_section_untouched_by_layer3 ty o :
  ty = "ethernet" \/ ty = "vlan" \/ ty = "bond" \/ ty = "bridge"
  \/ ty = "infiniband" ->
  covers W_layer3 ty o = false /\ covers W_dns ty o = false
  /\ covers W_mayfail ty o = false.
Proof.
  intros [-> | [-> | [-> | [-> | ->]]]]; repeat split; covers_eval.
Qed.

(** The type-specific section when the own part of a render ends: the
    section was emptied, and only the native properties and, for an
    ethernet device, its special options were written since. *)
Lemma render_own_type_section self ty iface network_state r cfg cfg' mtu :
  ty = "ethernet" \/ ty = "vlan" \/ ty = "bond" \/ ty = "bridge"
  \/ ty = "infiniband" ->
  render_own self ty iface network_state r cfg = Ok (cfg', mtu) ->
  (forall o, ~ (ty = "vlan" /\ o = "parent") ->
             get_option cfg' ty o
             = if String.eqb ty "ethernet"
               then type_section_option "ethernet" iface mtu o
               else native_property ty iface o)
  /\ get_option cfg' "connection" "interface-name"
     = get_option cfg "connection" "interface-name".
Proof.
  intros Htys H. split.
  - intros o Ho. apply render_own_inv in H.
    destruct H as [c1 [st [c3 [c5 [c6 [c7
                    [_ [Hl3 [Hdns [_ [H5 [H6 [H7 H8]]]]]]]]]]]]].
    destruct (type_section_untouched_by_layer3 ty o Htys) as [K1 [K2 K3]].
    assert (E0 : forall o, get_option (normalize_mayfail_fn c3) ty o = None).
    { intros o'.
      destruct (type_section_untouched_by_layer3 ty o' Htys) as [J1 [J2 J3]].
      apply render_layer3_inv in Hl3. destruct Hl3 as [[_ [_ Hl3]] _].
      apply write_dns_inv in Hdns. destruct Hdns as [[_ [_ Hdns]] _].
      destruct (normalize_mayfail_fn_inv c3) as [[_ [_ Hn]] _].
      rewrite Hn, Hdns, Hl3 by assumption.
      rewrite get_option_set_section, String.eqb_refl. reflexivity. }
    assert (E5 : forall o, get_option c5 ty o = native_property ty iface o).
    { intros o'. rewrite (render_props_value _ _ _ _ H5), String.eqb_refl, E0.
      now destruct (native_property ty iface o'). }
    destruct Htys as [-> | [-> | [-> | [-> | ->]]]]; eqb_eval.
    + injection H7 as <-. injection H8 as <-.
      apply (render_ethernet_value _ _ _ _ H6).
      intros o'. now rewrite E5.
    + injection H6 as <-. injection H8 as <-. rewrite <- E5.
      unfold render_vlan in H7.
      destruct (if_vlan_raw_device iface) as [dev|];
        [|now injection H7 as <-].
      bind_inv_as H7 ref Er. apply cfg_set_inv in H7. destruct H7 as [-> _].
      rewrite get_option_put. eqb_eval. cbn [andb].
      destruct (String.eqb_spec "parent" o) as [<-|]; [|reflexivity].
      elim Ho. now split.
    + injection H6 as <-. injection H7 as <-. rewrite <- E5.
      apply render_bond_inv in H8. destruct H8 as [[_ [_ H8]] _].
      apply H8. reflexivity.
    + injection H6 as <-. injection H7 as <-. injection H8 as <-. apply E5.
    + injection H6 as <-. injection H7 as <-. injection H8 as <-. apply E5.
  - apply render_own_after_connectivity in H. destruct H as [c1 [H1 H]].
    apply init_connectivity_inv in H1. destruct H1 as [[_ [_ H1]] _].
    destruct H as [_ [_ H]].
    rewrite H, H1; [reflexivity| |].
    + covers_eval.
    + destruct Htys as [-> | [-> | [-> | [-> | ->]]]]; covers_eval.
Qed.

(** The profile as [render_interface] has it before "Finish up". *)
Lemma render_interface_pre_finish self iface network_state r r' ty :
  assoc (if_type iface) _type_map = Some (Some ty) ->
  render_interface self iface network_state r = Ok r' ->
  exists cfg0 cfg3 cfg',
    assoc self (connections r) = Some cfg0
    /\ assoc self (connections r') = Some cfg'
    /\ finish ty iface cfg3 = Ok cfg'
    /\ (forall o, ~ (ty = "vlan" /\ o = "parent") ->
                  get_option cfg3 ty o
                  = type_section_option ty iface (rendered_mtu iface) o)
    /\ get_option cfg3 "connection" "interface-name"
       = get_option cfg0 "connection" "interface-name".
Proof.
  intros Hty H.
  pose proof (type_map_values _ _ Hty) as Htys.
  destruct (render_interface_inv _ _ _ _ _ _ Hty H)
    as [cfg0 [cfg1 [mtu [r2 [cfg2 [cfg3 [cfg4
          [H0 [Hown [H2 [Hc2 [H3 [H4 ->]]]]]]]]]]]]].
  assert (Hmtu : mtu = rendered_mtu iface).
  { pose proof Hown as Hown'. apply render_own_inv in Hown'.
    destruct Hown' as [c1 [st [c3 [c5 [c6 [c7
                        [_ [Hl3 [_ [Hmtu _]]]]]]]]]].
    apply render_layer3_inv in Hl3. destruct Hl3 as [_ [_ [_ Hl3]]].
    now rewrite Hl3 in Hmtu. }
  destruct (render_own_type_section _ _ _ _ _ _ _ _ Htys Hown) as [Ht Hn].
  rewrite Hmtu in *. clear Hmtu mtu.
  exists cfg0, cfg3, cfg4.
  split; [assumption|].
  split; [cbn [set_conn connections]; apply assoc_set_same|].
  split; [assumption|].
  destruct (String.eqb_spec ty "bridge") as [->|Hnb].
  - eqb_eval. injection H3 as <-.
    unfold render_bridge in H2. bind_inv_as H2 r1 E1.
    bind_inv_as H2 cA EA. apply get_conn_inv in EA.
    bind_inv_as H2 cB EB. injection H2 as <-.
    cbn [set_conn connections] in Hc2. rewrite assoc_set_same in Hc2.
    injection Hc2 as <-.
    apply foldM_render_bridge_port_extends in E1. destruct E1 as [E1 _].
    specialize (E1 self). cbn [set_conn connections] in E1.
    rewrite assoc_set_same, EA in E1.
    assert (EF : forall s o, covers W_port s o = false ->
                             get_option cA s o = get_option cfg1 s o).
    { intros s o Hc. destruct E1 as [_ [_ E1]]. apply E1.
      now destruct (mem self (if_bridge_ports iface)). }
    split.
    + intros o _. rewrite (set_mac_value _ _ _ _ EB). eqb_eval. cbn [andb].
      rewrite EF by reflexivity. rewrite Ht by (intros [? _]; discriminate).
      eqb_eval. unfold type_section_option. eqb_eval.
      rewrite (String.eqb_sym o "mac-address").
      destruct (String.eqb_spec "mac-address" o) as [<-|]; [|reflexivity].
      now destruct (rendered_mac iface).
    + rewrite (set_mac_value _ _ _ _ EB). eqb_eval. cbn [andb].
      rewrite EF by reflexivity. exact Hn.
  - replace (String.eqb ty "bridge") with false in H2
      by (symmetry; now apply String.eqb_neq).
    injection H2 as <-. cbn [set_conn connections] in Hc2.
    rewrite assoc_set_same in Hc2. injection Hc2 as <-.
    destruct Htys as [-> | [-> | [-> | [-> | ->]]]]; eqb_eval;
      try (now elim Hnb); try (injection H3 as <-; split; assumption).
    destruct (render_infiniband_value _ _ _ _ H3) as [V1 V2].
    { intros o. rewrite Ht by (intros [? _]; discriminate). reflexivity. }
    split; [intros o _; apply V1|].
    rewrite V2 by discriminate. exact Hn.
Qed.

(** X19: The type-specific section of a profile is rebuilt by every render, so
    that it depends on the rendered interface alone: an option of the
    section is set exactly when the render writes it, whatever the section
    held before.  An ethernet section holds [wake-on-lan=64] when
    [wakeonlan] is [True], the resolved mtu and the sanitized MAC address;
    a bridge section its native properties and the MAC address; an
    infiniband section [transport-mode=datagram], the mtu and the MAC
    address, all three only when an mtu is resolved; a bond or vlan section
    its native properties (booleans as true or false, other values as
    text, [None] and missing ones left out), neither an mtu nor a MAC
    address.  (The parent of a vlan is a reference and is left out here.) *)
Theorem X19_type_section_is_rebuilt (self : string) (iface : interface)
  (network_state : NetworkState) (r r' : renderer) (ty o : string) :
  assoc (if_type iface) _type_map = Some (Some ty) ->
  render_interface self iface network_state r = Ok r' ->
  ~ (ty = "vlan" /\ o = "parent") ->
  conn_option r' self ty o
  = type_section_option ty iface (rendered_mtu iface) o.
Proof.
  intros Hty H Ho.
  destruct (render_interface_pre_finish _ _ _ _ _ _ Hty H)
    as [cfg0 [cfg3 [cfg' [_ [H' [Hf [Ht _]]]]]]].
  unfold conn_option. rewrite H', <- (Ht o Ho).
  apply finish_extends in Hf. destruct Hf as [_ [_ Hf]]. apply Hf.
  destruct (type_map_values _ _ Hty) as [-> | [-> | [-> | [-> | ->]]]];
    covers_eval.
Qed.

Lemma matched_by_mac_finish ty iface mtu :
  ty = "ethernet" \/ ty = "vlan" \/ ty = "bond" \/ ty = "bridge"
  \/ ty = "infiniband" ->
  String.eqb ty "bridge"
  || negb match type_section_option ty iface mtu "mac-address" with
          | Some _ => true
          | None => false
          end
  = negb (matched_by_mac ty iface mtu).
Proof.
  unfold matched_by_mac, type_section_option, rendered_mac.
  intros [-> | [-> | [-> | [-> | ->]]]]; eqb_eval; cbn [orb andb];
    destruct (if_mac_address iface); try destruct mtu; reflexivity.
Qed.

(** X20: "Finish up".  A profile names its device unless it is matched by MAC
    address: [connection.interface-name] is set to the name of the
    interface, except for an ethernet profile with a MAC address and for
    an infiniband profile with a MAC address and a resolved mtu, which
    carry [mac-address] instead and keep [interface-name] as it was; a
    bridge gets both. *)
Theorem X20_interface_name_unless_matched_by_mac (self : string)
  (iface : interface) (network_state : NetworkState) (r r' : renderer)
  (ty : string) :
  assoc (if_type iface) _type_map = Some (Some ty) ->
  render_interface self iface network_state r = Ok r' ->
  conn_option r' self "connection" "interface-name"
  = (if matched_by_mac ty iface (rendered_mtu iface)
     then conn_option r self "connection" "interface-name"
     else Some (if_name iface))
  /\ (matched_by_mac ty iface (rendered_mtu iface) = true ->
      conn_option r' self ty "mac-address" = rendered_mac iface
      /\ rendered_mac iface <> None)
  /\ (ty = "bridge" ->
      conn_option r' self ty "mac-address" = rendered_mac iface).
Proof.
  intros Hty H.
  pose proof (type_map_values _ _ Hty) as Htys.
  destruct (render_interface_pre_finish _ _ _ _ _ _ Hty H)
    as [cfg0 [cfg3 [cfg' [H0 [H' [Hf [Ht Hn]]]]]]].
  assert (Hmac : get_option cfg3 ty "mac-address"
                 = type_section_option ty iface (rendered_mtu iface)
                                       "mac-address")
    by (apply Ht; intros [_ ?]; discriminate).
  assert (Hfin : get_option cfg' ty "mac-address"
                 = get_option cfg3 ty "mac-address").
  { pose proof Hf as Hf'. apply finish_extends in Hf'.
    destruct Hf' as [_ [_ Hf']]. apply Hf'.
    destruct Htys as [-> | [-> | [-> | [-> | ->]]]]; covers_eval. }
  unfold conn_option. rewrite H0, H'. split; [|split].
  - unfold finish in Hf. rewrite has_option_get_option, Hmac in Hf.
    rewrite (matched_by_mac_finish _ _ _ Htys) in Hf.
    destruct (matched_by_mac ty iface (rendered_mtu iface)); cbn [negb] in Hf.
    + injection Hf as <-. exact Hn.
    + apply cfg_set_inv in Hf. destruct Hf as [-> _].
      rewrite get_option_put. now eqb_eval.
  - intros Hm. rewrite Hfin, Hmac. revert Hm.
    unfold matched_by_mac, type_section_option, rendered_mac.
    destruct (if_mac_address iface) as [mac|]; [|discriminate].
    destruct Htys as [-> | [-> | [-> | [-> | ->]]]]; eqb_eval;
      cbn [orb andb]; try discriminate;
      destruct (rendered_mtu iface); try discriminate; intros _;
      split; solve [reflexivity|discriminate].
  - intros ->. rewrite Hfin, Hmac. reflexivity.
Qed.

End TypeSectionFacts.

Lemma X19_type_section_is_rebuilt_witness :
  conn_option (get_ok (render_all [wired_iface])) "eth0" "ethernet"
              "wake-on-lan" = Some "64"
  /\ conn_option (get_ok (render_all [stp_bridge_iface])) "br0" "bridge" "stp"
     = Some "false"
  /\ conn_option (get_ok (render_all [stp_bridge_iface])) "br0" "bridge" "mtu"
     = None.
Proof.
  assert (Hw : render_interface "eth0" wired_iface (mk_state [wired_iface])
                 (create_connections [wired_iface] Renderer)
               = Ok (get_ok (render_all [wired_iface])))
    by (vm_compute; reflexivity).
  assert (Hb : render_interface "br0" stp_bridge_iface
                 (mk_state [stp_bridge_iface])
                 (create_connections [stp_bridge_iface] Renderer)
               = Ok (get_ok (render_all [stp_bridge_iface])))
    by (vm_compute; reflexivity).
  split; [|split].
  - rewrite (X19_type_section_is_rebuilt "eth0" wired_iface _ _ _ "ethernet"
               "wake-on-lan" eq_refl Hw);
      [reflexivity|intros [E _]; discriminate E].
  - rewrite (X19_type_section_is_rebuilt "br0" stp_bridge_iface _ _ _ "bridge"
               "stp" eq_refl Hb);
      [reflexivity|intros [E _]; discriminate E].
  - rewrite (X19_type_section_is_rebuilt "br0" stp_bridge_iface _ _ _ "bridge"
               "mtu" eq_refl Hb);
      [reflexivity|intros [E _]; discriminate E].
Defined.

Lemma X20_interface_name_unless_matched_by_mac_witness :
  (conn_option (get_ok (render_all [wired_iface])) "eth0" "connection"
               "interface-name" = None
   /\ conn_option (get_ok (render_all [wired_iface])) "eth0" "ethernet"
                  "mac-address" = Some "52:54:00:AB:CD:EF")
  /\ conn_option (get_ok (render_all [ib_iface])) "ib0" "connection"
                 "interface-name" = Some "ib0".
Proof.
  assert (Hw : render_interface "eth0" wired_iface (mk_state [wired_iface])
                 (create_connections [wired_iface] Renderer)
               = Ok (get_ok (render_all [wired_iface])))
    by (vm_compute; reflexivity).
  assert (Hi : render_interface "ib0" ib_iface (mk_state [ib_iface])
                 (create_connections [ib_iface] Renderer)
               = Ok (get_ok (render_all [ib_iface])))
    by (vm_compute; reflexivity).
  split.
  - destruct (X20_interface_name_unless_matched_by_mac "eth0" wired_iface _ _ _
                "ethernet" eq_refl Hw) as [H1 [H2 _]].
    split.
    + rewrite H1. reflexivity.
    + destruct (H2 eq_refl) as [H3 _]. rewrite H3. reflexivity.
  - destruct (X20_interface_name_unless_matched_by_mac "ib0" ib_iface _ _ _
                "infiniband" eq_refl Hi) as [H1 _].
    rewrite H1. reflexivity.
Defined.

(** ** What a render leaves alone *)

Lemma render_bond_tight mtu cfg cfg' :
  render_bond mtu cfg = Ok cfg' -> extends [Opt "ethernet" "mtu"] cfg cfg'.
Proof.
  unfold render_bond. destruct mtu as [m|].
  - fold (ensure_section "ethernet" cfg). intros H.
    apply cfg_set_inv in H. destruct H as [-> _].
    rewrite put_ensure_section. apply extends_put.
  - intros H. injection H as <-. apply extends_refl.
Qed.

Section SelfFacts.
Context {C : Collaborators}.

Lemma render_own_tight self ty iface network_state r cfg cfg' mtu :
  render_own self ty iface network_state r cfg = Ok (cfg', mtu) ->
  extends (W_self ty iface) cfg cfg'.
Proof.
  intros H. apply render_own_inv in H.
  destruct H as [c1 [st [c3 [c5 [c6 [c7 [H1 [H2 [H3 [_ [H5 [H6 [H7 H8]]]]]]]]]]]]].
  apply init_connectivity_inv in H1. destruct H1 as [H1 _].
  apply render_layer3_inv in H2. destruct H2 as [H2 _].
  apply write_dns_inv in H3. destruct H3 as [H3 _].
  apply render_props_extends in H5.
  set (W := W_self ty iface).
  assert (I1 : incl (W_connectivity iface) W)
    by (subst W; unfold W_self; apply incl_appl, incl_refl).
  assert (I2 : incl [AnyOption ty] W)
    by (subst W; unfold W_self; apply incl_appr, incl_appl; incl_list).
  assert (I4 : incl W_layer3 W).
  { subst W. unfold W_self.
    apply incl_appr, incl_appr, incl_appr, incl_appl, incl_refl. }
  assert (I5 : incl W_dns W).
  { subst W. unfold W_self.
    apply incl_appr, incl_appr, incl_appr, incl_appr, incl_appl, incl_refl. }
  assert (I6 : incl W_mayfail W).
  { eapply incl_tran; [|exact I4]. unfold W_mayfail, W_layer3. incl_list. }
  eapply extends_trans; [eapply extends_incl; [exact I1|exact H1]|].
  eapply extends_trans;
    [eapply extends_incl; [exact I2|apply extends_set_section]|].
  eapply extends_trans; [eapply extends_incl; [exact I4|exact H2]|].
  eapply extends_trans; [eapply extends_incl; [exact I5|exact H3]|].
  eapply extends_trans;
    [eapply extends_incl; [exact I6|apply normalize_mayfail_fn_inv]|].
  eapply extends_trans; [eapply extends_incl; [exact I2|exact H5]|].
  eapply extends_trans.
  { destruct (String.eqb_spec ty "ethernet") as [->|].
    - apply render_ethernet_inv in H6. destruct H6 as [H6 _].
      eapply extends_incl; [exact I2|exact H6].
    - injection H6 as <-. apply extends_refl. }
  eapply extends_trans.
  { destruct (String.eqb_spec ty "vlan") as [->|].
    - apply render_vlan_inv in H7. destruct H7 as [H7 _].
      eapply extends_incl; [exact I2|exact H7].
    - injection H7 as <-. apply extends_refl. }
  destruct (String.eqb_spec ty "bond") as [->|].
  - apply render_bond_tight in H8.
    eapply extends_incl; [|exact H8].
    subst W. unfold W_self. eqb_eval.
    apply incl_appr, incl_appr, incl_appl. incl_list.
  - injection H8 as <-. apply extends_refl.
Qed.

(** The writes of a render to its own profile. *)
Lemma render_interface_tight self iface network_state r r' ty :
  assoc (if_type iface) _type_map = Some (Some ty) ->
  render_interface self iface network_state r = Ok r' ->
  exists cfg0 cfg',
    assoc self (connections r) = Some cfg0
    /\ assoc self (connections r') = Some cfg'
    /\ extends (W_self ty iface) cfg0 cfg'.
Proof.
  intros Hty H.
  destruct (render_interface_inv _ _ _ _ _ _ Hty H)
    as [cfg0 [cfg1 [mtu [r2 [cfg2 [cfg3 [cfg4
          [H0 [Hown [H2 [Hc2 [H3 [H4 ->]]]]]]]]]]]]].
  exists cfg0, cfg4. split; [assumption|].
  split; [cbn [set_conn connections]; apply assoc_set_same|].
  set (W := W_self ty iface).
  assert (I2 : incl [AnyOption ty] W)
    by (subst W; unfold W_self; apply incl_appr, incl_appl; incl_list).
  assert (I3 : incl [Opt "connection" "interface-name"] W)
    by (subst W; unfold W_self; apply incl_appr, incl_appl; incl_list).
  assert (I7 : incl W_port W).
  { subst W. unfold W_self.
    apply incl_appr, incl_appr, incl_appr, incl_appr, incl_appr, incl_refl. }
  eapply extends_trans; [eapply render_own_tight; exact Hown|].
  eapply extends_trans.
  { destruct (String.eqb_spec ty "bridge") as [->|].
    - apply render_bridge_extends in H2. destruct H2 as [H2 _].
      specialize (H2 self). cbn [set_conn connections] in H2.
      rewrite assoc_set_same, Hc2, String.eqb_refl in H2.
      eapply extends_incl; [|exact H2].
      apply incl_app; [exact I2|].
      destruct (mem self (if_bridge_ports iface));
        [exact I7|apply incl_nil_l].
    - injection H2 as <-. cbn [set_conn connections] in Hc2.
      rewrite assoc_set_same in Hc2. injection Hc2 as <-.
      apply extends_refl. }
  eapply extends_trans.
  { destruct (String.eqb_spec ty "infiniband") as [->|].
    - apply render_infiniband_inv in H3. destruct H3 as [H3 _].
      eapply extends_incl; [exact I2|exact H3].
    - injection H3 as <-. apply extends_refl. }
  apply finish_extends in H4.
  eapply extends_incl; [exact I3|exact H4].
Qed.

(** X21: The mtu of a vlan or of a bridge is not rendered.  After the render of
    a vlan or bridge interface its own section has no [mtu], whatever the
    device-level and subnet-level values are, and every other section has
    the [mtu] it had.  No render but that of an ethernet device or of a
    bond with a resolved mtu creates an [ethernet] section. *)
Theorem X21_mtu_of_vlan_and_bridge_is_dropped (self : string) (iface : interface)
  (network_state : NetworkState) (r r' : renderer) (ty : string) :
  assoc (if_type iface) _type_map = Some (Some ty) ->
  render_interface self iface network_state r = Ok r' ->
  (ty = "vlan" \/ ty = "bridge" ->
   forall s, conn_option r' self s "mtu"
             = if String.eqb s ty then None
               else conn_option r self s "mtu")
  /\ (ty <> "ethernet" -> ty <> "bond" ->
      conn_has_section r' self "ethernet"
      = conn_has_section r self "ethernet").
Proof.
  intros Hty H.
  destruct (render_interface_tight _ _ _ _ _ _ Hty H)
    as [cfg0 [cfg' [H0 [H' [_ [Hs Ho]]]]]].
  split.
  - intros Hvb s. destruct (String.eqb_spec s ty) as [->|Hne].
    + destruct (render_interface_pre_finish _ _ _ _ _ _ Hty H)
        as [cfg0' [cfg3 [cfg'' [_ [H'' [Hf [Ht _]]]]]]].
      unfold conn_option. rewrite H''.
      apply finish_extends in Hf. destruct Hf as [_ [_ Hf]].
      rewrite Hf by (destruct Hvb as [-> | ->]; covers_eval).
      rewrite Ht by (intros [_ ?]; discriminate).
      destruct Hvb as [-> | ->]; reflexivity.
    + unfold conn_option. rewrite H0, H'. apply Ho.
      apply not_eq_sym, String.eqb_neq in Hne.
      unfold W_self, W_connectivity, W_layer3, W_dns, W_port.
      destruct (if_bond_master iface); destruct Hvb as [-> | ->];
        unfold covers; cbn [existsb matches app starts_with];
        eqb_eval; cbn [existsb matches app starts_with];
        rewrite Hne; cbn; now rewrite ?andb_false_r.
  - intros He Hb. unfold conn_has_section. rewrite H0, H'. apply Hs.
    intros o. apply String.eqb_neq in He, Hb.
    unfold W_self, W_connectivity, W_layer3, W_dns, W_port.
    rewrite Hb.
    destruct (if_bond_master iface);
      unfold covers; cbn [existsb matches app]; eqb_eval;
      cbn [andb orb]; rewrite He; reflexivity.
Qed.

End SelfFacts.

Lemma X21_mtu_of_vlan_and_bridge_is_dropped_witness :
  if_mtu stp_bridge_iface = Some 1500%Z
  /\ conn_option (get_ok (render_all [stp_bridge_iface])) "br0" "ethernet"
                 "mtu" = None
  /\ conn_has_section (get_ok (render_all [stp_bridge_iface])) "br0"
                      "ethernet" = false.
Proof.
  assert (Hb : render_interface "br0" stp_bridge_iface
                 (mk_state [stp_bridge_iface])
                 (create_connections [stp_bridge_iface] Renderer)
               = Ok (get_ok (render_all [stp_bridge_iface])))
    by (vm_compute; reflexivity).
  destruct (X21_mtu_of_vlan_and_bridge_is_dropped "br0" stp_bridge_iface _ _ _
              "bridge" eq_refl Hb) as [H1 H2].
  split; [reflexivity|]. split.
  - rewrite (H1 (or_intror eq_refl) "ethernet"). reflexivity.
  - rewrite H2 by discriminate. reflexivity.
Defined.

(** ** The profiles that are written *)

Section ValidFacts.
Context {C : Collaborators}.

Lemma render_interface_type self iface network_state r r' ty :
  assoc (if_type iface) _type_map = Some (Some ty) ->
  render_interface self iface network_state r = Ok r' ->
  conn_option r' self "connection" "type" = Some ty.
Proof.
  intros Hty H.
  destruct (render_interface_inv _ _ _ _ _ _ Hty H)
    as [cfg0 [cfg1 [mtu [r2 [cfg2 [cfg3 [cfg4
          [H0 [Hown [H2 [Hc2 [H3 [H4 ->]]]]]]]]]]]]].
  unfold conn_option. cbn [set_conn connections]. rewrite assoc_set_same.
  apply render_own_after_connectivity in Hown.
  destruct Hown as [c1 [H1 [_ [_ Hown]]]].
  apply init_connectivity_inv in H1. destruct H1 as [_ [H1 _]].
  pose proof (type_map_values _ _ Hty) as Htys.
  eapply (render_interface_after_own self iface ty mtu
            (set_conn (warn_mtu iface mtu r) self cfg1) cfg1 r2 cfg2 cfg3 cfg4).
  - cbn [set_conn connections]. apply assoc_set_same.
  - exact H2.
  - exact Hc2.
  - exact H3.
  - exact H4.
  - destruct Htys as [-> | [-> | [-> | [-> | ->]]]]; covers_eval.
  - rewrite Hown; [exact H1|].
    destruct Htys as [-> | [-> | [-> | [-> | ->]]]]; covers_eval.
Qed.

Lemma render_interface_keeps_type self iface network_state r r' q :
  render_interface self iface network_state r = Ok r' ->
  conn_option r q "connection" "type" <> None ->
  conn_option r' q "connection" "type" <> None.
Proof.
  intros H Hq.
  destruct (assoc (if_type iface) _type_map) as [[ty|]|] eqn:Hty.
  - destruct (String.eqb_spec q self) as [->|Hne].
    + rewrite (render_interface_type _ _ _ _ _ _ Hty H). discriminate.
    + erewrite store_extends_conn_option;
        [exact Hq|eapply render_interface_extends; exact H|].
      apply W_render_type. now left.
  - now rewrite (render_interface_unmapped _ _ _ _ _ Hty H).
  - unfold render_interface in H. rewrite Hty in H. discriminate.
Qed.

(** X22: Every interface of a mapped type gets its file.  After a render that
    succeeds, the profile under the key of such an interface is valid,
    and the file named after that key, holding the dump of the profile, is
    among the files written; with pairwise distinct keys the profile has
    the [connection.type] of that interface. *)
Theorem X22_every_mapped_interface_gets_a_file (network_state : NetworkState)
  (target : option string) (r' : renderer) (files : list file_write)
  (iface : interface) (ty : string) :
  render_network_state network_state target Renderer = Ok (r', files) ->
  In iface (iter_interfaces network_state) ->
  assoc (if_type iface) _type_map = Some (Some ty) ->
  (exists cfg',
      assoc (conn_key iface) (connections r') = Some cfg'
      /\ valid cfg' = true
      /\ In {| fw_name := nm_conn_filename (conn_key iface) target;
               fw_content := dump cfg' |} files)
  /\ (NoDup (map conn_key (iter_interfaces network_state)) ->
      conn_option r' (conn_key iface) "connection" "type" = Some ty).
Proof.
  intros H Hin Hty.
  apply render_network_state_inv in H. destruct H as [Hr ->].
  destruct (in_split _ _ Hin) as [l1 [l2 E]]. rewrite E in Hr.
  apply render_connections_app in Hr. destruct Hr as [r1 [Hr1 Hr2]].
  unfold render_connections in Hr2. cbn [foldM] in Hr2.
  bind_inv_as Hr2 r2 E2. bind_inv_as E2 c Ec.
  fold (render_connections network_state l2 r2) in Hr2.
  pose proof (render_interface_type _ _ _ _ _ _ Hty E2) as Ht2.
  split.
  - assert (Ht' : conn_option r' (conn_key iface) "connection" "type"
                  <> None).
    { revert Hr2.
      apply (render_connections_ind
               (fun r0 => conn_option r0 (conn_key iface) "connection" "type"
                          <> None)).
      - intros ra rb j _ Ha Hj.
        eapply render_interface_keeps_type; eassumption.
      - rewrite Ht2. discriminate. }
    unfold conn_option in Ht'.
    destruct (assoc (conn_key iface) (connections r')) as [cfg'|] eqn:Ec';
      [|now elim Ht'].
    exists cfg'. split; [reflexivity|].
    assert (Hv : valid cfg' = true).
    { unfold valid. rewrite has_option_get_option.
      now destruct (get_option cfg' "connection" "type"). }
    split; [exact Hv|].
    unfold write_files. apply in_app_iff. left.
    apply (in_map (fun entry =>
                     {| fw_name := nm_conn_filename (fst entry) target;
                        fw_content := dump (snd entry) |})
                  _ (conn_key iface, cfg')).
    apply filter_In. split; [|exact Hv].
    clear - Ec'. induction (connections r') as [|[k v] l IH];
      [discriminate|].
    cbn [assoc] in Ec'.
    destruct (String.eqb_spec (conn_key iface) k) as [<-|].
    + injection Ec' as <-. now left.
    + right. now apply IH.
  - intros Hnd. rewrite <- Ht2. revert Hr2.
    apply (render_connections_ind
             (fun r0 => conn_option r0 (conn_key iface) "connection" "type"
                        = conn_option r2 (conn_key iface) "connection"
                                      "type")); [|reflexivity].
    intros ra rb j Hj Ha Hrj. rewrite <- Ha.
    eapply store_extends_conn_option;
      [eapply render_interface_extends; exact Hrj|].
    apply W_render_type. left. intros Heq.
    rewrite E, map_app in Hnd. cbn [map] in Hnd.
    apply NoDup_remove_2 in Hnd. apply Hnd.
    apply in_app_iff. right. rewrite Heq. now apply in_map.
Qed.

End ValidFacts.

Lemma X22_every_mapped_interface_gets_a_file_witness :
  exists cfg',
    assoc "id0" (connections (get_ok (render_all [loopback_iface; named_iface])))
    = Some cfg'
    /\ valid cfg' = true
    /\ In {| fw_name := nm_conn_filename "id0" None;
             fw_content := dump cfg' |}
          (write_files None
             (get_ok (render_all [loopback_iface; named_iface]))).
Proof.
  assert (Hrun : render_network_state (mk_state [loopback_iface; named_iface])
                   None Renderer
                 = Ok (get_ok (render_all [loopback_iface; named_iface]),
                       write_files None
                         (get_ok (render_all [loopback_iface; named_iface]))))
    by (vm_compute; reflexivity).
  destruct (X22_every_mapped_interface_gets_a_file _ _ _ _ named_iface "ethernet"
              Hrun (or_intror (or_introl eq_refl)) eq_refl) as [H _].
  exact H.
Defined.

(** ** References that resolve *)

Lemma con_ref_registered r con_id u :
  conn_option r con_id "connection" "uuid" = Some u ->
  con_ref r con_id = Ok u.
Proof.
  unfold conn_option, con_ref, con_uuid.
  destruct (assoc con_id (connections r)); [|discriminate].
  apply cfg_get_some.
Qed.

Lemma con_ref_set_conn_other r self cfg con_id :
  con_id <> self -> con_ref (set_conn r self cfg) con_id = con_ref r con_id.
Proof.
  intros Hne. unfold con_ref. cbn [set_conn connections].
  rewrite assoc_set_other by congruence. reflexivity.
Qed.

Section ReferenceFacts.
Context {C : Collaborators}.

Lemma render_interface_master_ref self iface network_state r r' ty master
  ref :
  assoc (if_type iface) _type_map = Some (Some ty) ->
  render_interface self iface network_state r = Ok r' ->
  if_bond_master iface = Some master -> master <> self ->
  con_ref r master = Ok ref ->
  conn_option r' self "connection" "slave-type" = Some "bond"
  /\ conn_option r' self "connection" "master" = Some ref.
Proof.
  intros Hty H Hbm Hne Hreg.
  pose proof (type_map_values _ _ Hty) as Htys.
  destruct (render_interface_inv _ _ _ _ _ _ Hty H)
    as [cfg0 [cfg1 [mtu [r2 [cfg2 [cfg3 [cfg4
          [H0 [Hown [H2 [Hc2 [H3 [H4 ->]]]]]]]]]]]]].
  apply render_own_after_connectivity in Hown.
  destruct Hown as [c1 [H1 [_ [_ Hframe]]]].
  apply init_connectivity_inv in H1. destruct H1 as [_ [_ H1]].
  rewrite Hbm in H1. destruct H1 as [c [ref' [Href [Hst Hm]]]].
  rewrite con_ref_set_conn_other, Hreg in Href by assumption.
  injection Href as <-.
  assert (S1 : get_option cfg1 "connection" "slave-type" = Some "bond").
  { rewrite Hframe; [assumption|].
    destruct Htys as [-> | [-> | [-> | [-> | ->]]]]; covers_eval. }
  assert (M1 : get_option cfg1 "connection" "master" = Some ref).
  { rewrite Hframe; [assumption|].
    destruct Htys as [-> | [-> | [-> | [-> | ->]]]]; covers_eval. }
  assert (Hr1 : assoc self (connections
                              (set_conn (warn_mtu iface mtu r) self cfg1))
                = Some cfg1)
    by (cbn [set_conn connections]; apply assoc_set_same).
  unfold conn_option. cbn [set_conn connections]. rewrite assoc_set_same.
  split; eapply render_interface_after_own; try eassumption;
    destruct Htys as [-> | [-> | [-> | [-> | ->]]]]; covers_eval.
Qed.

Lemma render_interface_parent_ref self iface network_state r r' dev ref :
  if_type iface = "vlan" ->
  render_interface self iface network_state r = Ok r' ->
  if_vlan_raw_device iface = Some dev -> dev <> self ->
  con_ref r dev = Ok ref ->
  conn_option r' self "vlan" "parent" = Some ref.
Proof.
  intros Hvlan H Hdev Hne Hreg.
  assert (Hty : assoc (if_type iface) _type_map = Some (Some "vlan"))
    by (rewrite Hvlan; reflexivity).
  destruct (render_interface_inv _ _ _ _ _ _ Hty H)
    as [cfg0 [cfg1 [mtu [r2 [cfg2 [cfg3 [cfg4
          [H0 [Hown [H2 [Hc2 [H3 [H4 ->]]]]]]]]]]]]].
  apply render_own_inv in Hown.
  destruct Hown as [c1 [st [c3 [c5 [c6 [c7 [_ [_ [_ [_ [_ [_ [H7 H8]]]]]]]]]]]]].
  eqb_eval. injection H8 as <-. injection H2 as <-. injection H3 as <-.
  cbn [set_conn connections] in Hc2. rewrite assoc_set_same in Hc2.
  injection Hc2 as <-.
  apply render_vlan_inv in H7. destruct H7 as [_ H7]. rewrite Hdev in H7.
  destruct H7 as [ref' [Href Hparent]].
  rewrite con_ref_set_conn_other, Hreg in Href by assumption.
  injection Href as <-.
  apply finish_extends in H4. destruct H4 as [_ [_ H4]].
  unfold conn_option. cbn [set_conn connections]. rewrite assoc_set_same.
  rewrite H4 by covers_eval. assumption.
Qed.

(** What another interface's render finds set in a profile stays set: a
    bridge gives its ports defaults only. *)
Lemma render_interface_keeps_other self iface network_state r r' q s o v :
  q <> self ->
  render_interface self iface network_state r = Ok r' ->
  conn_option r q s o = Some v -> conn_option r' q s o = Some v.
Proof.
  intros Hne H Hq.
  destruct (assoc (if_type iface) _type_map) as [[ty|]|] eqn:Hty.
  - destruct (render_interface_inv _ _ _ _ _ _ Hty H)
      as [cfg0 [cfg1 [mtu [r2 [cfg2 [cfg3 [cfg4
            [H0 [Hown [H2 [Hc2 [H3 [H4 ->]]]]]]]]]]]]].
    assert (Hs : String.eqb self q = false)
      by (apply String.eqb_neq; congruence).
    rewrite conn_option_set_conn, Hs.
    assert (Hrr : conn_option (set_conn (warn_mtu iface mtu r) self cfg1)
                              q s o = Some v).
    { rewrite conn_option_set_conn, Hs. unfold conn_option.
      rewrite warn_mtu_connections. exact Hq. }
    destruct (String.eqb ty "bridge").
    + unfold render_bridge in H2. bind_inv_as H2 ra Ea.
      bind_inv_as H2 cA EA. bind_inv_as H2 cB EB. injection H2 as <-.
      rewrite conn_option_set_conn, Hs.
      eapply foldM_render_bridge_port_keeps; eassumption.
    + now injection H2 as <-.
  - now rewrite (render_interface_unmapped _ _ _ _ _ Hty H).
  - unfold render_interface in H. rewrite Hty in H. discriminate.
Qed.

Lemma W_render_parent self iface q :
  q <> self -> covers (W_render self iface q) "vlan" "parent" = false.
Proof.
  intros Hne. unfold W_render.
  destruct (assoc (if_type iface) _type_map) as [[ty|]|]; [|reflexivity..].
  replace (String.eqb q self) with false
    by (symmetry; now apply String.eqb_neq).
  cbn [app].
  destruct (String.eqb ty "bridge" && mem q (if_bridge_ports iface));
    reflexivity.
Qed.

(** X23: The two passes resolve a reference whatever the order of the
    interfaces.  With pairwise distinct keys, a bond slave whose master is
    the key of another interface [M] of the network state ends with
    [slave-type=bond] and with the identity token of [M]'s profile as
    [connection.master], and a vlan whose raw device is the key of [M]
    ends with that token as [vlan.parent], whether [M] comes before or
    after it in the input, and also when a bridge names the slave as a
    port. *)
Theorem X23_references_resolve_in_any_order (network_state : NetworkState)
  (target : option string) (r' : renderer) (files : list file_write)
  (iface M : interface) (ty : string) :
  render_network_state network_state target Renderer = Ok (r', files) ->
  NoDup (map conn_key (iter_interfaces network_state)) ->
  In iface (iter_interfaces network_state) ->
  In M (iter_interfaces network_state) ->
  M <> iface ->
  assoc (if_type iface) _type_map = Some (Some ty) ->
  (if_bond_master iface = Some (conn_key M) ->
   conn_option r' (conn_key iface) "connection" "slave-type" = Some "bond"
   /\ conn_option r' (conn_key iface) "connection" "master"
      = Some (UUID.uuid5 CI_NM_UUID (if_name M)))
  /\ (if_type iface = "vlan" ->
      if_vlan_raw_device iface = Some (conn_key M) ->
      conn_option r' (conn_key iface) "vlan" "parent"
      = Some (UUID.uuid5 CI_NM_UUID (if_name M))).
Proof.
  intros H Hnd Hin HM Hneq Hty.
  apply render_network_state_inv in H. destruct H as [Hr _].
  set (r0 := create_connections (iter_interfaces network_state) Renderer)
    in *.
  assert (Hkey : conn_key M <> conn_key iface).
  { intros E. apply Hneq. clear - Hnd Hin HM E.
    induction (iter_interfaces network_state) as [|a l IH]; [destruct Hin|].
    cbn [map] in Hnd. inversion Hnd as [|? ? Hnotin Hnd']; subst.
    destruct Hin as [->|Hin], HM as [->|HM]; try reflexivity.
    - elim Hnotin. rewrite <- E. now apply in_map.
    - elim Hnotin. rewrite E. now apply in_map.
    - now apply IH. }
  assert (Hu0 : conn_option r0 (conn_key M) "connection" "uuid"
                = Some (UUID.uuid5 CI_NM_UUID (if_name M))).
  { unfold conn_option. subst r0.
    rewrite (create_connections_assoc _ _ _ Hnd HM).
    apply NMConnection_uuid. }
  destruct (in_split _ _ Hin) as [l1 [l2 E]]. rewrite E in Hr, Hnd.
  apply render_connections_app in Hr. destruct Hr as [r1 [Hr1 Hr2]].
  unfold render_connections in Hr2. cbn [foldM] in Hr2.
  bind_inv_as Hr2 r2 E2. bind_inv_as E2 c Ec.
  fold (render_connections network_state l2 r2) in Hr2.
  assert (Href : con_ref r1 (conn_key M)
                 = Ok (UUID.uuid5 CI_NM_UUID (if_name M))).
  { apply con_ref_registered.
    now rewrite (render_connections_uuid _ _ _ _ _ Hr1). }
  assert (Hlater : forall j, In j l2 -> conn_key iface <> conn_key j).
  { intros j Hj Heq. rewrite map_app in Hnd. cbn [map] in Hnd.
    apply NoDup_remove_2 in Hnd. apply Hnd.
    apply in_app_iff. right. rewrite Heq. now apply in_map. }
  assert (Hkeep : forall s o v,
             conn_option r2 (conn_key iface) s o = Some v ->
             conn_option r' (conn_key iface) s o = Some v).
  { intros s o v Hv. revert Hr2.
    apply (render_connections_ind
             (fun ra => conn_option ra (conn_key iface) s o = Some v));
      [|exact Hv].
    intros ra rb j Hj Ha Hrj.
    eapply render_interface_keeps_other; [|exact Hrj|exact Ha].
    now apply Hlater. }
  split.
  - intros Hbm.
    destruct (render_interface_master_ref _ _ _ _ _ _ _ _ Hty E2 Hbm Hkey Href)
      as [S M2].
    split; now apply Hkeep.
  - intros Hvlan Hdev. apply Hkeep.
    eapply render_interface_parent_ref; eassumption.
Qed.

End ReferenceFacts.

Lemma X23_references_resolve_in_any_order_witness :
  conn_option (get_ok (render_all [slave_iface; bond_iface]))
              "eth1" "connection" "master"
  = Some (UUID.uuid5 CI_NM_UUID "bond0")
  /\ conn_option (get_ok (render_all [bond_iface; slave_iface]))
                 "eth1" "connection" "master"
     = Some (UUID.uuid5 CI_NM_UUID "bond0").
Proof.
  assert (H1 : render_network_state (mk_state [slave_iface; bond_iface])
                 None Renderer
               = Ok (get_ok (render_all [slave_iface; bond_iface]),
                     write_files None
                       (get_ok (render_all [slave_iface; bond_iface]))))
    by (vm_compute; reflexivity).
  assert (H2 : render_network_state (mk_state [bond_iface; slave_iface])
                 None Renderer
               = Ok (get_ok (render_all [bond_iface; slave_iface]),
                     write_files None
                       (get_ok (render_all [bond_iface; slave_iface]))))
    by (vm_compute; reflexivity).
  assert (Hnd1 : NoDup (map conn_key [slave_iface; bond_iface])).
  { cbn. repeat constructor; cbn; intuition discriminate. }
  assert (Hnd2 : NoDup (map conn_key [bond_iface; slave_iface])).
  { cbn. repeat constructor; cbn; intuition discriminate. }
  assert (Hne : bond_iface <> slave_iface) by discriminate.
  split.
  - destruct (X23_references_resolve_in_any_order _ _ _ _ slave_iface bond_iface
                "ethernet" H1 Hnd1 (or_introl eq_refl)
                (or_intror (or_introl eq_refl)) Hne eq_refl) as [Hm _].
    apply Hm. reflexivity.
  - destruct (X23_references_resolve_in_any_order _ _ _ _ slave_iface bond_iface
                "ethernet" H2 Hnd2 (or_intror (or_introl eq_refl))
                (or_introl eq_refl) Hne eq_refl) as [Hm _].
    apply Hm. reflexivity.
Defined.

(** ** The dump of a profile *)

Lemma split_at_char c a b x y :
  no_char c a = true -> no_char c b = true ->
  a ++ String c x = b ++ String c y -> a = b /\ x = y.
Proof.
  revert b. induction a as [|a0 a IH]; intros [|b0 b] Ha Hb H;
    cbn [append no_char] in *.
  - injection H as <-. split; reflexivity.
  - injection H as <- _. rewrite Ascii.eqb_refl in Hb. discriminate.
  - injection H as -> _. rewrite Ascii.eqb_refl in Ha. discriminate.
  - injection H as <- H.
    apply andb_true_iff in Ha, Hb. destruct Ha as [_ Ha], Hb as [_ Hb].
    destruct (IH b Ha Hb H) as [-> ->]. split; reflexivity.
Qed.

Lemma no_char_append c a b :
  no_char c (a ++ b) = no_char c a && no_char c b.
Proof.
  induction a as [|a0 a IH]; cbn [append no_char]; [reflexivity|].
  now rewrite IH, andb_assoc.
Qed.

Lemma concat_empty_cons x l : String.concat "" (x :: l) = x ++ String.concat "" l.
Proof.
  destruct l; cbn [String.concat]; [now rewrite append_nil_r|reflexivity].
Qed.

Lemma option_lines_inj l1 :
  forall l2 x y,
    forallb option_safe l1 = true -> forallb option_safe l2 = true ->
    String.concat "" (map option_line l1) ++ nl ++ x
    = String.concat "" (map option_line l2) ++ nl ++ y ->
    l1 = l2 /\ x = y.
Proof.
  assert (Hline : forall kv rest,
             option_safe kv = true ->
             option_line kv ++ rest
             = (fst kv ++ "=" ++ snd kv) ++ String newline rest
             /\ no_char newline (fst kv ++ "=" ++ snd kv) = true).
  { intros [k v] rest Hs. unfold option_safe, option_line in *.
    cbn [fst snd] in *.
    apply andb_true_iff in Hs. destruct Hs as [Hs Hv].
    apply andb_true_iff in Hs. destruct Hs as [Hk _].
    split.
    - unfold nl. repeat rewrite append_assoc. reflexivity.
    - rewrite no_char_append, Hk. cbn [append no_char andb].
      rewrite Hv. reflexivity. }
  induction l1 as [|kv1 l1 IH]; intros [|kv2 l2] x y H1 H2 H;
    cbn [map forallb] in *; rewrite ?concat_empty_cons in H.
  - cbn in H. injection H as <-. split; reflexivity.
  - apply andb_true_iff in H2. destruct H2 as [H2 _].
    rewrite append_assoc in H.
    destruct (Hline kv2 (String.concat "" (map option_line l2) ++ nl ++ y) H2)
      as [E N]. rewrite E in H.
    change (nl ++ x) with ("" ++ String newline x) in H.
    apply split_at_char in H; [|reflexivity|exact N].
    destruct H as [H _]. destruct (fst kv2); discriminate.
  - apply andb_true_iff in H1. destruct H1 as [H1 _].
    rewrite append_assoc in H.
    destruct (Hline kv1 (String.concat "" (map option_line l1) ++ nl ++ x) H1)
      as [E N]. rewrite E in H.
    change (nl ++ y) with ("" ++ String newline y) in H.
    apply split_at_char in H; [|exact N|reflexivity].
    destruct H as [H _]. destruct (fst kv1); discriminate.
  - apply andb_true_iff in H1, H2.
    destruct H1 as [S1 H1], H2 as [S2 H2].
    rewrite !append_assoc in H.
    destruct (Hline kv1 (String.concat "" (map option_line l1) ++ nl ++ x) S1)
      as [E1 N1].
    destruct (Hline kv2 (String.concat "" (map option_line l2) ++ nl ++ y) S2)
      as [E2 N2].
    rewrite E1, E2 in H.
    apply split_at_char in H; [|exact N1|exact N2].
    destruct H as [Hkv Hrest].
    destruct (IH _ _ _ H1 H2 Hrest) as [-> ->].
    split; [|reflexivity]. f_equal.
    unfold option_safe in S1, S2.
    apply andb_true_iff in S1, S2.
    destruct S1 as [S1 _], S2 as [S2 _].
    apply andb_true_iff in S1, S2.
    destruct S1 as [_ K1], S2 as [_ K2].
    destruct kv1 as [k1 v1], kv2 as [k2 v2]. cbn [fst snd] in *.
    change (k1 ++ String "=" v1 = k2 ++ String "=" v2) in Hkv.
    apply split_at_char in Hkv; [|assumption..].
    destruct Hkv as [-> ->]. reflexivity.
Qed.

Lemma write_cons entry cfg :
  write (entry :: cfg)
  = ("[" ++ fst entry ++ "]") ++ String newline
      (String.concat "" (map option_line (snd entry)) ++ nl ++ write cfg).
Proof.
  unfold write. cbn [map]. rewrite concat_empty_cons.
  unfold write_section. fold option_line.
  change (fun kv : string * string => fst kv ++ "=" ++ snd kv ++ nl)
    with option_line.
  unfold nl. repeat rewrite append_assoc. reflexivity.
Qed.

Lemma write_injective cfg1 :
  forall cfg2,
    keyfile_safe cfg1 = true -> keyfile_safe cfg2 = true ->
    write cfg1 = write cfg2 -> cfg1 = cfg2.
Proof.
  induction cfg1 as [|[n1 l1] cfg1 IH]; intros [|[n2 l2] cfg2] H1 H2 H.
  - reflexivity.
  - rewrite write_cons in H. discriminate.
  - rewrite write_cons in H. discriminate.
  - rewrite !write_cons in H. cbn [fst snd] in H.
    cbn [keyfile_safe forallb fst snd] in H1, H2.
    apply andb_true_iff in H1, H2.
    destruct H1 as [S1 H1], H2 as [S2 H2].
    apply andb_true_iff in S1, S2.
    destruct S1 as [N1 L1], S2 as [N2 L2].
    apply split_at_char in H.
    + destruct H as [Hn Hrest]. injection Hn as Hn.
      apply append_inv_tail in Hn. subst n2.
      destruct (option_lines_inj _ _ _ _ L1 L2 Hrest) as [-> Hw].
      f_equal. now apply IH.
    + cbn [append no_char]. rewrite no_char_append, N1. reflexivity.
    + cbn [append no_char]. rewrite no_char_append, N2. reflexivity.
Qed.

(** X24: The dump of a profile can be read back.  Two profiles whose names
    and values the key file format keeps apart (no line break in a
    section name, an option name or a value, no equals sign in an option
    name) and whose dumps are equal are the same profile: the sections
    and the options of each, in their order, with their values. *)
Theorem X24_dump_injective (cfg1 cfg2 : config) :
  keyfile_safe cfg1 = true -> keyfile_safe cfg2 = true ->
  dump cfg1 = dump cfg2 -> cfg1 = cfg2.
Proof.
  intros H1 H2 H. unfold dump in H.
  apply append_inv_head in H. now apply write_injective.
Qed.

Lemma X24_dump_injective_witness :
  NMConnection "eth0"
  = [("connection",
      [("id", "cloud-init eth0");
       ("uuid", "1dd9a779-d327-56e1-8454-c65e2556c12c");
       ("autoconnect-priority", "120")]);
     ("user", [("org.freedesktop.NetworkManager.origin", "cloud-init")])].
Proof.
  apply X24_dump_injective; vm_compute; reflexivity.
Defined.

(** Without the condition on the names, two profiles can share a dump. *)
Remark dump_collision :
  dump [("ipv4", [("route1_options", "mtu=1400")])]
  = dump [("ipv4", [("route1_options=mtu", "1400")])].
Proof. reflexivity. Qed.

(** ** The identity token *)






(** ** The routes of a profile *)

Section RouteOrder.
Context {C : Collaborators}.

Lemma add_route_numbered family rt cfg cfg' vals :
  _add_route rt cfg = Ok cfg' ->
  numbered_are cfg family "route" vals ->
  numbered_are cfg' family "route"
    (vals ++ (if String.eqb (route_family rt) family
              then [route_value rt] else [])).
Proof.
  intros H Hv. destruct (_add_route_eq rt cfg) as [n [Hlow E]].
  rewrite E in H. injection H as <-. unfold add_route_fn.
  set (c1 := put (route_family rt) ("route" ++ str_nat n) (route_value rt) cfg).
  assert (V1 : numbered_are c1 family "route"
                 (vals ++ (if String.eqb (route_family rt) family
                           then [route_value rt] else []))).
  { subst c1. destruct (String.eqb_spec (route_family rt) family) as [<-|Hne].
    - now apply numbered_are_add.
    - rewrite app_nil_r.
      eapply numbered_are_extends; [apply extends_put| |exact Hv].
      intros i. cbn. apply String.eqb_neq in Hne. now rewrite Hne. }
  destruct (rt_mtu rt) as [mtu|]; [|exact V1].
  eapply numbered_are_extends; [apply extends_put| |exact V1].
  intros i. cbn [covers existsb matches].
  replace (String.eqb (("route" ++ str_nat n) ++ "_options")
                      ("route" ++ str_nat i)) with false.
  - now rewrite andb_false_r.
  - symmetry. apply String.eqb_neq. intros Heq. symmetry in Heq.
    revert Heq. apply numbered_key_not_options.
Qed.

Lemma foldM_add_route_numbered family routes :
  forall cfg cfg' vals,
    foldM (fun cfg rt => _add_route rt cfg) routes cfg = Ok cfg' ->
    numbered_are cfg family "route" vals ->
    numbered_are cfg' family "route"
      (vals ++ map route_value
                   (filter (fun rt => String.eqb (route_family rt) family)
                           routes)).
Proof.
  induction routes as [|rt routes IH]; intros cfg cfg' vals H Hv;
    cbn [foldM] in H.
  - injection H as <-. cbn. now rewrite app_nil_r.
  - bind_inv_as H c1 E1. cbn [filter].
    pose proof (add_route_numbered family _ _ _ _ E1 Hv) as V1.
    specialize (IH _ _ _ H V1).
    destruct (String.eqb (route_family rt) family); cbn [map].
    + now rewrite <- app_assoc in IH.
    + now rewrite app_nil_r in IH.
Qed.

Lemma routes_of_app family l1 l2 :
  routes_of family (l1 ++ l2)
  = (routes_of family l1 ++ routes_of family l2)%list.
Proof. apply flat_map_app. Qed.

Lemma render_subnet_routes family st sn st' vals :
  render_subnet st sn = Ok st' ->
  numbered_are (l3_config st) family "route" vals ->
  numbered_are (l3_config st') family "route"
               (vals ++ routes_of family [sn]).
Proof.
  unfold render_subnet, routes_of. cbn [flat_map].
  rewrite app_nil_r. intros H Hv.
  set (f := if subnet_is_ipv6 sn then "ipv6" else "ipv4") in *.
  bind_inv_as H c1 E1. bind_inv_as H c2 E2. bind_inv_as H c3 E3.
  bind_inv_as H c4 E4. injection H as <-. cbn [l3_config].
  apply _set_ip_method_extends in E1.
  assert (V1 : numbered_are c1 family "route" vals).
  { eapply numbered_are_extends; [exact E1| |exact Hv].
    intros i. unfold covers. cbn [existsb matches].
    replace (String.eqb "method" ("route" ++ str_nat i)) with false
      by reflexivity.
    replace (String.eqb "may-fail" ("route" ++ str_nat i)) with false
      by reflexivity.
    now rewrite !andb_false_r. }
  assert (V2 : numbered_are c2 family "route" vals).
  { destruct (sn_address sn); [|now injection E2 as <-].
    apply _add_address_extends in E2.
    eapply numbered_are_extends; [exact E2| |exact V1].
    intros i. cbn [covers existsb matches].
    now rewrite address_not_route, andb_false_r. }
  assert (V3 : numbered_are c3 family "route" vals).
  { destruct (sn_gateway sn) as [gw|]; [|now injection E3 as <-].
    apply cfg_set_inv in E3. destruct E3 as [-> _].
    eapply numbered_are_extends; [apply extends_put| |exact V2].
    intros i. cbn.
    replace (String.eqb "gateway" ("route" ++ str_nat i)) with false
      by reflexivity.
    now rewrite !andb_false_r. }
  exact (foldM_add_route_numbered family _ _ _ _ E4 V3).
Qed.

Lemma foldM_render_subnet_routes family subnets :
  forall st st' vals,
    foldM render_subnet subnets st = Ok st' ->
    numbered_are (l3_config st) family "route" vals ->
    numbered_are (l3_config st') family "route"
                 (vals ++ routes_of family subnets).
Proof.
  induction subnets as [|sn subnets IH]; intros st st' vals H Hv;
    cbn [foldM] in H.
  - injection H as <-. cbn. now rewrite app_nil_r.
  - bind_inv_as H st1 E1.
    change (sn :: subnets) with ([sn] ++ subnets)%list.
    rewrite routes_of_app, app_assoc.
    eapply IH; [exact H|].
    eapply render_subnet_routes; eassumption.
Qed.

(** X26: The routes of a profile.  Routes are numbered per family of their own
    network, not of the subnet that carries them: after the render of an
    interface into a profile that had no numbered route in a family, the
    keys [route1..routeN] of that family hold exactly the routes of that
    family, in the order of the subnets and of the routes of each, every
    one as network/prefix with the gateway appended when there is one. *)
Theorem X26_routes_follow_input_order (self : string) (iface : interface)
  (network_state : NetworkState) (r r' : renderer) (ty family : string) :
  family = "ipv4" \/ family = "ipv6" ->
  assoc (if_type iface) _type_map = Some (Some ty) ->
  render_interface self iface network_state r = Ok r' ->
  (forall i, conn_option r self family ("route" ++ str_nat i) = None) ->
  forall i,
    conn_option r' self family ("route" ++ str_nat i)
    = match i with
      | O => None
      | S j => nth_error (routes_of family (if_subnets iface)) j
      end.
Proof.
  intros Hfam Hty H Hnone i.
  assert (Hcov : forall i, covers (W_dns ++ W_mayfail) family
                                  ("route" ++ str_nat i) = false).
  { intros k. unfold W_dns, W_mayfail, covers. cbn [existsb matches app].
    replace (String.eqb "dns" ("route" ++ str_nat k)) with false
      by reflexivity.
    replace (String.eqb "dns-search" ("route" ++ str_nat k)) with false
      by reflexivity.
    replace (String.eqb "may-fail" ("route" ++ str_nat k)) with false
      by reflexivity.
    now rewrite !andb_false_r. }
  destruct (render_interface_l3_option _ _ _ _ _ _ family Hfam Hty H)
    as [cfg0 [c2 [st [H0 [Hl3 Ho]]]]].
  destruct (Ho _ (Hcov i)) as [_ ->].
  apply render_layer3_steps in Hl3. destruct Hl3 as [cfg1 [E1 Hf]].
  assert (V1 : numbered_are cfg1 family "route" []).
  { eapply numbered_are_extends; [exact E1| |].
    - intros k. unfold covers. cbn [existsb matches].
      replace (String.eqb "method" ("route" ++ str_nat k)) with false
        by reflexivity.
      replace (String.eqb "may-fail" ("route" ++ str_nat k)) with false
        by reflexivity.
      now rewrite !andb_false_r.
    - intros k. destruct (Ho _ (Hcov k)) as [-> _].
      specialize (Hnone k). unfold conn_option in Hnone.
      rewrite H0 in Hnone. rewrite Hnone. now destruct k as [|[|k]]. }
  exact (foldM_render_subnet_routes family _ _ _ _ Hf V1 i).
Qed.

End RouteOrder.

Lemma X26_routes_follow_input_order_witness :
  conn_option (get_ok (render_all [routed_iface])) "eth0" "ipv4"
              ("route" ++ str_nat 2)
  = Some "192.168.0.0/16,10.0.0.1"
  /\ conn_option (get_ok (render_all [routed_iface])) "eth0" "ipv6"
                 ("route" ++ str_nat 1)
     = Some "fd00::/64,fd00::1".
Proof.
  assert (Hrun : render_interface "eth0" routed_iface
                   (mk_state [routed_iface])
                   (create_connections [routed_iface] Renderer)
                 = Ok (get_ok (render_all [routed_iface])))
    by (vm_compute; reflexivity).
  split.
  - assert (Hnone : forall i,
               conn_option (create_connections [routed_iface] Renderer)
                           "eth0" "ipv4" ("route" ++ str_nat i) = None)
      by (intros i; reflexivity).
    rewrite (X26_routes_follow_input_order "eth0" routed_iface _ _ _
               "ethernet" "ipv4" (or_introl eq_refl) eq_refl Hrun Hnone 2).
    reflexivity.
  - assert (Hnone : forall i,
               conn_option (create_connections [routed_iface] Renderer)
                           "eth0" "ipv6" ("route" ++ str_nat i) = None)
      by (intros i; reflexivity).
    rewrite (X26_routes_follow_input_order "eth0" routed_iface _ _ _
               "ethernet" "ipv6" (or_intror eq_refl) eq_refl Hrun Hnone 1).
    reflexivity.
Defined.

(** ** The reach of a render *)

Lemma foldM_render_bridge_port_assoc self ports q :
  forall r r',
    foldM (render_bridge_port self) ports r = Ok r' ->
    ~ In q ports ->
    assoc q (connections r') = assoc q (connections r).
Proof.
  induction ports as [|p ports IH]; intros r r' H Hq; cbn [foldM] in H.
  - now injection H as <-.
  - bind_inv_as H r1 E1. cbn [In] in Hq.
    rewrite (IH _ _ H) by tauto.
    apply render_bridge_port_inv in E1.
    destruct E1 as [pcfg [uuid [_ [_ ->]]]].
    cbn [set_conn connections]. apply assoc_set_other. tauto.
Qed.

Section ReachFacts.
Context {C : Collaborators}.

Lemma W_render_identity self iface q s o :
  (s = "user"
   \/ (s = "connection"
       /\ (o = "id" \/ o = "uuid" \/ o = "autoconnect-priority"))) ->
  covers (W_render self iface q) s o = false.
Proof.
  intros Hso. unfold W_render.
  destruct (assoc (if_type iface) _type_map) as [[ty|]|] eqn:Hty;
    try reflexivity.
  rewrite covers_app. apply orb_false_intro.
  - destruct (String.eqb q self); [|reflexivity].
    unfold W_own. rewrite !covers_app.
    destruct (type_map_values _ _ Hty) as [-> | [-> | [-> | [-> | ->]]]];
      destruct Hso as [-> | [-> [-> | [-> | ->]]]];
      repeat (apply orb_false_intro); covers_eval.
  - destruct (String.eqb ty "bridge" && mem q (if_bridge_ports iface));
      destruct Hso as [-> | [-> [-> | [-> | ->]]]]; covers_eval.
Qed.

(** X27: The reach of [render_interface].  A render adds and removes no
    profile.  A profile that is neither the rendered one nor a port of
    the rendered bridge is returned as it is.  In the profile of a port
    the bridge may write [connection.slave-type] and [connection.master]
    only, and only when they are unset.  In no profile, the rendered one
    included, does a render change the id, the identity token, the
    autoconnect priority or the [user] section. *)
Theorem X27_render_reaches_own_profile_and_ports (self : string)
  (iface : interface) (network_state : NetworkState) (r r' : renderer) :
  render_interface self iface network_state r = Ok r' ->
  (forall q, assoc q (connections r') = None
             <-> assoc q (connections r) = None)
  /\ (forall q,
         q <> self ->
         ~ (if_type iface = "bridge" /\ In q (if_bridge_ports iface)) ->
         assoc q (connections r') = assoc q (connections r))
  /\ (forall q s o,
         q <> self ->
         (forall v, conn_option r q s o = Some v ->
                    conn_option r' q s o = Some v)
         /\ ((s, o) <> ("connection", "slave-type") ->
             (s, o) <> ("connection", "master") ->
             conn_option r' q s o = conn_option r q s o))
  /\ (forall q s o,
         s = "user"
         \/ (s = "connection"
             /\ (o = "id" \/ o = "uuid" \/ o = "autoconnect-priority")) ->
         conn_option r' q s o = conn_option r q s o).
Proof.
  intros H. pose proof (render_interface_extends _ _ _ _ _ H) as Hext.
  split; [|split; [|split]].
  - intros q. eapply store_extends_keys; exact Hext.
  - intros q Hq Hport.
    destruct (assoc (if_type iface) _type_map) as [[ty|]|] eqn:Hty.
    + destruct (render_interface_inv _ _ _ _ _ _ Hty H)
        as [cfg0 [cfg1 [mtu [r2 [cfg2 [cfg3 [cfg4
              [H0 [Hown [H2 [Hc2 [H3 [H4 ->]]]]]]]]]]]]].
      cbn [set_conn connections]. rewrite assoc_set_other by congruence.
      assert (Hrr : assoc q (connections
                               (set_conn (warn_mtu iface mtu r) self cfg1))
                    = assoc q (connections r)).
      { cbn [set_conn connections]. rewrite assoc_set_other by congruence.
        now rewrite warn_mtu_connections. }
      destruct (String.eqb_spec ty "bridge") as [->|Hnb].
      * unfold render_bridge in H2. bind_inv_as H2 ra Ea.
        bind_inv_as H2 cA EA. bind_inv_as H2 cB EB. injection H2 as <-.
        cbn [set_conn connections]. rewrite assoc_set_other by congruence.
        rewrite (foldM_render_bridge_port_assoc _ _ q _ _ Ea); [exact Hrr|].
        intros Hin. apply Hport. split; [|exact Hin].
        now apply type_map_bridge.
      * injection H2 as <-. exact Hrr.
    + now rewrite (render_interface_unmapped _ _ _ _ _ Hty H).
    + unfold render_interface in H. rewrite Hty in H. discriminate.
  - intros q s o Hq. split.
    + intros v. now apply (render_interface_keeps_other _ _ _ _ _ _ _ _ _ Hq H).
    + intros N1 N2. eapply store_extends_conn_option; [exact Hext|].
      unfold W_render.
      destruct (assoc (if_type iface) _type_map) as [[ty|]|];
        [|reflexivity..].
      replace (String.eqb q self) with false
        by (symmetry; now apply String.eqb_neq).
      cbn [app].
      destruct (String.eqb ty "bridge" && mem q (if_bridge_ports iface));
        [|reflexivity].
      unfold W_port, covers. cbn [existsb matches].
      now rewrite (pair_neq_eqb _ _ _ _ N1), (pair_neq_eqb _ _ _ _ N2).
  - intros q s o Hso. eapply store_extends_conn_option; [exact Hext|].
    now apply W_render_identity.
Qed.

End ReachFacts.

Lemma X27_render_reaches_own_profile_and_ports_witness :
  assoc "eth1"
    (connections
       (get_ok (render_interface "eth0" plain_iface
                  (mk_state [plain_iface; port_iface None])
                  (create_connections [plain_iface; port_iface None]
                                      Renderer))))
  = Some (NMConnection "eth1").
Proof.
  assert (Hrun : render_interface "eth0" plain_iface
                   (mk_state [plain_iface; port_iface None])
                   (create_connections [plain_iface; port_iface None]
                                       Renderer)
                 = Ok (get_ok (render_interface "eth0" plain_iface
                                 (mk_state [plain_iface; port_iface None])
                                 (create_connections
                                    [plain_iface; port_iface None]
                                    Renderer))))
    by (vm_compute; reflexivity).
  destruct (X27_render_reaches_own_profile_and_ports _ _ _ _ _ Hrun)
    as [_ [H2 _]].
  rewrite (H2 "eth1"); [reflexivity|discriminate|].
  intros [E _]. discriminate E.
Defined.

(** ** The methods of a rendered profile *)

Lemma set_ip_method_fn_other_method_full family subnet_type cfg g :
  g <> family ->
  get_option (set_ip_method_fn family subnet_type cfg) g "method" =
  let cur := match get_option cfg family "method" with
             | Some x => x
             | None => "disabled"
             end in
  if String.eqb cur "dhcp" then get_option cfg g "method"
  else if String.eqb cur "auto"
          && String.eqb (fst (requested subnet_type)) "manual"
  then get_option cfg g "method"
  else if forces_ipv4_disabled subnet_type && String.eqb "ipv4" g
  then Some (match get_option cfg g "method" with
             | Some x => x
             | None => "disabled"
             end)
  else get_option cfg g "method".
Proof.
  intros Hne. unfold set_ip_method_fn.
  destruct (requested subnet_type) as [method unknown]. cbn [fst].
  assert (Hf : String.eqb family g = false)
    by (apply String.eqb_neq; congruence).
  set (cur := match get_option cfg family "method" with
              | Some x => x | None => "disabled" end).
  set (cfg2 := if unknown
               then put family "may-fail" "true"
                      (put_default family "method" "disabled" cfg)
               else put_default family "method" "disabled" cfg).
  assert (Hm : get_option cfg2 family "method" = Some cur).
  { subst cfg2. destruct unknown; cfg_simpl; reflexivity. }
  assert (H2 : get_option cfg2 g "method" = get_option cfg g "method").
  { subst cfg2. destruct unknown; cfg_simpl; rewrite Hf; cfg_simpl;
      reflexivity. }
  rewrite Hm. cbn [opt_eqb]. cbv zeta.
  destruct (String.eqb cur "dhcp"); [assumption|].
  destruct (String.eqb cur "auto" && String.eqb method "manual");
    [assumption|].
  rewrite get_option_put_default, Hf. cbn [andb].
  rewrite get_option_put, Hf. cbn [andb].
  destruct (forces_ipv4_disabled subnet_type); cbn [andb]; [|assumption].
  rewrite get_option_put_default, H2.
  destruct (String.eqb_spec "ipv4" g) as [<-|]; cbn [andb]; [|reflexivity].
  rewrite String.eqb_refl. cbn [andb]. now rewrite ?H2.
Qed.

Lemma same_layer3_step f t cfg cfg' :
  f = "ipv4" \/ f = "ipv6" ->
  same_layer3 cfg cfg' ->
  same_layer3 (set_ip_method_fn f t cfg) (set_ip_method_fn f t cfg').
Proof.
  intros Hf Hs family o Hfam Ho.
  assert (Em : get_option cfg f "method" = get_option cfg' f "method")
    by (apply Hs; auto).
  assert (Ey : get_option cfg f "may-fail" = get_option cfg' f "may-fail")
    by (apply Hs; auto).
  destruct (String.eqb_spec family f) as [->|Hne].
  - destruct Ho as [-> | ->].
    + now rewrite !set_ip_method_fn_method, Em.
    + now rewrite !set_ip_method_fn_mayfail, Em, Ey.
  - destruct Ho as [-> | ->].
    + rewrite !set_ip_method_fn_other_method_full by assumption.
      rewrite Em. now rewrite (Hs family "method") by auto.
    + rewrite !set_ip_method_fn_other_mayfail by assumption.
      apply Hs; auto.
Qed.

Lemma same_layer3_trans a b c :
  same_layer3 a b -> same_layer3 b c -> same_layer3 a c.
Proof. intros H1 H2 f o Hf Ho. now rewrite H1, H2. Qed.

Lemma same_layer3_extends W cfg cfg' :
  extends W cfg cfg' ->
  (forall family o,
      family = "ipv4" \/ family = "ipv6" ->
      o = "method" \/ o = "may-fail" -> covers W family o = false) ->
  same_layer3 cfg' cfg.
Proof. intros [_ [_ E]] Hc f o Hf Ho. apply E. now apply Hc. Qed.

Lemma same_layer3_normalize cfg cfg' :
  same_layer3 cfg cfg' ->
  same_layer3 (normalize_mayfail_fn cfg) (normalize_mayfail_fn cfg').
Proof.
  intros Hs. unfold normalize_mayfail_fn.
  assert (Hb : both_false_dynamic cfg = both_false_dynamic cfg').
  { unfold both_false_dynamic. cbn [forallb].
    now rewrite !(Hs "ipv4"), !(Hs "ipv6") by auto. }
  rewrite Hb. destruct (both_false_dynamic cfg'); [|exact Hs].
  intros f o Hf Ho. rewrite !get_option_put. now rewrite (Hs f o).
Qed.

Section MethodFacts.
Context {C : Collaborators}.

Lemma render_subnet_same_layer3 st sn st' cfg :
  render_subnet st sn = Ok st' ->
  same_layer3 (l3_config st) cfg ->
  same_layer3 (l3_config st')
              (set_ip_method_fn (subnet_family sn) (Some (sn_type sn)) cfg).
Proof.
  unfold render_subnet, subnet_family. intros H Hs.
  set (f := if subnet_is_ipv6 sn then "ipv6" else "ipv4") in *.
  assert (Hf : f = "ipv4" \/ f = "ipv6") by apply subnet_family_cases.
  bind_inv_as H c1 E1. bind_inv_as H c2 E2. bind_inv_as H c3 E3.
  bind_inv_as H c4 E4. injection H as <-. cbn [l3_config].
  rewrite _set_ip_method_eq in E1. injection E1 as <-.
  eapply same_layer3_trans; [|apply same_layer3_step; eassumption].
  intros family o Hfam Ho.
  apply foldM_add_route_extends in E4. destruct E4 as [_ [_ E4]].
  rewrite E4
    by (destruct Hfam as [-> | ->]; destruct Ho as [-> | ->]; reflexivity).
  transitivity (get_option c2 family o).
  - destruct (sn_gateway sn) as [gw|]; [|now injection E3 as <-].
    apply cfg_set_inv in E3. destruct E3 as [-> _].
    rewrite get_option_put.
    replace (String.eqb "gateway" o) with false
      by (destruct Ho as [-> | ->]; reflexivity).
    now rewrite andb_false_r.
  - destruct (sn_address sn); [|now injection E2 as <-].
    apply _add_address_extends in E2. destruct E2 as [_ [_ E2]].
    apply E2. cbn [covers existsb matches].
    replace (starts_with "address" o) with false
      by (destruct Ho as [-> | ->]; reflexivity).
    now rewrite andb_false_r.
Qed.

Lemma foldM_render_subnet_same_layer3 subnets :
  forall st st' cfg,
    foldM render_subnet subnets st = Ok st' ->
    same_layer3 (l3_config st) cfg ->
    same_layer3 (l3_config st')
      (fold_left (fun cfg call => set_ip_method_fn (fst call) (snd call) cfg)
                 (map (fun sn => (subnet_family sn, Some (sn_type sn)))
                      subnets) cfg).
Proof.
  induction subnets as [|sn subnets IH]; intros st st' cfg H Hs;
    cbn [foldM] in H.
  - now injection H as <-.
  - bind_inv_as H st1 E1. cbn [map fold_left fst snd].
    eapply IH; [exact H|].
    eapply render_subnet_same_layer3; eassumption.
Qed.

Lemma render_layer3_same_layer3 ty iface c2 st cfg :
  render_layer3 ty iface c2 = Ok st ->
  same_layer3 c2 cfg ->
  same_layer3 (l3_config st)
    (fold_left (fun cfg call => set_ip_method_fn (fst call) (snd call) cfg)
               (layer3_calls ty iface) cfg).
Proof.
  unfold render_layer3, layer3_calls. intros H Hs.
  destruct (String.eqb ty "bond" && is_empty (if_subnets iface)) eqn:Eb.
  - apply andb_true_iff in Eb. destruct Eb as [_ Eb].
    destruct (if_subnets iface); [|discriminate].
    cbn [foldM] in H. rewrite _set_ip_method_eq in H. cbn [bind] in H.
    rewrite _set_ip_method_eq in H. cbn [bind] in H.
    injection H as <-. cbn [l3_config fold_left fst snd].
    apply same_layer3_step; [now right|].
    apply same_layer3_step; [now left|exact Hs].
  - cbn [bind] in H.
    exact (foldM_render_subnet_same_layer3 _ _ _ _ H Hs).
Qed.

(** X28: The methods of a rendered profile are those of the method
    resolutions.  For each family, the [method] and the [may-fail] of the
    profile after [render_interface] are what the resolutions of the
    subnets, taken in input order on the profile as it was (for a bond
    without subnets the two resolutions without a type), followed by the
    may-fail normalization, leave there; the addresses, gateways, routes
    and DNS entries written in between and the type-specific part written
    afterwards have no influence on them. *)
Theorem X28_methods_of_a_render (self : string) (iface : interface)
  (network_state : NetworkState) (r r' : renderer) (ty family : string) :
  family = "ipv4" \/ family = "ipv6" ->
  assoc (if_type iface) _type_map = Some (Some ty) ->
  render_interface self iface network_state r = Ok r' ->
  exists cfg0 cfgm cfgn,
    assoc self (connections r) = Some cfg0
    /\ resolve_methods (layer3_calls ty iface) cfg0 = Ok cfgm
    /\ _set_mayfail_true_if_both_false_dhcp cfgm = Ok cfgn
    /\ conn_option r' self family "method" = get_option cfgn family "method"
    /\ conn_option r' self family "may-fail"
       = get_option cfgn family "may-fail".
Proof.
  intros Hfam Hty H.
  destruct (render_interface_phases _ _ _ _ _ _ Hty H)
    as [cfg0 [c2 [c3 [c4 [cfg' [H0 [H' [Hl3 [Hc2 [_ [Hdns Hlate]]]]]]]]]]].
  pose proof (type_map_values _ _ Hty) as Htys.
  set (cfgm := fold_left
                 (fun cfg call => set_ip_method_fn (fst call) (snd call) cfg)
                 (layer3_calls ty iface) cfg0).
  exists cfg0, cfgm, (normalize_mayfail_fn cfgm).
  split; [assumption|]. split; [apply resolve_methods_eq|].
  split; [apply _set_mayfail_true_if_both_false_dhcp_eq|].
  assert (S2 : same_layer3 c2 cfg0).
  { eapply same_layer3_extends; [exact Hc2|].
    intros f o Hf Ho. now apply family_not_type. }
  pose proof (render_layer3_same_layer3 _ _ _ _ _ Hl3 S2) as S3.
  fold cfgm in S3.
  apply write_dns_inv in Hdns. destruct Hdns as [Hd _].
  assert (S4 : same_layer3 c4 cfgm).
  { eapply same_layer3_trans; [|exact S3].
    eapply same_layer3_extends; [exact Hd|].
    intros f o [-> | ->] [-> | ->]; reflexivity. }
  apply same_layer3_normalize in S4.
  assert (S5 : same_layer3 cfg' (normalize_mayfail_fn cfgm)).
  { eapply same_layer3_trans; [|exact S4].
    eapply same_layer3_extends; [exact Hlate|].
    intros f o Hf Ho. now apply (family_not_type ty f Htys Hf iface o). }
  unfold conn_option. rewrite H'. split; apply S5; auto.
Qed.

End MethodFacts.

Lemma X28_methods_of_a_render_witness :
  exists cfgn,
    _set_mayfail_true_if_both_false_dhcp
      (set_ip_method_fn "ipv6" (Some "dhcp6")
         (set_ip_method_fn "ipv4" (Some "dhcp4") (NMConnection "eth0")))
    = Ok cfgn
    /\ conn_option (get_ok (render_all [dhcp_dual_iface])) "eth0" "ipv4"
                   "may-fail"
       = get_option cfgn "ipv4" "may-fail"
    /\ get_option cfgn "ipv4" "may-fail" = Some "true".
Proof.
  assert (Hrun : render_interface "eth0" dhcp_dual_iface
                   (mk_state [dhcp_dual_iface])
                   (create_connections [dhcp_dual_iface] Renderer)
                 = Ok (get_ok (render_all [dhcp_dual_iface])))
    by (vm_compute; reflexivity).
  destruct (X28_methods_of_a_render "eth0" dhcp_dual_iface _ _ _ "ethernet"
              "ipv4" (or_introl eq_refl) eq_refl Hrun)
    as [cfg0 [cfgm [cfgn [H0 [Hm [Hn [_ Hf]]]]]]].
  injection H0 as <-.
  rewrite resolve_methods_eq in Hm. injection Hm as <-.
  exists cfgn. split; [exact Hn|]. split; [exact Hf|].
  rewrite _set_mayfail_true_if_both_false_dhcp_eq in Hn.
  injection Hn as <-. reflexivity.
Defined.
